(** * LevelEditorShortcuts: a shallow embedding of the two input processors

    The plugin consists of two Slate input pre-processors,
    [FLevelEditorShortcutsProcessor] (Q/E/R drag-to-transform, Q+scroll
    rotate, G grid control, 1-2-3 widget modes) and
    [FTransformCopyPasteProcessor] (copy/paste transform, snap to ground,
    duplicate in place, paste to folder).

    Conventions of the embedding:
    - C++ [double] values ([FVector], [FVector2D], [FRotator]) are exact
      rationals ([Q]); equalities between computed numbers are stated up to
      [Qeq] ([==], and [≡] on vectors).
    - The single-precision arithmetic of the R-drag ([TotalScaleDelta] and the
      scale multiplier), the [float] mesh-bottom offset of the ground snap and
      the [float] literals are rounded to the nearest IEEE 754 binary32 number
      ([RoundToFloat]). The snapped step of a move drag, which the source also
      narrows to a [float], is kept exact: the two agree whenever the step is
      representable in single precision.
    - Every callback is a function taking the read-only surroundings of the
      call ([Env]: what the host singletons answer during the call), the
      processor's own fields and the mutable host state ([Host]: actor heap,
      undo buffer, viewport settings, cursor), and returning the new
      processor and host state, together with the callback's return value.
    - Host mathematics that needs square roots or trigonometry (rotator and
      quaternion conversions, camera projection) is a [Variable] of the
      section [Plugin]. *)

From Stdlib Require Import QArith Qround Qabs Qminmax Qpower Lqa ZArith Lia String List.
From stdpp Require Import gmap list strings.

Local Open Scope Q_scope.

(** ** Numbers and vectors *)

Definition Qltb (x y : Q) : bool := negb (Qle_bool y x).

Record FVector2D := MkVector2D { X2D : Q; Y2D : Q }.

Record FVector := MkVector { VecX : Q; VecY : Q; VecZ : Q }.

Definition ZeroVector2D : FVector2D := MkVector2D 0 0.
Definition ZeroVector : FVector := MkVector 0 0 0.
Definition UpVector : FVector := MkVector 0 0 1.

Definition Vec2Sub (a b : FVector2D) : FVector2D :=
  MkVector2D (X2D a - X2D b) (Y2D a - Y2D b).

Definition VecAdd (a b : FVector) : FVector :=
  MkVector (VecX a + VecX b) (VecY a + VecY b) (VecZ a + VecZ b).

Definition VecSub (a b : FVector) : FVector :=
  MkVector (VecX a - VecX b) (VecY a - VecY b) (VecZ a - VecZ b).

Definition VecScale (a : FVector) (k : Q) : FVector :=
  MkVector (VecX a * k) (VecY a * k) (VecZ a * k).

Definition VecDiv (a : FVector) (k : Q) : FVector :=
  MkVector (VecX a / k) (VecY a / k) (VecZ a / k).

(** [FVector::ComponentMax]. *)
Definition ComponentMax (a b : FVector) : FVector :=
  MkVector (Qmax (VecX a) (VecX b)) (Qmax (VecY a) (VecY b)) (Qmax (VecZ a) (VecZ b)).

(** ** Single-precision numbers *)

(** The integer nearest to a rational, ties to the even one. *)
Definition RoundHalfEven (q : Q) : Z :=
  let f := Qfloor q in
  match Qcompare (q - inject_Z f) (1 # 2) with
  | Lt => f
  | Gt => (f + 1)%Z
  | Eq => if Z.even f then f else (f + 1)%Z
  end.

(** The binade of a positive rational: the exponent [e] with
    [2^e <= x < 2^(e+1)]. *)
Definition Binade (x : Q) : Z :=
  let e := (Z.log2 (Qnum x) - Z.log2 (Zpos (Qden x)))%Z in
  if Qle_bool (2 ^ e) x then e else (e - 1)%Z.

(** The exponent of the unit in the last place of the binary32 numbers around
    a non-zero rational: 24 significant bits, and never below the spacing
    [2^-149] of the subnormal numbers. *)
Definition FloatUlpExponent (x : Q) : Z := Z.max (Binade (Qabs x) - 23) (-149).

(** The IEEE 754 binary32 number nearest to a rational (round to nearest,
    ties to even, gradual underflow): what a store into a C++ [float] keeps.
    Overflow to infinity (beyond about 3.4e38) is not represented. *)
Definition RoundToFloat (x : Q) : Q :=
  let x := Qred x in
  if Qeq_bool x 0 then 0
  else
    let e := FloatUlpExponent x in
    Qred (inject_Z (Z.sgn (Qnum x) * RoundHalfEven (Qabs x / 2 ^ e)) * 2 ^ e).

(** Single-precision addition, multiplication and division: the exact result,
    rounded. *)
Definition FloatAdd (x y : Q) : Q := RoundToFloat (x + y).
Definition FloatMul (x y : Q) : Q := RoundToFloat (x * y).
Definition FloatDiv (x y : Q) : Q := RoundToFloat (x / y).

(** The number is a binary32 number. *)
Definition IsFloat (x : Q) : Prop := RoundToFloat x == x.

(** The [float] literals of the source: [0.004f], [0.01f] and [0.001f] are
    not the decimal fractions they are written as. *)
Definition Float_0_004 : Q := Eval vm_compute in RoundToFloat (4 # 1000).
Definition Float_0_01 : Q := Eval vm_compute in RoundToFloat (1 # 100).
Definition Float_0_001 : Q := Eval vm_compute in RoundToFloat (1 # 1000).

(** Engine constant [UE_KINDA_SMALL_NUMBER] (1.e-4f), the default tolerance of
    [IsNearlyZero]; as a [float] it is slightly below the decimal 0.0001. *)
Definition KINDA_SMALL_NUMBER : Q := Eval vm_compute in RoundToFloat (1 # 10000).

(** [FVector2D::IsNearlyZero()] and [FVector::IsNearlyZero()] with the default
    tolerance: every component is at most the tolerance in absolute value. *)
Definition IsNearlyZero2D (v : FVector2D) : bool :=
  Qle_bool (Qabs (X2D v)) KINDA_SMALL_NUMBER && Qle_bool (Qabs (Y2D v)) KINDA_SMALL_NUMBER.

Definition IsNearlyZero (v : FVector) : bool :=
  Qle_bool (Qabs (VecX v)) KINDA_SMALL_NUMBER
  && Qle_bool (Qabs (VecY v)) KINDA_SMALL_NUMBER
  && Qle_bool (Qabs (VecZ v)) KINDA_SMALL_NUMBER.

(** Engine function [FMath::GridSnap(Location, Grid)]:
    [Grid == 0 ? Location : Floor((Location + Grid/2) / Grid) * Grid]. *)
Definition GridSnap (Location Grid : Q) : Q :=
  if Qeq_bool Grid 0 then Location
  else inject_Z (Qfloor ((Location + Grid / 2) / Grid)) * Grid.

(** The same function on [float] arguments: every operation rounds. *)
Definition FloatGridSnap (Location Grid : Q) : Q :=
  if Qeq_bool Grid 0 then Location
  else
    FloatMul (inject_Z (Qfloor (FloatDiv (FloatAdd Location (FloatDiv Grid 2)) Grid))) Grid.

(** Componentwise equality of computed vectors. *)
#[export] Instance FVector_equiv : Equiv FVector := fun a b =>
  VecX a == VecX b /\ VecY a == VecY b /\ VecZ a == VecZ b.

(** A number is an exact multiple of the grid size. *)
Definition multiple_of (S x : Q) : Prop := exists k : Z, x == inject_Z k * S.

Definition vec_multiple_of (S : Q) (v : FVector) : Prop :=
  multiple_of S (VecX v) /\ multiple_of S (VecY v) /\ multiple_of S (VecZ v).

(** ** Host object model *)

(** [ECollisionEnabled::Type]. *)
Inductive ECollisionEnabled :=
| NoCollision | QueryOnly | PhysicsOnly | QueryAndPhysics | ProbeOnly | QueryAndProbe.

Inductive ECoordSystem := COORD_World | COORD_Local.

Inductive EWidgetMode := WM_None | WM_Translate | WM_Rotate | WM_Scale.

Inductive ERotGridMode := GridMode_DivisionsOf360 | GridMode_Common.

Record FRotator := MkRotator { Pitch : Q; Yaw : Q; Roll : Q }.

Definition ZeroRotator : FRotator := MkRotator 0 0 0.

Record FQuat := MkQuat { QuatX : Q; QuatY : Q; QuatZ : Q; QuatW : Q }.

Record FTransform := MkTransform {
  Rotation : FQuat;
  Translation : FVector;
  Scale3D : FVector
}.

(** [FName]; [None] is [NAME_None]. *)
Definition FName := option string.

(** Actors and components are identified by their address. *)
Definition ActorId := nat.
Definition ComponentId := nat.

Inductive EComponentClass :=
| SkeletalMeshComponent | StaticMeshComponent | OtherPrimitiveComponent.

Record UPrimitiveComponent := MkComponent {
  CompId : ComponentId;
  CompClass : EComponentClass;
  CollisionEnabled : ECollisionEnabled;
  (** [CalcLocalBounds()]: origin and box extent. *)
  LocalBoundsOrigin : FVector;
  LocalBoundsBoxExtent : FVector;
  (** [GetComponentTransform().TransformPosition(p)], given the transform of
      the owning actor. *)
  TransformPosition : FTransform -> FVector -> FVector
}.

Record AActor := MkActor {
  ActorTransform : FTransform;
  FolderPath : FName;
  (** [GetComponents<UPrimitiveComponent>()], in the actor's component order. *)
  PrimitiveComponents : list UPrimitiveComponent;
  (** [GetAttachedActors(.., true, true)]. *)
  AttachedActors : list ActorId;
  (** [AGroupActor::GetRootForActor(Actor)]. *)
  GroupRoot : option ActorId
}.

Record FCollisionQueryParams := MkQueryParams {
  IgnoredActors : list ActorId;
  IgnoredComponents : list ComponentId
}.

Record FHitResult := MkHit {
  HitComponent : option UPrimitiveComponent;   (** [GetComponent()], may be null *)
  ImpactPoint : FVector;
  ImpactNormal : FVector
}.

(** The editor world: the only thing the plugin asks of it, besides the actor
    iteration, is a visibility-channel line trace. [None] is "no blocking hit". *)
Record UWorld := MkWorld {
  LineTraceSingleByChannel :
    FVector -> FVector -> FCollisionQueryParams -> option FHitResult
}.

Record ULevelEditorViewportSettings := MkSettings {
  GridEnabled : bool;
  bUsePowerOf2SnapSize : bool;
  Pow2GridSizes : list Q;
  DecimalGridSizes : list Q;
  CurrentPosGridSize : Z;
  RotGridEnabled : bool;
  CurrentRotGridSize : Z;
  CurrentRotGridMode : ERotGridMode;
  DivisionsOf360RotGridSizes : list Q;
  CommonRotGridSizes : list Q;
  SnapScaleEnabled : bool
}.

Record FLevelEditorViewportClient := MkViewportClient {
  ViewRotation : FRotator;
  ViewLocation : FVector;
  ViewFOV : Q;
  ViewportSizeY : Q
}.

Record SLevelViewport := MkLevelViewport {
  HasKeyboardFocus : bool;
  HasFocusedDescendants : bool;
  LevelViewportClient : FLevelEditorViewportClient
}.

(** A selected object: [Some a] is the actor [a]; [None] is an entry for which
    [Cast<AActor>(GetSelectedObject(i))] is null. *)
Definition USelection := list (option ActorId).

(** What [GEditor] answers during one callback. *)
Record UEditorEngine := MkEditor {
  PlaySessionInProgress : bool;
  SelectedActors : option USelection;       (** [GetSelectedActors()], may be null *)
  EditorWorld : option UWorld;              (** [GetEditorWorldContext().World()] *)
  ScaleGridSize : Q;                        (** [GetScaleGridSize()] *)
  (** [GetActiveViewport()->GetClient()->GetModeTools()] are all non-null. *)
  ActiveViewportHasModeTools : bool;
  (** [Exec(World, "DUPLICATE")]: the actor heap and the selection afterwards. *)
  ExecDuplicate : gmap ActorId AActor -> gmap ActorId AActor * option USelection
}.

(** The surroundings of one callback. *)
Record Env := MkEnv {
  GEditor : option UEditorEngine;
  FirstActiveLevelViewport : option SLevelViewport;
  LandscapeModeActive : bool;               (** [IsModeActive(EM_Landscape)] *)
  FoliageModeActive : bool;                 (** [IsModeActive(EM_Foliage)] *)
  CoordSystem : ECoordSystem;               (** [GLevelEditorModeTools().GetCoordSystem()] *)
  CursorPos : FVector2D                     (** [SlateApp.GetCursorPos()] *)
}.

(** One synthesized keystroke of [SendInput]: virtual key and key-up flag. *)
Inductive VirtualKey := VK_CONTROL | VK_V.

(** Host state the plugin writes to. *)
Record Host := MkHost {
  Actors : gmap ActorId AActor;
  (** Undo buffer: the descriptions given to [BeginTransaction], oldest
      first, and the number of transactions begun and not yet ended. *)
  TransBegun : list string;
  ActiveCount : nat;
  ViewportSettings : option ULevelEditorViewportSettings;  (** [GetMutableDefault<..>()] *)
  LevelEditorWidgetMode : EWidgetMode;      (** [GLevelEditorModeTools()] widget mode *)
  ActiveViewportWidgetMode : EWidgetMode;   (** mode tools of [GEditor->GetActiveViewport()] *)
  SlateCursorPos : FVector2D;               (** last [SlateApp.SetCursorPos] *)
  CursorShown : bool;                       (** [ICursor::Show] *)
  SentInput : list (VirtualKey * bool);     (** keystrokes given to [SendInput] *)
  RedrawRequests : nat                      (** [RedrawLevelEditingViewports] calls *)
}.

Definition set_Actors (f : gmap ActorId AActor -> gmap ActorId AActor) (H : Host) : Host :=
  MkHost (f (Actors H)) (TransBegun H) (ActiveCount H) (ViewportSettings H)
    (LevelEditorWidgetMode H) (ActiveViewportWidgetMode H) (SlateCursorPos H)
    (CursorShown H) (SentInput H) (RedrawRequests H).

Definition set_ViewportSettings (s : option ULevelEditorViewportSettings) (H : Host) : Host :=
  MkHost (Actors H) (TransBegun H) (ActiveCount H) s
    (LevelEditorWidgetMode H) (ActiveViewportWidgetMode H) (SlateCursorPos H)
    (CursorShown H) (SentInput H) (RedrawRequests H).

Definition set_LevelEditorWidgetMode (m : EWidgetMode) (H : Host) : Host :=
  MkHost (Actors H) (TransBegun H) (ActiveCount H) (ViewportSettings H)
    m (ActiveViewportWidgetMode H) (SlateCursorPos H)
    (CursorShown H) (SentInput H) (RedrawRequests H).

Definition set_ActiveViewportWidgetMode (m : EWidgetMode) (H : Host) : Host :=
  MkHost (Actors H) (TransBegun H) (ActiveCount H) (ViewportSettings H)
    (LevelEditorWidgetMode H) m (SlateCursorPos H)
    (CursorShown H) (SentInput H) (RedrawRequests H).

Definition SetCursorPos (p : FVector2D) (H : Host) : Host :=
  MkHost (Actors H) (TransBegun H) (ActiveCount H) (ViewportSettings H)
    (LevelEditorWidgetMode H) (ActiveViewportWidgetMode H) p
    (CursorShown H) (SentInput H) (RedrawRequests H).

Definition CursorShow (b : bool) (H : Host) : Host :=
  MkHost (Actors H) (TransBegun H) (ActiveCount H) (ViewportSettings H)
    (LevelEditorWidgetMode H) (ActiveViewportWidgetMode H) (SlateCursorPos H)
    b (SentInput H) (RedrawRequests H).

Definition SendInput (keys : list (VirtualKey * bool)) (H : Host) : Host :=
  MkHost (Actors H) (TransBegun H) (ActiveCount H) (ViewportSettings H)
    (LevelEditorWidgetMode H) (ActiveViewportWidgetMode H) (SlateCursorPos H)
    (CursorShown H) (SentInput H ++ keys) (RedrawRequests H).

(** [GEditor->NoteSelectionChange(); GEditor->RedrawLevelEditingViewports();] *)
Definition RedrawLevelEditingViewports (H : Host) : Host :=
  MkHost (Actors H) (TransBegun H) (ActiveCount H) (ViewportSettings H)
    (LevelEditorWidgetMode H) (ActiveViewportWidgetMode H) (SlateCursorPos H)
    (CursorShown H) (SentInput H) (S (RedrawRequests H)).

(** Two host states that differ at most in their actors. *)
Definition SameButActors (H H' : Host) : Prop :=
  TransBegun H' = TransBegun H /\ ActiveCount H' = ActiveCount H
  /\ ViewportSettings H' = ViewportSettings H
  /\ LevelEditorWidgetMode H' = LevelEditorWidgetMode H
  /\ ActiveViewportWidgetMode H' = ActiveViewportWidgetMode H
  /\ SlateCursorPos H' = SlateCursorPos H /\ CursorShown H' = CursorShown H
  /\ SentInput H' = SentInput H /\ RedrawRequests H' = RedrawRequests H.

(** *** Undo transactions *)

(** A live [FScopedTransaction]: the index [BeginTransaction] returned. *)
Record FScopedTransaction := MkScopedTransaction { Index : nat }.

(** Constructor of [FScopedTransaction]: begins a transaction. *)
Definition BeginTransaction (Description : string) (H : Host) : FScopedTransaction * Host :=
  (MkScopedTransaction (length (TransBegun H)),
   MkHost (Actors H) (TransBegun H ++ [Description]) (S (ActiveCount H)) (ViewportSettings H)
     (LevelEditorWidgetMode H) (ActiveViewportWidgetMode H) (SlateCursorPos H)
     (CursorShown H) (SentInput H) (RedrawRequests H)).

(** Destructor of [FScopedTransaction]: ends it. *)
Definition EndTransaction (H : Host) : Host :=
  MkHost (Actors H) (TransBegun H) (pred (ActiveCount H)) (ViewportSettings H)
    (LevelEditorWidgetMode H) (ActiveViewportWidgetMode H) (SlateCursorPos H)
    (CursorShown H) (SentInput H) (RedrawRequests H).

(** *** Actor accessors *)

Definition GetActorLocation (a : AActor) : FVector := Translation (ActorTransform a).
Definition GetActorScale3D (a : AActor) : FVector := Scale3D (ActorTransform a).
Definition GetActorTransform (a : AActor) : FTransform := ActorTransform a.

Definition SetActorTransform (t : FTransform) (a : AActor) : AActor :=
  MkActor t (FolderPath a) (PrimitiveComponents a) (AttachedActors a) (GroupRoot a).

Definition SetActorLocation (v : FVector) (a : AActor) : AActor :=
  SetActorTransform
    (MkTransform (Rotation (ActorTransform a)) v (Scale3D (ActorTransform a))) a.

Definition SetActorScale3D (v : FVector) (a : AActor) : AActor :=
  SetActorTransform
    (MkTransform (Rotation (ActorTransform a)) (Translation (ActorTransform a)) v) a.

Definition SetFolderPath (f : FName) (a : AActor) : AActor :=
  MkActor (ActorTransform a) f (PrimitiveComponents a) (AttachedActors a) (GroupRoot a).

(** [Cast<AActor>(Selection->GetSelectedObject(i))]: the entry is an actor and
    it is alive in the heap. *)
Definition CastActor (H : Host) (o : option ActorId) : option (ActorId * AActor) :=
  match o with
  | Some id => match Actors H !! id with Some a => Some (id, a) | None => None end
  | None => None
  end.

(** The first selected entry that is an actor (the [for .. break] loops). *)
Fixpoint FirstActor (H : Host) (Selection : USelection) : option (ActorId * AActor) :=
  match Selection with
  | [] => None
  | o :: rest =>
      match CastActor H o with
      | Some p => Some p
      | None => FirstActor H rest
      end
  end.

(** [IsValidIndex] followed by indexing, for an [int32] index. *)
Definition ValidIndexLookup (l : list Q) (i : Z) : option Q :=
  if (0 <=? i)%Z && (i <? Z.of_nat (length l))%Z then nth_error l (Z.to_nat i) else None.

(** ** The shortcut processor: fields *)

Record FLevelEditorShortcutsProcessor := MkShortcuts {
  bQKeyDown : bool;
  bQScrolledWhileDown : bool;
  bEKeyDown : bool;
  bRKeyDown : bool;
  bGKeyDown : bool;
  bGScrolledWhileDown : bool;
  LastMousePosition : FVector2D;
  bTemporarilyDisabledRotSnap : bool;
  bCursorHidden : bool;
  DragStartCursorPos : FVector2D;
  CachedCursor : bool;                      (** [CachedCursor.IsValid()] *)
  DragStartWorldPos : FVector;
  SelectionStartPivot : FVector;
  bDragInitialized : bool;
  AccumulatedMovement : FVector;
  TotalScaleDelta : Q;
  ScaleDragInitialScales : list (ActorId * FVector);
  DragTransaction : option FScopedTransaction
}.

(** The member initialisers of the class. *)
Definition NewShortcutsProcessor : FLevelEditorShortcutsProcessor :=
  MkShortcuts false false false false false false ZeroVector2D false false ZeroVector2D
    false ZeroVector ZeroVector false ZeroVector 0 [] None.

Definition set_bQKeyDown (v : bool) (P : FLevelEditorShortcutsProcessor) : FLevelEditorShortcutsProcessor :=
  MkShortcuts v (bQScrolledWhileDown P) (bEKeyDown P) (bRKeyDown P) (bGKeyDown P)
    (bGScrolledWhileDown P) (LastMousePosition P) (bTemporarilyDisabledRotSnap P)
    (bCursorHidden P) (DragStartCursorPos P) (CachedCursor P) (DragStartWorldPos P)
    (SelectionStartPivot P) (bDragInitialized P) (AccumulatedMovement P)
    (TotalScaleDelta P) (ScaleDragInitialScales P) (DragTransaction P).

Definition set_bQScrolledWhileDown (v : bool) (P : FLevelEditorShortcutsProcessor) : FLevelEditorShortcutsProcessor :=
  MkShortcuts (bQKeyDown P) v (bEKeyDown P) (bRKeyDown P) (bGKeyDown P)
    (bGScrolledWhileDown P) (LastMousePosition P) (bTemporarilyDisabledRotSnap P)
    (bCursorHidden P) (DragStartCursorPos P) (CachedCursor P) (DragStartWorldPos P)
    (SelectionStartPivot P) (bDragInitialized P) (AccumulatedMovement P)
    (TotalScaleDelta P) (ScaleDragInitialScales P) (DragTransaction P).

Definition set_bEKeyDown (v : bool) (P : FLevelEditorShortcutsProcessor) : FLevelEditorShortcutsProcessor :=
  MkShortcuts (bQKeyDown P) (bQScrolledWhileDown P) v (bRKeyDown P) (bGKeyDown P)
    (bGScrolledWhileDown P) (LastMousePosition P) (bTemporarilyDisabledRotSnap P)
    (bCursorHidden P) (DragStartCursorPos P) (CachedCursor P) (DragStartWorldPos P)
    (SelectionStartPivot P) (bDragInitialized P) (AccumulatedMovement P)
    (TotalScaleDelta P) (ScaleDragInitialScales P) (DragTransaction P).

Definition set_bRKeyDown (v : bool) (P : FLevelEditorShortcutsProcessor) : FLevelEditorShortcutsProcessor :=
  MkShortcuts (bQKeyDown P) (bQScrolledWhileDown P) (bEKeyDown P) v (bGKeyDown P)
    (bGScrolledWhileDown P) (LastMousePosition P) (bTemporarilyDisabledRotSnap P)
    (bCursorHidden P) (DragStartCursorPos P) (CachedCursor P) (DragStartWorldPos P)
    (SelectionStartPivot P) (bDragInitialized P) (AccumulatedMovement P)
    (TotalScaleDelta P) (ScaleDragInitialScales P) (DragTransaction P).

Definition set_bGKeyDown (v : bool) (P : FLevelEditorShortcutsProcessor) : FLevelEditorShortcutsProcessor :=
  MkShortcuts (bQKeyDown P) (bQScrolledWhileDown P) (bEKeyDown P) (bRKeyDown P) v
    (bGScrolledWhileDown P) (LastMousePosition P) (bTemporarilyDisabledRotSnap P)
    (bCursorHidden P) (DragStartCursorPos P) (CachedCursor P) (DragStartWorldPos P)
    (SelectionStartPivot P) (bDragInitialized P) (AccumulatedMovement P)
    (TotalScaleDelta P) (ScaleDragInitialScales P) (DragTransaction P).

Definition set_bGScrolledWhileDown (v : bool) (P : FLevelEditorShortcutsProcessor) : FLevelEditorShortcutsProcessor :=
  MkShortcuts (bQKeyDown P) (bQScrolledWhileDown P) (bEKeyDown P) (bRKeyDown P)
    (bGKeyDown P) v (LastMousePosition P) (bTemporarilyDisabledRotSnap P) (bCursorHidden
    P) (DragStartCursorPos P) (CachedCursor P) (DragStartWorldPos P)
    (SelectionStartPivot P) (bDragInitialized P) (AccumulatedMovement P)
    (TotalScaleDelta P) (ScaleDragInitialScales P) (DragTransaction P).

Definition set_LastMousePosition (v : FVector2D) (P : FLevelEditorShortcutsProcessor) : FLevelEditorShortcutsProcessor :=
  MkShortcuts (bQKeyDown P) (bQScrolledWhileDown P) (bEKeyDown P) (bRKeyDown P)
    (bGKeyDown P) (bGScrolledWhileDown P) v (bTemporarilyDisabledRotSnap P)
    (bCursorHidden P) (DragStartCursorPos P) (CachedCursor P) (DragStartWorldPos P)
    (SelectionStartPivot P) (bDragInitialized P) (AccumulatedMovement P)
    (TotalScaleDelta P) (ScaleDragInitialScales P) (DragTransaction P).

Definition set_bTemporarilyDisabledRotSnap (v : bool) (P : FLevelEditorShortcutsProcessor) : FLevelEditorShortcutsProcessor :=
  MkShortcuts (bQKeyDown P) (bQScrolledWhileDown P) (bEKeyDown P) (bRKeyDown P)
    (bGKeyDown P) (bGScrolledWhileDown P) (LastMousePosition P) v (bCursorHidden P)
    (DragStartCursorPos P) (CachedCursor P) (DragStartWorldPos P) (SelectionStartPivot
    P) (bDragInitialized P) (AccumulatedMovement P) (TotalScaleDelta P)
    (ScaleDragInitialScales P) (DragTransaction P).

Definition set_bCursorHidden (v : bool) (P : FLevelEditorShortcutsProcessor) : FLevelEditorShortcutsProcessor :=
  MkShortcuts (bQKeyDown P) (bQScrolledWhileDown P) (bEKeyDown P) (bRKeyDown P)
    (bGKeyDown P) (bGScrolledWhileDown P) (LastMousePosition P)
    (bTemporarilyDisabledRotSnap P) v (DragStartCursorPos P) (CachedCursor P)
    (DragStartWorldPos P) (SelectionStartPivot P) (bDragInitialized P)
    (AccumulatedMovement P) (TotalScaleDelta P) (ScaleDragInitialScales P)
    (DragTransaction P).

Definition set_DragStartCursorPos (v : FVector2D) (P : FLevelEditorShortcutsProcessor) : FLevelEditorShortcutsProcessor :=
  MkShortcuts (bQKeyDown P) (bQScrolledWhileDown P) (bEKeyDown P) (bRKeyDown P)
    (bGKeyDown P) (bGScrolledWhileDown P) (LastMousePosition P)
    (bTemporarilyDisabledRotSnap P) (bCursorHidden P) v (CachedCursor P)
    (DragStartWorldPos P) (SelectionStartPivot P) (bDragInitialized P)
    (AccumulatedMovement P) (TotalScaleDelta P) (ScaleDragInitialScales P)
    (DragTransaction P).

Definition set_CachedCursor (v : bool) (P : FLevelEditorShortcutsProcessor) : FLevelEditorShortcutsProcessor :=
  MkShortcuts (bQKeyDown P) (bQScrolledWhileDown P) (bEKeyDown P) (bRKeyDown P)
    (bGKeyDown P) (bGScrolledWhileDown P) (LastMousePosition P)
    (bTemporarilyDisabledRotSnap P) (bCursorHidden P) (DragStartCursorPos P) v
    (DragStartWorldPos P) (SelectionStartPivot P) (bDragInitialized P)
    (AccumulatedMovement P) (TotalScaleDelta P) (ScaleDragInitialScales P)
    (DragTransaction P).

Definition set_bDragInitialized (v : bool) (P : FLevelEditorShortcutsProcessor) : FLevelEditorShortcutsProcessor :=
  MkShortcuts (bQKeyDown P) (bQScrolledWhileDown P) (bEKeyDown P) (bRKeyDown P)
    (bGKeyDown P) (bGScrolledWhileDown P) (LastMousePosition P)
    (bTemporarilyDisabledRotSnap P) (bCursorHidden P) (DragStartCursorPos P)
    (CachedCursor P) (DragStartWorldPos P) (SelectionStartPivot P) v
    (AccumulatedMovement P) (TotalScaleDelta P) (ScaleDragInitialScales P)
    (DragTransaction P).

Definition set_AccumulatedMovement (v : FVector) (P : FLevelEditorShortcutsProcessor) : FLevelEditorShortcutsProcessor :=
  MkShortcuts (bQKeyDown P) (bQScrolledWhileDown P) (bEKeyDown P) (bRKeyDown P)
    (bGKeyDown P) (bGScrolledWhileDown P) (LastMousePosition P)
    (bTemporarilyDisabledRotSnap P) (bCursorHidden P) (DragStartCursorPos P)
    (CachedCursor P) (DragStartWorldPos P) (SelectionStartPivot P) (bDragInitialized P)
    v (TotalScaleDelta P) (ScaleDragInitialScales P) (DragTransaction P).

Definition set_TotalScaleDelta (v : Q) (P : FLevelEditorShortcutsProcessor) : FLevelEditorShortcutsProcessor :=
  MkShortcuts (bQKeyDown P) (bQScrolledWhileDown P) (bEKeyDown P) (bRKeyDown P)
    (bGKeyDown P) (bGScrolledWhileDown P) (LastMousePosition P)
    (bTemporarilyDisabledRotSnap P) (bCursorHidden P) (DragStartCursorPos P)
    (CachedCursor P) (DragStartWorldPos P) (SelectionStartPivot P) (bDragInitialized P)
    (AccumulatedMovement P) v (ScaleDragInitialScales P) (DragTransaction P).

Definition set_ScaleDragInitialScales (v : list (ActorId * FVector)) (P : FLevelEditorShortcutsProcessor) : FLevelEditorShortcutsProcessor :=
  MkShortcuts (bQKeyDown P) (bQScrolledWhileDown P) (bEKeyDown P) (bRKeyDown P)
    (bGKeyDown P) (bGScrolledWhileDown P) (LastMousePosition P)
    (bTemporarilyDisabledRotSnap P) (bCursorHidden P) (DragStartCursorPos P)
    (CachedCursor P) (DragStartWorldPos P) (SelectionStartPivot P) (bDragInitialized P)
    (AccumulatedMovement P) (TotalScaleDelta P) v (DragTransaction P).

Definition set_DragTransaction (v : option FScopedTransaction) (P : FLevelEditorShortcutsProcessor) : FLevelEditorShortcutsProcessor :=
  MkShortcuts (bQKeyDown P) (bQScrolledWhileDown P) (bEKeyDown P) (bRKeyDown P)
    (bGKeyDown P) (bGScrolledWhileDown P) (LastMousePosition P)
    (bTemporarilyDisabledRotSnap P) (bCursorHidden P) (DragStartCursorPos P)
    (CachedCursor P) (DragStartWorldPos P) (SelectionStartPivot P) (bDragInitialized P)
    (AccumulatedMovement P) (TotalScaleDelta P) (ScaleDragInitialScales P) v.

(** ** The copy/paste processor: static fields *)

Record FTransformCopyPasteProcessor := MkCopyPaste {
  CopiedTransform : FTransform;
  bHasCopiedTransform : bool;
  PendingPasteFolderPath : FName;
  ActorsBeforePaste : gset ActorId;
  bPasteToFolderPending : bool
}.

Definition set_CopiedTransform (v : FTransform) (C : FTransformCopyPasteProcessor) : FTransformCopyPasteProcessor :=
  MkCopyPaste v (bHasCopiedTransform C) (PendingPasteFolderPath C) (ActorsBeforePaste C)
    (bPasteToFolderPending C).

Definition set_bHasCopiedTransform (v : bool) (C : FTransformCopyPasteProcessor) : FTransformCopyPasteProcessor :=
  MkCopyPaste (CopiedTransform C) v (PendingPasteFolderPath C) (ActorsBeforePaste C)
    (bPasteToFolderPending C).

Definition set_PendingPasteFolderPath (v : FName) (C : FTransformCopyPasteProcessor) : FTransformCopyPasteProcessor :=
  MkCopyPaste (CopiedTransform C) (bHasCopiedTransform C) v (ActorsBeforePaste C)
    (bPasteToFolderPending C).

Definition set_ActorsBeforePaste (v : gset ActorId) (C : FTransformCopyPasteProcessor) : FTransformCopyPasteProcessor :=
  MkCopyPaste (CopiedTransform C) (bHasCopiedTransform C) (PendingPasteFolderPath C) v
    (bPasteToFolderPending C).

Definition set_bPasteToFolderPending (v : bool) (C : FTransformCopyPasteProcessor) : FTransformCopyPasteProcessor :=
  MkCopyPaste (CopiedTransform C) (bHasCopiedTransform C) (PendingPasteFolderPath C)
    (ActorsBeforePaste C) v.

(** ** Input events *)

Inductive FKey :=
| Key_Q | Key_E | Key_R | Key_G | Key_One | Key_Two | Key_Three
| Key_B | Key_C | Key_T | Key_D | Key_V | Key_LeftMouseButton | Key_Other.

#[export] Instance FKey_eq_dec : EqDecision FKey.
Proof. solve_decision. Defined.

Record FKeyEvent := MkKeyEvent {
  GetKey : FKey;
  IsControlDown : bool;
  IsAltDown : bool;
  IsShiftDown : bool
}.

Record FPointerEvent := MkPointerEvent {
  GetEffectingButton : FKey;
  PointerShiftDown : bool;
  GetWheelDelta : Q
}.

(** [GEditor && GEditor->IsPlaySessionInProgress()]. *)
Definition IsPlayInEditor (env : Env) : bool :=
  match GEditor env with
  | Some ed => PlaySessionInProgress ed
  | None => false
  end.

(** ** Helpers of the shortcut processor that need no host mathematics *)

Definition EndDragTransaction (P : FLevelEditorShortcutsProcessor) (H : Host)
  : FLevelEditorShortcutsProcessor * Host :=
  let H := match DragTransaction P with
           | Some _ => EndTransaction H     (* DragTransaction.Reset() *)
           | None => H
           end in
  let P := set_DragTransaction None P in
  let P := set_bDragInitialized false P in
  let P := set_AccumulatedMovement ZeroVector P in
  let P := set_TotalScaleDelta 0 P in
  let P := set_ScaleDragInitialScales [] P in
  (P, H).

Definition SetCursorHidden (bHide : bool) (P : FLevelEditorShortcutsProcessor) (H : Host)
  : FLevelEditorShortcutsProcessor * Host :=
  if Bool.eqb bHide (bCursorHidden P) then (P, H)
  else
    let P := set_bCursorHidden bHide P in
    if CachedCursor P then (P, CursorShow (negb bHide) H) else (P, H).

Definition EnsureDragTransaction (Description : string)
    (P : FLevelEditorShortcutsProcessor) (H : Host)
  : FLevelEditorShortcutsProcessor * Host :=
  match DragTransaction P with
  | None =>
      let '(t, H) := BeginTransaction Description H in
      (set_DragTransaction (Some t) P, H)
  | Some _ => (P, H)
  end.

Definition GetActiveViewportClient (env : Env) : option FLevelEditorViewportClient :=
  match FirstActiveLevelViewport env with
  | Some v => Some (LevelViewportClient v)
  | None => None
  end.

Definition IsLevelEditorViewportFocused (env : Env) : bool :=
  match FirstActiveLevelViewport env with
  | Some v => HasKeyboardFocus v || HasFocusedDescendants v
  | None => false
  end.

Definition SetWidgetModeOnActiveViewport (env : Env) (Mode : EWidgetMode) (H : Host)
  : bool * Host :=
  if IsLevelEditorViewportFocused env then (true, set_LevelEditorWidgetMode Mode H)
  else
    match GEditor env with
    | Some ed =>
        if ActiveViewportHasModeTools ed then (true, set_ActiveViewportWidgetMode Mode H)
        else (false, H)
    | None => (false, H)
    end.

(** Returns the grid snap size if snapping is enabled, 0 otherwise. *)
Definition GetGridSnapSize (H : Host) : Q :=
  match ViewportSettings H with
  | None => 0
  | Some vs =>
      if negb (GridEnabled vs) then 0
      else
        let GridSizes := if bUsePowerOf2SnapSize vs then Pow2GridSizes vs
                         else DecimalGridSizes vs in
        match ValidIndexLookup GridSizes (CurrentPosGridSize vs) with
        | Some g => g
        | None => 0
        end
  end.

(** Sum of the locations and number of the selected actors. *)
Definition PivotSum (H : Host) (Selection : USelection) : FVector * nat :=
  foldl (fun acc o =>
           match CastActor H o with
           | Some (_, a) => (VecAdd (fst acc) (GetActorLocation a), S (snd acc))
           | None => acc
           end) (ZeroVector, 0%nat) Selection.

Definition GetSelectionPivot (env : Env) (H : Host) : FVector :=
  match GEditor env with
  | None => ZeroVector
  | Some ed =>
      match SelectedActors ed with
      | None => ZeroVector
      | Some Selection =>
          if Nat.eqb (length Selection) 0 then ZeroVector
          else
            let '(Sum, Count) := PivotSum H Selection in
            if Nat.ltb 0 Count then VecDiv Sum (inject_Z (Z.of_nat Count)) else ZeroVector
      end
  end.

(** The snapping of one axis of [AccumulatedMovement]: the component of
    [ActualDelta] and the component left in the accumulator. The source keeps
    the snapped step in a [float] ([float SnappedX = FMath::GridSnap(..)]);
    the step is exact here, which is the same number whenever the step is a
    binary32 number (integer steps, grids that are powers of two). *)
Definition SnapAxis (SnapSize Accumulated : Q) : Q * Q :=
  if Qle_bool SnapSize (Qabs Accumulated) then
    let Snapped := GridSnap Accumulated SnapSize in
    (Snapped, Accumulated - Snapped)
  else (0, Accumulated).

(** The grid-snap block shared by the two move functions (it is the same text
    in both): from the snap size and the accumulated movement, the new
    accumulator and the delta to apply; [None] is the early return "haven't
    accumulated enough movement for a snap". *)
Definition SnapAccumulatedMovement (SnapSize : Q) (Accumulated : FVector)
  : FVector * option FVector :=
  if Qltb 0 SnapSize then
    let '(dx, ax) := SnapAxis SnapSize (VecX Accumulated) in
    let '(dy, ay) := SnapAxis SnapSize (VecY Accumulated) in
    let '(dz, az) := SnapAxis SnapSize (VecZ Accumulated) in
    let ActualDelta := MkVector dx dy dz in
    if IsNearlyZero ActualDelta then (MkVector ax ay az, None)
    else (MkVector ax ay az, Some ActualDelta)
  else (ZeroVector, Some Accumulated).

(** The loop applying [ActualDelta] to every selected actor, and its body. *)
Definition MoveOne (ActualDelta : FVector) (H : Host) (o : option ActorId) : Host :=
  match CastActor H o with
  | Some (id, Actor) =>
      let NewLocation := VecAdd (GetActorLocation Actor) ActualDelta in
      set_Actors (insert id (SetActorLocation NewLocation Actor)) H
  | None => H
  end.

Definition MoveSelection (ActualDelta : FVector) (Selection : USelection) (H : Host) : Host :=
  foldl (MoveOne ActualDelta) H Selection.

(** The scale multiplier of one frame of an R-drag, from the accumulated
    delta and the scale-snap configuration. *)
Definition ScaleMultiplierOf (ed : UEditorEngine) (H : Host) (Total : Q) : Q :=
  let ScaleMultiplier := Qmax (FloatAdd 1 Total) Float_0_01 in
  let bSnapScale := match ViewportSettings H with
                    | Some vs => SnapScaleEnabled vs
                    | None => false
                    end in
  if bSnapScale then
    let g := ScaleGridSize ed in
    if Qltb 0 g then
      let m := FloatGridSnap ScaleMultiplier g in
      if Qltb m g then g else m
    else ScaleMultiplier
  else ScaleMultiplier.

(** The loop over [ScaleDragInitialScales], and its body; a dead weak pointer
    is skipped. *)
Definition ScaleOne (ScaleMultiplier : Q) (H : Host) (Pair : ActorId * FVector) : Host :=
  match Actors H !! fst Pair with
  | Some Actor =>
      let NewScale := VecScale (snd Pair) ScaleMultiplier in
      let NewScale := ComponentMax NewScale (MkVector Float_0_001 Float_0_001 Float_0_001) in
      set_Actors (insert (fst Pair) (SetActorScale3D NewScale Actor)) H
  | None => H
  end.

Definition ScaleSnapshotActors (ScaleMultiplier : Q) (Snapshot : list (ActorId * FVector))
    (H : Host) : Host :=
  foldl (ScaleOne ScaleMultiplier) H Snapshot.

(** The snapshot loop of the first frame of an R-drag. *)
Definition CaptureInitialScales (H : Host) (Selection : USelection) : list (ActorId * FVector) :=
  omap (fun o => match CastActor H o with
                 | Some (id, a) => Some (id, GetActorScale3D a)
                 | None => None
                 end) Selection.

Definition ToggleGridSnap (env : Env) (H : Host) : Host :=
  (* FLevelEditorActionCallbacks::LocationGridSnap_Clicked() *)
  let H := match ViewportSettings H with
           | Some vs =>
               set_ViewportSettings
                 (Some (MkSettings (negb (GridEnabled vs)) (bUsePowerOf2SnapSize vs)
                          (Pow2GridSizes vs) (DecimalGridSizes vs) (CurrentPosGridSize vs)
                          (RotGridEnabled vs) (CurrentRotGridSize vs) (CurrentRotGridMode vs)
                          (DivisionsOf360RotGridSizes vs) (CommonRotGridSizes vs)
                          (SnapScaleEnabled vs))) H
           | None => H
           end in
  match GEditor env with
  | Some _ => RedrawLevelEditingViewports H
  | None => H
  end.

Definition set_RotGridEnabled (b : bool) (vs : ULevelEditorViewportSettings)
  : ULevelEditorViewportSettings :=
  MkSettings (GridEnabled vs) (bUsePowerOf2SnapSize vs) (Pow2GridSizes vs)
    (DecimalGridSizes vs) (CurrentPosGridSize vs) b (CurrentRotGridSize vs)
    (CurrentRotGridMode vs) (DivisionsOf360RotGridSizes vs) (CommonRotGridSizes vs)
    (SnapScaleEnabled vs).

(** [GEditor->SetGridSize(NewIndex)]. *)
Definition SetGridSize (NewIndex : Z) (vs : ULevelEditorViewportSettings)
  : ULevelEditorViewportSettings :=
  MkSettings (GridEnabled vs) (bUsePowerOf2SnapSize vs) (Pow2GridSizes vs)
    (DecimalGridSizes vs) NewIndex (RotGridEnabled vs) (CurrentRotGridSize vs)
    (CurrentRotGridMode vs) (DivisionsOf360RotGridSizes vs) (CommonRotGridSizes vs)
    (SnapScaleEnabled vs).

(** [GEditor] is dereferenced unchecked at the end of this function; with a
    null [GEditor] the C++ behaviour is undefined and the embedding leaves the
    host state as it is. *)
Definition ChangeGridSize (env : Env) (bIncrement : bool) (H : Host) : Host :=
  match ViewportSettings H with
  | None => H
  | Some vs =>
      let GridSizes := if bUsePowerOf2SnapSize vs then Pow2GridSizes vs
                       else DecimalGridSizes vs in
      if Nat.eqb (length GridSizes) 0 then H
      else
        let CurrentIndex := CurrentPosGridSize vs in
        let NewIndex :=
          if bIncrement then Z.min (CurrentIndex + 1) (Z.of_nat (length GridSizes) - 1)
          else Z.max (CurrentIndex - 1) 0 in
        if (NewIndex =? CurrentIndex)%Z then H
        else
          match GEditor env with
          | Some _ => RedrawLevelEditingViewports (set_ViewportSettings (Some (SetGridSize NewIndex vs)) H)
          | None => H
          end
  end.

Definition IsPhysicsCollision (c : ECollisionEnabled) : bool :=
  match c with
  | QueryAndPhysics | PhysicsOnly => true
  | _ => false
  end.

Definition NoModifiers (e : FKeyEvent) : bool :=
  negb (IsControlDown e) && negb (IsAltDown e) && negb (IsShiftDown e).

Definition IsRotateMode (m : EWidgetMode) : bool :=
  match m with WM_Rotate => true | _ => false end.

(** ** A sample editor

    Concrete surroundings on which the embedding can be run: stand-ins for the
    host mathematics (one world unit per pixel, no rotation of vectors), a
    focused viewport, an actor without components, a one-entry grid table. *)

Module Sample.

Definition Rotator (q : FQuat) : FRotator := MkRotator (QuatX q) (QuatY q) (QuatZ q).

Definition Quaternion (r : FRotator) : FQuat := MkQuat (Pitch r) (Yaw r) (Roll r) 1.

Definition GetUpVector (q : FQuat) : FVector := UpVector.

Definition HorizontalWorldDelta (vc : FLevelEditorViewportClient) (n pivot : FVector)
    (md : FVector2D) : FVector :=
  MkVector (X2D md) (- Y2D md) 0.

Definition VerticalDragScale (vc : FLevelEditorViewportClient) (pivot : FVector) : Q := 1.

Definition AlignToSurface (r : FRotator) (n : FVector) : FRotator := r.

Definition RotateAboutUp (deg : Q) (v : FVector) : FVector := v.

Definition Cube (loc scale : FVector) : AActor :=
  MkActor (MkTransform (MkQuat 0 0 0 1) loc scale) None [] [] None.

Definition Viewport : SLevelViewport :=
  MkLevelViewport true false (MkViewportClient ZeroRotator (MkVector 0 0 1000) 90 1080).

Definition Settings (grid : Q) : ULevelEditorViewportSettings :=
  MkSettings true false [] [grid] 0 false 0 GridMode_Common [] [] false.

Definition NoSnapSettings : ULevelEditorViewportSettings :=
  MkSettings false false [] [] 0 false 0 GridMode_Common [] [] false.

(** A world in which every trace misses. *)
Definition EmptyWorld : UWorld := MkWorld (fun _ _ _ => None).

Definition Editor (pie : bool) (sel : USelection) (w : UWorld) : UEditorEngine :=
  MkEditor pie (Some sel) (Some w) 0 false (fun m => (m, Some sel)).

Definition EnvWith (pie : bool) (sel : USelection) (w : UWorld) (cursor : FVector2D) : Env :=
  MkEnv (Some (Editor pie sel w)) (Some Viewport) false false COORD_World cursor.

Definition HostWith (actors : gmap ActorId AActor) (vs : ULevelEditorViewportSettings) : Host :=
  MkHost actors [] 0 (Some vs) WM_Translate WM_None ZeroVector2D true [] 0.

Definition KeyEvent (k : FKey) : FKeyEvent := MkKeyEvent k false false false.

Definition CtrlKeyEvent (k : FKey) : FKeyEvent := MkKeyEvent k true false false.

(** One unit cube, actor 1, at the origin. *)
Definition OneCube (scale : FVector) : gmap ActorId AActor :=
  {[ 1%nat := Cube ZeroVector scale ]}.

(** The editor with actor 1 selected and the cursor at [(x, y)]. *)
Definition Editing (x y : Q) : Env :=
  EnvWith false [Some 1%nat] EmptyWorld (MkVector2D x y).

(** The same during a Play session. *)
Definition Playing (x y : Q) : Env :=
  EnvWith true [Some 1%nat] EmptyWorld (MkVector2D x y).

(** A host with grid snapping at the given grid size, and one without any
    snapping, holding actor 1 with the given scale. *)
Definition GridHost (grid : Q) : Host :=
  HostWith (OneCube (MkVector 1 1 1)) (Settings grid).

Definition FreeHost (scale : FVector) : Host :=
  HostWith (OneCube scale) NoSnapSettings.

(** A component of another actor, with the given collision mode. *)
Definition Blocker (id : ComponentId) (col : ECollisionEnabled) : UPrimitiveComponent :=
  MkComponent id OtherPrimitiveComponent col ZeroVector ZeroVector (fun _ v => v).

(** A world that is a stack of components under the actor, each with the
    height of its surface, topmost first: a trace returns the first component
    of the stack that is not ignored. *)
Definition StackWorld (stack : list (UPrimitiveComponent * Q)) : UWorld :=
  MkWorld (fun _ _ q =>
    match find (fun p => negb (existsb (Nat.eqb (CompId (fst p))) (IgnoredComponents q)))
            stack with
    | Some (c, z) => Some (MkHit (Some c) (MkVector 0 0 z) UpVector)
    | None => None
    end).

(** A query-only trigger volume at height 50 above a floor at height 0. *)
Definition TriggerOverFloor : UWorld :=
  StackWorld [(Blocker 7%nat QueryOnly, 50); (Blocker 8%nat QueryAndPhysics, 0)].

Definition Snapshot (t : FTransform) : FTransformCopyPasteProcessor :=
  MkCopyPaste t true None ∅ false.

Definition NoSnapshot : FTransformCopyPasteProcessor :=
  MkCopyPaste (MkTransform (MkQuat 0 0 0 1) ZeroVector (MkVector 1 1 1)) false None ∅ false.

(** A host whose actor 1 is filed under the folder "Props". *)
Definition FiledHost : Host :=
  HostWith {[ 1%nat := SetFolderPath (Some "Props"%string) (Cube ZeroVector (MkVector 1 1 1)) ]}
    NoSnapSettings.

End Sample.

(** ** Further sample scenes *)

Module Scene.

(** Actor 1 at the origin and actor 2 at (4, 2, 0). *)
Definition TwoCubes : gmap ActorId AActor :=
  {[ 1%nat := Sample.Cube ZeroVector (MkVector 1 1 1);
     2%nat := Sample.Cube (MkVector 4 2 0) (MkVector 2 2 2) ]}.

Definition TwoCubesHost : Host := Sample.HostWith TwoCubes Sample.NoSnapSettings.

(** Position snapping on, with a grid table of four sizes and the given
    index. *)
Definition TableSettings (index : Z) : ULevelEditorViewportSettings :=
  MkSettings true false [] [1; 5; 10; 50] index false 0 GridMode_Common [] [] false.

Definition TableHost (index : Z) : Host :=
  Sample.HostWith (Sample.OneCube (MkVector 1 1 1)) (TableSettings index).

(** Rotate mode, rotation snapping on at 10 degrees. *)
Definition RotateSettings : ULevelEditorViewportSettings :=
  MkSettings false false [] [] 0 true 1 GridMode_Common [] [5; 10; 15] false.

Definition RotateModeHost : Host :=
  MkHost (Sample.OneCube (MkVector 1 1 1)) [] 0 (Some RotateSettings) WM_Rotate WM_None
    ZeroVector2D true [] 0.

Definition ShiftLeftClick : FPointerEvent := MkPointerEvent Key_LeftMouseButton true 0.
Definition LeftRelease : FPointerEvent := MkPointerEvent Key_LeftMouseButton false 0.
Definition ScrollUp : FPointerEvent := MkPointerEvent Key_Other false 1.

(** The selection holds actor 1, a non-actor object and actor 2. *)
Definition MixedSelection : Env :=
  Sample.EnvWith false [Some 1%nat; None; Some 2%nat] Sample.EmptyWorld ZeroVector2D.

Definition SecondSelected : Env :=
  Sample.EnvWith false [Some 2%nat] Sample.EmptyWorld ZeroVector2D.

(** Actor 1 filed under "Props", and the world after a paste added actor 2. *)
Definition AfterPaste : Host :=
  Sample.HostWith
    {[ 1%nat := SetFolderPath (Some "Props"%string) (Sample.Cube ZeroVector (MkVector 1 1 1));
       2%nat := Sample.Cube (MkVector 4 2 0) (MkVector 1 1 1) ]}
    Sample.NoSnapSettings.

(** A static mesh of half height 50 that follows its actor by translation,
    on an actor at height 300 above a floor at height 0. *)
Definition Mesh : UPrimitiveComponent :=
  MkComponent 3%nat StaticMeshComponent QueryAndPhysics ZeroVector (MkVector 50 50 50)
    (fun t v => VecAdd (Translation t) v).

Definition Crate : AActor :=
  MkActor (MkTransform (MkQuat 0 0 0 1) (MkVector 0 0 300) (MkVector 1 1 1)) None [Mesh] [] None.

Definition CrateHost : Host := Sample.HostWith {[ 1%nat := Crate ]} Sample.NoSnapSettings.

(** A static mesh of half height 50.3, a number that is not a [float], on an
    actor at height 300. *)
Definition TallMesh : UPrimitiveComponent :=
  MkComponent 4%nat StaticMeshComponent QueryAndPhysics ZeroVector (MkVector 50 50 (503 # 10))
    (fun t v => VecAdd (Translation t) v).

Definition Barrel : AActor :=
  MkActor (MkTransform (MkQuat 0 0 0 1) (MkVector 0 0 300) (MkVector 1 1 1)) None [TallMesh]
    [] None.

Definition BarrelHost : Host := Sample.HostWith {[ 1%nat := Barrel ]} Sample.NoSnapSettings.

Definition Floor : UWorld := Sample.StackWorld [(Sample.Blocker 8%nat QueryAndPhysics, 0)].

Definition FloorHit : FHitResult :=
  MkHit (Some (Sample.Blocker 8%nat QueryAndPhysics)) (MkVector 0 0 0) UpVector.

Definition CtrlShiftV : FKeyEvent := MkKeyEvent Key_V true false true.

(** Scale snapping on, with a scale grid of a quarter. *)
Definition ScaleSnapEditor : UEditorEngine :=
  MkEditor false (Some [Some 1%nat]) (Some Sample.EmptyWorld) (1 # 4) false
    (fun m => (m, Some [Some 1%nat])).

Definition ScaleSnapHost : Host :=
  Sample.HostWith (Sample.OneCube (MkVector 1 1 1))
    (MkSettings false false [] [] 0 false 0 GridMode_Common [] [] true).

End Scene.

Section Plugin.

(** Host mathematics the plugin calls and that is not rational arithmetic. *)
Variable Rotator : FQuat -> FRotator.            (* FQuat::Rotator() *)
Variable Quaternion : FRotator -> FQuat.         (* FRotator::Quaternion() *)
Variable GetUpVector : FQuat -> FVector.         (* FQuat::GetUpVector() *)

(** The pixel-to-world conversion of the horizontal move: from the viewport
    client (camera rotation, location, FOV, viewport height), the plane
    normal, the selection pivot and the mouse delta, the [WorldDelta] of the
    frame (camera axes projected on the plane and normalised, FOV and
    distance scaling, tilt correction, factor 0.4). *)
Variable HorizontalWorldDelta :
  FLevelEditorViewportClient -> FVector -> FVector -> FVector2D -> FVector.

(** The world units per pixel of the vertical move, sensitivity falloff
    included ([Scale]), from the viewport client and the selection pivot. *)
Variable VerticalDragScale : FLevelEditorViewportClient -> FVector -> Q.

(** The rotation that keeps the facing of the current rotation and takes the
    surface normal as up axis (cross products, normalisation, matrix to
    rotator). *)
Variable AlignToSurface : FRotator -> FVector -> FRotator.

(** [FQuat(FVector::UpVector, DegreesToRadians(deg)).RotateVector(v)]. *)
Variable RotateAboutUp : Q -> FVector -> FVector.

Definition GetActorRotation (a : AActor) : FRotator := Rotator (Rotation (ActorTransform a)).

Definition SetActorRotation (r : FRotator) (a : AActor) : AActor :=
  SetActorTransform
    (MkTransform (Quaternion r) (Translation (ActorTransform a)) (Scale3D (ActorTransform a))) a.

(** The up axis of the drag: world up, or in local coordinates the up vector
    of the first selected actor. *)
Definition DragUpAxis (env : Env) (H : Host) (Selection : USelection) : FVector :=
  match CoordSystem env with
  | COORD_Local =>
      match FirstActor H Selection with
      | Some (_, a) => GetUpVector (Quaternion (GetActorRotation a))
      | None => UpVector
      end
  | COORD_World => UpVector
  end.

(** ** Q-drag, E-drag and R-drag *)

(** First movement of a drag: the block [if (!bDragInitialized) { .. }]. *)
Definition InitializeDrag (Description : string)
    (P : FLevelEditorShortcutsProcessor) (H : Host)
  : FLevelEditorShortcutsProcessor * Host :=
  if negb (bDragInitialized P) then
    EnsureDragTransaction Description (set_bDragInitialized true P) H
  else (P, H).

(** The tail common to the two move functions, from "Accumulate movement"
    on: accumulate, snap, apply to the selection, redraw. *)
Definition AccumulateAndMove (Delta : FVector) (Selection : USelection)
    (P : FLevelEditorShortcutsProcessor) (H : Host)
  : FLevelEditorShortcutsProcessor * Host :=
  let Accumulated := VecAdd (AccumulatedMovement P) Delta in
  let SnapSize := GetGridSnapSize H in
  let '(Residual, Actual) := SnapAccumulatedMovement SnapSize Accumulated in
  let P := set_AccumulatedMovement Residual P in
  match Actual with
  | None => (P, H)
  | Some ActualDelta =>
      (P, RedrawLevelEditingViewports (MoveSelection ActualDelta Selection H))
  end.

Definition MoveSelectedActorsHorizontal (env : Env) (MouseDelta : FVector2D)
    (P : FLevelEditorShortcutsProcessor) (H : Host)
  : FLevelEditorShortcutsProcessor * Host :=
  match GEditor env with
  | None => (P, H)
  | Some ed =>
      match SelectedActors ed with
      | None => (P, H)
      | Some Selection =>
          if Nat.eqb (length Selection) 0 then (P, H)
          else
            match GetActiveViewportClient env with
            | None => (P, H)
            | Some ViewportClient =>
                let '(P, H) := InitializeDrag "Move Horizontal" P H in
                let PlaneNormal := DragUpAxis env H Selection in
                let WorldDelta :=
                  HorizontalWorldDelta ViewportClient PlaneNormal
                    (GetSelectionPivot env H) MouseDelta in
                AccumulateAndMove WorldDelta Selection P H
            end
      end
  end.

Definition MoveSelectedActorsVertical (env : Env) (MouseDeltaY : Q)
    (P : FLevelEditorShortcutsProcessor) (H : Host)
  : FLevelEditorShortcutsProcessor * Host :=
  match GEditor env with
  | None => (P, H)
  | Some ed =>
      match SelectedActors ed with
      | None => (P, H)
      | Some Selection =>
          if Nat.eqb (length Selection) 0 then (P, H)
          else
            match GetActiveViewportClient env with
            | None => (P, H)
            | Some ViewportClient =>
                let '(P, H) := InitializeDrag "Move Vertical" P H in
                let VerticalAxis := DragUpAxis env H Selection in
                let Scale := VerticalDragScale ViewportClient (GetSelectionPivot env H) in
                let Delta := VecScale VerticalAxis (- MouseDeltaY * Scale) in
                AccumulateAndMove Delta Selection P H
            end
      end
  end.

Definition ScaleSelectedActorsUniform (env : Env) (MouseDelta : FVector2D)
    (P : FLevelEditorShortcutsProcessor) (H : Host)
  : FLevelEditorShortcutsProcessor * Host :=
  match GEditor env with
  | None => (P, H)
  | Some ed =>
      match SelectedActors ed with
      | None => (P, H)
      | Some Selection =>
          if Nat.eqb (length Selection) 0 then (P, H)
          else
            let '(P, H) :=
              if negb (bDragInitialized P) then
                let '(P, H) :=
                  EnsureDragTransaction "Scale Uniform" (set_bDragInitialized true P) H in
                (set_ScaleDragInitialScales (CaptureInitialScales H Selection) P, H)
              else (P, H) in
            let RadialDelta := RoundToFloat (X2D MouseDelta - Y2D MouseDelta) in
            let Sensitivity := Float_0_004 in
            let P :=
              set_TotalScaleDelta
                (FloatAdd (TotalScaleDelta P) (FloatMul RadialDelta Sensitivity)) P in
            let ScaleMultiplier := ScaleMultiplierOf ed H (TotalScaleDelta P) in
            let H := ScaleSnapshotActors ScaleMultiplier (ScaleDragInitialScales P) H in
            (P, RedrawLevelEditingViewports H)
      end
  end.

(** ** Q+Scroll: rotate about the Z axis *)

Definition RotationAmountOf (ScrollDelta : Q) (bIgnoreSnap : bool) (H : Host) : Q :=
  let RotationIncrement := 15 in
  let RotationAmount := if Qltb 0 ScrollDelta then RotationIncrement else - RotationIncrement in
  match ViewportSettings H with
  | Some vs =>
      if negb bIgnoreSnap && RotGridEnabled vs then
        let RotGridSizes :=
          match CurrentRotGridMode vs with
          | GridMode_DivisionsOf360 => DivisionsOf360RotGridSizes vs
          | GridMode_Common => CommonRotGridSizes vs
          end in
        match ValidIndexLookup RotGridSizes (CurrentRotGridSize vs) with
        | Some g => if Qltb 0 ScrollDelta then g else - g
        | None => RotationAmount
        end
      else RotationAmount
  | None => RotationAmount
  end.

Definition RotateOneActor (RotationAmount : Q) (bRotateAroundPivot : bool)
    (RotationPivot : FVector) (H : Host) (id : ActorId) : Host :=
  match Actors H !! id with
  | None => H
  | Some a =>
      let a :=
        if bRotateAroundPivot then
          let RelativePos := VecSub (GetActorLocation a) RotationPivot in
          let NewRelativePos := RotateAboutUp RotationAmount RelativePos in
          SetActorLocation (VecAdd RotationPivot NewRelativePos) a
        else a in
      let CurrentRotation := GetActorRotation a in
      let CurrentRotation :=
        MkRotator (Pitch CurrentRotation) (Yaw CurrentRotation + RotationAmount)
          (Roll CurrentRotation) in
      set_Actors (insert id (SetActorRotation CurrentRotation a)) H
  end.

Definition RotateSelectedActors (env : Env) (ScrollDelta : Q) (bIgnoreSnap : bool)
    (H : Host) : Host :=
  match GEditor env with
  | None => H
  | Some ed =>
      match SelectedActors ed with
      | None => H
      | Some Selection =>
          if Nat.eqb (length Selection) 0 then H
          else
            let RotationAmount := RotationAmountOf ScrollDelta bIgnoreSnap H in
            let ActorsToRotate := omap (CastActor H) Selection in
            let bGrouped :=     (* GroupActor != nullptr *)
              existsb (fun p => match GroupRoot (snd p) with Some _ => true | None => false end)
                ActorsToRotate in
            if Nat.eqb (length ActorsToRotate) 0 then H
            else
              let '(_, H) := BeginTransaction "Rotate Selected" H in
              let bRotateAroundPivot :=
                Nat.ltb 1 (length ActorsToRotate) || bGrouped in
              let RotationPivot :=
                if bRotateAroundPivot then
                  VecDiv (foldl (fun s p => VecAdd s (GetActorLocation (snd p))) ZeroVector
                            ActorsToRotate)
                    (inject_Z (Z.of_nat (length ActorsToRotate)))
                else ZeroVector in
              let H := foldl (RotateOneActor RotationAmount bRotateAroundPivot RotationPivot)
                         H (map fst ActorsToRotate) in
              EndTransaction (RedrawLevelEditingViewports H)
      end
  end.

(** ** Callbacks of the shortcut processor *)

Definition ShortcutsResult : Type := bool * FLevelEditorShortcutsProcessor * Host.

(** The drag operation of a frame: first match in the order Q, E, R. *)
Definition DispatchDrag (env : Env) (MouseDelta : FVector2D)
    (P : FLevelEditorShortcutsProcessor) (H : Host)
  : FLevelEditorShortcutsProcessor * Host :=
  if bQKeyDown P then MoveSelectedActorsHorizontal env MouseDelta P H
  else if bEKeyDown P then MoveSelectedActorsVertical env (Y2D MouseDelta) P H
  else if bRKeyDown P then ScaleSelectedActorsUniform env MouseDelta P H
  else (P, H).

(** The first statements of the drag branch of [Tick]: the mouse delta since
    the last sampled position, and the new [LastMousePosition] (the hidden
    cursor is warped back to the drag start). *)
Definition SampleCursor (env : Env) (P : FLevelEditorShortcutsProcessor) (H : Host)
  : FVector2D * FLevelEditorShortcutsProcessor * Host :=
  let CurrentMousePosition := CursorPos env in
  let MouseDelta := Vec2Sub CurrentMousePosition (LastMousePosition P) in
  if bCursorHidden P then
    (MouseDelta, set_LastMousePosition (DragStartCursorPos P) P,
     SetCursorPos (DragStartCursorPos P) H)
  else (MouseDelta, set_LastMousePosition CurrentMousePosition P, H).

Definition Tick (env : Env) (P : FLevelEditorShortcutsProcessor) (H : Host)
  : FLevelEditorShortcutsProcessor * Host :=
  let P := set_CachedCursor true P in
  if IsPlayInEditor env then (P, H)
  else if bQKeyDown P || bEKeyDown P || bRKeyDown P then
    let '(MouseDelta, P, H) := SampleCursor env P H in
    if IsNearlyZero2D MouseDelta then (P, H)
    else DispatchDrag env MouseDelta P H
  else (P, H).

(** The "first press" block of the Q, E and R branches of key-down. *)
Definition FirstPress (setKeyDown : bool -> FLevelEditorShortcutsProcessor -> FLevelEditorShortcutsProcessor)
    (env : Env) (P : FLevelEditorShortcutsProcessor) (H : Host)
  : FLevelEditorShortcutsProcessor * Host :=
  let P := setKeyDown true P in
  let P := set_LastMousePosition (CursorPos env) P in
  let P := set_DragStartCursorPos (LastMousePosition P) P in
  SetCursorHidden true P H.

Definition DragKeyDown (isDown : bool)
    (setKeyDown : bool -> FLevelEditorShortcutsProcessor -> FLevelEditorShortcutsProcessor)
    (env : Env) (e : FKeyEvent) (P : FLevelEditorShortcutsProcessor) (H : Host)
  : ShortcutsResult :=
  if LandscapeModeActive env || FoliageModeActive env then (false, P, H)
  else if negb (IsLevelEditorViewportFocused env) then (false, P, H)
  else
    let '(P, H) := if negb isDown then FirstPress setKeyDown env P H else (P, H) in
    (* with a modifier held the event falls through to the end: not consumed *)
    (NoModifiers e, P, H).

Definition WidgetModeKey (env : Env) (e : FKeyEvent) (Mode : EWidgetMode)
    (P : FLevelEditorShortcutsProcessor) (H : Host) : ShortcutsResult :=
  if NoModifiers e && negb (LandscapeModeActive env) && negb (FoliageModeActive env) then
    let '(ok, H) := SetWidgetModeOnActiveViewport env Mode H in
    (ok, P, H)
  else (false, P, H).

Definition HandleKeyDownEvent (env : Env) (e : FKeyEvent)
    (P : FLevelEditorShortcutsProcessor) (H : Host) : ShortcutsResult :=
  if IsPlayInEditor env then (false, P, H)
  else
    match GetKey e with
    | Key_Q => DragKeyDown (bQKeyDown P) set_bQKeyDown env e P H
    | Key_E => DragKeyDown (bEKeyDown P) set_bEKeyDown env e P H
    | Key_G => (false, set_bGScrolledWhileDown false (set_bGKeyDown true P), H)
    | Key_R => DragKeyDown (bRKeyDown P) set_bRKeyDown env e P H
    | Key_One => WidgetModeKey env e WM_Translate P H
    | Key_Two => WidgetModeKey env e WM_Rotate P H
    | Key_Three => WidgetModeKey env e WM_Scale P H
    | _ => (false, P, H)
    end.

(** The tail of the Q, E and R branches of key-up. *)
Definition DragKeyUp (env : Env) (P : FLevelEditorShortcutsProcessor) (H : Host)
  : ShortcutsResult :=
  let '(P, H) := EndDragTransaction P H in
  let '(P, H) := SetCursorHidden false P H in
  let H := match GEditor env with
           | Some _ => RedrawLevelEditingViewports H
           | None => H
           end in
  (true, P, H).

Definition HandleKeyUpEvent (env : Env) (e : FKeyEvent)
    (P : FLevelEditorShortcutsProcessor) (H : Host) : ShortcutsResult :=
  if IsPlayInEditor env then (false, P, H)
  else
    match GetKey e with
    | Key_Q =>
        let H := if bQScrolledWhileDown P then set_LevelEditorWidgetMode WM_Translate H
                 else H in
        let P := set_bQKeyDown false P in
        let P := set_bQScrolledWhileDown false P in
        DragKeyUp env P H
    | Key_E => DragKeyUp env (set_bEKeyDown false P) H
    | Key_R => DragKeyUp env (set_bRKeyDown false P) H
    | Key_G =>
        let H := if negb (bGScrolledWhileDown P) then ToggleGridSnap env H else H in
        (false, set_bGScrolledWhileDown false (set_bGKeyDown false P), H)
    | _ => (false, P, H)
    end.

Definition HandleMouseButtonDownEvent (env : Env) (e : FPointerEvent)
    (P : FLevelEditorShortcutsProcessor) (H : Host) : ShortcutsResult :=
  if IsPlayInEditor env then (false, P, H)
  else
    match GetEffectingButton e with
    | Key_LeftMouseButton =>
        if PointerShiftDown e && IsLevelEditorViewportFocused env
           && IsRotateMode (LevelEditorWidgetMode H) then
          match ViewportSettings H with
          | Some vs =>
              if RotGridEnabled vs then
                (false, set_bTemporarilyDisabledRotSnap true P,
                 set_ViewportSettings (Some (set_RotGridEnabled false vs)) H)
              else (false, P, H)
          | None => (false, P, H)
          end
        else (false, P, H)
    | _ => (false, P, H)
    end.

Definition HandleMouseButtonUpEvent (env : Env) (e : FPointerEvent)
    (P : FLevelEditorShortcutsProcessor) (H : Host) : ShortcutsResult :=
  match GetEffectingButton e with
  | Key_LeftMouseButton =>
      if bTemporarilyDisabledRotSnap P then
        let H := match ViewportSettings H with
                 | Some vs => set_ViewportSettings (Some (set_RotGridEnabled true vs)) H
                 | None => H
                 end in
        (false, set_bTemporarilyDisabledRotSnap false P, H)
      else (false, P, H)
  | _ => (false, P, H)
  end.

Definition HandleMouseMoveEvent (env : Env) (e : FPointerEvent)
    (P : FLevelEditorShortcutsProcessor) (H : Host) : ShortcutsResult :=
  (false, P, H).

Definition HandleMouseWheelOrGestureEvent (env : Env) (e : FPointerEvent)
    (P : FLevelEditorShortcutsProcessor) (H : Host) : ShortcutsResult :=
  if IsPlayInEditor env then (false, P, H)
  else
    let ScrollDelta := GetWheelDelta e in
    if bQKeyDown P then
      (true, set_bQScrolledWhileDown true P,
       RotateSelectedActors env ScrollDelta (PointerShiftDown e) H)
    else if bGKeyDown P then
      if negb (LandscapeModeActive env) && negb (FoliageModeActive env) then
        (true, set_bGScrolledWhileDown true P, ChangeGridSize env (Qltb 0 ScrollDelta) H)
      else (false, set_bGScrolledWhileDown true P, H)
    else (false, P, H).

(** ** The copy/paste processor *)

Definition CopySelectedTransform (env : Env) (C : FTransformCopyPasteProcessor) (H : Host)
  : FTransformCopyPasteProcessor :=
  match GEditor env with
  | None => C
  | Some ed =>
      match SelectedActors ed with
      | None => C
      | Some Selection =>
          match Selection with
          | [] => C
          | first :: _ =>
              (* Get the first selected actor *)
              match CastActor H first with
              | None => C
              | Some (_, SelectedActor) =>
                  set_bHasCopiedTransform true
                    (set_CopiedTransform (GetActorTransform SelectedActor) C)
              end
          end
      end
  end.

(** The body of the paste loop for one selected object. *)
Definition PasteOne (Copied : FTransform) (st : Host * nat) (o : option ActorId) : Host * nat :=
  let '(H, NumModified) := st in
  match CastActor H o with
  | Some (id, Actor) =>
      let Actor := SetActorLocation (Translation Copied) Actor in
      let Actor := SetActorRotation (Rotator (Rotation Copied)) Actor in
      (* Keep original scale - don't apply CopiedTransform scale *)
      (set_Actors (insert id Actor) H, S NumModified)
  | None => (H, NumModified)
  end.

Definition PasteTransformToSelected (env : Env) (C : FTransformCopyPasteProcessor) (H : Host)
  : bool * Host :=
  match GEditor env with
  | None => (false, H)
  | Some ed =>
      if negb (bHasCopiedTransform C) then (false, H)
      else
        match SelectedActors ed with
        | None => (false, H)
        | Some Selection =>
            if Nat.eqb (length Selection) 0 then (false, H)
            else
              let '(_, H) := BeginTransaction "Paste Transform" H in
              let '(H, NumModified) :=
                foldl (PasteOne (CopiedTransform C)) (H, 0%nat) Selection in
              if Nat.ltb 0 NumModified then
                (true, EndTransaction (RedrawLevelEditingViewports H))
              else (false, EndTransaction H)
        end
  end.

(** *** Snap to ground *)

(** [ActorLocation.Z - WorldBottom.Z] for the bottom of the local bounds of
    one component. *)
Definition BottomOffsetOf (Actor : AActor) (Comp : UPrimitiveComponent) : Q :=
  let LocalBottom :=
    MkVector 0 0 (VecZ (LocalBoundsOrigin Comp) - VecZ (LocalBoundsBoxExtent Comp)) in
  let WorldBottom := TransformPosition Comp (ActorTransform Actor) LocalBottom in
  VecZ (GetActorLocation Actor) - VecZ WorldBottom.

Definition IsClass (k : EComponentClass) (c : UPrimitiveComponent) : bool :=
  match k, CompClass c with
  | SkeletalMeshComponent, SkeletalMeshComponent => true
  | StaticMeshComponent, StaticMeshComponent => true
  | OtherPrimitiveComponent, OtherPrimitiveComponent => true
  | _, _ => false
  end.

(** Distance from the actor origin to the mesh bottom: skeletal mesh, else
    static mesh, else the first primitive component with blocking collision,
    else 0. The local [MeshBottomOffset] is a [float]: the difference of the
    two [double] heights is narrowed when it is stored. *)
Definition MeshBottomOffset (Actor : AActor) : Q :=
  match find (IsClass SkeletalMeshComponent) (PrimitiveComponents Actor) with
  | Some SkelMesh => RoundToFloat (BottomOffsetOf Actor SkelMesh)
  | None =>
      match find (IsClass StaticMeshComponent) (PrimitiveComponents Actor) with
      | Some StaticMesh => RoundToFloat (BottomOffsetOf Actor StaticMesh)
      | None =>
          match find (fun Comp => IsPhysicsCollision (CollisionEnabled Comp))
                  (PrimitiveComponents Actor) with
          | Some BestComp => RoundToFloat (BottomOffsetOf Actor BestComp)
          | None => 0
          end
      end
  end.

Definition AddIgnoredComponent (c : UPrimitiveComponent) (q : FCollisionQueryParams)
  : FCollisionQueryParams :=
  MkQueryParams (IgnoredActors q) (IgnoredComponents q ++ [CompId c]).

(** The re-cast loop [for (Attempt = 0; Attempt < 50; Attempt++)], by
    recursion on the attempts that are left. The result is the hit when
    [bHit] is true after the loop, and the query parameters after the loop. *)
Fixpoint GroundTraceLoop (Attempts : nat) (World : UWorld) (TraceStart TraceEnd : FVector)
    (QueryParams : FCollisionQueryParams) : option FHitResult * FCollisionQueryParams :=
  match Attempts with
  | O => (None, QueryParams)
  | S Attempts' =>
      match LineTraceSingleByChannel World TraceStart TraceEnd QueryParams with
      | None => (None, QueryParams)                         (* !bHit: break *)
      | Some HitResult =>
          match HitComponent HitResult with
          | Some HitComp =>
              if IsPhysicsCollision (CollisionEnabled HitComp) then
                (Some HitResult, QueryParams)               (* valid collidable surface *)
              else
                (* skip this specific component and trace again *)
                GroundTraceLoop Attempts' World TraceStart TraceEnd
                  (AddIgnoredComponent HitComp QueryParams)
          | None => GroundTraceLoop Attempts' World TraceStart TraceEnd QueryParams
          end
      end
  end.

Definition MaxTraceAttempts : nat := 50.

(** The downward trace of one actor: start 500 above the actor, end 200000
    below the start, the actor and its attached actors ignored. *)
Definition TraceGround (World : UWorld) (id : ActorId) (Actor : AActor) : option FHitResult :=
  let ActorLocation := GetActorLocation Actor in
  let TraceStart := VecAdd ActorLocation (MkVector 0 0 500) in
  let TraceEnd := VecSub TraceStart (MkVector 0 0 200000) in
  let QueryParams := MkQueryParams (id :: AttachedActors Actor) [] in
  fst (GroundTraceLoop MaxTraceAttempts World TraceStart TraceEnd QueryParams).

(** The new location of a snapped actor. *)
Definition GroundLocation (Actor : AActor) (HitResult : FHitResult) : FVector :=
  let ActorLocation := GetActorLocation Actor in
  MkVector (VecX ActorLocation) (VecY ActorLocation)
    (VecZ (ImpactPoint HitResult) + MeshBottomOffset Actor + 5).

(** Loop body of [SnapSelectedToGround] for one selected object. *)
Definition SnapOne (World : UWorld) (st : Host * nat) (o : option ActorId) : Host * nat :=
  let '(H, NumModified) := st in
  match CastActor H o with
  | None => (H, NumModified)
  | Some (id, Actor) =>
      match TraceGround World id Actor with
      | Some HitResult =>
          let Moved := SetActorLocation (GroundLocation Actor HitResult) Actor in
          let AlignedRotation :=
            AlignToSurface (GetActorRotation Moved) (ImpactNormal HitResult) in
          (set_Actors (insert id (SetActorRotation AlignedRotation Moved)) H, S NumModified)
      | None => (H, NumModified)
      end
  end.

(** Loop body of [SnapSelectedToGroundNoRotation] for one selected object. *)
Definition SnapOneNoRotation (World : UWorld) (st : Host * nat) (o : option ActorId)
  : Host * nat :=
  let '(H, NumModified) := st in
  match CastActor H o with
  | None => (H, NumModified)
  | Some (id, Actor) =>
      match TraceGround World id Actor with
      | Some HitResult =>
          let Moved := SetActorLocation (GroundLocation Actor HitResult) Actor in
          (set_Actors (insert id (SetActorRotation ZeroRotator Moved)) H, S NumModified)
      | None => (H, NumModified)
      end
  end.

Definition SnapSelectedToGround (env : Env) (H : Host) : bool * Host :=
  match GEditor env with
  | None => (false, H)
  | Some ed =>
      match SelectedActors ed with
      | None => (false, H)
      | Some Selection =>
          if Nat.eqb (length Selection) 0 then (false, H)
          else
            match EditorWorld ed with
            | None => (false, H)
            | Some World =>
                let '(_, H) := BeginTransaction "Snap to Ground" H in
                let '(H, NumModified) := foldl (SnapOne World) (H, 0%nat) Selection in
                if Nat.ltb 0 NumModified then
                  (true, EndTransaction (RedrawLevelEditingViewports H))
                else (false, EndTransaction H)
            end
      end
  end.

Definition SnapSelectedToGroundNoRotation (env : Env) (H : Host) : bool * Host :=
  match GEditor env with
  | None => (false, H)
  | Some ed =>
      match SelectedActors ed with
      | None => (false, H)
      | Some Selection =>
          if Nat.eqb (length Selection) 0 then (false, H)
          else
            match EditorWorld ed with
            | None => (false, H)
            | Some World =>
                let '(_, H) := BeginTransaction "Snap to Ground (No Rotation)" H in
                let '(H, NumModified) :=
                  foldl (SnapOneNoRotation World) (H, 0%nat) Selection in
                if Nat.ltb 0 NumModified then
                  (true, EndTransaction (RedrawLevelEditingViewports H))
                else (false, EndTransaction H)
            end
      end
  end.

(** *** Duplicate in place *)

Definition RestoreOne (H : Host) (p : option ActorId * FTransform) : Host :=
  match CastActor H (fst p) with
  | Some (id, Actor) => set_Actors (insert id (SetActorTransform (snd p) Actor)) H
  | None => H
  end.

Definition DuplicateInPlace (env : Env) (H : Host) : bool * Host :=
  match GEditor env with
  | None => (false, H)
  | Some ed =>
      match SelectedActors ed with
      | None => (false, H)
      | Some Selection =>
          if Nat.eqb (length Selection) 0 then (false, H)
          else
            let OriginalTransforms :=
              omap (fun o => match CastActor H o with
                             | Some (_, Actor) => Some (GetActorTransform Actor)
                             | None => None
                             end) Selection in
            if Nat.eqb (length OriginalTransforms) 0 then (false, H)
            else
              let '(NewActors, NewSelection) := ExecDuplicate ed (Actors H) in
              let H := set_Actors (fun _ => NewActors) H in
              match NewSelection with
              | Some Selection' =>
                  if Nat.eqb (length Selection') (length OriginalTransforms) then
                    let '(_, H) := BeginTransaction "Duplicate In Place" H in
                    let H := foldl RestoreOne H (zip Selection' OriginalTransforms) in
                    (true, EndTransaction (RedrawLevelEditingViewports H))
                  else (true, H)
              | None => (true, H)
              end
      end
  end.

(** *** Paste to folder *)

Definition SetupPasteToFolder (env : Env) (C : FTransformCopyPasteProcessor) (H : Host)
  : bool * FTransformCopyPasteProcessor :=
  match GEditor env with
  | None => (false, C)
  | Some ed =>
      match EditorWorld ed with
      | None => (false, C)
      | Some _ =>
          let C := set_PendingPasteFolderPath None C in
          let C :=
            match SelectedActors ed with
            | Some ActorSelection =>
                match FirstActor H ActorSelection with
                | Some (_, Actor) => set_PendingPasteFolderPath (FolderPath Actor) C
                | None => C
                end
            | None => C
            end in
          (* Store all actors currently in the world *)
          let C := set_ActorsBeforePaste (dom (Actors H)) C in
          let C := set_bPasteToFolderPending true C in
          (false, C)
      end
  end.

Definition MoveToFolder (Folder : FName) (H : Host) (id : ActorId) : Host :=
  match Actors H !! id with
  | Some Actor => set_Actors (insert id (SetFolderPath Folder Actor)) H
  | None => H
  end.

Definition CompletePasteToFolder (env : Env) (C : FTransformCopyPasteProcessor) (H : Host)
  : FTransformCopyPasteProcessor * Host :=
  match GEditor env with
  | None => (C, H)
  | Some ed =>
      match EditorWorld ed with
      | None => (C, H)
      | Some _ =>
          let NewlyPastedActors :=
            filter (fun id => id ∉ ActorsBeforePaste C) (elements (dom (Actors H))) in
          let Folder := PendingPasteFolderPath C in
          let C := set_ActorsBeforePaste ∅ C in
          match Folder with
          | None => (C, H)
          | Some _ =>
              if Nat.eqb (length NewlyPastedActors) 0 then (C, H)
              else
                let '(_, H) := BeginTransaction "Paste to Folder" H in
                let H := foldl (MoveToFolder Folder) H NewlyPastedActors in
                (C, EndTransaction (RedrawLevelEditingViewports H))
          end
      end
  end.

(** *** Callbacks of the copy/paste processor *)

Definition CopyPasteResult : Type := bool * FTransformCopyPasteProcessor * Host.

Definition CopyPasteTick (env : Env) (C : FTransformCopyPasteProcessor) (H : Host)
  : FTransformCopyPasteProcessor * Host :=
  if bPasteToFolderPending C then
    CompletePasteToFolder env (set_bPasteToFolderPending false C) H
  else (C, H).

(** The four keystrokes of the synthesized Ctrl+V. *)
Definition SyntheticPaste : list (VirtualKey * bool) :=
  [(VK_CONTROL, false); (VK_V, false); (VK_V, true); (VK_CONTROL, true)].

Definition CopyPasteHandleKeyDownEvent (env : Env) (e : FKeyEvent)
    (C : FTransformCopyPasteProcessor) (H : Host) : CopyPasteResult :=
  if IsPlayInEditor env then (false, C, H)
  else
    (* Shift+B (without Ctrl), checked before the Ctrl check *)
    let '(bSnapped, H) :=
      if bool_decide (GetKey e = Key_B) && IsShiftDown e && negb (IsControlDown e) then
        SnapSelectedToGroundNoRotation env H
      else (false, H) in
    if bSnapped then (true, C, H)
    else if negb (IsControlDown e) then (false, C, H)
    else
      match GetKey e with
      | Key_C => (false, CopySelectedTransform env C H, H)
      | Key_T => let '(b, H) := PasteTransformToSelected env C H in (b, C, H)
      | Key_B =>
          if negb (IsShiftDown e) then
            let '(b, H) := SnapSelectedToGround env H in (b, C, H)
          else (false, C, H)
      | Key_D => let '(b, H) := DuplicateInPlace env H in (b, C, H)
      | Key_V =>
          if IsShiftDown e then
            let '(_, C) := SetupPasteToFolder env C H in
            (true, C, SendInput SyntheticPaste H)
          else (false, C, H)
      | _ => (false, C, H)
      end.

Definition CopyPasteHandleKeyUpEvent (env : Env) (e : FKeyEvent)
    (C : FTransformCopyPasteProcessor) (H : Host) : CopyPasteResult :=
  (false, C, H).

Definition CopyPasteHandleMouseWheelOrGestureEvent (env : Env) (e : FPointerEvent)
    (C : FTransformCopyPasteProcessor) (H : Host) : CopyPasteResult :=
  (false, C, H).

(** ** Runs: sequences of frames and of events *)

(** The location and the scale of an actor of the heap. *)
Definition LocationOf (H : Host) (a : ActorId) : FVector :=
  match Actors H !! a with
  | Some x => GetActorLocation x
  | None => ZeroVector
  end.

Definition ScaleOf (H : Host) (a : ActorId) : option FVector :=
  match Actors H !! a with
  | Some x => Some (GetActorScale3D x)
  | None => None
  end.

(** One frame of a move drag: a Q-frame calls [MoveSelectedActorsHorizontal]
    with the mouse delta, an E-frame [MoveSelectedActorsVertical] with its Y. *)
Inductive DragFrame :=
| QFrame (env : Env) (MouseDelta : FVector2D)
| EFrame (env : Env) (MouseDeltaY : Q).

Definition FrameEnv (f : DragFrame) : Env :=
  match f with QFrame env _ => env | EFrame env _ => env end.

Definition RunDragFrame (f : DragFrame) (P : FLevelEditorShortcutsProcessor) (H : Host)
  : FLevelEditorShortcutsProcessor * Host :=
  match f with
  | QFrame env MouseDelta => MoveSelectedActorsHorizontal env MouseDelta P H
  | EFrame env MouseDeltaY => MoveSelectedActorsVertical env MouseDeltaY P H
  end.

Fixpoint RunDragFrames (fs : list DragFrame) (P : FLevelEditorShortcutsProcessor) (H : Host)
  : FLevelEditorShortcutsProcessor * Host :=
  match fs with
  | [] => (P, H)
  | f :: rest => let '(P, H) := RunDragFrame f P H in RunDragFrames rest P H
  end.

(** The description of the transaction a move frame opens. *)
Definition FrameDescription (f : DragFrame) : string :=
  match f with
  | QFrame _ _ => "Move Horizontal"
  | EFrame _ _ => "Move Vertical"
  end.

(** The selection a move frame works on, when it gets past its guards. *)
Definition MoveGuards (env : Env) : option (USelection * FLevelEditorViewportClient) :=
  match GEditor env with
  | None => None
  | Some ed =>
      match SelectedActors ed with
      | None => None
      | Some Selection =>
          if Nat.eqb (length Selection) 0 then None
          else
            match GetActiveViewportClient env with
            | None => None
            | Some ViewportClient => Some (Selection, ViewportClient)
            end
      end
  end.

Definition FrameSelection (f : DragFrame) : USelection :=
  match MoveGuards (FrameEnv f) with
  | Some (Selection, _) => Selection
  | None => []
  end.

(** The world-space movement a frame adds to [AccumulatedMovement]: zero when
    a guard returns before the accumulation. *)
Definition FrameInput (f : DragFrame) (H : Host) : FVector :=
  match MoveGuards (FrameEnv f) with
  | None => ZeroVector
  | Some (Selection, ViewportClient) =>
      match f with
      | QFrame env MouseDelta =>
          HorizontalWorldDelta ViewportClient (DragUpAxis env H Selection)
            (GetSelectionPivot env H) MouseDelta
      | EFrame env MouseDeltaY =>
          VecScale (DragUpAxis env H Selection)
            (- MouseDeltaY * VerticalDragScale ViewportClient (GetSelectionPivot env H))
      end
  end.

(** Total movement accumulated by a run of frames. *)
Fixpoint TotalInput (fs : list DragFrame) (P : FLevelEditorShortcutsProcessor) (H : Host)
  : FVector :=
  match fs with
  | [] => ZeroVector
  | f :: rest =>
      let '(P', H') := RunDragFrame f P H in
      VecAdd (FrameInput f H) (TotalInput rest P' H')
  end.

(** The actor is selected exactly once. *)
Fixpoint Occurrences (a : ActorId) (Selection : USelection) : nat :=
  match Selection with
  | [] => 0
  | o :: rest => ((if bool_decide (o = Some a) then 1 else 0) + Occurrences a rest)%nat
  end.

Definition SelectedOnce (a : ActorId) (Selection : USelection) : Prop :=
  Occurrences a Selection = 1%nat.

(** A vector taken a natural number of times. *)
Definition Steps (n : nat) (d : FVector) : FVector := VecScale d (inject_Z (Z.of_nat n)).

(** The actor is followed through a frame: it is selected exactly once
    whenever the frame gets past its guards. *)
Definition TrackedIn (a : ActorId) (f : DragFrame) : Prop :=
  match MoveGuards (FrameEnv f) with
  | Some (Selection, _) => SelectedOnce a Selection
  | None => True
  end.

(** Frames of an R-drag. *)
Fixpoint RunScaleFrames (fs : list (Env * FVector2D))
    (P : FLevelEditorShortcutsProcessor) (H : Host)
  : FLevelEditorShortcutsProcessor * Host :=
  match fs with
  | [] => (P, H)
  | (env, MouseDelta) :: rest =>
      let '(P, H) := ScaleSelectedActorsUniform env MouseDelta P H in
      RunScaleFrames rest P H
  end.

(** The accumulated [deltaX - deltaY] of a sequence of mouse deltas. *)
Definition TotalRadialDelta (fs : list (Env * FVector2D)) : Q :=
  foldr (fun f acc => (X2D (snd f) - Y2D (snd f)) + acc) 0 fs.

(** [TotalScaleDelta] after one more frame of an R-drag, and after a run of
    frames: the statement [TotalScaleDelta += RadialDelta * Sensitivity] on
    [float] operands, frame after frame. *)
Definition NextScaleDelta (Total : Q) (MouseDelta : FVector2D) : Q :=
  FloatAdd Total (FloatMul (RoundToFloat (X2D MouseDelta - Y2D MouseDelta)) Float_0_004).

Definition AccumulatedScaleDelta (Total : Q) (fs : list (Env * FVector2D)) : Q :=
  foldl (fun t f => NextScaleDelta t (snd f)) Total fs.

(** The guards of [ScaleSelectedActorsUniform]. *)
Definition ScaleGuards (env : Env) : option (UEditorEngine * USelection) :=
  match GEditor env with
  | None => None
  | Some ed =>
      match SelectedActors ed with
      | None => None
      | Some Selection =>
          if Nat.eqb (length Selection) 0 then None else Some (ed, Selection)
      end
  end.

(** The scale applied to an actor whose snapshot is [s], for multiplier [m]. *)
Definition ScaledFrom (s : FVector) (m : Q) : FVector :=
  ComponentMax (VecScale s m) (MkVector Float_0_001 Float_0_001 Float_0_001).

(** The actor [a], of pre-drag scale [s], is part of the running R-drag. *)
Definition InScaleDrag (a : ActorId) (s : FVector)
    (P : FLevelEditorShortcutsProcessor) (H : Host) : Prop :=
  bDragInitialized P = true
  /\ In (a, s) (ScaleDragInitialScales P)
  /\ (forall s', In (a, s') (ScaleDragInitialScales P) -> s' = s)
  /\ is_Some (Actors H !! a).

(** Scale snapping is off: [ViewportSettings && ViewportSettings->SnapScaleEnabled]
    is false. *)
Definition ScaleSnapDisabled (H : Host) : Prop :=
  match ViewportSettings H with
  | Some vs => SnapScaleEnabled vs = false
  | None => True
  end.

(** No component of the scale is below the [0.001f] floor of the R-drag. *)
Definition AtLeastMinimumScale (s : FVector) : Prop :=
  Float_0_001 <= VecX s /\ Float_0_001 <= VecY s /\ Float_0_001 <= VecZ s.

(** Events received by the shortcut processor. *)
Inductive ShortcutEvent :=
| EvTick (env : Env)
| EvKeyDown (env : Env) (e : FKeyEvent)
| EvKeyUp (env : Env) (e : FKeyEvent)
| EvMouseButtonDown (env : Env) (e : FPointerEvent)
| EvMouseButtonUp (env : Env) (e : FPointerEvent)
| EvMouseMove (env : Env) (e : FPointerEvent)
| EvMouseWheel (env : Env) (e : FPointerEvent).

Definition EventEnv (ev : ShortcutEvent) : Env :=
  match ev with
  | EvTick env | EvKeyDown env _ | EvKeyUp env _ | EvMouseButtonDown env _
  | EvMouseButtonUp env _ | EvMouseMove env _ | EvMouseWheel env _ => env
  end.

(** One callback: whether the event is consumed (false for a tick), and the
    new state. *)
Definition ShortcutStep (ev : ShortcutEvent) (P : FLevelEditorShortcutsProcessor) (H : Host)
  : ShortcutsResult :=
  match ev with
  | EvTick env => let '(P, H) := Tick env P H in (false, P, H)
  | EvKeyDown env e => HandleKeyDownEvent env e P H
  | EvKeyUp env e => HandleKeyUpEvent env e P H
  | EvMouseButtonDown env e => HandleMouseButtonDownEvent env e P H
  | EvMouseButtonUp env e => HandleMouseButtonUpEvent env e P H
  | EvMouseMove env e => HandleMouseMoveEvent env e P H
  | EvMouseWheel env e => HandleMouseWheelOrGestureEvent env e P H
  end.

Fixpoint RunShortcuts (evs : list ShortcutEvent) (P : FLevelEditorShortcutsProcessor) (H : Host)
  : FLevelEditorShortcutsProcessor * Host :=
  match evs with
  | [] => (P, H)
  | ev :: rest => let '(_, P, H) := ShortcutStep ev P H in RunShortcuts rest P H
  end.

(** The tick reaches a drag function and gets past its guards: a movement is
    processed. *)
Definition TickProcesses (env : Env) (P : FLevelEditorShortcutsProcessor) : bool :=
  negb (IsPlayInEditor env)
  && negb (IsNearlyZero2D (Vec2Sub (CursorPos env) (LastMousePosition P)))
  && (if bQKeyDown P then bool_decide (is_Some (MoveGuards env))
      else if bEKeyDown P then bool_decide (is_Some (MoveGuards env))
      else if bRKeyDown P then bool_decide (is_Some (ScaleGuards env))
      else false).

Definition IsDragKey (k : FKey) : bool :=
  match k with Key_Q | Key_E | Key_R => true | _ => false end.

(** The number of drag transactions the processor holds open. *)
Definition OpenDragTransactions (P : FLevelEditorShortcutsProcessor) : nat :=
  match DragTransaction P with Some _ => 1 | None => 0 end.

(** [bDragInitialized] is set exactly when a drag transaction is held. *)
Definition DragConsistent (P : FLevelEditorShortcutsProcessor) : Prop :=
  bDragInitialized P = match DragTransaction P with Some _ => true | None => false end.

(** The processor state and the undo buffer agree on the open drag
    transaction: [base] transactions were open when the processor started. *)
Definition DragInvariant (base : nat) (P : FLevelEditorShortcutsProcessor) (H : Host) : Prop :=
  DragConsistent P /\ ActiveCount H = (base + OpenDragTransactions P)%nat.

(** The drag keys held are the same. *)
Definition SameKeys (P P' : FLevelEditorShortcutsProcessor) : Prop :=
  bQKeyDown P' = bQKeyDown P /\ bEKeyDown P' = bEKeyDown P /\ bRKeyDown P' = bRKeyDown P.

(** What a drag function does to the drag transaction: nothing when a guard
    returns, and past the guards it opens the transaction of the drag unless
    the drag is already initialised. *)
Definition DragOpEffect (Description : string) (passes : bool)
    (P : FLevelEditorShortcutsProcessor) (H : Host)
    (r : FLevelEditorShortcutsProcessor * Host) : Prop :=
  if passes then
    SameKeys P (fst r) /\ DragConsistent (fst r) /\ bDragInitialized (fst r) = true
    /\ LastMousePosition (fst r) = LastMousePosition P
    /\ TransBegun (snd r) = TransBegun H ++ (if bDragInitialized P then [] else [Description])
    /\ ActiveCount (snd r) = (ActiveCount H + (if bDragInitialized P then 0 else 1))%nat
  else r = (P, H).

(** The description of the transaction of the drag the held keys select. *)
Definition DragDescription (P : FLevelEditorShortcutsProcessor) : string :=
  if bQKeyDown P then "Move Horizontal"
  else if bEKeyDown P then "Move Vertical"
  else "Scale Uniform".

(** The descriptions of the three drag transactions. *)
Definition IsDragDescription (d : string) : bool :=
  bool_decide (d = "Move Horizontal"%string)
  || bool_decide (d = "Move Vertical"%string)
  || bool_decide (d = "Scale Uniform"%string).

(** The event is a Q, E or R key-up handled outside a Play session: the
    callbacks that call [EndDragTransaction]. *)
Definition ReleasesDrag (ev : ShortcutEvent) : bool :=
  match ev with
  | EvKeyUp env e => IsDragKey (GetKey e) && negb (IsPlayInEditor env)
  | _ => false
  end.

(** The event is a tick that processes a movement. *)
Definition EventProcesses (ev : ShortcutEvent) (P : FLevelEditorShortcutsProcessor) : bool :=
  match ev with
  | EvTick env => TickProcesses env P
  | _ => false
  end.

(** The drag of the first tick of a run of events that processes a movement,
    if there is one. *)
Fixpoint FirstProcessedDrag (evs : list ShortcutEvent)
    (P : FLevelEditorShortcutsProcessor) (H : Host) : option string :=
  match evs with
  | [] => None
  | ev :: rest =>
      if EventProcesses ev P then Some (DragDescription P)
      else let '(_, P, H) := ShortcutStep ev P H in FirstProcessedDrag rest P H
  end.

(** An actor after a paste of the snapshot [Copied]: location and rotation
    are those of the snapshot, everything else is the actor's own. *)
Definition PastedActor (Copied : FTransform) (Actor : AActor) : AActor :=
  MkActor
    (MkTransform (Quaternion (Rotator (Rotation Copied))) (Translation Copied)
       (Scale3D (ActorTransform Actor)))
    (FolderPath Actor) (PrimitiveComponents Actor) (AttachedActors Actor) (GroupRoot Actor).

(** *** The operations of the two processors, as one type *)

Inductive Operation :=
| OpMoveHorizontal (MouseDelta : FVector2D)
| OpMoveVertical (MouseDeltaY : Q)
| OpScaleUniform (MouseDelta : FVector2D)
| OpRotate (ScrollDelta : Q) (bIgnoreSnap : bool)
| OpCopyTransform
| OpPasteTransform
| OpSnapToGround
| OpSnapToGroundNoRotation
| OpDuplicateInPlace
| OpSetupPasteToFolder
| OpCompletePasteToFolder.

Record PluginState := MkState {
  Shortcuts : FLevelEditorShortcutsProcessor;
  CopyPaste : FTransformCopyPasteProcessor;
  TheHost : Host
}.

Definition RunOperation (env : Env) (op : Operation) (st : PluginState) : PluginState :=
  let P := Shortcuts st in
  let C := CopyPaste st in
  let H := TheHost st in
  match op with
  | OpMoveHorizontal MouseDelta =>
      let '(P, H) := MoveSelectedActorsHorizontal env MouseDelta P H in MkState P C H
  | OpMoveVertical MouseDeltaY =>
      let '(P, H) := MoveSelectedActorsVertical env MouseDeltaY P H in MkState P C H
  | OpScaleUniform MouseDelta =>
      let '(P, H) := ScaleSelectedActorsUniform env MouseDelta P H in MkState P C H
  | OpRotate ScrollDelta bIgnoreSnap =>
      MkState P C (RotateSelectedActors env ScrollDelta bIgnoreSnap H)
  | OpCopyTransform => MkState P (CopySelectedTransform env C H) H
  | OpPasteTransform => MkState P C (snd (PasteTransformToSelected env C H))
  | OpSnapToGround => MkState P C (snd (SnapSelectedToGround env H))
  | OpSnapToGroundNoRotation => MkState P C (snd (SnapSelectedToGroundNoRotation env H))
  | OpDuplicateInPlace => MkState P C (snd (DuplicateInPlace env H))
  | OpSetupPasteToFolder => MkState P (snd (SetupPasteToFolder env C H)) H
  | OpCompletePasteToFolder =>
      let '(C, H) := CompletePasteToFolder env C H in MkState P C H
  end.

(** The operations that work on the current selection. *)
Definition UsesSelection (op : Operation) : bool :=
  match op with
  | OpSetupPasteToFolder | OpCompletePasteToFolder => false
  | _ => true
  end.

Definition UsesViewport (op : Operation) : bool :=
  match op with
  | OpMoveHorizontal _ | OpMoveVertical _ => true
  | _ => false
  end.

(** [Selection] is null or [Selection->Num() == 0]. *)
Definition SelectionEmpty (env : Env) : Prop :=
  match GEditor env with
  | Some ed => SelectedActors ed = None \/ SelectedActors ed = Some []
  | None => True
  end.

(** ** Vocabulary of the further properties *)


(** The drag key of the event is registered as held. *)
Definition DragKeyHeld (k : FKey) (P : FLevelEditorShortcutsProcessor) : bool :=
  match k with
  | Key_Q => bQKeyDown P
  | Key_E => bEKeyDown P
  | Key_R => bRKeyDown P
  | _ => false
  end.

(** The grid table [GetGridSnapSize] and [ChangeGridSize] index. *)
Definition ActiveGridSizes (vs : ULevelEditorViewportSettings) : list Q :=
  if bUsePowerOf2SnapSize vs then Pow2GridSizes vs else DecimalGridSizes vs.

(** Scale snapping is on: [ViewportSettings && ViewportSettings->SnapScaleEnabled]. *)
Definition ScaleSnapEnabled (H : Host) : Prop :=
  match ViewportSettings H with
  | Some vs => SnapScaleEnabled vs = true
  | None => False
  end.

(** One step up or down from index [i] that stays inside a table of [n]
    entries. *)
Definition SteppedIndex (bIncrement : bool) (i n : Z) : Z :=
  if bIncrement then (if (i + 1 <? n)%Z then i + 1 else i)%Z
  else (if (0 <? i)%Z then i - 1 else i)%Z.

(** The sum of the locations of a list of actors. *)
Definition SumOfLocations (l : list (ActorId * AActor)) : FVector :=
  foldl (fun s p => VecAdd s (GetActorLocation (snd p))) ZeroVector l.

(** The transforms [DuplicateInPlace] stores before duplicating: those of
    the selected live actors, in selection order. *)
Definition OriginalTransforms (H : Host) (Selection : USelection) : list FTransform :=
  omap (fun o => match CastActor H o with
                 | Some (_, Actor) => Some (GetActorTransform Actor)
                 | None => None
                 end) Selection.

(** The folder [SetupPasteToFolder] remembers: that of the first selected
    live actor, if any. *)
Definition FolderOfSelection (ed : UEditorEngine) (H : Host) : FName :=
  match SelectedActors ed with
  | Some ActorSelection =>
      match FirstActor H ActorSelection with
      | Some (_, Actor) => FolderPath Actor
      | None => None
      end
  | None => None
  end.

(** A ground snap moves an actor along the Z axis only, and keeps its scale
    and its folder. *)
Definition MovedAlongZ (a a' : AActor) : Prop :=
  VecX (GetActorLocation a') = VecX (GetActorLocation a)
  /\ VecY (GetActorLocation a') = VecY (GetActorLocation a)
  /\ GetActorScale3D a' = GetActorScale3D a
  /\ FolderPath a' = FolderPath a.

(** The height of the bottom of the local bounds of a component above the
    impact point of a hit, for the actor the component belongs to. *)
Definition HeightAboveHit (c : UPrimitiveComponent) (Actor : AActor) (hit : FHitResult) : Q :=
  let LocalBottom :=
    MkVector 0 0 (VecZ (LocalBoundsOrigin c) - VecZ (LocalBoundsBoxExtent c)) in
  VecZ (TransformPosition c (ActorTransform Actor) LocalBottom) - VecZ (ImpactPoint hit).

(** The widget mode the keys 1, 2 and 3 stand for. *)
Definition WidgetModeOfKey (k : FKey) : option EWidgetMode :=
  match k with
  | Key_One => Some WM_Translate
  | Key_Two => Some WM_Rotate
  | Key_Three => Some WM_Scale
  | _ => None
  end.

(** What a drag function leaves alone of the cursor bookkeeping. *)
Definition SameCursorState (P P' : FLevelEditorShortcutsProcessor) (H H' : Host) : Prop :=
  LastMousePosition P' = LastMousePosition P
  /\ DragStartCursorPos P' = DragStartCursorPos P
  /\ bCursorHidden P' = bCursorHidden P
  /\ CachedCursor P' = CachedCursor P
  /\ SameKeys P P'
  /\ SlateCursorPos H' = SlateCursorPos H.

(** ** Registration with the Slate application *)

(** The two input pre-processors of the plugin. *)
Inductive InputProcessor := TransformCopyPasteProcessor | LevelEditorShortcutsProcessor.

#[export] Instance InputProcessor_eq_dec : EqDecision InputProcessor.
Proof. solve_decision. Defined.

(** [FSlateApplication]: [IsInitialized()], and the input pre-processors in
    registration order, which is the order in which they see an event. *)
Record FSlateApplication := MkSlate {
  IsInitialized : bool;
  InputPreProcessors : list InputProcessor
}.

(** [RegisterInputPreProcessor] adds the processor at the end unless it is
    registered already; [UnregisterInputPreProcessor] removes it. *)
Definition RegisterInputPreProcessor (p : InputProcessor) (s : FSlateApplication)
  : FSlateApplication :=
  MkSlate (IsInitialized s)
    (if bool_decide (p ∈ InputPreProcessors s) then InputPreProcessors s
     else InputPreProcessors s ++ [p]).

Definition UnregisterInputPreProcessor (p : InputProcessor) (s : FSlateApplication)
  : FSlateApplication :=
  MkSlate (IsInitialized s) (filter (fun q => q <> p) (InputPreProcessors s)).

(** The static state of the module: the Slate application, the two
    [Instance] pointers ([None]/[false] is a null pointer) and the static
    fields of the copy/paste processor. *)
Record ModuleState := MkModule {
  SlateApp : FSlateApplication;
  CopyPasteInstance : bool;
  CopyPasteStatics : FTransformCopyPasteProcessor;
  ShortcutsInstance : option FLevelEditorShortcutsProcessor
}.

(** [FTransformCopyPasteProcessor::Register] and [Unregister]. *)
Definition CopyPasteRegister (M : ModuleState) : ModuleState :=
  if negb (CopyPasteInstance M) && IsInitialized (SlateApp M) then
    MkModule (RegisterInputPreProcessor TransformCopyPasteProcessor (SlateApp M)) true
      (set_bHasCopiedTransform false (CopyPasteStatics M)) (ShortcutsInstance M)
  else M.

Definition CopyPasteUnregister (M : ModuleState) : ModuleState :=
  if CopyPasteInstance M && IsInitialized (SlateApp M) then
    MkModule (UnregisterInputPreProcessor TransformCopyPasteProcessor (SlateApp M)) false
      (CopyPasteStatics M) (ShortcutsInstance M)
  else M.

(** [FLevelEditorShortcutsProcessor::Register] and [Unregister]. *)
Definition ShortcutsRegister (M : ModuleState) : ModuleState :=
  match ShortcutsInstance M with
  | None =>
      if IsInitialized (SlateApp M) then
        MkModule (RegisterInputPreProcessor LevelEditorShortcutsProcessor (SlateApp M))
          (CopyPasteInstance M) (CopyPasteStatics M) (Some NewShortcutsProcessor)
      else M
  | Some _ => M
  end.

Definition ShortcutsUnregister (M : ModuleState) : ModuleState :=
  match ShortcutsInstance M with
  | Some _ =>
      if IsInitialized (SlateApp M) then
        MkModule (UnregisterInputPreProcessor LevelEditorShortcutsProcessor (SlateApp M))
          (CopyPasteInstance M) (CopyPasteStatics M) None
      else M
  | None => M
  end.

(** [FLevelEditorShortcutsModule::StartupModule] and [ShutdownModule]. *)
Definition StartupModule (M : ModuleState) : ModuleState :=
  if IsInitialized (SlateApp M) then ShortcutsRegister (CopyPasteRegister M) else M.

Definition ShutdownModule (M : ModuleState) : ModuleState :=
  ShortcutsUnregister (CopyPasteUnregister M).

(** The module before its first start: no instance, nothing registered. *)
Definition UnloadedModule (bSlateInitialized : bool) (Statics : FTransformCopyPasteProcessor)
  : ModuleState :=
  MkModule (MkSlate bSlateInitialized []) false Statics None.

(** The module after a start with Slate initialised. *)
Definition LoadedModule (Statics : FTransformCopyPasteProcessor) : ModuleState :=
  MkModule (MkSlate true [TransformCopyPasteProcessor; LevelEditorShortcutsProcessor]) true
    (set_bHasCopiedTransform false Statics) (Some NewShortcutsProcessor).

Inductive ModuleCall := CallStartupModule | CallShutdownModule.

Definition RunModuleCall (M : ModuleState) (c : ModuleCall) : ModuleState :=
  match c with
  | CallStartupModule => StartupModule M
  | CallShutdownModule => ShutdownModule M
  end.

Definition RunModuleCalls (calls : list ModuleCall) (M : ModuleState) : ModuleState :=
  foldl RunModuleCall M calls.

(** An operation of the plugin on the undo buffer: every transaction it
    begins is ended, and it begins at most one. *)
Definition AtMostOneTransaction (H H' : Host) : Prop :=
  ActiveCount H' = ActiveCount H
  /\ (TransBegun H' = TransBegun H \/ exists d, TransBegun H' = TransBegun H ++ [d]).

(** What a drag function leaves alone of the editor: the viewport settings,
    the widget modes, the cursor visibility and the synthesized input. *)
Definition SameEditorSettings (H H' : Host) : Prop :=
  ViewportSettings H' = ViewportSettings H
  /\ LevelEditorWidgetMode H' = LevelEditorWidgetMode H
  /\ ActiveViewportWidgetMode H' = ActiveViewportWidgetMode H
  /\ CursorShown H' = CursorShown H
  /\ SentInput H' = SentInput H.

(** * Properties *)

(** ** Rational arithmetic and vectors *)

Lemma Qltb_lt (x y : Q) : Qltb x y = true <-> x < y.
Proof.
  unfold Qltb. rewrite negb_true_iff, <- not_true_iff_false, Qle_bool_iff.
  split; [apply Qnot_le_lt | apply Qlt_not_le].
Qed.

Lemma Qltb_ge (x y : Q) : Qltb x y = false <-> y <= x.
Proof. unfold Qltb. rewrite negb_false_iff. apply Qle_bool_iff. Qed.

#[export] Instance FVector_equivalence : Equivalence (≡@{FVector}).
Proof.
  split.
  - intros a. repeat split; reflexivity.
  - intros a b (H1 & H2 & H3). repeat split; symmetry; assumption.
  - intros a b c (H1 & H2 & H3) (K1 & K2 & K3).
    repeat split; etransitivity; eassumption.
Qed.

(** ** Rounding to single precision *)

(** Rounding does not depend on the fraction a number is written as. *)
Lemma RoundToFloat_Qeq (x y : Q) : x == y -> RoundToFloat x = RoundToFloat y.
Proof. intros E. unfold RoundToFloat. rewrite (Qred_complete x y E). reflexivity. Qed.

Lemma RoundHalfEven_error (q : Q) : Qabs (inject_Z (RoundHalfEven q) - q) <= 1 # 2.
Proof.
  unfold RoundHalfEven.
  pose proof (Qfloor_le q) as L. pose proof (Qlt_floor q) as U.
  rewrite inject_Z_plus in U. change (inject_Z 1) with 1 in U.
  apply Qabs_Qle_condition.
  destruct (Qcompare (q - inject_Z (Qfloor q)) (1 # 2)) eqn:C.
  - apply Qeq_alt in C. destruct (Z.even (Qfloor q));
      rewrite ?inject_Z_plus; change (inject_Z 1) with 1; lra.
  - apply Qlt_alt in C. lra.
  - apply Qgt_alt in C. rewrite inject_Z_plus. change (inject_Z 1) with 1. lra.
Qed.

Lemma Qpower_2_pos (e : Z) : 0 < 2 ^ e.
Proof. apply Qpower_0_lt. reflexivity. Qed.

Lemma Binade_le (x : Q) : 0 < x -> 2 ^ Binade x <= x.
Proof.
  intros Hx. unfold Binade.
  destruct (Qle_bool (2 ^ (Z.log2 (Qnum x) - Z.log2 (Z.pos (Qden x)))) x) eqn:E.
  - apply Qle_bool_iff in E. exact E.
  - destruct x as [n d]. simpl Qnum. simpl Qden.
    assert (Hn : (0 < n)%Z) by (unfold Qlt in Hx; simpl in Hx; lia).
    pose proof (Z.log2_spec n Hn) as [Ln _].
    pose proof (Z.log2_spec (Z.pos d) ltac:(lia)) as [_ Ud].
    pose proof (Z.log2_nonneg n) as Nn. pose proof (Z.log2_nonneg (Z.pos d)) as Nd.
    set (a := Z.log2 n) in *. set (b := Z.log2 (Z.pos d)) in *.
    replace (a - b - 1)%Z with (a + - (b + 1))%Z by lia.
    rewrite Qpower_plus by discriminate.
    rewrite Qpower_opp.
    rewrite <- (Zpower_Qpower 2 a) by lia.
    rewrite <- (Zpower_Qpower 2 (b + 1)) by lia.
    rewrite (Qmake_Qdiv n d).
    assert (P1 : 0 < inject_Z (2 ^ (b + 1))).
    { change 0 with (inject_Z 0). rewrite <- Zlt_Qlt. lia. }
    assert (P2 : 0 < inject_Z (Z.pos d)).
    { change 0 with (inject_Z 0). rewrite <- Zlt_Qlt. lia. }
    assert (Q1 : inject_Z (2 ^ a) <= inject_Z n) by (rewrite <- Zle_Qle; exact Ln).
    assert (Q2 : inject_Z (Z.pos d) <= inject_Z (2 ^ (b + 1))).
    { rewrite <- Zle_Qle. unfold Z.succ in Ud. lia. }
    assert (Q0 : 0 < inject_Z (2 ^ a)).
    { change 0 with (inject_Z 0). rewrite <- Zlt_Qlt. lia. }
    unfold Qdiv.
    apply Qle_trans with (inject_Z n * / inject_Z (2 ^ (b + 1))).
    + apply Qmult_le_compat_r; [exact Q1 |]. apply Qlt_le_weak, Qinv_lt_0_compat. exact P1.
    + rewrite (Qmult_comm (inject_Z n)), (Qmult_comm (inject_Z n)).
      apply Qmult_le_compat_r.
      * apply Qle_shift_inv_l; [exact P2 |].
        rewrite Qmult_comm.
        apply Qle_shift_div_r; [exact P1 |]. lra.
      * apply Qlt_le_weak. lra.
Qed.

(** A store into a [float] is off by at most half a unit in the last place:
    a relative error of [2^-24], or [2^-150] in the subnormal range. *)
Lemma RoundToFloat_error (x : Q) :
  Qabs (RoundToFloat x - x) <= Qmax (Qabs x * (1 # 16777216)) (2 ^ (-150)).
Proof.
  unfold RoundToFloat.
  pose proof (Qred_correct x) as R.
  set (y := Qred x) in *.
  destruct (Qeq_bool y 0) eqn:Z0.
  - apply Qeq_bool_eq in Z0. rewrite <- R, Z0.
    apply Qle_trans with (Qabs 0 * (1 # 16777216)); [| apply Q.le_max_l].
    apply Qle_lteq. right. reflexivity.
  - assert (NZ : ~ y == 0) by (intros K; apply Qeq_eq_bool in K; congruence).
    rewrite Qred_correct.
    set (e := FloatUlpExponent y).
    pose proof (Qpower_2_pos e) as Pe.
    pose proof (RoundHalfEven_error (Qabs y / 2 ^ e)) as Err.
    set (k := RoundHalfEven (Qabs y / 2 ^ e)) in *.
    assert (A : Qabs (inject_Z (Z.sgn (Qnum y) * k) * 2 ^ e - x)
                == Qabs (inject_Z k - Qabs y / 2 ^ e) * 2 ^ e).
    { rewrite <- R.
      rewrite <- (Qabs_pos (2 ^ e)) at 3 by (apply Qlt_le_weak; exact Pe).
      rewrite <- Qabs_Qmult.
      assert (D : (inject_Z k - Qabs y / 2 ^ e) * 2 ^ e == inject_Z k * 2 ^ e - Qabs y)
        by (field; lra).
      rewrite D. rewrite inject_Z_mult.
      destruct (Qlt_le_dec y 0) as [Neg | Pos].
      - assert (S : Z.sgn (Qnum y) = (-1)%Z).
        { apply Z.sgn_neg. unfold Qlt in Neg. simpl in Neg. lia. }
        rewrite S, (Qabs_neg y) by lra. change (inject_Z (-1)) with (-1).
        rewrite <- (Qabs_opp (inject_Z k * 2 ^ e - - y)).
        apply Qabs_wd. ring.
      - assert (S : Z.sgn (Qnum y) = 1%Z).
        { apply Z.sgn_pos. assert (0 < y) by lra. unfold Qlt in H. simpl in H. lia. }
        rewrite S, (Qabs_pos y) by lra. change (inject_Z 1) with 1.
        apply Qabs_wd. ring. }
    rewrite A.
    assert (B : Qabs (inject_Z k - Qabs y / 2 ^ e) * 2 ^ e <= (1 # 2) * 2 ^ e).
    { apply Qmult_le_compat_r; [exact Err | apply Qlt_le_weak; exact Pe]. }
    eapply Qle_trans; [exact B |].
    unfold e, FloatUlpExponent.
    destruct (Z.max_spec (Binade (Qabs y) - 23) (-149)) as [[_ ->] | [_ ->]].
    + apply Qle_trans with (2 ^ (-150)); [| apply Q.le_max_r].
      apply Qle_lteq. right. reflexivity.
    + apply Qle_trans with (Qabs x * (1 # 16777216)); [| apply Q.le_max_l].
      assert (Py : 0 < Qabs y).
      { destruct (Qlt_le_dec y 0) as [Neg | Pos].
        - rewrite Qabs_neg by lra. lra.
        - rewrite Qabs_pos by exact Pos.
          apply Qle_lteq in Pos. destruct Pos as [K | K]; [exact K |].
          exfalso. apply NZ. symmetry. exact K. }
      pose proof (Binade_le (Qabs y) Py) as BL.
      replace (Binade (Qabs y) - 23)%Z with (Binade (Qabs y) + -23)%Z by lia.
      rewrite Qpower_plus by discriminate.
      rewrite <- R.
      assert (C23 : (2:Q) ^ (-23) == 1 # 8388608) by reflexivity.
      rewrite C23. 
      set (w := 2 ^ Binade (Qabs y)) in *. clearbody w. lra.
Qed.

Lemma multiple_of_0 (S : Q) : multiple_of S 0.
Proof. exists 0%Z. simpl. ring. Qed.

Lemma multiple_of_plus (S x y : Q) :
  multiple_of S x -> multiple_of S y -> multiple_of S (x + y).
Proof.
  intros [k Hk] [l Hl]. exists (k + l)%Z.
  rewrite Hk, Hl, inject_Z_plus. ring.
Qed.

Lemma multiple_of_minus (S x y : Q) :
  multiple_of S x -> multiple_of S y -> multiple_of S (x - y).
Proof.
  intros [k Hk] [l Hl]. exists (k - l)%Z.
  rewrite Hk, Hl. unfold Z.sub. rewrite inject_Z_plus, inject_Z_opp. ring.
Qed.

Lemma multiple_of_Qeq (S x y : Q) : x == y -> multiple_of S x -> multiple_of S y.
Proof. intros E [k Hk]. exists k. rewrite <- E. exact Hk. Qed.

Lemma GridSnap_multiple (S x : Q) : 0 < S -> multiple_of S (GridSnap x S).
Proof.
  intros HS. unfold GridSnap.
  destruct (Qeq_bool S 0) eqn:E.
  - apply Qeq_bool_eq in E. rewrite E in HS. exfalso. revert HS. apply Qlt_irrefl.
  - eexists. reflexivity.
Qed.

(** Where the accumulated movement reaches the grid size, the snapped value is
    at least one grid step away from zero. *)
Lemma GridSnap_far (S x : Q) : 0 < S -> S <= Qabs x -> S <= Qabs (GridSnap x S).
Proof.
  intros HS Hx. unfold GridSnap.
  destruct (Qeq_bool S 0) eqn:E.
  { apply Qeq_bool_eq in E. rewrite E in HS. exfalso. revert HS. apply Qlt_irrefl. }
  set (k := Qfloor ((x + S / 2) / S)).
  assert (HSne : ~ S == 0) by (intros E0; rewrite E0 in HS; revert HS; apply Qlt_irrefl).
  destruct (Qlt_le_dec x 0) as [Hneg | Hpos].
  - (* x <= -S: the floor is at most -1 *)
    rewrite Qabs_neg in Hx by (apply Qlt_le_weak; exact Hneg).
    assert (Hk : (k <= -1)%Z).
    { assert (Hq : (x + S / 2) / S < inject_Z 0).
      { apply Qlt_shift_div_r; [exact HS |]. change (inject_Z 0) with 0.
        assert (S / 2 == S * (1 # 2)) by (field). lra. }
      pose proof (Qfloor_le ((x + S / 2) / S)) as Hf. fold k in Hf.
      assert (inject_Z k < inject_Z 0) by (eapply Qle_lt_trans; eassumption).
      rewrite <- Zlt_Qlt in H. lia. }
    assert (Hle : inject_Z k * S <= - S).
    { assert (inject_Z k <= -1).
      { change (-1) with (inject_Z (-1)). rewrite <- Zle_Qle. exact Hk. }
      nra. }
    rewrite Qabs_neg by lra. lra.
  - (* x >= S: the floor is at least 1 *)
    rewrite Qabs_pos in Hx by exact Hpos.
    assert (Hk : (1 <= k)%Z).
    { assert (Hq : inject_Z 1 <= (x + S / 2) / S).
      { apply Qle_shift_div_l; [exact HS |]. change (inject_Z 1) with 1.
        assert (S / 2 == S * (1 # 2)) by (field). lra. }
      apply Qfloor_resp_le in Hq. rewrite Qfloor_Z in Hq. exact Hq. }
    assert (Hle : S <= inject_Z k * S).
    { assert (1 <= inject_Z k).
      { change 1 with (inject_Z 1). rewrite <- Zle_Qle. exact Hk. }
      nra. }
    rewrite Qabs_pos by lra. exact Hle.
Qed.

Lemma SnapAxis_spec (S x : Q) :
  0 < S ->
  multiple_of S (fst (SnapAxis S x))
  /\ fst (SnapAxis S x) + snd (SnapAxis S x) == x
  /\ (fst (SnapAxis S x) = 0 /\ snd (SnapAxis S x) = x \/ S <= Qabs (fst (SnapAxis S x))).
Proof.
  intros HS. unfold SnapAxis.
  destruct (Qle_bool S (Qabs x)) eqn:E; simpl.
  - apply Qle_bool_iff in E. repeat split.
    + apply GridSnap_multiple; exact HS.
    + ring.
    + right. apply GridSnap_far; assumption.
  - repeat split.
    + apply multiple_of_0.
    + ring.
    + left. split; reflexivity.
Qed.

Lemma IsNearlyZero_true (v : FVector) :
  IsNearlyZero v = true ->
  Qabs (VecX v) <= KINDA_SMALL_NUMBER /\ Qabs (VecY v) <= KINDA_SMALL_NUMBER
  /\ Qabs (VecZ v) <= KINDA_SMALL_NUMBER.
Proof.
  unfold IsNearlyZero. rewrite !andb_true_iff, !Qle_bool_iff. tauto.
Qed.

(** The snap block: the delta to apply is a multiple of the grid size on each
    axis and, with what stays in the accumulator, adds up to the accumulated
    movement; at the early return nothing is lost as long as the grid size
    exceeds the tolerance of [IsNearlyZero]. *)
Lemma SnapAccumulatedMovement_spec (S : Q) (A : FVector) :
  0 < S ->
  match SnapAccumulatedMovement S A with
  | (R, Some D) => vec_multiple_of S D /\ VecAdd D R ≡ A
  | (R, None) => KINDA_SMALL_NUMBER < S -> R = A
  end.
Proof.
  intros HS. unfold SnapAccumulatedMovement.
  assert (E : Qltb 0 S = true) by (apply Qltb_lt; exact HS). rewrite E.
  destruct (SnapAxis_spec S (VecX A) HS) as (Mx & Sx & Fx).
  destruct (SnapAxis_spec S (VecY A) HS) as (My & Sy & Fy).
  destruct (SnapAxis_spec S (VecZ A) HS) as (Mz & Sz & Fz).
  destruct (SnapAxis S (VecX A)) as [dx ax].
  destruct (SnapAxis S (VecY A)) as [dy ay].
  destruct (SnapAxis S (VecZ A)) as [dz az].
  simpl in *.
  destruct (IsNearlyZero (MkVector dx dy dz)) eqn:N.
  - intros Htol. apply IsNearlyZero_true in N. simpl in N. destruct N as (Nx & Ny & Nz).
    assert (Hx : dx = 0 /\ ax = VecX A) by (destruct Fx as [? | ?]; [assumption | lra]).
    assert (Hy : dy = 0 /\ ay = VecY A) by (destruct Fy as [? | ?]; [assumption | lra]).
    assert (Hz : dz = 0 /\ az = VecZ A) by (destruct Fz as [? | ?]; [assumption | lra]).
    destruct Hx as [_ ->], Hy as [_ ->], Hz as [_ ->]. destruct A; reflexivity.
  - split.
    + repeat split; assumption.
    + repeat split; simpl; assumption.
Qed.

(** Without snapping the whole accumulated movement is applied. *)
Lemma SnapAccumulatedMovement_nosnap (S : Q) (A : FVector) :
  S <= 0 -> SnapAccumulatedMovement S A = (ZeroVector, Some A).
Proof.
  intros HS. unfold SnapAccumulatedMovement.
  assert (E : Qltb 0 S = false) by (apply Qltb_ge; exact HS). rewrite E. reflexivity.
Qed.

Lemma vec_multiple_of_zero (S : Q) : vec_multiple_of S ZeroVector.
Proof. repeat split; apply multiple_of_0. Qed.

Lemma vec_multiple_of_add (S : Q) (u v : FVector) :
  vec_multiple_of S u -> vec_multiple_of S v -> vec_multiple_of S (VecAdd u v).
Proof.
  intros (a & b & c) (d & e & f). repeat split; simpl; apply multiple_of_plus; assumption.
Qed.

Lemma vec_multiple_of_equiv (S : Q) (u v : FVector) :
  u ≡ v -> vec_multiple_of S u -> vec_multiple_of S v.
Proof.
  intros (a & b & c) (d & e & f).
  repeat split; eapply multiple_of_Qeq; eassumption.
Qed.

(** ** The host fields an operation leaves alone *)

Lemma SameButActors_refl (H : Host) : SameButActors H H.
Proof. repeat split. Qed.

Lemma SameButActors_trans (H1 H2 H3 : Host) :
  SameButActors H1 H2 -> SameButActors H2 H3 -> SameButActors H1 H3.
Proof.
  unfold SameButActors. intros A B.
  destruct A as (a1 & a2 & a3 & a4 & a5 & a6 & a7 & a8 & a9).
  destruct B as (b1 & b2 & b3 & b4 & b5 & b6 & b7 & b8 & b9).
  repeat split; congruence.
Qed.

Lemma SameButActors_set_Actors (f : gmap ActorId AActor -> gmap ActorId AActor) (H : Host) :
  SameButActors H (set_Actors f H).
Proof. repeat split. Qed.

Lemma foldl_SameButActors {A : Type} (f : Host -> A -> Host) (l : list A) :
  (forall H x, SameButActors H (f H x)) ->
  forall H, SameButActors H (foldl f H l).
Proof.
  intros Hf. induction l as [| x l IH]; intros H; simpl.
  - apply SameButActors_refl.
  - eapply SameButActors_trans; [apply Hf | apply IH].
Qed.

Lemma MoveOne_same (d : FVector) (H : Host) (o : option ActorId) :
  SameButActors H (MoveOne d H o).
Proof.
  unfold MoveOne. destruct (CastActor H o) as [[id x] |].
  - apply SameButActors_set_Actors.
  - apply SameButActors_refl.
Qed.

Lemma MoveSelection_same (d : FVector) (Sel : USelection) (H : Host) :
  SameButActors H (MoveSelection d Sel H).
Proof. apply foldl_SameButActors. intros; apply MoveOne_same. Qed.

(** ** Moving the selection *)

Lemma CastActor_Some (H : Host) (o : option ActorId) (id : ActorId) (x : AActor) :
  CastActor H o = Some (id, x) <-> o = Some id /\ Actors H !! id = Some x.
Proof.
  unfold CastActor. destruct o as [i |].
  - destruct (Actors H !! i) as [y |] eqn:E.
    + split.
      * intros [= -> ->]. auto.
      * intros [[= ->] K]. rewrite E in K. congruence.
    + split; [discriminate |]. intros [[= ->] K]. congruence.
  - split; [discriminate | intros [K _]; discriminate].
Qed.

Lemma CastActor_ext (H H' : Host) (o : option ActorId) :
  Actors H' = Actors H -> CastActor H' o = CastActor H o.
Proof. intros E. unfold CastActor. rewrite E. reflexivity. Qed.

Lemma LocationOf_ext (H H' : Host) (a : ActorId) :
  Actors H' = Actors H -> LocationOf H' a = LocationOf H a.
Proof. intros E. unfold LocationOf. rewrite E. reflexivity. Qed.

Lemma MoveOne_location (d : FVector) (H : Host) (o : option ActorId) (a : ActorId) :
  is_Some (Actors H !! a) ->
  is_Some (Actors (MoveOne d H o) !! a)
  /\ LocationOf (MoveOne d H o) a
     ≡ VecAdd (LocationOf H a) (Steps (if bool_decide (o = Some a) then 1 else 0) d).
Proof.
  intros [x Hx]. unfold MoveOne.
  destruct (CastActor H o) as [[id y] |] eqn:E.
  - apply CastActor_Some in E. destruct E as [-> Hy].
    destruct (decide (id = a)) as [-> | Hne].
    + rewrite bool_decide_eq_true_2 by reflexivity.
      unfold LocationOf. simpl. rewrite lookup_insert_eq, Hx.
      rewrite Hy in Hx. injection Hx as ->. split; [eauto |].
      unfold Steps. repeat split; simpl; ring.
    + rewrite bool_decide_eq_false_2 by congruence.
      unfold LocationOf. simpl. rewrite lookup_insert_ne by exact Hne. rewrite Hx.
      split; [eauto |]. unfold Steps. repeat split; simpl; ring.
  - assert (Hn : bool_decide (o = Some a) = false).
    { apply bool_decide_eq_false_2. intros ->. simpl in E. rewrite Hx in E. discriminate. }
    rewrite Hn. unfold LocationOf. rewrite Hx.
    split; [eauto |]. unfold Steps. repeat split; simpl; ring.
Qed.

Lemma MoveOne_dead (d : FVector) (H : Host) (o : option ActorId) (a : ActorId) :
  Actors H !! a = None -> Actors (MoveOne d H o) !! a = None.
Proof.
  intros Hx. unfold MoveOne.
  destruct (CastActor H o) as [[id y] |] eqn:E; [| exact Hx].
  apply CastActor_Some in E. destruct E as [-> Hy].
  simpl. rewrite lookup_insert_ne; [exact Hx | congruence].
Qed.

Lemma Steps_add (n m : nat) (d : FVector) (v : FVector) :
  VecAdd (VecAdd v (Steps n d)) (Steps m d) ≡ VecAdd v (Steps (n + m) d).
Proof.
  unfold Steps. rewrite Nat2Z.inj_add, inject_Z_plus.
  repeat split; simpl; ring.
Qed.

Lemma VecAdd_equiv_l (u u' v : FVector) : u ≡ u' -> VecAdd u v ≡ VecAdd u' v.
Proof.
  intros (a & b & c). repeat split; simpl; [rewrite a | rewrite b | rewrite c]; reflexivity.
Qed.

Lemma MoveSelection_location (d : FVector) (Sel : USelection) (H : Host) (a : ActorId) :
  is_Some (Actors H !! a) ->
  is_Some (Actors (MoveSelection d Sel H) !! a)
  /\ LocationOf (MoveSelection d Sel H) a
     ≡ VecAdd (LocationOf H a) (Steps (Occurrences a Sel) d).
Proof.
  unfold MoveSelection. revert H.
  induction Sel as [| o Sel IH]; intros H Ha; simpl.
  - split; [exact Ha |]. unfold Steps. repeat split; simpl; ring.
  - destruct (MoveOne_location d H o a Ha) as [Ha1 E1].
    destruct (IH _ Ha1) as [Ha2 E2].
    split; [exact Ha2 |].
    rewrite E2. rewrite (VecAdd_equiv_l _ _ _ E1). apply Steps_add.
Qed.

Lemma MoveSelection_dead (d : FVector) (Sel : USelection) (H : Host) (a : ActorId) :
  Actors H !! a = None -> Actors (MoveSelection d Sel H) !! a = None.
Proof.
  unfold MoveSelection. revert H.
  induction Sel as [| o Sel IH]; intros H Ha; simpl; [exact Ha |].
  apply IH. apply MoveOne_dead. exact Ha.
Qed.

Lemma FirstActor_ext (H H' : Host) (Sel : USelection) :
  Actors H' = Actors H -> FirstActor H' Sel = FirstActor H Sel.
Proof.
  intros E. induction Sel as [| o Sel IH]; simpl; [reflexivity |].
  rewrite (CastActor_ext _ _ _ E), IH. reflexivity.
Qed.

Lemma PivotSum_ext (H H' : Host) (Sel : USelection) :
  Actors H' = Actors H -> PivotSum H' Sel = PivotSum H Sel.
Proof.
  intros E. unfold PivotSum. generalize (ZeroVector, 0%nat).
  induction Sel as [| o Sel IH]; intros acc; simpl; [reflexivity |].
  rewrite (CastActor_ext _ _ _ E). apply IH.
Qed.

Lemma GetSelectionPivot_ext (env : Env) (H H' : Host) :
  Actors H' = Actors H -> GetSelectionPivot env H' = GetSelectionPivot env H.
Proof.
  intros E. unfold GetSelectionPivot.
  destruct (GEditor env) as [ed |]; [| reflexivity].
  destruct (SelectedActors ed) as [Sel |]; [| reflexivity].
  rewrite (PivotSum_ext _ _ _ E). reflexivity.
Qed.

Lemma DragUpAxis_ext (env : Env) (H H' : Host) (Sel : USelection) :
  Actors H' = Actors H -> DragUpAxis env H' Sel = DragUpAxis env H Sel.
Proof.
  intros E. unfold DragUpAxis. rewrite (FirstActor_ext _ _ _ E). reflexivity.
Qed.

(** ** The first movement of a drag *)

Lemma EnsureDragTransaction_spec (Description : string)
    (P : FLevelEditorShortcutsProcessor) (H : Host) :
  let P' := fst (EnsureDragTransaction Description P H) in
  let H' := snd (EnsureDragTransaction Description P H) in
  Actors H' = Actors H /\ ViewportSettings H' = ViewportSettings H
  /\ AccumulatedMovement P' = AccumulatedMovement P
  /\ TotalScaleDelta P' = TotalScaleDelta P
  /\ ScaleDragInitialScales P' = ScaleDragInitialScales P
  /\ bDragInitialized P' = bDragInitialized P
  /\ is_Some (DragTransaction P')
  /\ TransBegun H' = TransBegun H ++ match DragTransaction P with
                                    | Some _ => []
                                    | None => [Description]
                                    end
  /\ ActiveCount H' = (ActiveCount H + (1 - OpenDragTransactions P))%nat.
Proof.
  unfold EnsureDragTransaction, OpenDragTransactions.
  destruct (DragTransaction P) as [t |] eqn:E; simpl.
  - rewrite E, app_nil_r. repeat split; eauto; lia.
  - repeat split; eauto; lia.
Qed.

Lemma InitializeDrag_spec (Description : string)
    (P : FLevelEditorShortcutsProcessor) (H : Host) :
  let P' := fst (InitializeDrag Description P H) in
  let H' := snd (InitializeDrag Description P H) in
  Actors H' = Actors H /\ ViewportSettings H' = ViewportSettings H
  /\ AccumulatedMovement P' = AccumulatedMovement P
  /\ TotalScaleDelta P' = TotalScaleDelta P
  /\ ScaleDragInitialScales P' = ScaleDragInitialScales P
  /\ bDragInitialized P' = true.
Proof.
  unfold InitializeDrag.
  destruct (bDragInitialized P) eqn:E; simpl.
  - repeat split; assumption.
  - pose proof (EnsureDragTransaction_spec Description (set_bDragInitialized true P) H) as K.
    simpl in K. destruct K as (k1 & k2 & k3 & k4 & k5 & k6 & _).
    repeat split; assumption.
Qed.

(** ** One frame of a move drag *)

(** Both move functions are their guards, the first-movement block, and the
    common tail on the movement of the frame. *)
Lemma RunDragFrame_unfold (f : DragFrame) (P : FLevelEditorShortcutsProcessor) (H : Host) :
  RunDragFrame f P H =
  match MoveGuards (FrameEnv f) with
  | None => (P, H)
  | Some (Selection, _) =>
      let '(P1, H1) := InitializeDrag (FrameDescription f) P H in
      AccumulateAndMove (FrameInput f H) Selection P1 H1
  end.
Proof.
  destruct f as [env md | env dy]; simpl;
    unfold MoveSelectedActorsHorizontal, MoveSelectedActorsVertical, FrameInput, MoveGuards;
    simpl;
    (destruct (GEditor env) as [ed |]; [| reflexivity]);
    (destruct (SelectedActors ed) as [Sel |]; [| reflexivity]);
    (destruct (Nat.eqb (length Sel) 0); [reflexivity |]);
    (destruct (GetActiveViewportClient env) as [vc |]; [| reflexivity]).
  - pose proof (InitializeDrag_spec "Move Horizontal" P H) as K.
    destruct (InitializeDrag "Move Horizontal" P H) as [P1 H1]. simpl in K.
    destruct K as (k1 & _).
    rewrite (DragUpAxis_ext _ _ _ _ k1), (GetSelectionPivot_ext _ _ _ k1). reflexivity.
  - pose proof (InitializeDrag_spec "Move Vertical" P H) as K.
    destruct (InitializeDrag "Move Vertical" P H) as [P1 H1]. simpl in K.
    destruct K as (k1 & _).
    rewrite (DragUpAxis_ext _ _ _ _ k1), (GetSelectionPivot_ext _ _ _ k1). reflexivity.
Qed.

Lemma AccumulateAndMove_spec (Delta : FVector) (Sel : USelection)
    (P : FLevelEditorShortcutsProcessor) (H : Host) :
  let S := GetGridSnapSize H in
  let P' := fst (AccumulateAndMove Delta Sel P H) in
  let H' := snd (AccumulateAndMove Delta Sel P H) in
  ViewportSettings H' = ViewportSettings H
  /\ (forall a, Actors H !! a = None -> Actors H' !! a = None)
  /\ (forall a, is_Some (Actors H !! a) -> is_Some (Actors H' !! a))
  /\ (0 < S -> forall a, exists D, vec_multiple_of S D /\ LocationOf H' a ≡ VecAdd (LocationOf H a) D)
  /\ (KINDA_SMALL_NUMBER < S -> forall a,
        is_Some (Actors H !! a) -> SelectedOnce a Sel ->
        VecAdd (LocationOf H' a) (AccumulatedMovement P')
        ≡ VecAdd (VecAdd (LocationOf H a) (AccumulatedMovement P)) Delta).
Proof.
  intros S P' H'. subst P' H'. unfold AccumulateAndMove. fold S.
  pose proof (SnapAccumulatedMovement_spec S (VecAdd (AccumulatedMovement P) Delta)) as Spec.
  destruct (SnapAccumulatedMovement S (VecAdd (AccumulatedMovement P) Delta)) as [R [D |]];
    simpl.
  - pose proof (MoveSelection_same D Sel H) as Same.
    destruct Same as (_ & _ & s3 & _).
    split; [exact s3 |].
    split; [intros a; apply MoveSelection_dead |].
    split; [intros a Ha; apply (MoveSelection_location D Sel H a Ha) |].
    split.
    + intros HS a. destruct (Spec HS) as [MD _].
      destruct (Actors H !! a) as [x |] eqn:Ea.
      * destruct (MoveSelection_location D Sel H a) as [_ E]; [rewrite Ea; eauto |].
        exists (Steps (Occurrences a Sel) D). split; [| exact E].
        destruct MD as ([kx Hx] & [ky Hy] & [kz Hz]). unfold Steps.
        repeat split; simpl.
        -- exists (kx * Z.of_nat (Occurrences a Sel))%Z. rewrite Hx, inject_Z_mult. ring.
        -- exists (ky * Z.of_nat (Occurrences a Sel))%Z. rewrite Hy, inject_Z_mult. ring.
        -- exists (kz * Z.of_nat (Occurrences a Sel))%Z. rewrite Hz, inject_Z_mult. ring.
      * exists ZeroVector. split; [apply vec_multiple_of_zero |].
        unfold LocationOf at 1 2. simpl.
        rewrite (MoveSelection_dead D Sel H a Ea), Ea. repeat split; simpl; ring.
    + intros Htol a Ha Once.
      assert (HS : 0 < S) by (eapply Qlt_trans; [| exact Htol]; reflexivity).
      destruct (Spec HS) as [_ (ex & ey & ez)]. simpl in ex, ey, ez.
      destruct (MoveSelection_location D Sel H a Ha) as [_ (lx & ly & lz)].
      unfold SelectedOnce in Once. rewrite Once in lx, ly, lz.
      unfold Steps in lx, ly, lz. simpl in lx, ly, lz.
      unfold LocationOf at 1. simpl. fold (LocationOf (MoveSelection D Sel H) a).
      change (inject_Z (Z.of_nat 1)) with 1 in lx, ly, lz.
      repeat split; simpl; [rewrite lx | rewrite ly | rewrite lz]; lra.
  - split; [reflexivity |].
    split; [auto |]. split; [auto |]. split.
    + intros _ a. exists ZeroVector. split; [apply vec_multiple_of_zero |].
      repeat split; simpl; ring.
    + intros Htol a Ha Once.
      assert (HS : 0 < S) by (eapply Qlt_trans; [| exact Htol]; reflexivity).
      rewrite (Spec HS Htol). repeat split; simpl; ring.
Qed.

Lemma GetGridSnapSize_ext (H H' : Host) :
  ViewportSettings H' = ViewportSettings H -> GetGridSnapSize H' = GetGridSnapSize H.
Proof. intros E. unfold GetGridSnapSize. rewrite E. reflexivity. Qed.

Lemma RunDragFrame_spec (f : DragFrame) (P : FLevelEditorShortcutsProcessor) (H : Host) :
  let S := GetGridSnapSize H in
  let P' := fst (RunDragFrame f P H) in
  let H' := snd (RunDragFrame f P H) in
  ViewportSettings H' = ViewportSettings H
  /\ (forall a, is_Some (Actors H !! a) -> is_Some (Actors H' !! a))
  /\ (0 < S -> forall a, exists D, vec_multiple_of S D /\ LocationOf H' a ≡ VecAdd (LocationOf H a) D)
  /\ (KINDA_SMALL_NUMBER < S -> forall a,
        is_Some (Actors H !! a) -> TrackedIn a f ->
        VecAdd (LocationOf H' a) (AccumulatedMovement P')
        ≡ VecAdd (VecAdd (LocationOf H a) (AccumulatedMovement P)) (FrameInput f H)).
Proof.
  intros S P' H'. subst P' H'. rewrite RunDragFrame_unfold.
  unfold TrackedIn.
  destruct (MoveGuards (FrameEnv f)) as [[Sel vc] |] eqn:G.
  - pose proof (InitializeDrag_spec (FrameDescription f) P H) as I.
    destruct (InitializeDrag (FrameDescription f) P H) as [P1 H1]. simpl in I.
    destruct I as (i1 & i2 & i3 & _).
    pose proof (AccumulateAndMove_spec (FrameInput f H) Sel P1 H1) as A.
    simpl in A. rewrite (GetGridSnapSize_ext _ _ i2) in A. fold S in A.
    destruct A as (a1 & _ & a3 & a4 & a5).
    rewrite i1 in a3.
    split; [congruence |]. split; [exact a3 |]. split.
    + intros HS a. destruct (a4 HS a) as [D [MD ED]]. exists D. split; [exact MD |].
      rewrite (LocationOf_ext _ _ _ i1) in ED. exact ED.
    + intros Htol a Ha Once. specialize (a5 Htol a).
      rewrite i1, i3, (LocationOf_ext _ _ _ i1) in a5. apply a5; assumption.
  - simpl. split; [reflexivity |]. split; [auto |]. split.
    + intros _ a. exists ZeroVector. split; [apply vec_multiple_of_zero |].
      repeat split; simpl; ring.
    + intros _ a _ _. unfold FrameInput. rewrite G. repeat split; simpl; ring.
Qed.

(** Where nothing is lost: when the grid size exceeds the tolerance of
    [IsNearlyZero], for an actor selected exactly once in every frame that
    passes the guards, the movement applied to it plus the residual in
    [AccumulatedMovement] is the initial residual plus the total movement
    accumulated by the frames. *)
Lemma drag_conserves_movement_above_tolerance (fs : list DragFrame)
    (P0 : FLevelEditorShortcutsProcessor) (H0 : Host) (a : ActorId) :
  KINDA_SMALL_NUMBER < GetGridSnapSize H0 ->
  is_Some (Actors H0 !! a) -> Forall (TrackedIn a) fs ->
  VecAdd (LocationOf (snd (RunDragFrames fs P0 H0)) a)
         (AccumulatedMovement (fst (RunDragFrames fs P0 H0)))
  ≡ VecAdd (VecAdd (LocationOf H0 a) (AccumulatedMovement P0)) (TotalInput fs P0 H0).
Proof.
  revert P0 H0. induction fs as [| f fs IH]; intros P0 H0 Htol Ha Tr.
  - repeat split; simpl; ring.
  - pose proof (RunDragFrame_spec f P0 H0) as F. simpl in F. simpl.
    destruct (RunDragFrame f P0 H0) as [P1 H1]. simpl in F.
    destruct F as (f1 & f2 & _ & f4).
    pose proof (GetGridSnapSize_ext _ _ f1) as ES.
    inversion Tr as [| ? ? T1 T2]; subst.
    specialize (IH P1 H1). rewrite ES in IH.
    specialize (IH Htol (f2 a Ha) T2). specialize (f4 Htol a Ha T1).
    rewrite IH. destruct f4 as (x & y & z). simpl in x, y, z.
    repeat split; simpl; lra.
Qed.

(** *** Grid steps below the tolerance of [IsNearlyZero] *)

(** One grid step along X, at a grid size within the tolerance: the step is
    taken out of the accumulator and then the early return "haven't
    accumulated enough movement for a snap" is taken. *)
Lemma SnapAccumulatedMovement_drops_step (S : Q) (A : FVector) :
  0 < S -> S <= KINDA_SMALL_NUMBER -> A ≡ MkVector S 0 0 ->
  exists R, SnapAccumulatedMovement S A = (R, None) /\ R ≡ ZeroVector.
Proof.
  intros HS Htol (ax & ay & az). cbn [VecX VecY VecZ] in ax, ay, az.
  unfold SnapAccumulatedMovement.
  assert (L : Qltb 0 S = true) by (apply Qltb_lt; exact HS). rewrite L.
  assert (NZ : Qeq_bool S 0 = false).
  { destruct (Qeq_bool S 0) eqn:E; [| reflexivity]. apply Qeq_bool_eq in E. lra. }
  assert (SX : SnapAxis S (VecX A) = (GridSnap (VecX A) S, VecX A - GridSnap (VecX A) S)).
  { unfold SnapAxis.
    assert (K : Qle_bool S (Qabs (VecX A)) = true).
    { apply Qle_bool_iff. rewrite ax, Qabs_pos; lra. }
    rewrite K. reflexivity. }
  assert (GX : GridSnap (VecX A) S == S).
  { unfold GridSnap. rewrite NZ.
    assert (F : (VecX A + S / 2) / S == 3 # 2) by (rewrite ax; field; lra).
    rewrite (Qfloor_comp _ _ F). change (inject_Z (Qfloor (3 # 2))) with 1. ring. }
  assert (SY : forall y, y == 0 -> SnapAxis S y = (0, y)).
  { intros y Hy. unfold SnapAxis.
    assert (K : Qle_bool S (Qabs y) = false).
    { destruct (Qle_bool S (Qabs y)) eqn:E; [| reflexivity].
      apply Qle_bool_iff in E. rewrite Hy in E. change (Qabs 0) with 0 in E. lra. }
    rewrite K. reflexivity. }
  rewrite SX, (SY _ ay), (SY _ az).
  assert (NZero : IsNearlyZero (MkVector (GridSnap (VecX A) S) 0 0) = true).
  { unfold IsNearlyZero. cbn [VecX VecY VecZ].
    assert (K : Qle_bool (Qabs (GridSnap (VecX A) S)) KINDA_SMALL_NUMBER = true).
    { apply Qle_bool_iff. rewrite GX, Qabs_pos; lra. }
    rewrite K. reflexivity. }
  rewrite NZero. eexists. split; [reflexivity |].
  repeat split; cbn [VecX VecY VecZ ZeroVector]; lra.
Qed.

Lemma RunDragFrame_drops_step (f : DragFrame)
    (P : FLevelEditorShortcutsProcessor) (H : Host) :
  0 < GetGridSnapSize H -> GetGridSnapSize H <= KINDA_SMALL_NUMBER ->
  AccumulatedMovement P ≡ ZeroVector ->
  is_Some (MoveGuards (FrameEnv f)) ->
  FrameInput f H ≡ MkVector (GetGridSnapSize H) 0 0 ->
  Actors (snd (RunDragFrame f P H)) = Actors H
  /\ ViewportSettings (snd (RunDragFrame f P H)) = ViewportSettings H
  /\ AccumulatedMovement (fst (RunDragFrame f P H)) ≡ ZeroVector.
Proof.
  intros HS Htol Res [[Sel vc] G] In. rewrite RunDragFrame_unfold, G.
  pose proof (InitializeDrag_spec (FrameDescription f) P H) as I.
  destruct (InitializeDrag (FrameDescription f) P H) as [P1 H1]. simpl in I.
  destruct I as (i1 & i2 & i3 & _).
  unfold AccumulateAndMove. rewrite (GetGridSnapSize_ext _ _ i2), i3.
  destruct (SnapAccumulatedMovement_drops_step (GetGridSnapSize H)
              (VecAdd (AccumulatedMovement P) (FrameInput f H)) HS Htol) as (R & E & RZ).
  { destruct Res as (rx & ry & rz). destruct In as (ix & iy & iz).
    cbn [VecX VecY VecZ ZeroVector] in *.
    repeat split; cbn [VecX VecY VecZ VecAdd]; lra. }
  rewrite E. cbn [fst snd AccumulatedMovement set_AccumulatedMovement].
  split; [exact i1 |]. split; [exact i2 | exact RZ].
Qed.

(** C1. With grid snapping at a grid size S that is positive and within the
    tolerance of [IsNearlyZero] (1.e-4f), the claim fails on the code: in a
    drag of any number n of frames, each adding exactly one grid step along X
    to an empty accumulator, every frame takes the snapped step out of
    [AccumulatedMovement] and then returns before moving anything. After the
    n frames no actor has moved and the residual is zero, although the frames
    accumulated n * S of movement: applied movement plus residual falls short
    of the accumulated input by n * S. *)
Theorem drag_snap_drops_steps_below_tolerance (n : nat) (f : DragFrame)
    (P0 : FLevelEditorShortcutsProcessor) (H0 : Host) :
  0 < GetGridSnapSize H0 ->
  GetGridSnapSize H0 <= KINDA_SMALL_NUMBER ->
  AccumulatedMovement P0 ≡ ZeroVector ->
  is_Some (MoveGuards (FrameEnv f)) ->
  (forall H, Actors H = Actors H0 -> FrameInput f H ≡ MkVector (GetGridSnapSize H0) 0 0) ->
  Actors (snd (RunDragFrames (repeat f n) P0 H0)) = Actors H0
  /\ AccumulatedMovement (fst (RunDragFrames (repeat f n) P0 H0)) ≡ ZeroVector
  /\ TotalInput (repeat f n) P0 H0 ≡ Steps n (MkVector (GetGridSnapSize H0) 0 0).
Proof.
  intros HS Htol Res G In.
  assert (Gen : forall P H,
            Actors H = Actors H0 -> ViewportSettings H = ViewportSettings H0 ->
            AccumulatedMovement P ≡ ZeroVector ->
            Actors (snd (RunDragFrames (repeat f n) P H)) = Actors H0
            /\ AccumulatedMovement (fst (RunDragFrames (repeat f n) P H)) ≡ ZeroVector
            /\ TotalInput (repeat f n) P H ≡ Steps n (MkVector (GetGridSnapSize H0) 0 0)).
  { induction n as [| n IH]; intros P H EA EV RZ.
    - cbn [repeat RunDragFrames TotalInput fst snd].
      split; [exact EA |]. split; [exact RZ |].
      repeat split; cbn [VecX VecY VecZ ZeroVector Steps VecScale]; ring.
    - pose proof (GetGridSnapSize_ext _ _ EV) as ES.
      assert (F : Actors (snd (RunDragFrame f P H)) = Actors H
                  /\ ViewportSettings (snd (RunDragFrame f P H)) = ViewportSettings H
                  /\ AccumulatedMovement (fst (RunDragFrame f P H)) ≡ ZeroVector).
      { apply RunDragFrame_drops_step; rewrite ?ES; try assumption. apply In. exact EA. }
      cbn [repeat RunDragFrames TotalInput].
      destruct (RunDragFrame f P H) as [P1 H1]. cbn [fst snd] in F.
      destruct F as (f1 & f2 & f3).
      destruct (IH P1 H1) as (r1 & r2 & r3); [congruence | congruence | exact f3 |].
      split; [exact r1 |]. split; [exact r2 |].
      destruct (In H EA) as (ix & iy & iz). destruct r3 as (tx & ty & tz).
      cbn [VecX VecY VecZ Steps VecScale VecAdd] in *.
      unfold Steps. rewrite Nat2Z.inj_succ. unfold Z.succ. rewrite inject_Z_plus.
      change (inject_Z 1) with 1.
      repeat split; cbn [VecX VecY VecZ VecAdd VecScale];
        [rewrite ix, tx | rewrite iy, ty | rewrite iz, tz]; ring. }
  apply Gen; [reflexivity | reflexivity | exact Res].
Qed.

(** ** The R-drag *)

Lemma ScaleOne_same (m : Q) (H : Host) (p : ActorId * FVector) :
  SameButActors H (ScaleOne m H p).
Proof.
  unfold ScaleOne. destruct (Actors H !! fst p).
  - apply SameButActors_set_Actors.
  - apply SameButActors_refl.
Qed.

Lemma ScaleSnapshotActors_same (m : Q) (Snapshot : list (ActorId * FVector)) (H : Host) :
  SameButActors H (ScaleSnapshotActors m Snapshot H).
Proof. apply foldl_SameButActors. intros; apply ScaleOne_same. Qed.

Lemma ScaleOne_other (m : Q) (H : Host) (p : ActorId * FVector) (a : ActorId) :
  fst p <> a -> Actors (ScaleOne m H p) !! a = Actors H !! a.
Proof.
  intros Hne. unfold ScaleOne. destruct (Actors H !! fst p); [| reflexivity].
  simpl. apply lookup_insert_ne. exact Hne.
Qed.

Lemma ScaleOne_hit (m : Q) (H : Host) (a : ActorId) (s : FVector) :
  is_Some (Actors H !! a) -> ScaleOf (ScaleOne m H (a, s)) a = Some (ScaledFrom s m).
Proof.
  intros [x Hx]. unfold ScaleOne, ScaleOf. simpl. rewrite Hx. simpl.
  rewrite lookup_insert_eq. reflexivity.
Qed.

(** After the loop, an actor of the snapshot has its snapshot scale times the
    multiplier (clamped): whatever scale it had before the frame is gone. *)
Lemma ScaleSnapshotActors_scale (m : Q) (Snapshot : list (ActorId * FVector))
    (H : Host) (a : ActorId) (s : FVector) :
  (forall s', In (a, s') Snapshot -> s' = s) ->
  is_Some (Actors H !! a) ->
  is_Some (Actors (ScaleSnapshotActors m Snapshot H) !! a)
  /\ (ScaleOf (ScaleSnapshotActors m Snapshot H) a = ScaleOf H a
      \/ ScaleOf (ScaleSnapshotActors m Snapshot H) a = Some (ScaledFrom s m))
  /\ (In (a, s) Snapshot ->
      ScaleOf (ScaleSnapshotActors m Snapshot H) a = Some (ScaledFrom s m)).
Proof.
  unfold ScaleSnapshotActors. revert H.
  induction Snapshot as [| [b t] rest IH]; intros H Same Ha; simpl.
  - split; [exact Ha |]. split; [left; reflexivity | intros []].
  - assert (SameRest : forall s', In (a, s') rest -> s' = s)
      by (intros s' K; apply Same; right; exact K).
    destruct (decide (b = a)) as [-> | Hne].
    + assert (t = s) as -> by (apply Same; left; reflexivity).
      pose proof (ScaleOne_hit m H a s Ha) as Hit.
      assert (Ha1 : is_Some (Actors (ScaleOne m H (a, s)) !! a)).
      { unfold ScaleOf in Hit. destruct (Actors (ScaleOne m H (a, s)) !! a); [eauto | discriminate]. }
      destruct (IH _ SameRest Ha1) as (i1 & i2 & i3).
      assert (Fin : ScaleOf (foldl (ScaleOne m) (ScaleOne m H (a, s)) rest) a
                    = Some (ScaledFrom s m))
        by (destruct i2 as [E | E]; [rewrite E; exact Hit | exact E]).
      split; [exact i1 |]. split; [right; exact Fin | intros _; exact Fin].
    + assert (Ea : Actors (ScaleOne m H (b, t)) !! a = Actors H !! a)
        by (apply ScaleOne_other; exact Hne).
      assert (Ha1 : is_Some (Actors (ScaleOne m H (b, t)) !! a)) by (rewrite Ea; exact Ha).
      destruct (IH _ SameRest Ha1) as (i1 & i2 & i3).
      assert (Es : ScaleOf (ScaleOne m H (b, t)) a = ScaleOf H a)
        by (unfold ScaleOf; rewrite Ea; reflexivity).
      split; [exact i1 |]. split.
      * rewrite <- Es. exact i2.
      * intros [K | K]; [congruence | apply i3; exact K].
Qed.

Lemma In_CaptureInitialScales (H : Host) (Sel : USelection) (a : ActorId) (s : FVector) :
  In (a, s) (CaptureInitialScales H Sel) <-> In (Some a) Sel /\ ScaleOf H a = Some s.
Proof.
  unfold CaptureInitialScales. rewrite <- !list_elem_of_In, list_elem_of_omap.
  split.
  - intros (o & Ho & K). destruct (CastActor H o) as [[id x] |] eqn:E; [| discriminate].
    apply CastActor_Some in E. destruct E as [-> Hx]. injection K as -> <-.
    split; [exact Ho |]. unfold ScaleOf. rewrite Hx. reflexivity.
  - intros [Ho K]. exists (Some a). split; [exact Ho |].
    unfold ScaleOf in K. simpl. destruct (Actors H !! a) as [x |]; [| discriminate].
    injection K as <-. reflexivity.
Qed.

Lemma ScaleMultiplierOf_ext (ed : UEditorEngine) (H H' : Host) (t : Q) :
  ViewportSettings H' = ViewportSettings H ->
  ScaleMultiplierOf ed H' t = ScaleMultiplierOf ed H t.
Proof. intros E. unfold ScaleMultiplierOf. rewrite E. reflexivity. Qed.

(** [ScaleSelectedActorsUniform] past its guards. *)
Lemma ScaleSelectedActorsUniform_unfold (env : Env) (md : FVector2D)
    (P : FLevelEditorShortcutsProcessor) (H : Host) :
  ScaleSelectedActorsUniform env md P H =
  match ScaleGuards env with
  | None => (P, H)
  | Some (ed, Selection) =>
      let '(P1, H1) :=
        if negb (bDragInitialized P) then
          let '(P1, H1) :=
            EnsureDragTransaction "Scale Uniform" (set_bDragInitialized true P) H in
          (set_ScaleDragInitialScales (CaptureInitialScales H1 Selection) P1, H1)
        else (P, H) in
      let P2 := set_TotalScaleDelta (NextScaleDelta (TotalScaleDelta P1) md) P1 in
      (P2, RedrawLevelEditingViewports
             (ScaleSnapshotActors (ScaleMultiplierOf ed H1 (TotalScaleDelta P2))
                (ScaleDragInitialScales P2) H1))
  end.
Proof.
  unfold ScaleSelectedActorsUniform, ScaleGuards, NextScaleDelta.
  destruct (GEditor env) as [ed |]; [| reflexivity].
  destruct (SelectedActors ed) as [Sel |]; [| reflexivity].
  destruct (Nat.eqb (length Sel) 0); [reflexivity |].
  destruct (negb (bDragInitialized P)).
  - destruct (EnsureDragTransaction "Scale Uniform" (set_bDragInitialized true P) H)
      as [P1 H1]. reflexivity.
  - reflexivity.
Qed.

Lemma ScaleFrame_first (env : Env) (md : FVector2D) (ed : UEditorEngine) (Sel : USelection)
    (P : FLevelEditorShortcutsProcessor) (H : Host) (a : ActorId) (s : FVector) :
  ScaleGuards env = Some (ed, Sel) ->
  bDragInitialized P = false ->
  In (Some a) Sel -> ScaleOf H a = Some s ->
  let P' := fst (ScaleSelectedActorsUniform env md P H) in
  let H' := snd (ScaleSelectedActorsUniform env md P H) in
  InScaleDrag a s P' H'
  /\ ViewportSettings H' = ViewportSettings H
  /\ TotalScaleDelta P' = NextScaleDelta (TotalScaleDelta P) md
  /\ ScaleOf H' a = Some (ScaledFrom s (ScaleMultiplierOf ed H (TotalScaleDelta P'))).
Proof.
  intros G Init Hin Hs. rewrite ScaleSelectedActorsUniform_unfold, G, Init. simpl negb. cbv iota.
  pose proof (EnsureDragTransaction_spec "Scale Uniform" (set_bDragInitialized true P) H) as E.
  destruct (EnsureDragTransaction "Scale Uniform" (set_bDragInitialized true P) H) as [P1 H1].
  simpl in E. destruct E as (e1 & e2 & _ & e4 & _ & e6 & _).
  simpl.
  assert (Hs1 : ScaleOf H1 a = Some s) by (unfold ScaleOf; rewrite e1; exact Hs).
  assert (Ha1 : is_Some (Actors H1 !! a)).
  { unfold ScaleOf in Hs1. destruct (Actors H1 !! a); [eauto | discriminate]. }
  assert (InSnap : In (a, s) (CaptureInitialScales H1 Sel))
    by (apply In_CaptureInitialScales; auto).
  assert (SameSnap : forall s', In (a, s') (CaptureInitialScales H1 Sel) -> s' = s).
  { intros s' K. apply In_CaptureInitialScales in K. destruct K as [_ K]. congruence. }
  set (m := ScaleMultiplierOf ed H1 (NextScaleDelta (TotalScaleDelta P1) md)).
  destruct (ScaleSnapshotActors_scale m _ H1 a s SameSnap Ha1) as (k1 & _ & k3).
  pose proof (ScaleSnapshotActors_same m (CaptureInitialScales H1 Sel) H1) as (_ & _ & v & _).
  repeat split.
  - exact e6.
  - exact InSnap.
  - exact SameSnap.
  - exact k1.
  - congruence.
  - rewrite e4. reflexivity.
  - unfold ScaleOf in *. simpl. rewrite (k3 InSnap). subst m.
    rewrite (ScaleMultiplierOf_ext ed H H1 _ e2), e4. reflexivity.
Qed.

Lemma ScaleFrame_next (env : Env) (md : FVector2D) (ed : UEditorEngine) (Sel : USelection)
    (P : FLevelEditorShortcutsProcessor) (H : Host) (a : ActorId) (s : FVector) :
  ScaleGuards env = Some (ed, Sel) ->
  InScaleDrag a s P H ->
  let P' := fst (ScaleSelectedActorsUniform env md P H) in
  let H' := snd (ScaleSelectedActorsUniform env md P H) in
  InScaleDrag a s P' H'
  /\ ViewportSettings H' = ViewportSettings H
  /\ TotalScaleDelta P' = NextScaleDelta (TotalScaleDelta P) md
  /\ ScaleOf H' a = Some (ScaledFrom s (ScaleMultiplierOf ed H (TotalScaleDelta P'))).
Proof.
  intros G (Init & InSnap & SameSnap & Ha).
  rewrite ScaleSelectedActorsUniform_unfold, G, Init. simpl.
  set (m := ScaleMultiplierOf ed H (NextScaleDelta (TotalScaleDelta P) md)).
  destruct (ScaleSnapshotActors_scale m _ H a s SameSnap Ha) as (k1 & _ & k3).
  pose proof (ScaleSnapshotActors_same m (ScaleDragInitialScales P) H) as (_ & _ & v & _).
  repeat split; try assumption.
  unfold ScaleOf in *. simpl. exact (k3 InSnap).
Qed.

Lemma ScaleRun_inv (fs : list (Env * FVector2D)) :
  forall (P : FLevelEditorShortcutsProcessor) (H : Host) (a : ActorId) (s : FVector),
  InScaleDrag a s P H ->
  Forall (fun f => is_Some (ScaleGuards (fst f))) fs ->
  InScaleDrag a s (fst (RunScaleFrames fs P H)) (snd (RunScaleFrames fs P H))
  /\ ViewportSettings (snd (RunScaleFrames fs P H)) = ViewportSettings H
  /\ TotalScaleDelta (fst (RunScaleFrames fs P H))
     = AccumulatedScaleDelta (TotalScaleDelta P) fs
  /\ (fs <> [] -> forall d ed Sel,
        ScaleGuards (fst (List.last fs d)) = Some (ed, Sel) ->
        ScaleOf (snd (RunScaleFrames fs P H)) a
        = Some (ScaledFrom s
                  (ScaleMultiplierOf ed H (TotalScaleDelta (fst (RunScaleFrames fs P H)))))).
Proof.
  induction fs as [| [env md] fs IH]; intros P H a s Inv All.
  - simpl. split; [exact Inv |]. split; [reflexivity |].
    split; [reflexivity | intros K; congruence].
  - inversion All as [| ? ? G Rest]; subst. simpl in G. destruct G as [[ed Sel] G].
    pose proof (ScaleFrame_next env md ed Sel P H a s G Inv) as F. simpl in F.
    simpl. destruct (ScaleSelectedActorsUniform env md P H) as [P1 H1]. simpl in F.
    destruct F as (Inv1 & v1 & t1 & s1).
    destruct (IH P1 H1 a s Inv1 Rest) as (Inv2 & v2 & t2 & s2).
    split; [exact Inv2 |]. split; [congruence |]. split.
    + rewrite t2, t1. reflexivity.
    + intros _ d edL SelL GL. destruct fs as [| f' fs'].
      * simpl in *. rewrite G in GL. injection GL as <- <-. exact s1.
      * rewrite (s2 ltac:(discriminate) d edL SelL).
        -- rewrite (ScaleMultiplierOf_ext edL H H1 _ v1). reflexivity.
        -- exact GL.
Qed.

Lemma ScaledFrom_unit (s : FVector) (m : Q) :
  m == 1 -> AtLeastMinimumScale s -> ScaledFrom s m ≡ s.
Proof.
  intros Hm (hx & hy & hz). unfold ScaledFrom, ComponentMax.
  repeat split; cbn [VecX VecY VecZ VecScale]; rewrite Q.max_l; rewrite ?Hm; try ring; lra.
Qed.

Lemma ScaleMultiplierOf_nosnap (ed : UEditorEngine) (H : Host) (t : Q) :
  ScaleSnapDisabled H -> ScaleMultiplierOf ed H t = Qmax (FloatAdd 1 t) Float_0_01.
Proof.
  unfold ScaleSnapDisabled, ScaleMultiplierOf.
  destruct (ViewportSettings H) as [vs |]; [intros -> |]; reflexivity.
Qed.

(** With scale snapping off, an accumulator at zero gives the multiplier 1. *)
Lemma ScaleMultiplierOf_zero (ed : UEditorEngine) (H : Host) (t : Q) :
  ScaleSnapDisabled H -> t == 0 -> ScaleMultiplierOf ed H t == 1.
Proof.
  intros NoSnap T. rewrite (ScaleMultiplierOf_nosnap ed H t NoSnap).
  unfold FloatAdd. rewrite (RoundToFloat_Qeq (1 + t) 1) by (rewrite T; reflexivity).
  reflexivity.
Qed.

(** C2 (as amended). In a run of R-drag frames (no key released in between),
    every frame sets the scale of every actor of the snapshot taken at the
    first movement to its snapshot scale times the multiplier of the frame,
    each component clamped to at least [0.001f]: the scale of the previous
    frame plays no part. The multiplier depends only on [TotalScaleDelta],
    which accumulates, in single precision, [0.004f] times the
    (deltaX - deltaY) of each frame. Hence, with scale snapping disabled, an
    actor whose pre-drag scale components are all at least [0.001f] is at
    exactly its pre-drag scale whenever [TotalScaleDelta] is back at zero. *)
Theorem scale_drag_applies_to_snapshot (f0 : Env * FVector2D) (fs : list (Env * FVector2D))
    (P0 : FLevelEditorShortcutsProcessor) (H0 : Host) (a : ActorId) (s : FVector)
    (ed0 edL : UEditorEngine) (Sel0 SelL : USelection) :
  bDragInitialized P0 = false ->
  Forall (fun f => is_Some (ScaleGuards (fst f))) (f0 :: fs) ->
  ScaleGuards (fst f0) = Some (ed0, Sel0) ->
  In (Some a) Sel0 ->
  ScaleOf H0 a = Some s ->
  ScaleGuards (fst (List.last fs f0)) = Some (edL, SelL) ->
  ScaleOf (snd (RunScaleFrames (f0 :: fs) P0 H0)) a
  = Some (ScaledFrom s
            (ScaleMultiplierOf edL H0
               (TotalScaleDelta (fst (RunScaleFrames (f0 :: fs) P0 H0)))))
  /\ TotalScaleDelta (fst (RunScaleFrames (f0 :: fs) P0 H0))
     = AccumulatedScaleDelta (TotalScaleDelta P0) (f0 :: fs)
  /\ (TotalScaleDelta (fst (RunScaleFrames (f0 :: fs) P0 H0)) == 0 ->
      ScaleSnapDisabled H0 ->
      AtLeastMinimumScale s ->
      exists s', ScaleOf (snd (RunScaleFrames (f0 :: fs) P0 H0)) a = Some s' /\ s' ≡ s).
Proof.
  intros Init All G0 Hin Hs GL.
  destruct f0 as [env0 md0]. simpl in G0.
  pose proof (ScaleFrame_first env0 md0 ed0 Sel0 P0 H0 a s G0 Init Hin Hs) as F.
  simpl in F. simpl RunScaleFrames.
  destruct (ScaleSelectedActorsUniform env0 md0 P0 H0) as [P1 H1]. simpl in F.
  destruct F as (Inv1 & v1 & t1 & s1).
  inversion All as [| ? ? _ Rest]; subst.
  destruct (ScaleRun_inv fs P1 H1 a s Inv1 Rest) as (Inv2 & v2 & t2 & s2).
  assert (Scale : ScaleOf (snd (RunScaleFrames fs P1 H1)) a
                  = Some (ScaledFrom s
                            (ScaleMultiplierOf edL H0
                               (TotalScaleDelta (fst (RunScaleFrames fs P1 H1)))))).
  { destruct fs as [| f' fs'].
    - simpl in *. rewrite G0 in GL. injection GL as <- <-. exact s1.
    - rewrite (s2 ltac:(discriminate) (env0, md0) edL SelL GL).
      rewrite (ScaleMultiplierOf_ext edL H0 H1 _ v1). reflexivity. }
  split; [exact Scale |]. split; [rewrite t2, t1; reflexivity |].
  intros Zero NoSnap Min. eexists. split; [exact Scale |].
  apply ScaledFrom_unit; [| exact Min].
  apply ScaleMultiplierOf_zero; assumption.
Qed.

(** ** Drag transactions *)

Lemma SameKeys_refl (P : FLevelEditorShortcutsProcessor) : SameKeys P P.
Proof. repeat split. Qed.

Lemma SameKeys_trans (P1 P2 P3 : FLevelEditorShortcutsProcessor) :
  SameKeys P1 P2 -> SameKeys P2 P3 -> SameKeys P1 P3.
Proof. intros (a & b & c) (d & e & f). repeat split; congruence. Qed.

Lemma DragDescription_SameKeys (P P' : FLevelEditorShortcutsProcessor) :
  SameKeys P P' -> DragDescription P' = DragDescription P.
Proof. intros (a & b & c). unfold DragDescription. rewrite a, b. reflexivity. Qed.

Lemma InitializeDrag_trans (Description : string)
    (P : FLevelEditorShortcutsProcessor) (H : Host) :
  DragConsistent P ->
  let P' := fst (InitializeDrag Description P H) in
  let H' := snd (InitializeDrag Description P H) in
  SameKeys P P' /\ DragConsistent P' /\ bDragInitialized P' = true
  /\ LastMousePosition P' = LastMousePosition P
  /\ TransBegun H' = TransBegun H ++ (if bDragInitialized P then [] else [Description])
  /\ ActiveCount H' = (ActiveCount H + (if bDragInitialized P then 0 else 1))%nat.
Proof.
  unfold DragConsistent, InitializeDrag, EnsureDragTransaction. intros C.
  destruct (bDragInitialized P) eqn:I; simpl.
  - rewrite app_nil_r. repeat split; auto. rewrite I. exact C.
  - revert C. destruct (DragTransaction P) eqn:T; [discriminate |].
    intros _. simpl. repeat split; auto. lia.
Qed.

Lemma AccumulateAndMove_trans (Delta : FVector) (Sel : USelection)
    (P : FLevelEditorShortcutsProcessor) (H : Host) :
  let P' := fst (AccumulateAndMove Delta Sel P H) in
  let H' := snd (AccumulateAndMove Delta Sel P H) in
  SameKeys P P' /\ bDragInitialized P' = bDragInitialized P
  /\ DragTransaction P' = DragTransaction P
  /\ LastMousePosition P' = LastMousePosition P
  /\ TransBegun H' = TransBegun H /\ ActiveCount H' = ActiveCount H.
Proof.
  unfold AccumulateAndMove.
  destruct (SnapAccumulatedMovement _ _) as [R [D |]]; simpl.
  - destruct (MoveSelection_same D Sel H) as (t & c & _). repeat split; assumption.
  - repeat split.
Qed.

Lemma RunDragFrame_trans (f : DragFrame) (P : FLevelEditorShortcutsProcessor) (H : Host) :
  DragConsistent P ->
  DragOpEffect (FrameDescription f) (bool_decide (is_Some (MoveGuards (FrameEnv f)))) P H
    (RunDragFrame f P H).
Proof.
  intros C. rewrite RunDragFrame_unfold. unfold DragOpEffect.
  destruct (MoveGuards (FrameEnv f)) as [[Sel vc] |].
  - rewrite bool_decide_eq_true_2 by eauto.
    pose proof (InitializeDrag_trans (FrameDescription f) P H C) as I.
    destruct (InitializeDrag (FrameDescription f) P H) as [P1 H1]. simpl in I.
    destruct I as (i1 & i2 & i3 & i4 & i5 & i6).
    pose proof (AccumulateAndMove_trans (FrameInput f H) Sel P1 H1) as A.
    destruct (AccumulateAndMove (FrameInput f H) Sel P1 H1) as [P2 H2]. simpl in A.
    destruct A as (a1 & a2 & a3 & a4 & a5 & a6). simpl.
    split; [eapply SameKeys_trans; eassumption |].
    split; [unfold DragConsistent in *; rewrite a2, a3; exact i2 |].
    repeat split; congruence.
  - rewrite bool_decide_eq_false_2 by (intros [? ?]; discriminate). reflexivity.
Qed.

Lemma ScaleSelectedActorsUniform_trans (env : Env) (md : FVector2D)
    (P : FLevelEditorShortcutsProcessor) (H : Host) :
  DragConsistent P ->
  DragOpEffect "Scale Uniform" (bool_decide (is_Some (ScaleGuards env))) P H
    (ScaleSelectedActorsUniform env md P H).
Proof.
  intros C. rewrite ScaleSelectedActorsUniform_unfold. unfold DragOpEffect.
  destruct (ScaleGuards env) as [[ed Sel] |].
  - rewrite bool_decide_eq_true_2 by eauto.
    pose proof (InitializeDrag_trans "Scale Uniform" P H C) as I.
    unfold InitializeDrag in I.
    destruct (bDragInitialized P) eqn:Init; simpl negb in *; cbv iota in *.
    + simpl in I. destruct I as (i1 & i2 & i3 & i4 & i5 & i6). simpl.
      match goal with
      | |- context [ScaleSnapshotActors ?m ?l H] =>
          destruct (ScaleSnapshotActors_same m l H) as (t & c & _)
      end.
      rewrite app_nil_r in *. repeat split; try assumption; try congruence.
    + destruct (EnsureDragTransaction "Scale Uniform" (set_bDragInitialized true P) H)
        as [P1 H1]. simpl in I. destruct I as (i1 & i2 & i3 & i4 & i5 & i6). simpl.
      match goal with
      | |- context [ScaleSnapshotActors ?m ?l H1] =>
          destruct (ScaleSnapshotActors_same m l H1) as (t & c & _)
      end.
      destruct i1 as (k1 & k2 & k3). unfold DragConsistent in *.
      repeat split; simpl; try assumption; try congruence.
  - rewrite bool_decide_eq_false_2 by (intros [? ?]; discriminate). reflexivity.
Qed.

Lemma SampleCursor_spec (env : Env) (P : FLevelEditorShortcutsProcessor) (H : Host) :
  let '(md, P', H') := SampleCursor env P H in
  md = Vec2Sub (CursorPos env) (LastMousePosition P)
  /\ SameKeys P P' /\ bDragInitialized P' = bDragInitialized P
  /\ DragTransaction P' = DragTransaction P
  /\ Actors H' = Actors H /\ TransBegun H' = TransBegun H /\ ActiveCount H' = ActiveCount H
  /\ ViewportSettings H' = ViewportSettings H.
Proof.
  unfold SampleCursor. destruct (bCursorHidden P); simpl; repeat split.
Qed.

(** The effect of one tick on the drag transaction. *)
Lemma Tick_trans (env : Env) (P : FLevelEditorShortcutsProcessor) (H : Host) :
  DragConsistent P ->
  let opens := TickProcesses env P && negb (bDragInitialized P) in
  SameKeys P (fst (Tick env P H))
  /\ DragConsistent (fst (Tick env P H))
  /\ bDragInitialized (fst (Tick env P H)) = bDragInitialized P || TickProcesses env P
  /\ TransBegun (snd (Tick env P H))
     = TransBegun H ++ (if opens then [DragDescription P] else [])
  /\ ActiveCount (snd (Tick env P H)) = (ActiveCount H + (if opens then 1 else 0))%nat.
Proof.
  intros C opens. subst opens. unfold Tick, TickProcesses.
  change (bQKeyDown (set_CachedCursor true P)) with (bQKeyDown P).
  change (bEKeyDown (set_CachedCursor true P)) with (bEKeyDown P).
  change (bRKeyDown (set_CachedCursor true P)) with (bRKeyDown P).
  destruct (IsPlayInEditor env); simpl.
  { rewrite app_nil_r, orb_false_r, Nat.add_0_r. repeat split. exact C. }
  pose proof (SampleCursor_spec env (set_CachedCursor true P) H) as SC.
  destruct (SampleCursor env (set_CachedCursor true P) H) as [[md Ps] Hs].
  destruct SC as (-> & (k1 & k2 & k3) & s2 & s3 & _ & s5 & s6 & _).
  simpl in k1, k2, k3, s2, s3.
  change (LastMousePosition (set_CachedCursor true P)) with (LastMousePosition P).
  assert (Cs : DragConsistent Ps) by (unfold DragConsistent in *; rewrite s2, s3; exact C).
  assert (Idle : forall b, b = false ->
            SameKeys P Ps /\ DragConsistent Ps
            /\ bDragInitialized Ps = bDragInitialized P || b
            /\ TransBegun Hs = TransBegun H ++ (if b && negb (bDragInitialized P) then [DragDescription P] else [])
            /\ ActiveCount Hs = (ActiveCount H + (if b && negb (bDragInitialized P) then 1 else 0))%nat).
  { intros b ->. simpl. rewrite app_nil_r, orb_false_r, Nat.add_0_r.
    repeat split; assumption. }
  assert (Run : forall desc passes r,
            DragOpEffect desc passes Ps Hs r -> desc = DragDescription P ->
            SameKeys P (fst r) /\ DragConsistent (fst r)
            /\ bDragInitialized (fst r) = bDragInitialized P || passes
            /\ TransBegun (snd r) = TransBegun H ++ (if passes && negb (bDragInitialized P) then [DragDescription P] else [])
            /\ ActiveCount (snd r) = (ActiveCount H + (if passes && negb (bDragInitialized P) then 1 else 0))%nat).
  { intros desc passes r E ->. unfold DragOpEffect in E. destruct passes.
    - destruct E as (e1 & e2 & e3 & _ & e5 & e6). rewrite s2 in e5, e6.
      rewrite orb_true_r. simpl.
      split; [eapply SameKeys_trans; [| exact e1]; repeat split; assumption |].
      split; [exact e2 |]. split; [exact e3 |].
      destruct (bDragInitialized P); simpl; split; congruence.
    - subst r. apply Idle. reflexivity. }
  unfold DispatchDrag. rewrite k1, k2, k3.
  destruct (bQKeyDown P) eqn:Q; simpl.
  { destruct (IsNearlyZero2D _); simpl.
    - apply Idle. reflexivity.
    - apply (Run _ _ _ (RunDragFrame_trans (QFrame env _) Ps Hs Cs)).
      unfold DragDescription. rewrite Q. reflexivity. }
  destruct (bEKeyDown P) eqn:E; simpl.
  { destruct (IsNearlyZero2D _); simpl.
    - apply Idle. reflexivity.
    - apply (Run _ _ _ (RunDragFrame_trans (EFrame env _) Ps Hs Cs)).
      unfold DragDescription. rewrite Q, E. reflexivity. }
  destruct (bRKeyDown P) eqn:R; simpl.
  { destruct (IsNearlyZero2D _); simpl.
    - apply Idle. reflexivity.
    - apply (Run _ _ _ (ScaleSelectedActorsUniform_trans env _ Ps Hs Cs)).
      unfold DragDescription. rewrite Q, E. reflexivity. }
  rewrite andb_false_r. simpl. rewrite app_nil_r, orb_false_r, Nat.add_0_r.
  repeat split. exact C.
Qed.

Lemma EndDragTransaction_spec (P : FLevelEditorShortcutsProcessor) (H : Host) :
  let P' := fst (EndDragTransaction P H) in
  let H' := snd (EndDragTransaction P H) in
  SameKeys P P' /\ DragTransaction P' = None /\ bDragInitialized P' = false
  /\ bCursorHidden P' = bCursorHidden P /\ CachedCursor P' = CachedCursor P
  /\ Actors H' = Actors H /\ TransBegun H' = TransBegun H
  /\ ActiveCount H' = (ActiveCount H - OpenDragTransactions P)%nat.
Proof.
  unfold EndDragTransaction, OpenDragTransactions.
  destruct (DragTransaction P); simpl; repeat split; lia.
Qed.

Lemma SetCursorHidden_spec (b : bool) (P : FLevelEditorShortcutsProcessor) (H : Host) :
  let P' := fst (SetCursorHidden b P H) in
  let H' := snd (SetCursorHidden b P H) in
  SameKeys P P' /\ DragTransaction P' = DragTransaction P
  /\ bDragInitialized P' = bDragInitialized P
  /\ Actors H' = Actors H /\ TransBegun H' = TransBegun H
  /\ ActiveCount H' = ActiveCount H.
Proof.
  unfold SetCursorHidden.
  destruct (Bool.eqb b (bCursorHidden P)); simpl; [repeat split |].
  destruct (CachedCursor P); simpl; repeat split.
Qed.

Lemma RotateOneActor_same (amount : Q) (b : bool) (pivot : FVector) (H : Host) (id : ActorId) :
  SameButActors H (RotateOneActor amount b pivot H id).
Proof.
  unfold RotateOneActor. destruct (Actors H !! id).
  - apply SameButActors_set_Actors.
  - apply SameButActors_refl.
Qed.

(** A scoped transaction is begun and ended within the call. *)
Lemma RotateSelectedActors_count (env : Env) (d : Q) (b : bool) (H : Host) :
  ActiveCount (RotateSelectedActors env d b H) = ActiveCount H.
Proof.
  unfold RotateSelectedActors.
  destruct (GEditor env) as [ed |]; [| reflexivity].
  destruct (SelectedActors ed) as [Sel |]; [| reflexivity].
  destruct (Nat.eqb (length Sel) 0); [reflexivity |].
  destruct (Nat.eqb (length (omap (CastActor H) Sel)) 0); [reflexivity |].
  simpl.
  match goal with
  | |- context [foldl ?f ?h ?l] =>
      destruct (foldl_SameButActors f l (RotateOneActor_same _ _ _) h) as (_ & c & _)
  end.
  rewrite c. reflexivity.
Qed.

Lemma ChangeGridSize_count (env : Env) (b : bool) (H : Host) :
  ActiveCount (ChangeGridSize env b H) = ActiveCount H
  /\ TransBegun (ChangeGridSize env b H) = TransBegun H
  /\ Actors (ChangeGridSize env b H) = Actors H.
Proof.
  unfold ChangeGridSize.
  destruct (ViewportSettings H) as [vs |]; [| repeat split].
  destruct (Nat.eqb _ 0); [repeat split |].
  destruct (_ =? _)%Z; [repeat split |].
  destruct (GEditor env); repeat split.
Qed.

Lemma ToggleGridSnap_count (env : Env) (H : Host) :
  ActiveCount (ToggleGridSnap env H) = ActiveCount H
  /\ TransBegun (ToggleGridSnap env H) = TransBegun H
  /\ Actors (ToggleGridSnap env H) = Actors H.
Proof.
  unfold ToggleGridSnap.
  destruct (ViewportSettings H); destruct (GEditor env); repeat split.
Qed.

Lemma DragInvariant_same (base : nat) (P P' : FLevelEditorShortcutsProcessor) (H H' : Host) :
  DragInvariant base P H ->
  DragTransaction P' = DragTransaction P -> bDragInitialized P' = bDragInitialized P ->
  ActiveCount H' = ActiveCount H ->
  DragInvariant base P' H'.
Proof.
  unfold DragInvariant, DragConsistent, OpenDragTransactions.
  intros [C A] -> -> ->. auto.
Qed.

Lemma DragKeyDown_inv (base : nat) (isDown : bool)
    (setKeyDown : bool -> FLevelEditorShortcutsProcessor -> FLevelEditorShortcutsProcessor)
    (env : Env) (e : FKeyEvent) (P : FLevelEditorShortcutsProcessor) (H : Host) :
  (forall b Q, DragTransaction (setKeyDown b Q) = DragTransaction Q
               /\ bDragInitialized (setKeyDown b Q) = bDragInitialized Q) ->
  DragInvariant base P H ->
  let r := DragKeyDown isDown setKeyDown env e P H in
  DragInvariant base (snd (fst r)) (snd r)
  /\ TransBegun (snd r) = TransBegun H /\ Actors (snd r) = Actors H.
Proof.
  intros HSet Inv. unfold DragKeyDown.
  destruct (_ || _); [simpl; auto |].
  destruct (negb (IsLevelEditorViewportFocused env)); [simpl; auto |].
  destruct (negb isDown); [| simpl; auto].
  unfold FirstPress.
  match goal with
  | |- context [SetCursorHidden true ?Q H] =>
      pose proof (SetCursorHidden_spec true Q H) as S;
      destruct (SetCursorHidden true Q H) as [P1 H1]
  end.
  simpl in S. destruct S as (_ & s2 & s3 & s4 & s5 & s6).
  destruct (HSet true P) as [u1 u2]. simpl.
  split; [| split; assumption].
  eapply DragInvariant_same; [exact Inv | congruence | congruence | exact s6].
Qed.

Lemma DragKeyUp_inv (base : nat) (env : Env)
    (P : FLevelEditorShortcutsProcessor) (H : Host) :
  ActiveCount H = (base + OpenDragTransactions P)%nat ->
  let r := DragKeyUp env P H in
  DragInvariant base (snd (fst r)) (snd r)
  /\ DragTransaction (snd (fst r)) = None
  /\ ActiveCount (snd r) = base
  /\ TransBegun (snd r) = TransBegun H /\ Actors (snd r) = Actors H
  /\ fst (fst r) = true.
Proof.
  intros A. unfold DragKeyUp.
  pose proof (EndDragTransaction_spec P H) as E.
  destruct (EndDragTransaction P H) as [P1 H1]. simpl in E.
  destruct E as (_ & e2 & e3 & _ & _ & e6 & e7 & e8).
  pose proof (SetCursorHidden_spec false P1 H1) as S.
  destruct (SetCursorHidden false P1 H1) as [P2 H2]. simpl in S.
  destruct S as (_ & s2 & s3 & s4 & s5 & s6).
  assert (Cnt : ActiveCount H2 = base) by lia.
  assert (T : DragTransaction P2 = None) by congruence.
  unfold DragInvariant, DragConsistent, OpenDragTransactions.
  destruct (GEditor env); simpl; rewrite T; repeat split; try congruence; lia.
Qed.

Lemma Tick_inv (base : nat) (env : Env) (P : FLevelEditorShortcutsProcessor) (H : Host) :
  DragInvariant base P H -> DragInvariant base (fst (Tick env P H)) (snd (Tick env P H)).
Proof.
  intros [C A]. destruct (Tick_trans env P H C) as (_ & t2 & t3 & _ & t5).
  split; [exact t2 |].
  unfold DragConsistent, OpenDragTransactions in *.
  rewrite t2 in t3. rewrite C in t3, t5. rewrite t5, A.
  destruct (DragTransaction (fst (Tick env P H))), (DragTransaction P),
    (TickProcesses env P); simpl in *; try discriminate; lia.
Qed.

Lemma SetWidgetModeOnActiveViewport_count (env : Env) (m : EWidgetMode) (H : Host) :
  let H' := snd (SetWidgetModeOnActiveViewport env m H) in
  ActiveCount H' = ActiveCount H /\ TransBegun H' = TransBegun H /\ Actors H' = Actors H.
Proof.
  unfold SetWidgetModeOnActiveViewport.
  destruct (IsLevelEditorViewportFocused env); [repeat split |].
  destruct (GEditor env) as [ed |]; [| repeat split].
  destruct (ActiveViewportHasModeTools ed); repeat split.
Qed.

Lemma WidgetModeKey_inv (base : nat) (env : Env) (e : FKeyEvent) (m : EWidgetMode)
    (P : FLevelEditorShortcutsProcessor) (H : Host) :
  DragInvariant base P H ->
  let r := WidgetModeKey env e m P H in
  DragInvariant base (snd (fst r)) (snd r).
Proof.
  intros Inv. unfold WidgetModeKey.
  destruct (_ && _); [| exact Inv].
  pose proof (SetWidgetModeOnActiveViewport_count env m H) as W.
  destruct (SetWidgetModeOnActiveViewport env m H) as [ok H1]. simpl in *.
  destruct W as (w1 & _). eapply DragInvariant_same; [exact Inv | | | exact w1]; reflexivity.
Qed.

Lemma ShortcutStep_inv (base : nat) (ev : ShortcutEvent)
    (P : FLevelEditorShortcutsProcessor) (H : Host) :
  DragInvariant base P H ->
  DragInvariant base (snd (fst (ShortcutStep ev P H))) (snd (ShortcutStep ev P H)).
Proof.
  intros Inv. destruct ev as [env | env e | env e | env e | env e | env e | env e]; simpl.
  - pose proof (Tick_inv base env P H Inv) as T.
    destruct (Tick env P H) as [P1 H1]. exact T.
  - unfold HandleKeyDownEvent. destruct (IsPlayInEditor env); [exact Inv |].
    destruct (GetKey e); try exact Inv.
    + apply DragKeyDown_inv; [intros; split; reflexivity | exact Inv].
    + apply DragKeyDown_inv; [intros; split; reflexivity | exact Inv].
    + apply DragKeyDown_inv; [intros; split; reflexivity | exact Inv].
    + apply WidgetModeKey_inv; exact Inv.
    + apply WidgetModeKey_inv; exact Inv.
    + apply WidgetModeKey_inv; exact Inv.
  - unfold HandleKeyUpEvent. destruct (IsPlayInEditor env); [exact Inv |].
    destruct Inv as [C A].
    destruct (GetKey e); try (split; assumption).
    + apply DragKeyUp_inv. destruct (bQScrolledWhileDown P); exact A.
    + apply DragKeyUp_inv. exact A.
    + apply DragKeyUp_inv. exact A.
    + simpl. destruct (ToggleGridSnap_count env H) as (g1 & _).
      eapply DragInvariant_same; [split; eassumption | | |]; try reflexivity.
      destruct (negb (bGScrolledWhileDown P)); [exact g1 | reflexivity].
  - unfold HandleMouseButtonDownEvent. destruct (IsPlayInEditor env); [exact Inv |].
    destruct (GetEffectingButton e); try exact Inv.
    destruct (_ && _); [| exact Inv].
    destruct (ViewportSettings H) as [vs |]; [| exact Inv].
    destruct (RotGridEnabled vs); [| exact Inv].
    simpl. eapply DragInvariant_same; [exact Inv | | |]; reflexivity.
  - unfold HandleMouseButtonUpEvent.
    destruct (GetEffectingButton e); try exact Inv.
    destruct (bTemporarilyDisabledRotSnap P); [| exact Inv].
    simpl. eapply DragInvariant_same; [exact Inv | | |]; try reflexivity.
    destruct (ViewportSettings H); reflexivity.
  - exact Inv.
  - unfold HandleMouseWheelOrGestureEvent. destruct (IsPlayInEditor env); [exact Inv |].
    destruct (bQKeyDown P).
    { simpl. eapply DragInvariant_same; [exact Inv | | |]; try reflexivity.
      apply RotateSelectedActors_count. }
    destruct (bGKeyDown P); [| exact Inv].
    destruct (_ && _); simpl.
    + eapply DragInvariant_same; [exact Inv | | |]; try reflexivity.
      apply ChangeGridSize_count.
    + eapply DragInvariant_same; [exact Inv | | |]; reflexivity.
Qed.

Lemma RunShortcuts_inv (base : nat) (evs : list ShortcutEvent) :
  forall (P : FLevelEditorShortcutsProcessor) (H : Host),
  DragInvariant base P H ->
  DragInvariant base (fst (RunShortcuts evs P H)) (snd (RunShortcuts evs P H)).
Proof.
  induction evs as [| ev evs IH]; intros P H Inv; simpl; [exact Inv |].
  pose proof (ShortcutStep_inv base ev P H Inv) as S.
  destruct (ShortcutStep ev P H) as [[c P1] H1]. apply IH. exact S.
Qed.

Lemma HandleKeyUpEvent_releases (env : Env) (e : FKeyEvent)
    (P : FLevelEditorShortcutsProcessor) (H : Host) :
  IsDragKey (GetKey e) = true -> IsPlayInEditor env = false ->
  let r := HandleKeyUpEvent env e P H in
  fst (fst r) = true
  /\ DragTransaction (snd (fst r)) = None
  /\ bDragInitialized (snd (fst r)) = false
  /\ TransBegun (snd r) = TransBegun H
  /\ ActiveCount (snd r) = (ActiveCount H - OpenDragTransactions P)%nat.
Proof.
  intros K Play. unfold HandleKeyUpEvent. rewrite Play.
  assert (Up : forall P1 H1,
            DragTransaction P1 = DragTransaction P ->
            TransBegun H1 = TransBegun H -> ActiveCount H1 = ActiveCount H ->
            let r := DragKeyUp env P1 H1 in
            fst (fst r) = true /\ DragTransaction (snd (fst r)) = None
            /\ bDragInitialized (snd (fst r)) = false
            /\ TransBegun (snd r) = TransBegun H
            /\ ActiveCount (snd r) = (ActiveCount H - OpenDragTransactions P)%nat).
  { intros P1 H1 T B A. unfold DragKeyUp.
    pose proof (EndDragTransaction_spec P1 H1) as E.
    destruct (EndDragTransaction P1 H1) as [P2 H2]. simpl in E.
    destruct E as (_ & e2 & e3 & _ & _ & e6 & e7 & e8).
    pose proof (SetCursorHidden_spec false P2 H2) as S.
    destruct (SetCursorHidden false P2 H2) as [P3 H3]. simpl in S.
    destruct S as (_ & s2 & s3 & s4 & s5 & s6).
    assert (O : OpenDragTransactions P1 = OpenDragTransactions P)
      by (unfold OpenDragTransactions; rewrite T; reflexivity).
    destruct (GEditor env); simpl; repeat split; congruence. }
  destruct (GetKey e); try discriminate.
  - apply Up; [reflexivity | |]; destruct (bQScrolledWhileDown P); reflexivity.
  - apply Up; reflexivity.
  - apply Up; reflexivity.
Qed.

Lemma HandleKeyDownEvent_drag_key (env : Env) (e : FKeyEvent)
    (P : FLevelEditorShortcutsProcessor) (H : Host) :
  IsDragKey (GetKey e) = true ->
  let r := HandleKeyDownEvent env e P H in
  DragTransaction (snd (fst r)) = DragTransaction P
  /\ bDragInitialized (snd (fst r)) = bDragInitialized P
  /\ TransBegun (snd r) = TransBegun H /\ ActiveCount (snd r) = ActiveCount H
  /\ Actors (snd r) = Actors H.
Proof.
  intros K. unfold HandleKeyDownEvent.
  destruct (IsPlayInEditor env); [repeat split |].
  assert (Down : forall isDown setKeyDown,
            (forall b Q, DragTransaction (setKeyDown b Q) = DragTransaction Q
                         /\ bDragInitialized (setKeyDown b Q) = bDragInitialized Q) ->
            let r := DragKeyDown isDown setKeyDown env e P H in
            DragTransaction (snd (fst r)) = DragTransaction P
            /\ bDragInitialized (snd (fst r)) = bDragInitialized P
            /\ TransBegun (snd r) = TransBegun H /\ ActiveCount (snd r) = ActiveCount H
            /\ Actors (snd r) = Actors H).
  { intros isDown setKeyDown HSet. unfold DragKeyDown.
    destruct (_ || _); [repeat split |].
    destruct (negb (IsLevelEditorViewportFocused env)); [repeat split |].
    destruct (negb isDown); [| repeat split].
    unfold FirstPress.
    match goal with
    | |- context [SetCursorHidden true ?Q H] =>
        pose proof (SetCursorHidden_spec true Q H) as S;
        destruct (SetCursorHidden true Q H) as [P1 H1]
    end.
    simpl in S. destruct S as (_ & s2 & s3 & s4 & s5 & s6).
    destruct (HSet true P) as [u1 u2]. simpl. repeat split; congruence. }
  destruct (GetKey e); try discriminate; apply Down; intros; split; reflexivity.
Qed.

(** *** The transactions begun during a drag session *)

(** A Q+scroll either returns at a guard or runs one scoped transaction. *)
Lemma RotateSelectedActors_cases (env : Env) (d : Q) (b : bool) (H : Host) :
  RotateSelectedActors env d b H = H
  \/ exists amount bPivot pivot l,
       RotateSelectedActors env d b H
       = EndTransaction (RedrawLevelEditingViewports
           (foldl (RotateOneActor amount bPivot pivot)
              (snd (BeginTransaction "Rotate Selected" H)) l)).
Proof.
  unfold RotateSelectedActors.
  destruct (GEditor env) as [ed |]; [| left; reflexivity].
  destruct (SelectedActors ed) as [Sel |]; [| left; reflexivity].
  destruct (Nat.eqb (length Sel) 0); [left; reflexivity |].
  destruct (Nat.eqb (length (omap (CastActor H) Sel)) 0); [left; reflexivity |].
  right. do 4 eexists. reflexivity.
Qed.

Lemma DragDescription_is_drag (P : FLevelEditorShortcutsProcessor) :
  IsDragDescription (DragDescription P) = true.
Proof.
  unfold DragDescription. destruct (bQKeyDown P); [reflexivity |].
  destruct (bEKeyDown P); reflexivity.
Qed.

(** What one callback adds to the undo buffer, unless it is a key-up that
    releases the drag: a tick that processes the first movement of a drag
    begins the drag transaction, a Q+scroll may begin (and end) a
    "Rotate Selected", and nothing else begins a transaction. *)
Lemma ShortcutStep_begun (ev : ShortcutEvent)
    (P : FLevelEditorShortcutsProcessor) (H : Host) :
  DragConsistent P -> ReleasesDrag ev = false ->
  let r := ShortcutStep ev P H in
  DragConsistent (snd (fst r))
  /\ bDragInitialized (snd (fst r)) = bDragInitialized P || EventProcesses ev P
  /\ exists l,
       TransBegun (snd r) = TransBegun H ++ l
       /\ List.filter IsDragDescription l
          = (if EventProcesses ev P && negb (bDragInitialized P)
             then [DragDescription P] else [])
       /\ Forall (fun d => IsDragDescription d = true \/ d = "Rotate Selected"%string) l.
Proof.
  intros C NR.
  assert (Same : forall (c : bool) P' H',
            DragTransaction P' = DragTransaction P ->
            bDragInitialized P' = bDragInitialized P ->
            TransBegun H' = TransBegun H ->
            DragConsistent (snd (fst (c, P', H')))
            /\ bDragInitialized (snd (fst (c, P', H'))) = bDragInitialized P || false
            /\ exists l,
                 TransBegun (snd (c, P', H')) = TransBegun H ++ l
                 /\ List.filter IsDragDescription l
                    = (if false && negb (bDragInitialized P) then [DragDescription P] else [])
                 /\ Forall (fun d => IsDragDescription d = true
                                     \/ d = "Rotate Selected"%string) l).
  { intros c P' H' T I B. cbn [fst snd].
    split; [unfold DragConsistent in *; rewrite T, I; exact C |].
    split; [rewrite orb_false_r; exact I |].
    exists []. rewrite app_nil_r. split; [exact B |]. split; [reflexivity | constructor]. }
  destruct ev as [env | env e | env e | env e | env e | env e | env e];
    cbn [ShortcutStep EventProcesses ReleasesDrag] in *.
  - destruct (Tick_trans env P H C) as (_ & t2 & t3 & t4 & _).
    destruct (Tick env P H) as [P1 H1]. cbn [fst snd] in *.
    split; [exact t2 |]. split; [exact t3 |].
    eexists. split; [exact t4 |].
    destruct (TickProcesses env P && negb (bDragInitialized P)).
    + cbn [List.filter]. rewrite DragDescription_is_drag.
      split; [reflexivity |]. constructor; [| constructor].
      left. apply DragDescription_is_drag.
    + split; [reflexivity | constructor].
  - destruct (IsDragKey (GetKey e)) eqn:K.
    + destruct (HandleKeyDownEvent_drag_key env e P H K) as (d1 & d2 & d3 & _).
      destruct (HandleKeyDownEvent env e P H) as [[c P1] H1]. apply Same; assumption.
    + unfold HandleKeyDownEvent. destruct (IsPlayInEditor env); [apply Same; reflexivity |].
      destruct (GetKey e); try discriminate; try (apply Same; reflexivity);
        unfold WidgetModeKey;
        (destruct (NoModifiers e && negb (LandscapeModeActive env)
                   && negb (FoliageModeActive env)); [| apply Same; reflexivity]);
        match goal with
        | |- context [SetWidgetModeOnActiveViewport env ?m H] =>
            pose proof (SetWidgetModeOnActiveViewport_count env m H) as W;
            destruct (SetWidgetModeOnActiveViewport env m H) as [ok H1]
        end;
        cbn [snd] in W; destruct W as (_ & w2 & _); apply Same; auto.
  - unfold HandleKeyUpEvent. destruct (IsPlayInEditor env); [apply Same; reflexivity |].
    rewrite andb_true_r in NR.
    destruct (GetKey e); try discriminate; try (apply Same; reflexivity).
    apply Same; [reflexivity | reflexivity |].
    destruct (negb (bGScrolledWhileDown P)); [| reflexivity].
    apply ToggleGridSnap_count.
  - unfold HandleMouseButtonDownEvent. destruct (IsPlayInEditor env); [apply Same; reflexivity |].
    destruct (GetEffectingButton e); try (apply Same; reflexivity).
    destruct (PointerShiftDown e && IsLevelEditorViewportFocused env
              && IsRotateMode (LevelEditorWidgetMode H)); [| apply Same; reflexivity].
    destruct (ViewportSettings H) as [vs |]; [| apply Same; reflexivity].
    destruct (RotGridEnabled vs); apply Same; reflexivity.
  - unfold HandleMouseButtonUpEvent.
    destruct (GetEffectingButton e); try (apply Same; reflexivity).
    destruct (bTemporarilyDisabledRotSnap P); [| apply Same; reflexivity].
    apply Same; [reflexivity | reflexivity |].
    destruct (ViewportSettings H); reflexivity.
  - apply Same; reflexivity.
  - unfold HandleMouseWheelOrGestureEvent.
    destruct (IsPlayInEditor env); [apply Same; reflexivity |].
    destruct (bQKeyDown P).
    + destruct (RotateSelectedActors_cases env (GetWheelDelta e) (PointerShiftDown e) H)
        as [E | (amount & bPivot & pivot & l & E)]; rewrite E.
      * apply Same; reflexivity.
      * cbn [fst snd].
        split; [exact C |]. split; [rewrite orb_false_r; reflexivity |].
        exists ["Rotate Selected"%string]. split.
        -- unfold EndTransaction, RedrawLevelEditingViewports. cbn [TransBegun].
           match goal with
           | |- context [foldl ?f ?h ?l] =>
               destruct (foldl_SameButActors f l (RotateOneActor_same _ _ _) h) as (t & _)
           end.
           rewrite t. reflexivity.
        -- split; [reflexivity |]. constructor; [right; reflexivity | constructor].
    + destruct (bGKeyDown P); [| apply Same; reflexivity].
      destruct (negb (LandscapeModeActive env) && negb (FoliageModeActive env));
        apply Same; try reflexivity.
      apply ChangeGridSize_count.
Qed.

Lemma RunShortcuts_begun (evs : list ShortcutEvent) :
  forall (P : FLevelEditorShortcutsProcessor) (H : Host),
  DragConsistent P -> Forall (fun ev => ReleasesDrag ev = false) evs ->
  DragConsistent (fst (RunShortcuts evs P H))
  /\ exists l,
       TransBegun (snd (RunShortcuts evs P H)) = TransBegun H ++ l
       /\ List.filter IsDragDescription l
          = (if bDragInitialized P then []
             else match FirstProcessedDrag evs P H with Some d => [d] | None => [] end)
       /\ Forall (fun d => IsDragDescription d = true \/ d = "Rotate Selected"%string) l.
Proof.
  induction evs as [| ev evs IH]; intros P H C NR.
  - cbn [RunShortcuts FirstProcessedDrag fst snd]. split; [exact C |].
    exists []. rewrite app_nil_r. split; [reflexivity |].
    split; [destruct (bDragInitialized P); reflexivity | constructor].
  - inversion NR as [| ? ? NR1 NR2]; subst.
    pose proof (ShortcutStep_begun ev P H C NR1) as S. cbv zeta in S.
    cbn [RunShortcuts FirstProcessedDrag].
    destruct (ShortcutStep ev P H) as [[c P1] H1]. cbn [fst snd] in S.
    destruct S as (C1 & I1 & l1 & B1 & F1 & A1).
    destruct (IH P1 H1 C1 NR2) as (C2 & l2 & B2 & F2 & A2).
    split; [exact C2 |].
    exists (l1 ++ l2). split; [rewrite B2, B1, app_assoc; reflexivity |].
    split; [| apply Forall_app; split; assumption].
    rewrite List.filter_app, F1, F2, I1.
    destruct (bDragInitialized P); cbn [orb andb negb].
    + rewrite andb_false_r. reflexivity.
    + rewrite andb_true_r. destruct (EventProcesses ev P); cbn [app]; reflexivity.
Qed.

(** C3 (as amended). (1) At any time between callbacks, the transactions of
    the processor that are begun and not ended are exactly the drag
    transaction it holds: at most one. (2) A drag session - a Q, E or R
    key-down with no drag in progress, then any ticks and input events among
    which no Q, E or R key-up is handled outside a Play session, then the
    key-up of the key, handled outside a Play session - begins exactly one
    drag transaction ("Move Horizontal", "Move Vertical" or "Scale Uniform")
    if a tick processed a movement and none otherwise, whatever the number of
    frames; every other transaction begun in the session is the
    "Rotate Selected" of a Q+scroll; the session ends with no transaction
    open. A key-up received during a Play session is ignored and releases
    nothing. *)
Theorem one_transaction_per_drag :
  (forall (evs : list ShortcutEvent) (H0 : Host),
      DragInvariant (ActiveCount H0)
        (fst (RunShortcuts evs NewShortcutsProcessor H0))
        (snd (RunShortcuts evs NewShortcutsProcessor H0))
      /\ (ActiveCount (snd (RunShortcuts evs NewShortcutsProcessor H0))
          <= ActiveCount H0 + 1)%nat)
  /\ (forall envD eD evs envU eU P0 H0,
        bDragInitialized P0 = false -> DragTransaction P0 = None ->
        IsDragKey (GetKey eD) = true -> GetKey eU = GetKey eD ->
        IsPlayInEditor envU = false ->
        Forall (fun ev => ReleasesDrag ev = false) evs ->
        let r1 := HandleKeyDownEvent envD eD P0 H0 in
        let r2 := RunShortcuts evs (snd (fst r1)) (snd r1) in
        let r3 := HandleKeyUpEvent envU eU (fst r2) (snd r2) in
        exists added,
          TransBegun (snd r3) = TransBegun H0 ++ added
          /\ List.filter IsDragDescription added
             = match FirstProcessedDrag evs (snd (fst r1)) (snd r1) with
               | Some d => [d]
               | None => []
               end
          /\ Forall (fun d => IsDragDescription d = true
                              \/ d = "Rotate Selected"%string) added
          /\ DragTransaction (snd (fst r3)) = None
          /\ ActiveCount (snd r3) = ActiveCount H0).
Proof.
  split.
  - intros evs H0.
    assert (Inv : DragInvariant (ActiveCount H0)
                    (fst (RunShortcuts evs NewShortcutsProcessor H0))
                    (snd (RunShortcuts evs NewShortcutsProcessor H0))).
    { apply RunShortcuts_inv. split; [reflexivity |].
      unfold OpenDragTransactions, NewShortcutsProcessor. simpl. lia. }
    split; [exact Inv |]. destruct Inv as [_ A]. rewrite A.
    unfold OpenDragTransactions. destruct (DragTransaction _); lia.
  - intros envD eD evs envU eU P0 H0 I0 T0 KD KU Play NR r1 r2 r3.
    assert (Inv0 : DragInvariant (ActiveCount H0) P0 H0).
    { split; [unfold DragConsistent; rewrite I0, T0; reflexivity |].
      unfold OpenDragTransactions. rewrite T0. lia. }
    destruct (HandleKeyDownEvent_drag_key envD eD P0 H0 KD) as (d1 & d2 & d3 & d4 & _).
    fold r1 in d1, d2, d3, d4.
    pose proof (ShortcutStep_inv (ActiveCount H0) (EvKeyDown envD eD) P0 H0 Inv0) as Inv1.
    cbn [ShortcutStep] in Inv1. fold r1 in Inv1.
    pose proof (RunShortcuts_inv (ActiveCount H0) evs _ _ Inv1) as Inv2. fold r2 in Inv2.
    destruct Inv1 as [C1 _].
    destruct (RunShortcuts_begun evs (snd (fst r1)) (snd r1) C1 NR) as (_ & l & B & F & A).
    fold r2 in B. rewrite d2, I0 in F.
    rewrite <- KU in KD.
    destruct (HandleKeyUpEvent_releases envU eU (fst r2) (snd r2) KD Play)
      as (_ & u2 & _ & u4 & u5).
    fold r3 in u2, u4, u5.
    exists l. split; [rewrite u4, B, d3; reflexivity |].
    split; [exact F |]. split; [exact A |]. split; [exact u2 |].
    rewrite u5. destruct Inv2 as [_ A2]. rewrite A2. lia.
Qed.

(** ** Paste transform *)

Lemma PasteOne_spec (Copied : FTransform) (H : Host) (n : nat) (o : option ActorId) :
  SameButActors H (fst (PasteOne Copied (H, n) o))
  /\ (forall id, Actors H !! id = None -> Actors (fst (PasteOne Copied (H, n) o)) !! id = None)
  /\ (forall id actor, Actors H !! id = Some actor ->
        Actors (fst (PasteOne Copied (H, n) o)) !! id
        = Some (if bool_decide (o = Some id) then PastedActor Copied actor else actor)).
Proof.
  unfold PasteOne. destruct (CastActor H o) as [[a x] |] eqn:E; simpl.
  - apply CastActor_Some in E. destruct E as [-> Hx].
    split; [apply SameButActors_set_Actors |]. split.
    + intros id Hid. simpl. rewrite lookup_insert_ne; [exact Hid | congruence].
    + intros id actor Hid. simpl. destruct (decide (a = id)) as [-> | Hne].
      * rewrite bool_decide_eq_true_2 by reflexivity. rewrite lookup_insert_eq.
        rewrite Hx in Hid. injection Hid as <-. reflexivity.
      * rewrite bool_decide_eq_false_2 by congruence.
        rewrite lookup_insert_ne by exact Hne. exact Hid.
  - split; [apply SameButActors_refl |]. split; [auto |].
    intros id actor Hid. rewrite bool_decide_eq_false_2; [exact Hid |].
    intros ->. simpl in E. rewrite Hid in E. discriminate.
Qed.

Lemma PastedActor_idem (Copied : FTransform) (actor : AActor) :
  PastedActor Copied (PastedActor Copied actor) = PastedActor Copied actor.
Proof. reflexivity. Qed.

Lemma PasteLoop_spec (Copied : FTransform) (Sel : USelection) :
  forall (H : Host) (n : nat),
  SameButActors H (fst (foldl (PasteOne Copied) (H, n) Sel))
  /\ (forall id, Actors H !! id = None ->
        Actors (fst (foldl (PasteOne Copied) (H, n) Sel)) !! id = None)
  /\ (forall id actor, Actors H !! id = Some actor ->
        Actors (fst (foldl (PasteOne Copied) (H, n) Sel)) !! id
        = Some (if bool_decide (Some id ∈ Sel) then PastedActor Copied actor else actor)).
Proof.
  induction Sel as [| o Sel IH]; intros H n; cbn [foldl].
  - split; [apply SameButActors_refl |]. split; [auto |].
    intros id actor Hid. cbn [fst]. rewrite bool_decide_eq_false_2; [exact Hid |].
    apply not_elem_of_nil.
  - destruct (PasteOne_spec Copied H n o) as (s1 & s2 & s3).
    destruct (PasteOne Copied (H, n) o) as [H1 n1] eqn:E1. cbn [fst] in s1, s2, s3.
    destruct (IH H1 n1) as (i1 & i2 & i3).
    split; [eapply SameButActors_trans; eassumption |].
    split; [intros id Hid; apply i2, s2; exact Hid |].
    intros id actor Hid. rewrite (i3 id _ (s3 id actor Hid)). f_equal.
    repeat case_bool_decide; subst; try reflexivity; exfalso;
      match goal with
      | K : ¬ (_ ∈ _ :: _) |- _ =>
          apply K; first [apply list_elem_of_here | apply list_elem_of_further; assumption]
      | K : _ ∈ _ :: _ |- _ =>
          apply elem_of_cons in K; destruct K; [congruence | contradiction]
      end.
Qed.

(** C4. A paste of the copied transform leaves the scale of every actor as it
    was: after [PasteTransformToSelected] an actor is either untouched or has
    the location and the rotation of the snapshot and its own scale, folder,
    components and attachments; when the paste gets past its guards, every
    selected actor is in the second case. *)
Theorem paste_keeps_scale (env : Env) (C : FTransformCopyPasteProcessor) (H : Host)
    (id : ActorId) (actor : AActor) :
  Actors H !! id = Some actor ->
  exists actor',
    Actors (snd (PasteTransformToSelected env C H)) !! id = Some actor'
    /\ GetActorScale3D actor' = GetActorScale3D actor
    /\ (actor' = actor \/ actor' = PastedActor (CopiedTransform C) actor)
    /\ (forall ed Sel,
          GEditor env = Some ed -> SelectedActors ed = Some Sel ->
          bHasCopiedTransform C = true -> In (Some id) Sel ->
          actor' = PastedActor (CopiedTransform C) actor).
Proof.
  intros Hid. unfold PasteTransformToSelected.
  destruct (GEditor env) as [ed |] eqn:G.
  2: { exists actor. repeat split; auto. intros; discriminate. }
  destruct (bHasCopiedTransform C) eqn:B; simpl.
  2: { exists actor. repeat split; auto. intros; discriminate. }
  destruct (SelectedActors ed) as [Sel |] eqn:S.
  2: { exists actor. repeat split; auto. intros ? ? [= <-] K. rewrite S in K. discriminate. }
  destruct (Nat.eqb (length Sel) 0) eqn:L.
  { exists actor. repeat split; auto. intros ? ? [= <-] K _ Hin.
    rewrite S in K. injection K as <-. apply Nat.eqb_eq in L.
    destruct Sel; [destruct Hin | discriminate]. }
  unfold BeginTransaction. cbv iota beta.
  match goal with
  | |- context [foldl (PasteOne ?c) (?h, ?n) Sel] =>
      destruct (PasteLoop_spec c Sel h n) as (_ & _ & p3);
      specialize (p3 id actor Hid);
      destruct (foldl (PasteOne c) (h, n) Sel) as [H2 m]
  end.
  cbn [fst] in p3.
  exists (if bool_decide (Some id ∈ Sel) then PastedActor (CopiedTransform C) actor else actor).
  split; [destruct (Nat.ltb 0 m); simpl; exact p3 |].
  split; [destruct (bool_decide (Some id ∈ Sel)); reflexivity |].
  split; [destruct (bool_decide (Some id ∈ Sel)); auto |].
  intros ? ? [= <-] K _ Hin. rewrite S in K. injection K as <-.
  rewrite bool_decide_eq_true_2; [reflexivity |]. apply list_elem_of_In. exact Hin.
Qed.

(** ** Snap to ground: the re-cast loop *)

Lemma GroundTraceLoop_accepts (World : UWorld) (TraceStart TraceEnd : FVector) (n : nat) :
  forall (q q' : FCollisionQueryParams) (hit : FHitResult),
  GroundTraceLoop n World TraceStart TraceEnd q = (Some hit, q') ->
  (exists c, HitComponent hit = Some c /\ IsPhysicsCollision (CollisionEnabled c) = true)
  /\ LineTraceSingleByChannel World TraceStart TraceEnd q' = Some hit.
Proof.
  induction n as [| n IH]; intros q q' hit; simpl; [discriminate |].
  destruct (LineTraceSingleByChannel World TraceStart TraceEnd q) as [h |] eqn:T;
    [| discriminate].
  destruct (HitComponent h) as [c |] eqn:C.
  - destruct (IsPhysicsCollision (CollisionEnabled c)) eqn:Ph.
    + intros [= <- <-]. split; [eauto | exact T].
    + apply IH.
  - apply IH.
Qed.

Lemma GroundTraceLoop_ignored (World : UWorld) (TraceStart TraceEnd : FVector) (n : nat) :
  forall (q : FCollisionQueryParams),
  (length (IgnoredComponents (snd (GroundTraceLoop n World TraceStart TraceEnd q)))
   <= length (IgnoredComponents q) + n)%nat
  /\ IgnoredActors (snd (GroundTraceLoop n World TraceStart TraceEnd q)) = IgnoredActors q.
Proof.
  induction n as [| n IH]; intros q; simpl; [split; [lia | reflexivity] |].
  destruct (LineTraceSingleByChannel World TraceStart TraceEnd q) as [h |];
    [| simpl; split; [lia | reflexivity]].
  destruct (HitComponent h) as [c |].
  - destruct (IsPhysicsCollision (CollisionEnabled c)); [simpl; split; [lia | reflexivity] |].
    destruct (IH (AddIgnoredComponent c q)) as [L A]. split; [| exact A].
    simpl in L. rewrite length_app in L. simpl in L. lia.
  - destruct (IH q) as [L A]. split; [lia | exact A].
Qed.

(** Where no trace ever returns a component with physics collision, the loop
    ends without a hit. *)
Lemma GroundTraceLoop_gives_up (World : UWorld) (TraceStart TraceEnd : FVector) (n : nat) :
  (forall q hit c,
      LineTraceSingleByChannel World TraceStart TraceEnd q = Some hit ->
      HitComponent hit = Some c -> IsPhysicsCollision (CollisionEnabled c) = false) ->
  forall q, fst (GroundTraceLoop n World TraceStart TraceEnd q) = None.
Proof.
  intros NoPhys. induction n as [| n IH]; intros q; simpl; [reflexivity |].
  destruct (LineTraceSingleByChannel World TraceStart TraceEnd q) as [h |] eqn:T;
    [| reflexivity].
  destruct (HitComponent h) as [c |] eqn:C; [| apply IH].
  rewrite (NoPhys q h c T C). apply IH.
Qed.

Lemma TraceGround_accepts (World : UWorld) (id : ActorId) (Actor : AActor) (hit : FHitResult) :
  TraceGround World id Actor = Some hit ->
  exists c, HitComponent hit = Some c /\ IsPhysicsCollision (CollisionEnabled c) = true.
Proof.
  unfold TraceGround. intros E.
  destruct (GroundTraceLoop _ _ _ _ _) as [r q'] eqn:L. simpl in E. subst r.
  apply GroundTraceLoop_accepts in L. apply L.
Qed.

(** The two loop bodies: the actor heap changes only at a hit. *)
Lemma SnapOne_spec (World : UWorld) (H : Host) (n : nat) (o : option ActorId) :
  SnapOne World (H, n) o = (H, n)
  \/ exists id Actor hit,
       CastActor H o = Some (id, Actor) /\ TraceGround World id Actor = Some hit
       /\ SnapOne World (H, n) o
          = (set_Actors
               (insert id
                  (SetActorRotation
                     (AlignToSurface
                        (GetActorRotation
                           (SetActorLocation (GroundLocation Actor hit) Actor))
                        (ImpactNormal hit))
                     (SetActorLocation (GroundLocation Actor hit) Actor))) H,
             S n).
Proof.
  unfold SnapOne. destruct (CastActor H o) as [[id Actor] |] eqn:E; [| left; reflexivity].
  destruct (TraceGround World id Actor) as [hit |] eqn:T; [| left; reflexivity].
  right. exists id, Actor, hit. auto.
Qed.

Lemma SnapOneNoRotation_spec (World : UWorld) (H : Host) (n : nat) (o : option ActorId) :
  SnapOneNoRotation World (H, n) o = (H, n)
  \/ exists id Actor hit,
       CastActor H o = Some (id, Actor) /\ TraceGround World id Actor = Some hit
       /\ SnapOneNoRotation World (H, n) o
          = (set_Actors
               (insert id
                  (SetActorRotation ZeroRotator
                     (SetActorLocation (GroundLocation Actor hit) Actor))) H,
             S n).
Proof.
  unfold SnapOneNoRotation.
  destruct (CastActor H o) as [[id Actor] |] eqn:E; [| left; reflexivity].
  destruct (TraceGround World id Actor) as [hit |] eqn:T; [| left; reflexivity].
  right. exists id, Actor, hit. auto.
Qed.

(** C5. In the ground-snap loop a hit is accepted only if its component has
    QueryAndPhysics or PhysicsOnly collision; a hit on a component with any
    other collision mode adds the component to the ignore set and the ray is
    cast again with the attempts that are left, 50 at the start; at most one
    component is ignored per attempt; where no trace returns a component
    with physics collision the loop ends without a hit; and the two loop
    bodies reposition the actor only with an accepted hit of its own trace. *)
Theorem ground_snap_accepts_only_physics_hits (World : UWorld) (TraceStart TraceEnd : FVector) :
  (forall n q q' hit,
      GroundTraceLoop n World TraceStart TraceEnd q = (Some hit, q') ->
      exists c, HitComponent hit = Some c /\ IsPhysicsCollision (CollisionEnabled c) = true)
  /\ (forall n q hit c,
        LineTraceSingleByChannel World TraceStart TraceEnd q = Some hit ->
        HitComponent hit = Some c ->
        IsPhysicsCollision (CollisionEnabled c) = false ->
        GroundTraceLoop (S n) World TraceStart TraceEnd q
        = GroundTraceLoop n World TraceStart TraceEnd (AddIgnoredComponent c q))
  /\ (MaxTraceAttempts = 50%nat
      /\ forall n q,
          (length (IgnoredComponents (snd (GroundTraceLoop n World TraceStart TraceEnd q)))
           <= length (IgnoredComponents q) + n)%nat)
  /\ ((forall q hit c,
         LineTraceSingleByChannel World TraceStart TraceEnd q = Some hit ->
         HitComponent hit = Some c -> IsPhysicsCollision (CollisionEnabled c) = false) ->
      forall n q, fst (GroundTraceLoop n World TraceStart TraceEnd q) = None)
  /\ (forall H n o,
        (SnapOne World (H, n) o = (H, n)
         \/ exists id Actor hit c,
              CastActor H o = Some (id, Actor) /\ TraceGround World id Actor = Some hit
              /\ HitComponent hit = Some c
              /\ IsPhysicsCollision (CollisionEnabled c) = true
              /\ LocationOf (fst (SnapOne World (H, n) o)) id = GroundLocation Actor hit)
        /\ (SnapOneNoRotation World (H, n) o = (H, n)
            \/ exists id Actor hit c,
                 CastActor H o = Some (id, Actor) /\ TraceGround World id Actor = Some hit
                 /\ HitComponent hit = Some c
                 /\ IsPhysicsCollision (CollisionEnabled c) = true
                 /\ LocationOf (fst (SnapOneNoRotation World (H, n) o)) id
                    = GroundLocation Actor hit)).
Proof.
  split; [| split; [| split; [| split]]].
  - intros n q q' hit E. apply (GroundTraceLoop_accepts _ _ _ _ _ _ _ E).
  - intros n q hit c T C Ph. simpl. rewrite T, C, Ph. reflexivity.
  - split; [reflexivity |]. intros n q. apply GroundTraceLoop_ignored.
  - intros NoPhys n q. apply GroundTraceLoop_gives_up. exact NoPhys.
  - intros H n o. split.
    + destruct (SnapOne_spec World H n o) as [E | (id & Actor & hit & E1 & E2 & E3)];
        [left; exact E | right].
      destruct (TraceGround_accepts _ _ _ _ E2) as (c & C & Ph).
      exists id, Actor, hit, c. repeat split; try assumption.
      rewrite E3. unfold LocationOf. simpl. rewrite lookup_insert_eq. reflexivity.
    + destruct (SnapOneNoRotation_spec World H n o) as [E | (id & Actor & hit & E1 & E2 & E3)];
        [left; exact E | right].
      destruct (TraceGround_accepts _ _ _ _ E2) as (c & C & Ph).
      exists id, Actor, hit, c. repeat split; try assumption.
      rewrite E3. unfold LocationOf. simpl. rewrite lookup_insert_eq. reflexivity.
Qed.

(** ** Failing operations *)

Lemma SnapLoop_failed_trace (World : UWorld)
    (body : UWorld -> Host * nat -> option ActorId -> Host * nat)
    (id : ActorId) (actor : AActor) :
  (forall H n o,
      body World (H, n) o = (H, n)
      \/ exists a A hit x,
           CastActor H o = Some (a, A) /\ TraceGround World a A = Some hit
           /\ body World (H, n) o = (set_Actors (insert a x) H, S n)) ->
  TraceGround World id actor = None ->
  forall (Sel : USelection) (H : Host) (n : nat),
  Actors H !! id = Some actor ->
  Actors (fst (foldl (body World) (H, n) Sel)) !! id = Some actor
  /\ TransBegun (fst (foldl (body World) (H, n) Sel)) = TransBegun H
  /\ ActiveCount (fst (foldl (body World) (H, n) Sel)) = ActiveCount H.
Proof.
  intros Body Miss. induction Sel as [| o Sel IH]; intros H n Hid; simpl; [auto |].
  destruct (Body H n o) as [E | (a & A & hit & x & E1 & E2 & E3)].
  - rewrite E. apply IH. exact Hid.
  - rewrite E3. apply CastActor_Some in E1. destruct E1 as [-> HA].
    assert (a <> id).
    { intros ->. rewrite Hid in HA. injection HA as <-. rewrite Miss in E2. discriminate. }
    destruct (IH (set_Actors (insert a x) H) (S n)) as (i1 & i2 & i3).
    + simpl. rewrite lookup_insert_ne by assumption. exact Hid.
    + repeat split; assumption.
Qed.

Lemma SnapOne_body (World : UWorld) (H : Host) (n : nat) (o : option ActorId) :
  SnapOne World (H, n) o = (H, n)
  \/ exists a A hit x,
       CastActor H o = Some (a, A) /\ TraceGround World a A = Some hit
       /\ SnapOne World (H, n) o = (set_Actors (insert a x) H, S n).
Proof.
  destruct (SnapOne_spec World H n o) as [E | (id & Actor & hit & E1 & E2 & E3)];
    [left; exact E | right; eauto 8].
Qed.

Lemma SnapOneNoRotation_body (World : UWorld) (H : Host) (n : nat) (o : option ActorId) :
  SnapOneNoRotation World (H, n) o = (H, n)
  \/ exists a A hit x,
       CastActor H o = Some (a, A) /\ TraceGround World a A = Some hit
       /\ SnapOneNoRotation World (H, n) o = (set_Actors (insert a x) H, S n).
Proof.
  destruct (SnapOneNoRotation_spec World H n o) as [E | (id & Actor & hit & E1 & E2 & E3)];
    [left; exact E | right; eauto 8].
Qed.

(** An actor whose own downward trace finds no collidable surface is left as
    it is; the transaction of the operation is begun before the traces and
    ended on return. *)
Lemma SnapSelectedToGround_failed_trace (env : Env) (H : Host)
    (ed : UEditorEngine) (Sel : USelection) (World : UWorld) (id : ActorId) (actor : AActor) :
  GEditor env = Some ed -> SelectedActors ed = Some Sel -> Sel <> [] ->
  EditorWorld ed = Some World ->
  Actors H !! id = Some actor -> TraceGround World id actor = None ->
  (Actors (snd (SnapSelectedToGround env H)) !! id = Some actor
   /\ TransBegun (snd (SnapSelectedToGround env H)) = TransBegun H ++ ["Snap to Ground"]
   /\ ActiveCount (snd (SnapSelectedToGround env H)) = ActiveCount H)
  /\ (Actors (snd (SnapSelectedToGroundNoRotation env H)) !! id = Some actor
      /\ TransBegun (snd (SnapSelectedToGroundNoRotation env H))
         = TransBegun H ++ ["Snap to Ground (No Rotation)"]
      /\ ActiveCount (snd (SnapSelectedToGroundNoRotation env H)) = ActiveCount H).
Proof.
  intros G S NE W Hid Miss.
  assert (L : Nat.eqb (length Sel) 0 = false)
    by (destruct Sel; [congruence | reflexivity]).
  unfold SnapSelectedToGround, SnapSelectedToGroundNoRotation.
  rewrite G, S, L, W. unfold BeginTransaction. cbv iota beta.
  split.
  - match goal with
    | |- context [foldl (SnapOne World) (?h, ?n) Sel] =>
        destruct (SnapLoop_failed_trace World SnapOne id actor
                    (SnapOne_body World) Miss Sel h n Hid) as (l1 & l2 & l3);
        destruct (foldl (SnapOne World) (h, n) Sel) as [H2 m]
    end.
    simpl in l1, l2, l3.
    destruct (Nat.ltb 0 m); simpl; rewrite l3; repeat split; assumption.
  - match goal with
    | |- context [foldl (SnapOneNoRotation World) (?h, ?n) Sel] =>
        destruct (SnapLoop_failed_trace World SnapOneNoRotation id actor
                    (SnapOneNoRotation_body World) Miss Sel h n Hid) as (l1 & l2 & l3);
        destruct (foldl (SnapOneNoRotation World) (h, n) Sel) as [H2 m]
    end.
    simpl in l1, l2, l3.
    destruct (Nat.ltb 0 m); simpl; rewrite l3; repeat split; assumption.
Qed.

Lemma RunOperation_no_editor (env : Env) (op : Operation) (st : PluginState) :
  GEditor env = None -> RunOperation env op st = st.
Proof.
  intros G. destruct st as [P C H]. destruct op; unfold RunOperation; simpl;
    unfold MoveSelectedActorsHorizontal, MoveSelectedActorsVertical,
      ScaleSelectedActorsUniform, RotateSelectedActors, CopySelectedTransform,
      PasteTransformToSelected, SnapSelectedToGround, SnapSelectedToGroundNoRotation,
      DuplicateInPlace, SetupPasteToFolder, CompletePasteToFolder;
    rewrite G; reflexivity.
Qed.

Lemma RunOperation_empty_selection (env : Env) (op : Operation) (st : PluginState) :
  SelectionEmpty env -> UsesSelection op = true -> RunOperation env op st = st.
Proof.
  unfold SelectionEmpty. intros E U.
  destruct (GEditor env) as [ed |] eqn:G; [| apply RunOperation_no_editor; exact G].
  destruct st as [P C H].
  destruct op; try discriminate; unfold RunOperation; simpl;
    unfold MoveSelectedActorsHorizontal, MoveSelectedActorsVertical,
      ScaleSelectedActorsUniform, RotateSelectedActors, CopySelectedTransform,
      PasteTransformToSelected, SnapSelectedToGround, SnapSelectedToGroundNoRotation,
      DuplicateInPlace;
    rewrite G; destruct E as [-> | ->]; simpl;
    try reflexivity; destruct (bHasCopiedTransform C); reflexivity.
Qed.

Lemma RunOperation_no_viewport (env : Env) (op : Operation) (st : PluginState) :
  GetActiveViewportClient env = None -> UsesViewport op = true -> RunOperation env op st = st.
Proof.
  intros V U. destruct st as [P C H].
  destruct op; try discriminate; unfold RunOperation; simpl;
    unfold MoveSelectedActorsHorizontal, MoveSelectedActorsVertical; rewrite V;
    destruct (GEditor env) as [ed |]; try reflexivity;
    destruct (SelectedActors ed) as [Sel |]; try reflexivity;
    destruct (Nat.eqb (length Sel) 0); reflexivity.
Qed.

Lemma RunOperation_no_world (env : Env) (op : Operation) (st : PluginState)
    (ed : UEditorEngine) :
  GEditor env = Some ed -> EditorWorld ed = None ->
  match op with
  | OpSnapToGround | OpSnapToGroundNoRotation
  | OpSetupPasteToFolder | OpCompletePasteToFolder => RunOperation env op st = st
  | _ => True
  end.
Proof.
  intros G W. destruct st as [P C H].
  destruct op; try exact I; unfold RunOperation; simpl;
    unfold SnapSelectedToGround, SnapSelectedToGroundNoRotation, SetupPasteToFolder,
      CompletePasteToFolder;
    rewrite G, ?W; try reflexivity;
    destruct (SelectedActors ed) as [Sel |]; try reflexivity;
    destruct (Nat.eqb (length Sel) 0); rewrite ?W; reflexivity.
Qed.

(** During a Play session the callbacks of the shortcut processor consume
    nothing and touch neither actors nor the undo buffer; all but the
    mouse-button-up callback leave the host state as it is. *)
Lemma ShortcutStep_play (ev : ShortcutEvent) (P : FLevelEditorShortcutsProcessor) (H : Host) :
  IsPlayInEditor (EventEnv ev) = true ->
  let r := ShortcutStep ev P H in
  fst (fst r) = false
  /\ Actors (snd r) = Actors H /\ TransBegun (snd r) = TransBegun H
  /\ ActiveCount (snd r) = ActiveCount H
  /\ DragTransaction (snd (fst r)) = DragTransaction P
  /\ match ev with
     | EvMouseButtonUp _ _ => True
     | EvTick _ => snd r = H /\ snd (fst r) = set_CachedCursor true P
     | _ => snd r = H /\ snd (fst r) = P
     end.
Proof.
  intros Play.
  destruct ev as [env | env e | env e | env e | env e | env e | env e]; simpl in *.
  - unfold Tick. rewrite Play. simpl. repeat split.
  - unfold HandleKeyDownEvent. rewrite Play. simpl. repeat split.
  - unfold HandleKeyUpEvent. rewrite Play. simpl. repeat split.
  - unfold HandleMouseButtonDownEvent. rewrite Play. simpl. repeat split.
  - unfold HandleMouseButtonUpEvent.
    destruct (GetEffectingButton e); simpl; try (repeat split; fail).
    destruct (bTemporarilyDisabledRotSnap P); simpl; [| repeat split].
    destruct (ViewportSettings H); simpl; repeat split.
  - repeat split.
  - unfold HandleMouseWheelOrGestureEvent. rewrite Play. simpl. repeat split.
Qed.

Lemma CopyPasteHandleKeyDownEvent_play (env : Env) (e : FKeyEvent)
    (C : FTransformCopyPasteProcessor) (H : Host) :
  IsPlayInEditor env = true -> CopyPasteHandleKeyDownEvent env e C H = (false, C, H).
Proof. intros Play. unfold CopyPasteHandleKeyDownEvent. rewrite Play. reflexivity. Qed.

(** C6 (as amended). An operation invoked with a missing host singleton
    ([GEditor] null, or the editor world null for the operations that need
    it), with an empty selection, or, for the two moves, with no active
    viewport, returns with the whole state as it was: no actor is modified,
    no transaction is opened. During a Play session every callback of the
    shortcut processor and the key-down callback of the copy/paste processor
    consume nothing, modify no actor and open no transaction. A failed
    raycast leaves its actor unmodified, but the snap-to-ground operation has
    by then begun its transaction, which it ends on return. *)
Theorem failing_operations_modify_nothing :
  (forall env op st, GEditor env = None -> RunOperation env op st = st)
  /\ (forall env op st ed,
        GEditor env = Some ed -> EditorWorld ed = None ->
        match op with
        | OpSnapToGround | OpSnapToGroundNoRotation
        | OpSetupPasteToFolder | OpCompletePasteToFolder => RunOperation env op st = st
        | _ => True
        end)
  /\ (forall env op st,
        SelectionEmpty env -> UsesSelection op = true -> RunOperation env op st = st)
  /\ (forall env op st,
        GetActiveViewportClient env = None -> UsesViewport op = true ->
        RunOperation env op st = st)
  /\ (forall ev P H,
        IsPlayInEditor (EventEnv ev) = true ->
        fst (fst (ShortcutStep ev P H)) = false
        /\ Actors (snd (ShortcutStep ev P H)) = Actors H
        /\ TransBegun (snd (ShortcutStep ev P H)) = TransBegun H
        /\ ActiveCount (snd (ShortcutStep ev P H)) = ActiveCount H)
  /\ (forall env e C H,
        IsPlayInEditor env = true -> CopyPasteHandleKeyDownEvent env e C H = (false, C, H))
  /\ (forall env H ed Sel World id actor,
        GEditor env = Some ed -> SelectedActors ed = Some Sel -> Sel <> [] ->
        EditorWorld ed = Some World ->
        Actors H !! id = Some actor -> TraceGround World id actor = None ->
        (Actors (snd (SnapSelectedToGround env H)) !! id = Some actor
         /\ TransBegun (snd (SnapSelectedToGround env H)) = TransBegun H ++ ["Snap to Ground"]
         /\ ActiveCount (snd (SnapSelectedToGround env H)) = ActiveCount H)
        /\ (Actors (snd (SnapSelectedToGroundNoRotation env H)) !! id = Some actor
            /\ TransBegun (snd (SnapSelectedToGroundNoRotation env H))
               = TransBegun H ++ ["Snap to Ground (No Rotation)"]
            /\ ActiveCount (snd (SnapSelectedToGroundNoRotation env H)) = ActiveCount H)).
Proof.
  split; [exact RunOperation_no_editor |].
  split; [intros env op st ed; apply RunOperation_no_world |].
  split; [exact RunOperation_empty_selection |].
  split; [exact RunOperation_no_viewport |].
  split.
  { intros ev P H Play. destruct (ShortcutStep_play ev P H Play) as (a & b & c & d & _).
    repeat split; assumption. }
  split; [exact CopyPasteHandleKeyDownEvent_play |].
  intros env H ed Sel World id actor. apply SnapSelectedToGround_failed_trace.
Qed.

(** ** Copy *)

Lemma PasteOne_ext (c c' : FTransform) (st : Host * nat) (o : option ActorId) :
  Rotation c' = Rotation c -> Translation c' = Translation c ->
  PasteOne c' st o = PasteOne c st o.
Proof. intros R T. unfold PasteOne. rewrite R, T. reflexivity. Qed.

Lemma PasteLoop_ext (c c' : FTransform) (Sel : USelection) :
  Rotation c' = Rotation c -> Translation c' = Translation c ->
  forall st, foldl (PasteOne c') st Sel = foldl (PasteOne c) st Sel.
Proof.
  intros R T. induction Sel as [| o Sel IH]; intros st; simpl; [reflexivity |].
  rewrite (PasteOne_ext c c' st o R T). apply IH.
Qed.

(** C7 (as amended). When the first selected object is an actor, copy stores
    that actor's whole transform in the snapshot - its location and rotation,
    and its scale as well - and sets the has-copied flag; later selected
    objects are not looked at. The scale held by the snapshot has no effect:
    paste reads only the rotation and the translation of the snapshot. *)
Theorem copy_records_first_actor_transform :
  (forall env C H ed first rest id actor,
      GEditor env = Some ed -> SelectedActors ed = Some (first :: rest) ->
      CastActor H first = Some (id, actor) ->
      CopiedTransform (CopySelectedTransform env C H) = GetActorTransform actor
      /\ Translation (CopiedTransform (CopySelectedTransform env C H)) = GetActorLocation actor
      /\ Rotation (CopiedTransform (CopySelectedTransform env C H))
         = Rotation (ActorTransform actor)
      /\ Scale3D (CopiedTransform (CopySelectedTransform env C H)) = GetActorScale3D actor
      /\ bHasCopiedTransform (CopySelectedTransform env C H) = true)
  /\ (forall env C C' H,
        bHasCopiedTransform C' = bHasCopiedTransform C ->
        Rotation (CopiedTransform C') = Rotation (CopiedTransform C) ->
        Translation (CopiedTransform C') = Translation (CopiedTransform C) ->
        PasteTransformToSelected env C' H = PasteTransformToSelected env C H).
Proof.
  split.
  - intros env C H ed first rest id actor G S Cast.
    unfold CopySelectedTransform. rewrite G, S, Cast. simpl. repeat split.
  - intros env C C' H B R T. unfold PasteTransformToSelected. rewrite B.
    destruct (GEditor env) as [ed |]; [| reflexivity].
    destruct (negb (bHasCopiedTransform C)); [reflexivity |].
    destruct (SelectedActors ed) as [Sel |]; [| reflexivity].
    destruct (Nat.eqb (length Sel) 0); [reflexivity |].
    destruct (BeginTransaction "Paste Transform" H) as [t H1].
    rewrite (PasteLoop_ext _ _ Sel R T). reflexivity.
Qed.

(** ** The drag dispatch of a tick *)

(** C8. On a tick outside a Play session whose mouse delta is not negligible,
    exactly one drag function runs, on the state left by the cursor
    sampling: the horizontal move if Q is held, whatever E and R are; else
    the vertical move if E is held, whatever R is; else the uniform scale if
    R is held; with no drag key held none runs. *)
Theorem tick_applies_one_drag_by_priority (env : Env)
    (P : FLevelEditorShortcutsProcessor) (H : Host) :
  IsPlayInEditor env = false ->
  IsNearlyZero2D (Vec2Sub (CursorPos env) (LastMousePosition P)) = false ->
  let MouseDelta := fst (fst (SampleCursor env (set_CachedCursor true P) H)) in
  let P1 := snd (fst (SampleCursor env (set_CachedCursor true P) H)) in
  let H1 := snd (SampleCursor env (set_CachedCursor true P) H) in
  MouseDelta = Vec2Sub (CursorPos env) (LastMousePosition P)
  /\ Actors H1 = Actors H
  /\ (bQKeyDown P = true ->
      Tick env P H = MoveSelectedActorsHorizontal env MouseDelta P1 H1)
  /\ (bQKeyDown P = false -> bEKeyDown P = true ->
      Tick env P H = MoveSelectedActorsVertical env (Y2D MouseDelta) P1 H1)
  /\ (bQKeyDown P = false -> bEKeyDown P = false -> bRKeyDown P = true ->
      Tick env P H = ScaleSelectedActorsUniform env MouseDelta P1 H1)
  /\ (bQKeyDown P = false -> bEKeyDown P = false -> bRKeyDown P = false ->
      Tick env P H = (set_CachedCursor true P, H)).
Proof.
  intros Play Moved MouseDelta P1 H1.
  pose proof (SampleCursor_spec env (set_CachedCursor true P) H) as SC.
  unfold Tick. rewrite Play. subst MouseDelta P1 H1.
  change (bQKeyDown (set_CachedCursor true P)) with (bQKeyDown P).
  change (bEKeyDown (set_CachedCursor true P)) with (bEKeyDown P).
  change (bRKeyDown (set_CachedCursor true P)) with (bRKeyDown P).
  destruct (SampleCursor env (set_CachedCursor true P) H) as [[md Ps] Hs].
  destruct SC as (-> & (k1 & k2 & k3) & _ & _ & a & _). simpl in k1, k2, k3. simpl.
  change (LastMousePosition (set_CachedCursor true P)) with (LastMousePosition P).
  rewrite Moved. unfold DispatchDrag. rewrite k1, k2, k3.
  split; [reflexivity |]. split; [exact a |].
  repeat split.
  - intros ->. reflexivity.
  - intros -> ->. reflexivity.
  - intros -> -> ->. reflexivity.
  - intros -> -> ->. reflexivity.
Qed.

(** ** Play sessions *)

Lemma MoveToFolder_transform (Folder : FName) (H : Host) (a id : ActorId) :
  ActorTransform <$> (Actors (MoveToFolder Folder H a) !! id)
  = ActorTransform <$> (Actors H !! id).
Proof.
  unfold MoveToFolder. destruct (Actors H !! a) as [x |] eqn:E; [| reflexivity].
  simpl. destruct (decide (a = id)) as [-> | Hne].
  - rewrite lookup_insert_eq, E. reflexivity.
  - rewrite lookup_insert_ne by exact Hne. reflexivity.
Qed.

Lemma MoveToFolder_loop_transform (Folder : FName) (l : list ActorId) (id : ActorId) :
  forall H,
  ActorTransform <$> (Actors (foldl (MoveToFolder Folder) H l) !! id)
  = ActorTransform <$> (Actors H !! id).
Proof.
  induction l as [| a l IH]; intros H; simpl; [reflexivity |].
  rewrite IH. apply MoveToFolder_transform.
Qed.

Lemma CopyPasteTick_transform (env : Env) (C : FTransformCopyPasteProcessor) (H : Host)
    (id : ActorId) :
  ActorTransform <$> (Actors (snd (CopyPasteTick env C H)) !! id)
  = ActorTransform <$> (Actors H !! id).
Proof.
  unfold CopyPasteTick. destruct (bPasteToFolderPending C); [| reflexivity].
  unfold CompletePasteToFolder.
  destruct (GEditor env) as [ed |]; [| reflexivity].
  destruct (EditorWorld ed); [| reflexivity].
  simpl. destruct (PendingPasteFolderPath C) as [f |]; [| reflexivity].
  destruct (Nat.eqb _ 0); [reflexivity |].
  simpl. rewrite MoveToFolder_loop_transform. reflexivity.
Qed.

Lemma MoveToFolder_lookup (Folder : FName) (H : Host) (a id : ActorId) :
  Actors (MoveToFolder Folder H a) !! id
  = if bool_decide (a = id) then SetFolderPath Folder <$> (Actors H !! id)
    else Actors H !! id.
Proof.
  unfold MoveToFolder. case_bool_decide as E.
  - subst a. destruct (Actors H !! id) as [x |] eqn:Ex; [| rewrite Ex; reflexivity].
    simpl. rewrite lookup_insert_eq. reflexivity.
  - destruct (Actors H !! a) as [x |]; [| reflexivity].
    simpl. rewrite lookup_insert_ne by exact E. reflexivity.
Qed.

Lemma MoveToFolder_loop_lookup (Folder : FName) (l : list ActorId) (id : ActorId) :
  forall H,
  Actors (foldl (MoveToFolder Folder) H l) !! id
  = if bool_decide (id ∈ l) then SetFolderPath Folder <$> (Actors H !! id)
    else Actors H !! id.
Proof.
  induction l as [| a l IH]; intros H; cbn [foldl].
  - rewrite bool_decide_eq_false_2 by apply not_elem_of_nil. reflexivity.
  - rewrite IH, MoveToFolder_lookup.
    destruct (decide (a = id)) as [-> | Ne].
    + rewrite (bool_decide_eq_true_2 (id = id)) by reflexivity.
      rewrite (bool_decide_eq_true_2 (id ∈ id :: l)) by apply list_elem_of_here.
      case_bool_decide; [| reflexivity].
      destruct (Actors H !! id); reflexivity.
    + rewrite (bool_decide_eq_false_2 (a = id)) by exact Ne.
      case_bool_decide as I.
      * rewrite bool_decide_eq_true_2 by (apply list_elem_of_further; exact I). reflexivity.
      * rewrite bool_decide_eq_false_2; [reflexivity |].
        intros C. apply elem_of_cons in C. destruct C as [C | C]; [congruence | contradiction].
Qed.

Lemma MoveToFolder_same (Folder : FName) (H : Host) (id : ActorId) :
  SameButActors H (MoveToFolder Folder H id).
Proof.
  unfold MoveToFolder. destruct (Actors H !! id).
  - apply SameButActors_set_Actors.
  - apply SameButActors_refl.
Qed.

(** What the guards do give: while the host editor reports a Play session,
    every callback of the shortcut processor and the key-down callback of the
    copy/paste processor consume nothing, modify no actor and open no
    transaction; the tick of the copy/paste processor never changes an actor
    transform and does nothing unless a paste-to-folder is pending. *)
Lemma guarded_callbacks_are_idle_during_play :
  (forall ev P H,
      IsPlayInEditor (EventEnv ev) = true ->
      fst (fst (ShortcutStep ev P H)) = false
      /\ Actors (snd (ShortcutStep ev P H)) = Actors H
      /\ TransBegun (snd (ShortcutStep ev P H)) = TransBegun H
      /\ ActiveCount (snd (ShortcutStep ev P H)) = ActiveCount H
      /\ DragTransaction (snd (fst (ShortcutStep ev P H))) = DragTransaction P)
  /\ (forall env e C H,
        IsPlayInEditor env = true ->
        CopyPasteHandleKeyDownEvent env e C H = (false, C, H))
  /\ (forall env e e' C H,
        CopyPasteHandleKeyUpEvent env e C H = (false, C, H)
        /\ CopyPasteHandleMouseWheelOrGestureEvent env e' C H = (false, C, H))
  /\ (forall env C H,
        (bPasteToFolderPending C = false -> CopyPasteTick env C H = (C, H))
        /\ (forall id,
              ActorTransform <$> (Actors (snd (CopyPasteTick env C H)) !! id)
              = ActorTransform <$> (Actors H !! id))).
Proof.
  split.
  { intros ev P H Play. destruct (ShortcutStep_play ev P H Play) as (a & b & c & d & e & _).
    repeat split; assumption. }
  split; [exact CopyPasteHandleKeyDownEvent_play |].
  split; [intros; split; reflexivity |].
  intros env C H. split.
  - intros Pending. unfold CopyPasteTick. rewrite Pending. reflexivity.
  - intros id. apply CopyPasteTick_transform.
Qed.

(** C9. The claim fails on the code at the two callbacks that have no
    Play-session guard. (1) The tick of the copy/paste processor: with a
    paste-to-folder pending, a folder remembered and an actor in the world
    that was not there when the paste was set up, a tick received during a
    Play session begins the transaction "Paste to Folder", files the actor
    under the folder and disarms the pending step - while the tick of the
    shortcut processor, in the same surroundings, returns at its guard. (2)
    The mouse-button-up callback of the shortcut processor: a left-button
    release received during a Play session, with rotation snapping
    temporarily disabled, switches rotation snapping back on - while the
    mouse-button-down callback returns at its guard. *)
Theorem play_session_does_not_stop_unguarded_callbacks :
  (forall env C H ed w f id Actor P,
      IsPlayInEditor env = true ->
      GEditor env = Some ed -> EditorWorld ed = Some w ->
      bPasteToFolderPending C = true -> PendingPasteFolderPath C = Some f ->
      Actors H !! id = Some Actor -> id ∉ ActorsBeforePaste C ->
      TransBegun (snd (CopyPasteTick env C H)) = TransBegun H ++ ["Paste to Folder"%string]
      /\ Actors (snd (CopyPasteTick env C H)) !! id = Some (SetFolderPath (Some f) Actor)
      /\ bPasteToFolderPending (fst (CopyPasteTick env C H)) = false
      /\ Tick env P H = (set_CachedCursor true P, H))
  /\ (forall env e P H vs,
        IsPlayInEditor env = true ->
        GetEffectingButton e = Key_LeftMouseButton ->
        bTemporarilyDisabledRotSnap P = true ->
        ViewportSettings H = Some vs ->
        ViewportSettings (snd (HandleMouseButtonUpEvent env e P H))
        = Some (set_RotGridEnabled true vs)
        /\ bTemporarilyDisabledRotSnap (snd (fst (HandleMouseButtonUpEvent env e P H))) = false
        /\ HandleMouseButtonDownEvent env e P H = (false, P, H)).
Proof.
  split.
  - intros env C H ed w f id Actor P Play G W Pending Folder Ha New.
    assert (T : Tick env P H = (set_CachedCursor true P, H)).
    { unfold Tick. rewrite Play. reflexivity. }
    unfold CopyPasteTick. rewrite Pending.
    unfold CompletePasteToFolder. rewrite G, W.
    cbn [PendingPasteFolderPath set_bPasteToFolderPending set_ActorsBeforePaste
         ActorsBeforePaste].
    rewrite Folder.
    set (l := filter (fun id => id ∉ ActorsBeforePaste C) (elements (dom (Actors H)))).
    assert (I : id ∈ l).
    { unfold l. apply list_elem_of_filter. split; [exact New |].
      apply elem_of_elements. apply (elem_of_dom (Actors H) id). eauto. }
    destruct (Nat.eqb_spec (length l) 0) as [E0 | N0].
    { apply length_zero_iff_nil in E0. rewrite E0 in I.
      exfalso. revert I. apply not_elem_of_nil. }
    cbn [fst snd]. unfold BeginTransaction. cbv iota beta.
    unfold EndTransaction, RedrawLevelEditingViewports.
    cbn [fst snd Actors TransBegun bPasteToFolderPending set_bPasteToFolderPending
         set_ActorsBeforePaste].
    split.
    { match goal with
      | |- context [foldl _ ?h l] =>
          destruct (foldl_SameButActors (MoveToFolder (Some f)) l
                      (MoveToFolder_same (Some f)) h) as (t & _)
      end.
      rewrite t. reflexivity. }
    split.
    { rewrite MoveToFolder_loop_lookup. cbn [Actors]. rewrite Ha.
      rewrite bool_decide_eq_true_2 by exact I. reflexivity. }
    split; [reflexivity | exact T].
  - intros env e P H vs Play B Flag VS. split; [| split].
    + unfold HandleMouseButtonUpEvent. rewrite B, Flag, VS. reflexivity.
    + unfold HandleMouseButtonUpEvent. rewrite B, Flag. reflexivity.
    + unfold HandleMouseButtonDownEvent. rewrite Play. reflexivity.
Qed.

(** C10. The key-down callback of the copy/paste processor never consumes a C
    key event and leaves the host state as it is, whatever the modifiers;
    and [CopySelectedTransform] leaves the snapshot and the has-copied flag
    (all the static fields) unchanged when [GEditor] or the selection is
    null, the selection is empty, or its first object is not an actor. *)
Theorem ctrl_c_is_never_consumed :
  (forall env e C H,
      GetKey e = Key_C ->
      fst (fst (CopyPasteHandleKeyDownEvent env e C H)) = false
      /\ snd (CopyPasteHandleKeyDownEvent env e C H) = H)
  /\ (forall env C H, SelectionEmpty env -> CopySelectedTransform env C H = C)
  /\ (forall env C H ed first rest,
        GEditor env = Some ed -> SelectedActors ed = Some (first :: rest) ->
        CastActor H first = None ->
        CopySelectedTransform env C H = C).
Proof.
  split; [| split].
  - intros env e C H K. unfold CopyPasteHandleKeyDownEvent. rewrite K.
    destruct (IsPlayInEditor env); [split; reflexivity |].
    rewrite bool_decide_eq_false_2 by discriminate. simpl.
    destruct (IsControlDown e); split; reflexivity.
  - intros env C H E. unfold SelectionEmpty in E. unfold CopySelectedTransform.
    destruct (GEditor env) as [ed |]; [| reflexivity].
    destruct E as [-> | ->]; reflexivity.
  - intros env C H ed first rest G S Cast.
    unfold CopySelectedTransform. rewrite G, S, Cast. reflexivity.
Qed.

(** ** Further properties of the drags *)




(** X2. Without grid snapping (snap size 0) a frame of a Q-drag or E-drag that
    gets past its guards holds nothing back: the accumulator is zero
    afterwards, and an actor selected once has moved by what was accumulated
    plus the movement of the frame. *)
Theorem drag_without_snapping_applies_whole_movement (f : DragFrame)
    (P : FLevelEditorShortcutsProcessor) (H : Host) (a : ActorId) :
  GetGridSnapSize H <= 0 ->
  is_Some (MoveGuards (FrameEnv f)) ->
  is_Some (Actors H !! a) -> TrackedIn a f ->
  AccumulatedMovement (fst (RunDragFrame f P H)) = ZeroVector
  /\ LocationOf (snd (RunDragFrame f P H)) a
     ≡ VecAdd (VecAdd (LocationOf H a) (AccumulatedMovement P)) (FrameInput f H).
Proof.
  intros HS [[Sel vc] G] Ha Tr. rewrite RunDragFrame_unfold.
  unfold TrackedIn in Tr. rewrite G in *.
  pose proof (InitializeDrag_spec (FrameDescription f) P H) as I.
  destruct (InitializeDrag (FrameDescription f) P H) as [P1 H1]. simpl in I.
  destruct I as (i1 & i2 & i3 & _).
  unfold AccumulateAndMove.
  rewrite SnapAccumulatedMovement_nosnap
    by (rewrite (GetGridSnapSize_ext _ _ i2); exact HS).
  cbn [fst snd]. split; [reflexivity |].
  assert (Ha1 : is_Some (Actors H1 !! a)) by (rewrite i1; exact Ha).
  rewrite i3. set (D := VecAdd (AccumulatedMovement P) (FrameInput f H)).
  destruct (MoveSelection_location D Sel H1 a Ha1) as [_ (lx & ly & lz)].
  rewrite (LocationOf_ext (MoveSelection D Sel H1)
             (RedrawLevelEditingViewports (MoveSelection D Sel H1)) a eq_refl).
  unfold SelectedOnce in Tr. rewrite Tr in lx, ly, lz.
  rewrite (LocationOf_ext _ _ _ i1) in lx, ly, lz.
  unfold Steps in lx, ly, lz.
  cbn [VecX VecY VecZ VecAdd VecScale] in lx, ly, lz.
  change (inject_Z (Z.of_nat 1)) with 1 in lx, ly, lz.
  repeat split; cbn [VecX VecY VecZ VecAdd];
    [rewrite lx | rewrite ly | rewrite lz]; unfold D; cbn [VecX VecY VecZ VecAdd]; ring.
Qed.

(** ** Further properties of the R-drag *)

Lemma ScaledFrom_floor (s : FVector) (m : Q) : AtLeastMinimumScale (ScaledFrom s m).
Proof. unfold AtLeastMinimumScale, ScaledFrom. repeat split; simpl; apply Q.le_max_r. Qed.

Lemma ScaleOne_alive (m : Q) (H : Host) (p : ActorId * FVector) (a : ActorId) :
  is_Some (Actors H !! a) -> is_Some (Actors (ScaleOne m H p) !! a).
Proof.
  intros Ha. unfold ScaleOne. destruct (Actors H !! fst p) as [x |] eqn:E; [| exact Ha].
  simpl. destruct (decide (fst p = a)) as [-> | Hne].
  - rewrite lookup_insert_eq. eauto.
  - rewrite lookup_insert_ne by exact Hne. exact Ha.
Qed.

(** Every live actor of the snapshot ends at the floored product of one of
    its snapshot entries. *)
Lemma ScaleSnapshotActors_floor (m : Q) (Snapshot : list (ActorId * FVector)) :
  forall (H : Host) (a : ActorId),
  In a (map fst Snapshot) -> is_Some (Actors H !! a) ->
  exists s, In (a, s) Snapshot
            /\ ScaleOf (ScaleSnapshotActors m Snapshot H) a = Some (ScaledFrom s m).
Proof.
  unfold ScaleSnapshotActors.
  induction Snapshot as [| [b s] l IH]; intros H a Hin Ha; [destruct Hin |].
  cbn [foldl].
  destruct (in_dec Nat.eq_dec a (map fst l)) as [Hl | Hl].
  - destruct (IH (ScaleOne m H (b, s)) a Hl (ScaleOne_alive _ _ _ _ Ha)) as (s' & I & E).
    exists s'. split; [right; exact I | exact E].
  - destruct Hin as [Hb | Hin]; [| contradiction]. simpl in Hb. subst b.
    exists s. split; [left; reflexivity |].
    assert (K : forall H', ScaleOf (foldl (ScaleOne m) H' l) a = ScaleOf H' a).
    { clear -Hl. induction l as [| p l IH]; intros H'; [reflexivity |].
      cbn [foldl]. rewrite IH.
      - unfold ScaleOf. rewrite ScaleOne_other; [reflexivity |].
        intros E. apply Hl. left. exact E.
      - intros I. apply Hl. right. exact I. }
    rewrite K. apply ScaleOne_hit. exact Ha.
Qed.

(** X3. A frame of an R-drag that gets past its guards sets the scale of
    every live actor recorded in [ScaleDragInitialScales] to its recorded
    scale times the multiplier of that frame - the multiplier computed from
    [TotalScaleDelta] as the frame leaves it - floored at [0.001f] on each
    axis; so no scale component of an actor of the drag is left below
    [0.001f], whatever the mouse movement. *)
Theorem scale_drag_never_goes_below_floor (env : Env) (md : FVector2D)
    (P : FLevelEditorShortcutsProcessor) (H : Host) (ed : UEditorEngine) (Sel : USelection)
    (a : ActorId) :
  ScaleGuards env = Some (ed, Sel) ->
  In a (map fst (ScaleDragInitialScales (fst (ScaleSelectedActorsUniform env md P H)))) ->
  is_Some (Actors H !! a) ->
  exists s s',
    In (a, s) (ScaleDragInitialScales (fst (ScaleSelectedActorsUniform env md P H)))
    /\ ScaleOf (snd (ScaleSelectedActorsUniform env md P H)) a = Some s'
    /\ s' = ScaledFrom s
              (ScaleMultiplierOf ed H
                 (TotalScaleDelta (fst (ScaleSelectedActorsUniform env md P H))))
    /\ AtLeastMinimumScale s'.
Proof.
  intros G. rewrite ScaleSelectedActorsUniform_unfold, G.
  destruct (negb (bDragInitialized P)).
  - pose proof (EnsureDragTransaction_spec "Scale Uniform" (set_bDragInitialized true P) H) as K.
    destruct (EnsureDragTransaction "Scale Uniform" (set_bDragInitialized true P) H)
      as [P1 H1]. simpl in K. destruct K as (k1 & k2 & _).
    cbn [fst snd]. intros Hin Ha.
    set (P2 := set_TotalScaleDelta _ _).
    destruct (ScaleSnapshotActors_floor (ScaleMultiplierOf ed H1 (TotalScaleDelta P2))
                (CaptureInitialScales H1 Sel) H1 a)
      as (s & I & E); [exact Hin | rewrite k1; exact Ha |].
    exists s, (ScaledFrom s (ScaleMultiplierOf ed H (TotalScaleDelta P2))).
    split; [exact I |]. split.
    + rewrite <- (ScaleMultiplierOf_ext ed H H1 _ k2). exact E.
    + split; [reflexivity | apply ScaledFrom_floor].
  - cbn [fst snd]. intros Hin Ha.
    set (P2 := set_TotalScaleDelta _ _).
    destruct (ScaleSnapshotActors_floor (ScaleMultiplierOf ed H (TotalScaleDelta P2))
                (ScaleDragInitialScales P) H a Hin Ha)
      as (s & I & E).
    exists s, (ScaledFrom s (ScaleMultiplierOf ed H (TotalScaleDelta P2))).
    split; [exact I |]. split; [exact E |]. split; [reflexivity | apply ScaledFrom_floor].
Qed.

(** X4. The scale multiplier of an R-drag frame is always positive. With
    scale snapping enabled and a positive scale grid size it is at least one
    grid step, and it is the grid size itself or the single-precision product
    of an integer and the grid size. Otherwise it is the single-precision sum
    [1.0f + TotalScaleDelta] floored at the [float] [0.01f] (which is
    slightly below the decimal 0.01). *)
Theorem scale_multiplier_is_positive_and_snapped (ed : UEditorEngine) (H : Host) (t : Q) :
  0 < ScaleMultiplierOf ed H t
  /\ (ScaleSnapEnabled H -> 0 < ScaleGridSize ed ->
      ScaleGridSize ed <= ScaleMultiplierOf ed H t
      /\ (ScaleMultiplierOf ed H t = ScaleGridSize ed
          \/ exists k : Z,
               ScaleMultiplierOf ed H t = FloatMul (inject_Z k) (ScaleGridSize ed)))
  /\ (ScaleSnapDisabled H \/ ScaleGridSize ed <= 0 ->
      ScaleMultiplierOf ed H t = Qmax (FloatAdd 1 t) Float_0_01
      /\ Float_0_01 <= ScaleMultiplierOf ed H t).
Proof.
  unfold ScaleMultiplierOf, ScaleSnapEnabled, ScaleSnapDisabled.
  pose proof (Q.le_max_r (FloatAdd 1 t) Float_0_01) as Hm.
  assert (Hpos : 0 < Float_0_01) by reflexivity.
  set (M := Qmax (FloatAdd 1 t) Float_0_01) in *.
  destruct (ViewportSettings H) as [vs |].
  - destruct (SnapScaleEnabled vs).
    + destruct (Qltb 0 (ScaleGridSize ed)) eqn:G.
      * apply Qltb_lt in G.
        assert (NZ : Qeq_bool (ScaleGridSize ed) 0 = false).
        { destruct (Qeq_bool (ScaleGridSize ed) 0) eqn:E; [| reflexivity].
          apply Qeq_bool_eq in E. lra. }
        destruct (Qltb (FloatGridSnap M (ScaleGridSize ed)) (ScaleGridSize ed)) eqn:L.
        -- split; [exact G |]. split.
           ++ intros _ _. split; [apply Qle_refl | left; reflexivity].
           ++ intros [C | C]; [discriminate | lra].
        -- apply Qltb_ge in L. split; [lra |]. split.
           ++ intros _ _. split; [exact L |]. right.
              unfold FloatGridSnap. rewrite NZ. eexists. reflexivity.
           ++ intros [C | C]; [discriminate | lra].
      * apply Qltb_ge in G. split; [lra |]. split.
        -- intros _ C. lra.
        -- intros _. split; [reflexivity | exact Hm].
    + split; [lra |]. split.
      * intros C. discriminate.
      * intros _. split; [reflexivity | exact Hm].
  - split; [lra |]. split.
    + intros [].
    + intros _. split; [reflexivity | exact Hm].
Qed.

(** ** Further properties of the key and mouse callbacks *)

(** X5. A key-down of Q, E or R changes neither the processor nor the host
    when the key is already registered as held (keyboard auto-repeat: the
    drag start position is not sampled again), during a Play session, in
    Landscape or Foliage mode, or when the level viewport is not focused. *)
Theorem drag_key_down_repeat_or_blocked_changes_nothing (env : Env) (e : FKeyEvent)
    (P : FLevelEditorShortcutsProcessor) (H : Host) :
  IsDragKey (GetKey e) = true ->
  DragKeyHeld (GetKey e) P = true \/ IsPlayInEditor env = true
  \/ LandscapeModeActive env = true \/ FoliageModeActive env = true
  \/ IsLevelEditorViewportFocused env = false ->
  snd (fst (HandleKeyDownEvent env e P H)) = P
  /\ snd (HandleKeyDownEvent env e P H) = H
  /\ (DragKeyHeld (GetKey e) P = false -> fst (fst (HandleKeyDownEvent env e P H)) = false).
Proof.
  intros K Hc. unfold HandleKeyDownEvent.
  destruct (IsPlayInEditor env) eqn:Play; [repeat split |].
  unfold DragKeyDown.
  destruct (LandscapeModeActive env) eqn:L;
    [destruct (GetKey e); try discriminate K; repeat split |].
  destruct (FoliageModeActive env) eqn:F;
    [destruct (GetKey e); try discriminate K; repeat split |].
  destruct (IsLevelEditorViewportFocused env) eqn:Foc;
    [| destruct (GetKey e); try discriminate K; repeat split].
  destruct Hc as [Held | [C | [C | [C | C]]]]; try discriminate C.
  destruct (GetKey e); try discriminate K; simpl in Held |- *; rewrite Held; simpl;
    (split; [reflexivity |]; split; [reflexivity |]; intros C; discriminate C).
Qed.

(** X6. The first key-down of Q, E or R in the focused level viewport
    (outside a Play session and Landscape/Foliage mode) starts the drag: the
    key is registered as held, the cursor position becomes both
    [LastMousePosition] and [DragStartCursorPos], and the cursor is hidden.
    This happens with a modifier key held as well; the event is consumed
    exactly when no modifier is held. Actors, undo buffer and viewport
    settings are not touched. *)
Theorem drag_key_first_press_starts_drag (env : Env) (e : FKeyEvent)
    (P : FLevelEditorShortcutsProcessor) (H : Host) :
  IsDragKey (GetKey e) = true -> DragKeyHeld (GetKey e) P = false ->
  IsPlayInEditor env = false ->
  LandscapeModeActive env = false -> FoliageModeActive env = false ->
  IsLevelEditorViewportFocused env = true ->
  fst (fst (HandleKeyDownEvent env e P H)) = NoModifiers e
  /\ DragKeyHeld (GetKey e) (snd (fst (HandleKeyDownEvent env e P H))) = true
  /\ LastMousePosition (snd (fst (HandleKeyDownEvent env e P H))) = CursorPos env
  /\ DragStartCursorPos (snd (fst (HandleKeyDownEvent env e P H))) = CursorPos env
  /\ bCursorHidden (snd (fst (HandleKeyDownEvent env e P H))) = true
  /\ (CachedCursor P = true -> bCursorHidden P = false ->
      CursorShown (snd (HandleKeyDownEvent env e P H)) = false)
  /\ SameButActors (CursorShow (CursorShown H) (snd (HandleKeyDownEvent env e P H))) H
  /\ Actors (snd (HandleKeyDownEvent env e P H)) = Actors H
  /\ AccumulatedMovement (snd (fst (HandleKeyDownEvent env e P H))) = AccumulatedMovement P.
Proof.
  intros K Held Play L F Foc. unfold HandleKeyDownEvent, DragKeyDown.
  rewrite Play, L, F, Foc. cbn [orb negb].
  destruct (GetKey e); try discriminate K; simpl in Held; rewrite Held; cbn [negb];
    unfold FirstPress, SetCursorHidden;
    destruct (bCursorHidden P) eqn:Hid; destruct (CachedCursor P) eqn:Cc; simpl;
    rewrite ?Hid, ?Cc; simpl;
    repeat split; try reflexivity; try assumption; try (intros; discriminate).
Qed.

(** X7. Releasing Q, E or R outside a Play session consumes the event and
    resets the state shared by the three drags: the released key is no longer
    held, the accumulated movement, the accumulated scale delta and the scale
    snapshot are cleared, and the cursor is no longer hidden (it is shown
    again when it was hidden and a cursor is cached). The other two drag keys
    stay as they were, and neither actors nor viewport settings change. *)
Theorem drag_key_release_resets_drag_state (env : Env) (e : FKeyEvent)
    (P : FLevelEditorShortcutsProcessor) (H : Host) :
  IsDragKey (GetKey e) = true -> IsPlayInEditor env = false ->
  fst (fst (HandleKeyUpEvent env e P H)) = true
  /\ DragKeyHeld (GetKey e) (snd (fst (HandleKeyUpEvent env e P H))) = false
  /\ (forall k, IsDragKey k = true -> k <> GetKey e ->
        DragKeyHeld k (snd (fst (HandleKeyUpEvent env e P H))) = DragKeyHeld k P)
  /\ AccumulatedMovement (snd (fst (HandleKeyUpEvent env e P H))) = ZeroVector
  /\ TotalScaleDelta (snd (fst (HandleKeyUpEvent env e P H))) = 0
  /\ ScaleDragInitialScales (snd (fst (HandleKeyUpEvent env e P H))) = []
  /\ bCursorHidden (snd (fst (HandleKeyUpEvent env e P H))) = false
  /\ (CachedCursor P = true -> bCursorHidden P = true ->
      CursorShown (snd (HandleKeyUpEvent env e P H)) = true)
  /\ Actors (snd (HandleKeyUpEvent env e P H)) = Actors H
  /\ ViewportSettings (snd (HandleKeyUpEvent env e P H)) = ViewportSettings H.
Proof.
  intros K Play. unfold HandleKeyUpEvent, DragKeyUp, EndDragTransaction, SetCursorHidden.
  rewrite Play.
  destruct (GetKey e); try discriminate K; simpl;
    destruct (bCursorHidden P) eqn:Hid; destruct (CachedCursor P) eqn:Cc; simpl;
    destruct (DragTransaction P); destruct (GEditor env);
    try destruct (bQScrolledWhileDown P); simpl;
    (repeat split; try reflexivity; try assumption; try (intros; discriminate);
     try (intros k Kk Ne; destruct k; try discriminate Kk; try reflexivity;
          exfalso; apply Ne; reflexivity)).
Qed.

Lemma HandleMouseButtonDownEvent_cases (env : Env) (e : FPointerEvent)
    (P : FLevelEditorShortcutsProcessor) (H : Host) :
  HandleMouseButtonDownEvent env e P H = (false, P, H)
  \/ exists vs,
       ViewportSettings H = Some vs /\ RotGridEnabled vs = true
       /\ HandleMouseButtonDownEvent env e P H
          = (false, set_bTemporarilyDisabledRotSnap true P,
             set_ViewportSettings (Some (set_RotGridEnabled false vs)) H).
Proof.
  unfold HandleMouseButtonDownEvent.
  destruct (IsPlayInEditor env); [left; reflexivity |].
  destruct (GetEffectingButton e); try (left; reflexivity).
  destruct (PointerShiftDown e && IsLevelEditorViewportFocused env
            && IsRotateMode (LevelEditorWidgetMode H)); [| left; reflexivity].
  destruct (ViewportSettings H) as [vs |]; [| left; reflexivity].
  destruct (RotGridEnabled vs) eqn:RG; [| left; reflexivity].
  right. exists vs. repeat split. exact RG.
Qed.

(** X8. Shift + left click in rotate mode switches rotation snapping off only
    for the time the button is held: from a state without a pending
    restoration, a button-down followed by a left-button-up gives back the
    host state and the processor state as they were, whatever the
    button-down did, and neither event is consumed. When the button-down is
    a Shift + left click in the focused level viewport in rotate mode with
    rotation snapping enabled, rotation snapping is disabled in between. *)
Theorem shift_click_disables_rotation_snap_until_release (envD envU : Env)
    (eD eU : FPointerEvent) (P : FLevelEditorShortcutsProcessor) (H : Host) :
  bTemporarilyDisabledRotSnap P = false ->
  GetEffectingButton eU = Key_LeftMouseButton ->
  let r1 := HandleMouseButtonDownEvent envD eD P H in
  let r2 := HandleMouseButtonUpEvent envU eU (snd (fst r1)) (snd r1) in
  snd r2 = H /\ snd (fst r2) = P /\ fst (fst r1) = false /\ fst (fst r2) = false
  /\ (forall vs,
        IsPlayInEditor envD = false -> GetEffectingButton eD = Key_LeftMouseButton ->
        PointerShiftDown eD = true -> IsLevelEditorViewportFocused envD = true ->
        LevelEditorWidgetMode H = WM_Rotate ->
        ViewportSettings H = Some vs -> RotGridEnabled vs = true ->
        ViewportSettings (snd r1) = Some (set_RotGridEnabled false vs)
        /\ bTemporarilyDisabledRotSnap (snd (fst r1)) = true).
Proof.
  intros Flag Up. cbv zeta.
  split; [| split; [| split; [| split]]].
  5: { intros vs Play B Sh Foc M VS RG. unfold HandleMouseButtonDownEvent.
       rewrite Play, B, Sh, Foc, M, VS, RG. split; reflexivity. }
  all: destruct (HandleMouseButtonDownEvent_cases envD eD P H) as [E | (vs & VS & RG & E)];
    rewrite E; unfold HandleMouseButtonUpEvent; rewrite ?Up; cbn [fst snd];
    try rewrite Flag; try reflexivity.
  - clear E. destruct H, vs. simpl in VS, RG. subst. reflexivity.
  - destruct P. simpl in Flag. subst. reflexivity.
Qed.

(** ** Further properties of the grid shortcuts *)

Lemma ChangeGridSize_settings (env : Env) (b : bool) (H : Host)
    (vs : ULevelEditorViewportSettings) :
  ViewportSettings H = Some vs ->
  ChangeGridSize env b H = H
  \/ exists i,
       ViewportSettings (ChangeGridSize env b H) = Some (SetGridSize i vs)
       /\ i = (if b then Z.min (CurrentPosGridSize vs + 1)
                          (Z.of_nat (length (ActiveGridSizes vs)) - 1)
               else Z.max (CurrentPosGridSize vs - 1) 0)
       /\ i <> CurrentPosGridSize vs
       /\ RedrawRequests (ChangeGridSize env b H) = S (RedrawRequests H).
Proof.
  intros VS. unfold ChangeGridSize, ActiveGridSizes. rewrite VS.
  destruct (Nat.eqb _ 0); [left; reflexivity |].
  match goal with |- context [Z.eqb ?i ?j] => destruct (Z.eqb_spec i j) as [E | E] end;
    [left; reflexivity |].
  destruct (GEditor env); [| left; reflexivity].
  right. eexists. split; [reflexivity |]. split; [reflexivity |]. split; [exact E | reflexivity].
Qed.

(** X9. Tapping G (key-down then key-up without a scroll in between, outside
    a Play session) toggles position grid snapping and nothing else of the
    viewport settings: the grid table, the grid index, rotation and scale
    snapping stay as they are. Neither event is consumed, and no actor is
    touched. *)
Theorem g_tap_toggles_grid_snapping (envD envU : Env) (eD eU : FKeyEvent)
    (P : FLevelEditorShortcutsProcessor) (H : Host) (vs : ULevelEditorViewportSettings) :
  GetKey eD = Key_G -> GetKey eU = Key_G ->
  IsPlayInEditor envD = false -> IsPlayInEditor envU = false ->
  ViewportSettings H = Some vs ->
  let r1 := HandleKeyDownEvent envD eD P H in
  let r2 := HandleKeyUpEvent envU eU (snd (fst r1)) (snd r1) in
  fst (fst r1) = false /\ fst (fst r2) = false
  /\ (exists vs',
        ViewportSettings (snd r2) = Some vs'
        /\ GridEnabled vs' = negb (GridEnabled vs)
        /\ ActiveGridSizes vs' = ActiveGridSizes vs
        /\ CurrentPosGridSize vs' = CurrentPosGridSize vs
        /\ RotGridEnabled vs' = RotGridEnabled vs
        /\ SnapScaleEnabled vs' = SnapScaleEnabled vs)
  /\ (GridEnabled vs = true -> GetGridSnapSize (snd r2) = 0)
  /\ Actors (snd r2) = Actors H
  /\ bGKeyDown (snd (fst r2)) = false.
Proof.
  intros KD KU PD PU VS. cbv zeta.
  unfold HandleKeyDownEvent, HandleKeyUpEvent. rewrite PD, KD. cbn [fst snd].
  rewrite PU, KU. cbn [fst snd]. simpl. unfold ToggleGridSnap. rewrite VS.
  split; [reflexivity |]. split; [reflexivity |].
  split.
  { eexists. split; [destruct (GEditor envU); reflexivity |].
    repeat split; reflexivity. }
  split.
  { intros En. unfold GetGridSnapSize. destruct (GEditor envU); simpl; rewrite En; reflexivity. }
  split; [destruct (GEditor envU); reflexivity | reflexivity].
Qed.

(** X10. Scrolling while G is held (and Q is not) changes the grid size: the
    wheel event is consumed exactly outside Landscape and Foliage mode, where
    it calls [ChangeGridSize] in the direction of the scroll, and in either
    case it sets [bGScrolledWhileDown]. A key-up of G that comes next does
    not toggle grid snapping. Every G key-down clears the flag, an
    auto-repeat of the held key included (the G branch has no first-press
    test): when a further G key-down arrives between the scroll and the
    key-up, the key-up does toggle grid snapping. *)
Theorem g_scroll_changes_grid_size_without_toggling (envD envW envR envU : Env)
    (eD eR eU : FKeyEvent) (eW : FPointerEvent)
    (P : FLevelEditorShortcutsProcessor) (H : Host) :
  GetKey eD = Key_G -> GetKey eR = Key_G -> GetKey eU = Key_G ->
  IsPlayInEditor envD = false -> IsPlayInEditor envW = false ->
  IsPlayInEditor envR = false -> IsPlayInEditor envU = false ->
  bQKeyDown P = false ->
  let r1 := HandleKeyDownEvent envD eD P H in
  let r2 := HandleMouseWheelOrGestureEvent envW eW (snd (fst r1)) (snd r1) in
  let r3 := HandleKeyUpEvent envU eU (snd (fst r2)) (snd r2) in
  let repeated := HandleKeyDownEvent envR eR (snd (fst r2)) (snd r2) in
  let r3' := HandleKeyUpEvent envU eU (snd (fst repeated)) (snd repeated) in
  fst (fst r2) = negb (LandscapeModeActive envW) && negb (FoliageModeActive envW)
  /\ snd r2 = (if negb (LandscapeModeActive envW) && negb (FoliageModeActive envW)
               then ChangeGridSize envW (Qltb 0 (GetWheelDelta eW)) H else H)
  /\ bGScrolledWhileDown (snd (fst r2)) = true
  /\ snd r3 = snd r2
  /\ (GridEnabled <$> ViewportSettings (snd r3)) = (GridEnabled <$> ViewportSettings H)
  /\ bGKeyDown (snd (fst r3)) = false /\ bGScrolledWhileDown (snd (fst r3)) = false
  /\ bGScrolledWhileDown (snd (fst repeated)) = false
  /\ snd repeated = snd r2
  /\ snd r3' = ToggleGridSnap envU (snd r2).
Proof.
  intros KD KR KU PD PW PR PU Q. cbv zeta.
  unfold HandleKeyDownEvent. rewrite PD, KD, PR, KR. cbn [fst snd].
  unfold HandleMouseWheelOrGestureEvent. rewrite PW. simpl. rewrite Q.
  destruct (negb (LandscapeModeActive envW) && negb (FoliageModeActive envW));
    unfold HandleKeyUpEvent; rewrite PU, KU; simpl.
  - repeat split.
    destruct (ViewportSettings H) as [vs |] eqn:VS.
    + destruct (ChangeGridSize_settings envW (Qltb 0 (GetWheelDelta eW)) H vs VS)
        as [-> | (i & -> & _)]; [rewrite VS |]; reflexivity.
    + unfold ChangeGridSize. rewrite VS. simpl. rewrite VS. reflexivity.
  - repeat split.
Qed.

Lemma ChangeGridSize_step (env : Env) (b : bool) (H : Host)
    (vs : ULevelEditorViewportSettings) (ed : UEditorEngine) :
  ViewportSettings H = Some vs -> GEditor env = Some ed ->
  (0 <= CurrentPosGridSize vs < Z.of_nat (length (ActiveGridSizes vs)))%Z ->
  let j := SteppedIndex b (CurrentPosGridSize vs) (Z.of_nat (length (ActiveGridSizes vs))) in
  ViewportSettings (ChangeGridSize env b H) = Some (SetGridSize j vs)
  /\ (j = CurrentPosGridSize vs -> ChangeGridSize env b H = H)
  /\ (j <> CurrentPosGridSize vs ->
      RedrawRequests (ChangeGridSize env b H) = S (RedrawRequests H)).
Proof.
  intros VS GE R. cbv zeta. unfold SteppedIndex.
  assert (Id : SetGridSize (CurrentPosGridSize vs) vs = vs) by (destruct vs; reflexivity).
  unfold ChangeGridSize. rewrite VS, GE. fold (ActiveGridSizes vs).
  destruct (Nat.eqb_spec (length (ActiveGridSizes vs)) 0) as [E0 | N0];
    [rewrite E0 in R; simpl in R; lia |].
  destruct b.
  - destruct (Z.ltb_spec (CurrentPosGridSize vs + 1)
                (Z.of_nat (length (ActiveGridSizes vs)))) as [Lt | Ge].
    + rewrite Z.min_l by lia.
      destruct (Z.eqb_spec (CurrentPosGridSize vs + 1) (CurrentPosGridSize vs)); [lia |].
      repeat split; intros; lia.
    + rewrite Z.min_r by lia.
      destruct (Z.eqb_spec (Z.of_nat (length (ActiveGridSizes vs)) - 1)
                  (CurrentPosGridSize vs)); [| lia].
      rewrite VS, Id. repeat split; intros; congruence.
  - destruct (Z.ltb_spec 0 (CurrentPosGridSize vs)) as [Lt | Ge].
    + rewrite Z.max_l by lia.
      destruct (Z.eqb_spec (CurrentPosGridSize vs - 1) (CurrentPosGridSize vs)); [lia |].
      repeat split; intros; lia.
    + rewrite Z.max_r by lia.
      destruct (Z.eqb_spec 0 (CurrentPosGridSize vs)); [| lia].
      rewrite VS, Id. repeat split; intros; congruence.
Qed.

(** X11. [ChangeGridSize] keeps the grid index inside the active grid table:
    from a valid index it moves by exactly one entry in the direction asked
    for, and at the end of the table in that direction it does nothing at
    all, not even a redraw. It changes nothing else of the settings. Hence an
    increment followed by a decrement gives back the settings it started
    from when the index was not at the last entry; at the last entry the
    increment does nothing and the pair is the decrement alone, which leaves
    the index one entry lower when the table has more than one entry. *)
Theorem change_grid_size_steps_within_table (env : Env) (b : bool) (H : Host)
    (vs : ULevelEditorViewportSettings) (ed : UEditorEngine) :
  ViewportSettings H = Some vs -> GEditor env = Some ed ->
  (0 <= CurrentPosGridSize vs < Z.of_nat (length (ActiveGridSizes vs)))%Z ->
  let i := CurrentPosGridSize vs in
  let n := Z.of_nat (length (ActiveGridSizes vs)) in
  (0 <= SteppedIndex b i n < n)%Z
  /\ ViewportSettings (ChangeGridSize env b H) = Some (SetGridSize (SteppedIndex b i n) vs)
  /\ (SteppedIndex b i n = i -> ChangeGridSize env b H = H)
  /\ (SteppedIndex b i n <> i ->
      RedrawRequests (ChangeGridSize env b H) = S (RedrawRequests H))
  /\ ((i + 1 < n)%Z ->
      ViewportSettings (ChangeGridSize env false (ChangeGridSize env true H))
      = ViewportSettings H)
  /\ ((i + 1 = n)%Z ->
      ChangeGridSize env false (ChangeGridSize env true H) = ChangeGridSize env false H
      /\ ViewportSettings (ChangeGridSize env false (ChangeGridSize env true H))
         = Some (SetGridSize (Z.max (i - 1) 0) vs)).
Proof.
  intros VS GE R. cbv zeta.
  destruct (ChangeGridSize_step env b H vs ed VS GE R) as (s1 & s2 & s3).
  split.
  { unfold SteppedIndex. destruct b.
    - destruct (Z.ltb_spec (CurrentPosGridSize vs + 1)
                  (Z.of_nat (length (ActiveGridSizes vs)))); lia.
    - destruct (Z.ltb_spec 0 (CurrentPosGridSize vs)); lia. }
  split; [exact s1 |]. split; [exact s2 |]. split; [exact s3 |].
  split.
  - intros Room.
    destruct (ChangeGridSize_step env true H vs ed VS GE R) as (u1 & _).
    unfold SteppedIndex in u1.
    destruct (Z.ltb_spec (CurrentPosGridSize vs + 1)
                (Z.of_nat (length (ActiveGridSizes vs)))) as [_ | C]; [| lia].
    destruct (ChangeGridSize_step env false _ _ ed u1 GE) as (d1 & _).
    { destruct vs; simpl in *. unfold ActiveGridSizes in *. simpl in *. lia. }
    rewrite d1, VS. f_equal. unfold SteppedIndex.
    destruct vs; simpl in *.
    destruct (Z.ltb_spec 0 (CurrentPosGridSize0 + 1)); [| lia].
    unfold SetGridSize. simpl. f_equal. lia.
  - intros Last.
    destruct (ChangeGridSize_step env true H vs ed VS GE R) as (_ & u2 & _).
    assert (Top : ChangeGridSize env true H = H).
    { apply u2. unfold SteppedIndex.
      destruct (Z.ltb_spec (CurrentPosGridSize vs + 1)
                  (Z.of_nat (length (ActiveGridSizes vs)))); [lia | reflexivity]. }
    rewrite Top. split; [reflexivity |].
    destruct (ChangeGridSize_step env false H vs ed VS GE R) as (d1 & _).
    rewrite d1. unfold SteppedIndex.
    destruct (Z.ltb_spec 0 (CurrentPosGridSize vs)) as [Lt | Ge].
    + rewrite Z.max_l by lia. reflexivity.
    + rewrite Z.max_r by lia. replace (CurrentPosGridSize vs) with 0%Z by lia. reflexivity.
Qed.

(** ** Further properties of Q+Scroll *)

Lemma RotateOneActor_frame (amount : Q) (b : bool) (pivot : FVector) (H : Host)
    (id id' : ActorId) :
  match Actors H !! id' with
  | Some a =>
      exists a', Actors (RotateOneActor amount b pivot H id) !! id' = Some a'
                 /\ GetActorScale3D a' = GetActorScale3D a /\ FolderPath a' = FolderPath a
  | None => Actors (RotateOneActor amount b pivot H id) !! id' = None
  end.
Proof.
  unfold RotateOneActor.
  destruct (Actors H !! id) as [x |] eqn:E.
  - destruct (decide (id = id')) as [<- | Ne].
    + rewrite E. simpl. rewrite lookup_insert_eq. eexists. split; [reflexivity |].
      destruct b; split; reflexivity.
    + simpl. rewrite lookup_insert_ne by exact Ne.
      destruct (Actors H !! id'); eauto.
  - destruct (Actors H !! id'); eauto.
Qed.

Lemma RotateLoop_frame (amount : Q) (b : bool) (pivot : FVector) (l : list ActorId)
    (id' : ActorId) :
  forall H,
  match Actors H !! id' with
  | Some a =>
      exists a', Actors (foldl (RotateOneActor amount b pivot) H l) !! id' = Some a'
                 /\ GetActorScale3D a' = GetActorScale3D a /\ FolderPath a' = FolderPath a
  | None => Actors (foldl (RotateOneActor amount b pivot) H l) !! id' = None
  end.
Proof.
  induction l as [| id l IH]; intros H; cbn [foldl].
  - destruct (Actors H !! id'); eauto.
  - pose proof (RotateOneActor_frame amount b pivot H id id') as F.
    specialize (IH (RotateOneActor amount b pivot H id)).
    destruct (Actors H !! id') as [a |].
    + destruct F as (a1 & E1 & S1 & F1). rewrite E1 in IH.
      destruct IH as (a2 & E2 & S2 & F2). exists a2. repeat split; congruence.
    + rewrite F in IH. exact IH.
Qed.

(** [RotateSelectedActors] is its guards and, past them, the loop between the
    begin and the end of its transaction. *)
(** X12. Q+Scroll rotation never changes the scale or the folder of an actor,
    creates or deletes none, leaves the viewport settings and the widget
    mode alone, and closes the transaction it opens: either nothing at all
    happens (a guard returned), or exactly one "Rotate Selected" transaction
    is begun and ended. *)
Theorem rotate_keeps_scale_and_closes_its_transaction (env : Env) (d : Q) (b : bool)
    (H : Host) :
  (forall id a, Actors H !! id = Some a ->
     exists a', Actors (RotateSelectedActors env d b H) !! id = Some a'
                /\ GetActorScale3D a' = GetActorScale3D a /\ FolderPath a' = FolderPath a)
  /\ (forall id, Actors H !! id = None -> Actors (RotateSelectedActors env d b H) !! id = None)
  /\ ActiveCount (RotateSelectedActors env d b H) = ActiveCount H
  /\ ViewportSettings (RotateSelectedActors env d b H) = ViewportSettings H
  /\ LevelEditorWidgetMode (RotateSelectedActors env d b H) = LevelEditorWidgetMode H
  /\ (RotateSelectedActors env d b H = H
      \/ TransBegun (RotateSelectedActors env d b H) = TransBegun H ++ ["Rotate Selected"]).
Proof.
  destruct (RotateSelectedActors_cases env d b H) as [E | (amount & bp & pivot & l & E)];
    rewrite E.
  - repeat split; eauto.
  - set (H1 := snd (BeginTransaction "Rotate Selected" H)).
    pose proof (foldl_SameButActors (RotateOneActor amount bp pivot) l
                  (RotateOneActor_same amount bp pivot) H1) as Same.
    destruct Same as (s1 & s2 & s3 & s4 & _).
    split.
    { intros id a Ha. pose proof (RotateLoop_frame amount bp pivot l id H1) as F.
      change (Actors H1) with (Actors H) in F. rewrite Ha in F. exact F. }
    split.
    { intros id Ha. pose proof (RotateLoop_frame amount bp pivot l id H1) as F.
      change (Actors H1) with (Actors H) in F. rewrite Ha in F. exact F. }
    simpl. rewrite s1, s2, s3, s4. simpl. repeat split. right. reflexivity.
Qed.

(** X13. With exactly one live actor among the selected objects, and that
    actor not in a group, Q+Scroll turns it in place: its yaw grows by the
    rotation amount, pitch and roll are written back as read, and its
    location, scale and every other actor are untouched. *)
Theorem rotate_single_actor_turns_in_place (env : Env) (d : Q) (b : bool) (H : Host)
    (ed : UEditorEngine) (Sel : USelection) (id : ActorId) (a : AActor) :
  GEditor env = Some ed -> SelectedActors ed = Some Sel ->
  omap (CastActor H) Sel = [(id, a)] -> GroupRoot a = None ->
  Actors (RotateSelectedActors env d b H) !! id
  = Some (SetActorRotation
            (MkRotator (Pitch (GetActorRotation a))
               (Yaw (GetActorRotation a) + RotationAmountOf d b H)
               (Roll (GetActorRotation a))) a)
  /\ LocationOf (RotateSelectedActors env d b H) id = GetActorLocation a
  /\ ScaleOf (RotateSelectedActors env d b H) id = Some (GetActorScale3D a)
  /\ (forall id', id' <> id ->
        Actors (RotateSelectedActors env d b H) !! id' = Actors H !! id').
Proof.
  intros GE SE One NoGroup.
  assert (Ha : Actors H !! id = Some a).
  { assert (I : (id, a) ∈ omap (CastActor H) Sel) by (rewrite One; apply list_elem_of_here).
    apply list_elem_of_omap in I. destruct I as (o & _ & Eo).
    apply CastActor_Some in Eo. tauto. }
  unfold RotateSelectedActors. rewrite GE, SE.
  destruct Sel as [| o Sel']; [discriminate One |].
  cbn [length Nat.eqb]. rewrite One. cbn [length Nat.eqb existsb snd map fst foldl].
  rewrite NoGroup. cbn [Nat.ltb Nat.leb orb].
  unfold RotateOneActor. cbn [BeginTransaction Actors]. simpl. rewrite Ha. simpl.
  rewrite lookup_insert_eq.
  split; [reflexivity |].
  unfold LocationOf, ScaleOf. simpl. rewrite lookup_insert_eq.
  split; [reflexivity |]. split; [reflexivity |].
  intros id' Ne. rewrite lookup_insert_ne by congruence. reflexivity.
Qed.

(** X14. The rotation amount of Q+Scroll depends on the direction of the
    scroll only, never on its size: every positive delta gives the same
    amount, every other delta (zero included) gives its opposite. With Shift
    held (snap ignored), or rotation snapping disabled, the amount is 15
    degrees; with rotation snapping enabled and a valid grid index it is the
    current rotation grid size. *)
Theorem rotation_amount_depends_on_scroll_direction_only (d d' : Q) (b : bool) (H : Host) :
  (0 < d -> 0 < d' -> RotationAmountOf d' b H = RotationAmountOf d b H)
  /\ (d <= 0 -> d' <= 0 -> RotationAmountOf d' b H = RotationAmountOf d b H)
  /\ (0 < d -> d' <= 0 -> RotationAmountOf d' b H == - RotationAmountOf d b H)
  /\ (0 < d -> RotationAmountOf d true H = 15)
  /\ (0 < d -> forall vs, ViewportSettings H = Some vs -> RotGridEnabled vs = false ->
        RotationAmountOf d b H = 15)
  /\ (0 < d -> forall vs g,
        ViewportSettings H = Some vs -> RotGridEnabled vs = true ->
        ValidIndexLookup
          (match CurrentRotGridMode vs with
           | GridMode_DivisionsOf360 => DivisionsOf360RotGridSizes vs
           | GridMode_Common => CommonRotGridSizes vs
           end) (CurrentRotGridSize vs) = Some g ->
        RotationAmountOf d false H = g).
Proof.
  unfold RotationAmountOf.
  split; [| split; [| split; [| split; [| split]]]].
  - intros P1 P2. apply Qltb_lt in P1, P2. rewrite P1, P2. reflexivity.
  - intros N1 N2. apply Qltb_ge in N1, N2. rewrite N1, N2. reflexivity.
  - intros P1 N2. apply Qltb_lt in P1. apply Qltb_ge in N2. rewrite P1, N2.
    destruct (ViewportSettings H) as [vs |]; [| reflexivity].
    destruct (negb b && RotGridEnabled vs); [| reflexivity].
    destruct (ValidIndexLookup _ _); reflexivity.
  - intros P1. apply Qltb_lt in P1. rewrite P1.
    destruct (ViewportSettings H); reflexivity.
  - intros P1 vs VS RG. apply Qltb_lt in P1. rewrite P1, VS, RG.
    rewrite andb_false_r. reflexivity.
  - intros P1 vs g VS RG L. apply Qltb_lt in P1. rewrite P1, VS, RG. simpl. rewrite L.
    reflexivity.
Qed.

(** X15. While Q is held a wheel event is always consumed and rotates the
    selection; the key-up of Q that follows puts the level editor back into
    translate mode. A release of Q without a scroll leaves the widget mode
    as it is. *)
Theorem q_scroll_restores_translate_mode_on_release (envW envU : Env)
    (eW : FPointerEvent) (eU : FKeyEvent)
    (P : FLevelEditorShortcutsProcessor) (H : Host) :
  IsPlayInEditor envW = false -> IsPlayInEditor envU = false ->
  GetKey eU = Key_Q ->
  (bQKeyDown P = true ->
   let r1 := HandleMouseWheelOrGestureEvent envW eW P H in
   let r2 := HandleKeyUpEvent envU eU (snd (fst r1)) (snd r1) in
   fst (fst r1) = true
   /\ snd r1 = RotateSelectedActors envW (GetWheelDelta eW) (PointerShiftDown eW) H
   /\ LevelEditorWidgetMode (snd r2) = WM_Translate
   /\ bQScrolledWhileDown (snd (fst r2)) = false)
  /\ (bQScrolledWhileDown P = false ->
      LevelEditorWidgetMode (snd (HandleKeyUpEvent envU eU P H)) = LevelEditorWidgetMode H).
Proof.
  intros PW PU KU. split.
  - intros Q. cbv zeta. unfold HandleMouseWheelOrGestureEvent. rewrite PW, Q.
    cbn [fst snd]. split; [reflexivity |]. split; [reflexivity |].
    unfold HandleKeyUpEvent. rewrite PU, KU. cbn [bQScrolledWhileDown set_bQScrolledWhileDown].
    unfold DragKeyUp, EndDragTransaction, SetCursorHidden. simpl.
    destruct (DragTransaction P), (bCursorHidden P), (CachedCursor P), (GEditor envU);
      simpl; split; reflexivity.
  - intros NS. unfold HandleKeyUpEvent. rewrite PU, KU, NS.
    unfold DragKeyUp, EndDragTransaction, SetCursorHidden. simpl.
    destruct (DragTransaction P), (bCursorHidden P), (CachedCursor P), (GEditor envU);
      reflexivity.
Qed.

(** ** The selection pivot *)

Lemma omap_cons_match {A B : Type} (f : A -> option B) (x : A) (l : list A) :
  omap f (x :: l) = match f x with Some y => y :: omap f l | None => omap f l end.
Proof. reflexivity. Qed.

Lemma PivotSum_omap (H : Host) (Sel : USelection) :
  PivotSum H Sel
  = (SumOfLocations (omap (CastActor H) Sel), length (omap (CastActor H) Sel)).
Proof.
  unfold PivotSum, SumOfLocations.
  enough (G : forall v n,
             foldl (fun acc o =>
                      match CastActor H o with
                      | Some (_, a) => (VecAdd (fst acc) (GetActorLocation a), S (snd acc))
                      | None => acc
                      end) (v, n) Sel
             = (foldl (fun s p => VecAdd s (GetActorLocation (snd p))) v
                  (omap (CastActor H) Sel),
                (n + length (omap (CastActor H) Sel))%nat)).
  { rewrite G. reflexivity. }
  induction Sel as [| o Sel IH]; intros v n.
  - cbn. rewrite Nat.add_0_r. reflexivity.
  - rewrite omap_cons_match. cbn [foldl].
    destruct (CastActor H o) as [[id a] |]; cbn [foldl length fst snd].
    + rewrite IH. f_equal. lia.
    + apply IH.
Qed.

(** X16. [GetSelectionPivot] is the centroid of the selected live actors:
    multiplied by their number it is the sum of their locations. It is the
    zero vector when no selected object is a live actor, and the location of
    the actor when there is exactly one. *)
Theorem selection_pivot_is_centroid (env : Env) (H : Host) (ed : UEditorEngine)
    (Sel : USelection) :
  GEditor env = Some ed -> SelectedActors ed = Some Sel ->
  (omap (CastActor H) Sel = [] -> GetSelectionPivot env H = ZeroVector)
  /\ (omap (CastActor H) Sel <> [] ->
      VecScale (GetSelectionPivot env H)
        (inject_Z (Z.of_nat (length (omap (CastActor H) Sel))))
      ≡ SumOfLocations (omap (CastActor H) Sel))
  /\ (forall id a, omap (CastActor H) Sel = [(id, a)] ->
        GetSelectionPivot env H ≡ GetActorLocation a).
Proof.
  intros GE SE. unfold GetSelectionPivot. rewrite GE, SE, PivotSum_omap.
  assert (NE : omap (CastActor H) Sel <> [] -> Nat.eqb (length Sel) 0 = false).
  { intros N. destruct Sel; [exfalso; apply N; reflexivity | reflexivity]. }
  split; [| split].
  - intros E. rewrite E. cbn [length Nat.ltb Nat.leb].
    destruct (Nat.eqb (length Sel) 0); reflexivity.
  - intros N. rewrite (NE N).
    destruct (omap (CastActor H) Sel) as [| p l] eqn:E; [contradiction |].
    cbn [length Nat.ltb Nat.leb].
    set (k := inject_Z (Z.of_nat (S (length l)))).
    assert (Hk : 0 < k).
    { unfold k. change 0 with (inject_Z 0). rewrite <- Zlt_Qlt. lia. }
    clearbody k. unfold VecDiv, VecScale. repeat split; cbn [VecX VecY VecZ]; field; lra.
  - intros id a E. rewrite NE by (rewrite E; discriminate). rewrite E.
    cbn [length Nat.ltb Nat.leb]. unfold SumOfLocations. cbn [foldl snd].
    unfold VecDiv, VecAdd, ZeroVector. change (inject_Z (Z.of_nat 1)) with 1.
    repeat split; cbn [VecX VecY VecZ]; field.
Qed.

(** ** Further properties of the copy/paste processor *)

(** A loop that counts the actors it modifies: the count never decreases,
    and when it has not grown the host is the one the loop started from. *)
Lemma CountingLoop_unmodified {A : Type} (body : Host * nat -> A -> Host * nat) :
  (forall H n o, body (H, n) o = (H, n)
                 \/ exists f, body (H, n) o = (set_Actors f H, S n)) ->
  forall (l : list A) (H : Host) (n : nat),
  (n <= snd (foldl body (H, n) l))%nat
  /\ (snd (foldl body (H, n) l) = n -> fst (foldl body (H, n) l) = H).
Proof.
  intros B. induction l as [| o l IH]; intros H n; cbn [foldl].
  - cbn [fst snd]. split; [lia | reflexivity].
  - destruct (B H n o) as [E | [f E]]; rewrite E.
    + apply IH.
    + destruct (IH (set_Actors f H) (S n)) as [Le _]. split; [lia |]. intros C. lia.
Qed.

Lemma PasteOne_counts (Copied : FTransform) (H : Host) (n : nat) (o : option ActorId) :
  PasteOne Copied (H, n) o = (H, n)
  \/ exists f, PasteOne Copied (H, n) o = (set_Actors f H, S n).
Proof.
  unfold PasteOne. destruct (CastActor H o) as [[id a] |]; [right | left; reflexivity].
  eexists. reflexivity.
Qed.

Lemma SnapOne_counts (World : UWorld) (H : Host) (n : nat) (o : option ActorId) :
  SnapOne World (H, n) o = (H, n)
  \/ exists f, SnapOne World (H, n) o = (set_Actors f H, S n).
Proof.
  destruct (SnapOne_body World H n o) as [E | (a & A & hit & x & _ & _ & E)];
    [left; exact E | right]. eexists. exact E.
Qed.

Lemma SnapOneNoRotation_counts (World : UWorld) (H : Host) (n : nat) (o : option ActorId) :
  SnapOneNoRotation World (H, n) o = (H, n)
  \/ exists f, SnapOneNoRotation World (H, n) o = (set_Actors f H, S n).
Proof.
  destruct (SnapOneNoRotation_body World H n o) as [E | (a & A & hit & x & _ & _ & E)];
    [left; exact E | right]. eexists. exact E.
Qed.

(** X17. Ctrl+T, Ctrl+B and Shift+B report what they did: when
    [PasteTransformToSelected], [SnapSelectedToGround] or
    [SnapSelectedToGroundNoRotation] returns false (the key event is then
    not consumed), no actor has been modified and no redraw requested. *)
Theorem unconsumed_paste_or_snap_modified_no_actor (env : Env)
    (C : FTransformCopyPasteProcessor) (H : Host) :
  (fst (PasteTransformToSelected env C H) = false ->
   Actors (snd (PasteTransformToSelected env C H)) = Actors H
   /\ RedrawRequests (snd (PasteTransformToSelected env C H)) = RedrawRequests H)
  /\ (fst (SnapSelectedToGround env H) = false ->
      Actors (snd (SnapSelectedToGround env H)) = Actors H
      /\ RedrawRequests (snd (SnapSelectedToGround env H)) = RedrawRequests H)
  /\ (fst (SnapSelectedToGroundNoRotation env H) = false ->
      Actors (snd (SnapSelectedToGroundNoRotation env H)) = Actors H
      /\ RedrawRequests (snd (SnapSelectedToGroundNoRotation env H)) = RedrawRequests H).
Proof.
  split; [| split].
  - unfold PasteTransformToSelected.
    destruct (GEditor env) as [ed |]; [| split; reflexivity].
    destruct (negb (bHasCopiedTransform C)); [split; reflexivity |].
    destruct (SelectedActors ed) as [Sel |]; [| split; reflexivity].
    destruct (Nat.eqb (length Sel) 0); [split; reflexivity |].
    unfold BeginTransaction. cbv iota beta.
    match goal with |- context [foldl (PasteOne ?c) (?h, ?n) Sel] =>
      pose proof (CountingLoop_unmodified (PasteOne c) (PasteOne_counts c) Sel h n) as K;
      destruct (foldl (PasteOne c) (h, n) Sel) as [H2 m] end.
    cbn [fst snd] in K. destruct K as [_ K].
    destruct (Nat.ltb_spec 0 m); cbn [fst snd]; [discriminate |].
    intros _. rewrite K by lia. split; reflexivity.
  - unfold SnapSelectedToGround.
    destruct (GEditor env) as [ed |]; [| split; reflexivity].
    destruct (SelectedActors ed) as [Sel |]; [| split; reflexivity].
    destruct (Nat.eqb (length Sel) 0); [split; reflexivity |].
    destruct (EditorWorld ed) as [World |]; [| split; reflexivity].
    unfold BeginTransaction. cbv iota beta.
    match goal with |- context [foldl (SnapOne ?w) (?h, ?n) Sel] =>
      pose proof (CountingLoop_unmodified (SnapOne w) (SnapOne_counts w) Sel h n) as K;
      destruct (foldl (SnapOne w) (h, n) Sel) as [H2 m] end.
    cbn [fst snd] in K. destruct K as [_ K].
    destruct (Nat.ltb_spec 0 m); cbn [fst snd]; [discriminate |].
    intros _. rewrite K by lia. split; reflexivity.
  - unfold SnapSelectedToGroundNoRotation.
    destruct (GEditor env) as [ed |]; [| split; reflexivity].
    destruct (SelectedActors ed) as [Sel |]; [| split; reflexivity].
    destruct (Nat.eqb (length Sel) 0); [split; reflexivity |].
    destruct (EditorWorld ed) as [World |]; [| split; reflexivity].
    unfold BeginTransaction. cbv iota beta.
    match goal with |- context [foldl (SnapOneNoRotation ?w) (?h, ?n) Sel] =>
      pose proof (CountingLoop_unmodified (SnapOneNoRotation w)
                    (SnapOneNoRotation_counts w) Sel h n) as K;
      destruct (foldl (SnapOneNoRotation w) (h, n) Sel) as [H2 m] end.
    cbn [fst snd] in K. destruct K as [_ K].
    destruct (Nat.ltb_spec 0 m); cbn [fst snd]; [discriminate |].
    intros _. rewrite K by lia. split; reflexivity.
Qed.

Lemma PasteLoop_count (Copied : FTransform) (Sel : USelection) :
  forall (H : Host) (n : nat) (id : ActorId),
  In (Some id) Sel -> is_Some (Actors H !! id) ->
  (n < snd (foldl (PasteOne Copied) (H, n) Sel))%nat.
Proof.
  induction Sel as [| o Sel IH]; intros H n id I Ha; [destruct I |].
  cbn [foldl].
  pose proof (PasteOne_spec Copied H n o) as (_ & _ & Alive).
  destruct Ha as [x Hx]. specialize (Alive id x Hx).
  destruct I as [-> | I].
  - unfold PasteOne at 2. unfold PasteOne in Alive.
    cbn [CastActor] in *. rewrite Hx in *.
    match goal with |- context [foldl _ (?h, S n) Sel] =>
      pose proof (CountingLoop_unmodified (PasteOne Copied) (PasteOne_counts Copied)
                    Sel h (S n)) as [Le _] end.
    lia.
  - destruct (PasteOne Copied (H, n) o) as [H1 n1] eqn:E.
    assert (Hn : (n <= n1)%nat).
    { destruct (PasteOne_counts Copied H n o) as [E' | [f E']]; rewrite E' in E;
        injection E as _ <-; lia. }
    cbn [fst] in Alive.
    specialize (IH H1 n1 id I (ex_intro _ _ Alive)). lia.
Qed.

(** X18. Copy then paste: after Ctrl+C on a selection whose first object is
    the live actor [A], Ctrl+T on a selection that contains the live actor
    [id] returns true and leaves [id] at the location [A] had when it was
    copied, with its own scale. The snapshot is a value: it is taken from
    the host state of the copy, whatever happened to [A] since. The paste
    runs inside one "Paste Transform" transaction. *)
Theorem copy_then_paste_moves_to_copied_location (envC envP : Env)
    (C : FTransformCopyPasteProcessor) (Hc Hp : Host)
    (edC edP : UEditorEngine) (first : option ActorId) (rest Sel : USelection)
    (src id : ActorId) (A actor : AActor) :
  GEditor envC = Some edC -> SelectedActors edC = Some (first :: rest) ->
  CastActor Hc first = Some (src, A) ->
  GEditor envP = Some edP -> SelectedActors edP = Some Sel ->
  In (Some id) Sel -> Actors Hp !! id = Some actor ->
  let r := PasteTransformToSelected envP (CopySelectedTransform envC C Hc) Hp in
  fst r = true
  /\ Actors (snd r) !! id = Some (PastedActor (GetActorTransform A) actor)
  /\ LocationOf (snd r) id = GetActorLocation A
  /\ ScaleOf (snd r) id = Some (GetActorScale3D actor)
  /\ TransBegun (snd r) = TransBegun Hp ++ ["Paste Transform"]
  /\ ActiveCount (snd r) = ActiveCount Hp.
Proof.
  intros GC SC Cast GP SP I Ha. cbv zeta.
  unfold CopySelectedTransform. rewrite GC, SC, Cast.
  unfold PasteTransformToSelected. rewrite GP, SP.
  cbn [bHasCopiedTransform set_bHasCopiedTransform negb CopiedTransform set_CopiedTransform].
  assert (NE : Nat.eqb (length Sel) 0 = false) by (destruct Sel; [destruct I | reflexivity]).
  rewrite NE. unfold BeginTransaction. cbv iota beta.
  match goal with |- context [foldl (PasteOne ?c) (?h, ?n) Sel] =>
    pose proof (PasteLoop_spec c Sel h n) as (Same & _ & Spec);
    pose proof (PasteLoop_count c Sel h n id I) as Cnt;
    destruct (foldl (PasteOne c) (h, n) Sel) as [H2 m] end.
  cbn [fst snd Actors] in Same, Spec, Cnt.
  specialize (Cnt (ex_intro _ _ Ha)). specialize (Spec id actor Ha).
  rewrite bool_decide_eq_true_2 in Spec by (apply list_elem_of_In; exact I).
  destruct Same as (s1 & s2 & _).
  destruct (Nat.ltb_spec 0 m); [| lia].
  cbn [fst snd]. split; [reflexivity |].
  unfold LocationOf, ScaleOf. simpl. rewrite Spec, s1, s2. simpl.
  repeat split; reflexivity.
Qed.

(** *** Paste to folder *)

(** X19. Ctrl+Shift+V: [SetupPasteToFolder] remembers the folder of the
    first selected live actor and the actors of the world, and arms the
    deferred step; the next tick of the processor files exactly the actors
    that were not in the world at setup time under that folder, and leaves
    every actor that was there as it is. Without a folder to remember (no
    selected actor, or an unfiled one) the tick moves nothing. The tick
    disarms the deferred step, empties the remembered set and closes any
    transaction it opens, so a further tick changes nothing. *)
Theorem paste_to_folder_files_exactly_the_new_actors (envS envT : Env)
    (C : FTransformCopyPasteProcessor) (H H' : Host)
    (edS edT : UEditorEngine) (wS wT : UWorld) :
  GEditor envS = Some edS -> EditorWorld edS = Some wS ->
  GEditor envT = Some edT -> EditorWorld edT = Some wT ->
  let C1 := snd (SetupPasteToFolder envS C H) in
  let r := CopyPasteTick envT C1 H' in
  bPasteToFolderPending C1 = true
  /\ PendingPasteFolderPath C1 = FolderOfSelection edS H
  /\ (forall id actor, Actors H' !! id = Some actor ->
        Actors (snd r) !! id
        = Some (if bool_decide (id ∈ dom (Actors H)) then actor
                else match FolderOfSelection edS H with
                     | Some f => SetFolderPath (Some f) actor
                     | None => actor
                     end))
  /\ (forall id, Actors H' !! id = None -> Actors (snd r) !! id = None)
  /\ bPasteToFolderPending (fst r) = false /\ ActorsBeforePaste (fst r) = ∅
  /\ ActiveCount (snd r) = ActiveCount H'
  /\ (forall env, CopyPasteTick env (fst r) (snd r) = r).
Proof.
  intros GS WS GT WT. cbv zeta.
  unfold SetupPasteToFolder. rewrite GS, WS. cbn [fst snd].
  set (C0 := match SelectedActors edS with
             | Some ActorSelection =>
                 match FirstActor H ActorSelection with
                 | Some (_, Actor) =>
                     set_PendingPasteFolderPath (FolderPath Actor)
                       (set_PendingPasteFolderPath None C)
                 | None => set_PendingPasteFolderPath None C
                 end
             | None => set_PendingPasteFolderPath None C
             end).
  assert (F0 : PendingPasteFolderPath C0 = FolderOfSelection edS H).
  { unfold C0, FolderOfSelection. destruct (SelectedActors edS) as [Sel |]; [| reflexivity].
    destruct (FirstActor H Sel) as [[i A] |]; reflexivity. }
  split; [reflexivity |]. split; [exact F0 |].
  unfold CopyPasteTick.
  cbn [bPasteToFolderPending set_bPasteToFolderPending].
  unfold CompletePasteToFolder. rewrite GT, WT.
  cbn [PendingPasteFolderPath set_bPasteToFolderPending set_ActorsBeforePaste
       ActorsBeforePaste].
  rewrite F0.
  set (New := filter (fun id => id ∉ dom (Actors H)) (elements (dom (Actors H')))).
  assert (InNew : forall id, id ∈ New <-> is_Some (Actors H' !! id) /\ id ∉ dom (Actors H)).
  { intros id. unfold New. rewrite list_elem_of_filter, elem_of_elements.
    rewrite (elem_of_dom (Actors H') id). tauto. }
  destruct (FolderOfSelection edS H) as [f |] eqn:EF.
  - destruct (Nat.eqb_spec (length New) 0) as [E0 | N0].
    + apply length_zero_iff_nil in E0.
      cbn [fst snd]. split.
      { intros id actor Ha. case_bool_decide as D; [exact Ha |].
        exfalso. assert (I : id ∈ New) by (apply InNew; split; [eauto | exact D]).
        rewrite E0 in I. revert I. apply not_elem_of_nil. }
      repeat split; auto.
    + cbn [fst snd]. unfold BeginTransaction. cbv iota beta.
      unfold EndTransaction, RedrawLevelEditingViewports. cbn [fst snd Actors ActiveCount].
      split.
      { intros id actor Ha. rewrite MoveToFolder_loop_lookup. cbn [Actors]. rewrite Ha.
        case_bool_decide as I; case_bool_decide as D; try reflexivity.
        - apply InNew in I. tauto.
        - exfalso. apply I. apply InNew. split; [eauto | exact D]. }
      split.
      { intros id Ha. rewrite MoveToFolder_loop_lookup. cbn [Actors]. rewrite Ha.
        case_bool_decide; reflexivity. }
      split; [reflexivity |]. split; [reflexivity |].
      split.
      { pose proof (foldl_SameButActors (MoveToFolder (Some f)) New) as Same.
        match goal with |- context [foldl _ ?h New] =>
          destruct (Same (fun H0 x => ltac:(unfold MoveToFolder;
                       destruct (Actors H0 !! x);
                       [apply SameButActors_set_Actors | apply SameButActors_refl])) h)
            as (_ & s2 & _) end.
        rewrite s2. reflexivity. }
      intros env. reflexivity.
  - cbn [fst snd]. split.
    { intros id actor Ha. case_bool_decide; exact Ha. }
    repeat split; auto.
Qed.

(** *** Duplicate in place *)

Lemma RestoreOne_lookup (H : Host) (p : option ActorId * FTransform) (id : ActorId) :
  Actors (RestoreOne H p) !! id
  = if bool_decide (fst p = Some id) then SetActorTransform (snd p) <$> (Actors H !! id)
    else Actors H !! id.
Proof.
  unfold RestoreOne. destruct p as [[a |] t]; cbn [fst snd CastActor].
  - destruct (decide (a = id)) as [-> | Ne].
    + rewrite bool_decide_eq_true_2 by reflexivity.
      destruct (Actors H !! id) as [x |] eqn:E; [| rewrite E; reflexivity].
      simpl. rewrite lookup_insert_eq. reflexivity.
    + rewrite bool_decide_eq_false_2 by congruence.
      destruct (Actors H !! a) as [x |]; [| reflexivity].
      simpl. rewrite lookup_insert_ne by exact Ne. reflexivity.
  - rewrite bool_decide_eq_false_2 by discriminate. reflexivity.
Qed.

Lemma RestoreLoop_other (id : ActorId) :
  forall (Sel : USelection) (Ts : list FTransform) (H : Host),
  Some id ∉ Sel -> Actors (foldl RestoreOne H (zip Sel Ts)) !! id = Actors H !! id.
Proof.
  induction Sel as [| o Sel IH]; intros Ts H N; [reflexivity |].
  destruct Ts as [| t Ts]; [reflexivity |].
  cbn [zip zip_with foldl]. apply not_elem_of_cons in N. destruct N as [N1 N2].
  rewrite IH by exact N2. rewrite RestoreOne_lookup. cbn [fst].
  rewrite bool_decide_eq_false_2 by congruence. reflexivity.
Qed.

Lemma RestoreLoop_spec (id : ActorId) :
  forall (Sel : USelection) (Ts : list FTransform) (H : Host) (i : nat) (t : FTransform),
  NoDup Sel -> Sel !! i = Some (Some id) -> Ts !! i = Some t ->
  Actors (foldl RestoreOne H (zip Sel Ts)) !! id = SetActorTransform t <$> (Actors H !! id).
Proof.
  induction Sel as [| o Sel IH]; intros Ts H i t ND Si Ti; [discriminate Si |].
  destruct Ts as [| t0 Ts]; [destruct i; discriminate Ti |].
  apply NoDup_cons in ND. destruct ND as [N1 N2].
  cbn [zip zip_with foldl].
  destruct i as [| i]; cbn in Si, Ti.
  - injection Si as ->. injection Ti as ->.
    rewrite RestoreLoop_other by exact N1.
    rewrite RestoreOne_lookup. cbn [fst snd].
    rewrite bool_decide_eq_true_2 by reflexivity. reflexivity.
  - rewrite (IH Ts _ i t N2 Si Ti). rewrite RestoreOne_lookup. cbn [fst].
    rewrite bool_decide_eq_false_2; [reflexivity |].
    intros ->. apply N1. eapply list_elem_of_lookup_2. exact Si.
Qed.

(** X20. Ctrl+D duplicates in place: with at least one live actor selected
    [DuplicateInPlace] always returns true. When the host's duplicate
    command leaves as many selected objects as there were selected actors,
    the i-th selected duplicate receives the whole transform (location,
    rotation and scale) the i-th selected actor had before, inside one
    "Duplicate In Place" transaction, and no other actor is touched. When
    the numbers differ, the duplicates stay where the host put them and no
    transaction is opened. *)
Theorem duplicate_in_place_restores_original_transforms (env : Env) (H : Host)
    (ed : UEditorEngine) (Sel : USelection) :
  GEditor env = Some ed -> SelectedActors ed = Some Sel ->
  OriginalTransforms H Sel <> [] ->
  fst (DuplicateInPlace env H) = true
  /\ (forall NewActors Sel',
        ExecDuplicate ed (Actors H) = (NewActors, Some Sel') ->
        length Sel' = length (OriginalTransforms H Sel) -> NoDup Sel' ->
        (forall i id t actor,
            Sel' !! i = Some (Some id) -> OriginalTransforms H Sel !! i = Some t ->
            NewActors !! id = Some actor ->
            Actors (snd (DuplicateInPlace env H)) !! id = Some (SetActorTransform t actor))
        /\ (forall id, Some id ∉ Sel' ->
              Actors (snd (DuplicateInPlace env H)) !! id = NewActors !! id)
        /\ TransBegun (snd (DuplicateInPlace env H))
           = TransBegun H ++ ["Duplicate In Place"]
        /\ ActiveCount (snd (DuplicateInPlace env H)) = ActiveCount H)
  /\ (forall NewActors Sel',
        ExecDuplicate ed (Actors H) = (NewActors, Some Sel') ->
        length Sel' <> length (OriginalTransforms H Sel) ->
        snd (DuplicateInPlace env H) = set_Actors (fun _ => NewActors) H).
Proof.
  intros GE SE NE.
  assert (SelNE : Nat.eqb (length Sel) 0 = false).
  { destruct Sel; [exfalso; apply NE; reflexivity | reflexivity]. }
  assert (OrNE : Nat.eqb (length (OriginalTransforms H Sel)) 0 = false).
  { destruct (OriginalTransforms H Sel); [exfalso; apply NE; reflexivity | reflexivity]. }
  unfold DuplicateInPlace. rewrite GE, SE, SelNE.
  fold (OriginalTransforms H Sel). rewrite OrNE.
  split; [| split].
  - destruct (ExecDuplicate ed (Actors H)) as [NewActors [Sel' |]]; [| reflexivity].
    destruct (Nat.eqb (length Sel') (length (OriginalTransforms H Sel))); reflexivity.
  - intros NewActors Sel' Ex Len ND. rewrite Ex.
    rewrite (proj2 (Nat.eqb_eq _ _) Len).
    unfold BeginTransaction. cbv iota beta.
    unfold EndTransaction, RedrawLevelEditingViewports. cbn [fst snd Actors TransBegun ActiveCount].
    match goal with |- context [foldl RestoreOne ?h _] => set (H1 := h) end.
    pose proof (foldl_SameButActors RestoreOne (zip Sel' (OriginalTransforms H Sel))) as Same.
    destruct (Same (fun H0 p => ltac:(unfold RestoreOne; destruct (CastActor H0 (fst p))
                       as [[? ?] |];
                       [apply SameButActors_set_Actors | apply SameButActors_refl])) H1)
      as (s1 & s2 & _).
    split; [| split; [| split]].
    + intros i id t actor Si Ti Ha.
      rewrite (RestoreLoop_spec id Sel' _ H1 i t ND Si Ti).
      change (Actors H1) with NewActors. rewrite Ha. reflexivity.
    + intros id N. rewrite RestoreLoop_other by exact N. reflexivity.
    + rewrite s1. reflexivity.
    + rewrite s2. reflexivity.
  - intros NewActors Sel' Ex Len. rewrite Ex.
    rewrite (proj2 (Nat.eqb_neq _ _) Len). reflexivity.
Qed.

(** *** Snap to ground *)

Lemma MovedAlongZ_refl (a : AActor) : MovedAlongZ a a.
Proof. repeat split. Qed.

Lemma MovedAlongZ_trans (a b c : AActor) : MovedAlongZ a b -> MovedAlongZ b c -> MovedAlongZ a c.
Proof. intros (x1 & x2 & x3 & x4) (y1 & y2 & y3 & y4). repeat split; congruence. Qed.

(** A loop whose body replaces one live actor at a time by a related one
    relates every actor of the heap to what it ends as. *)
Lemma ReplacingLoop_frame {A : Type} (R : AActor -> AActor -> Prop)
    (body : Host * nat -> A -> Host * nat) :
  (forall a, R a a) -> (forall a b c, R a b -> R b c -> R a c) ->
  (forall H n o, body (H, n) o = (H, n)
                 \/ exists id Actor x,
                      Actors H !! id = Some Actor /\ R Actor x
                      /\ body (H, n) o = (set_Actors (insert id x) H, S n)) ->
  forall (l : list A) (H : Host) (n : nat) (id : ActorId),
  match Actors H !! id with
  | Some a => exists a', Actors (fst (foldl body (H, n) l)) !! id = Some a' /\ R a a'
  | None => Actors (fst (foldl body (H, n) l)) !! id = None
  end.
Proof.
  intros Rr Rt B. induction l as [| o l IH]; intros H n id; cbn [foldl].
  - cbn [fst]. destruct (Actors H !! id); eauto.
  - destruct (B H n o) as [E | (i & Actor & x & Hi & Rx & E)]; rewrite E; [apply IH |].
    specialize (IH (set_Actors (insert i x) H) (S n) id). cbn [set_Actors Actors] in IH.
    destruct (decide (i = id)) as [-> | Ne].
    + rewrite lookup_insert_eq in IH. rewrite Hi.
      destruct IH as (a' & E' & R'). exists a'. split; [exact E' |].
      eapply Rt; eassumption.
    + rewrite lookup_insert_ne in IH by exact Ne. exact IH.
Qed.

(** X21. A ground snap moves actors along the Z axis only: after
    [SnapSelectedToGround] or [SnapSelectedToGroundNoRotation] every actor of
    the world has the X and Y it had, its scale and its folder, and no actor
    is created or deleted. The variant without rotation leaves each actor
    either with the rotation it had or with the zero rotation. *)
Theorem ground_snap_moves_actors_along_z_only (env : Env) (H : Host)
    (id : ActorId) (actor : AActor) :
  Actors H !! id = Some actor ->
  (exists a', Actors (snd (SnapSelectedToGround env H)) !! id = Some a'
              /\ MovedAlongZ actor a')
  /\ (exists a', Actors (snd (SnapSelectedToGroundNoRotation env H)) !! id = Some a'
                 /\ MovedAlongZ actor a'
                 /\ (Rotation (ActorTransform a') = Rotation (ActorTransform actor)
                     \/ Rotation (ActorTransform a') = Quaternion ZeroRotator)).
Proof.
  intros Ha. split.
  - unfold SnapSelectedToGround.
    destruct (GEditor env) as [ed |]; [| eauto using MovedAlongZ_refl].
    destruct (SelectedActors ed) as [Sel |]; [| eauto using MovedAlongZ_refl].
    destruct (Nat.eqb (length Sel) 0); [eauto using MovedAlongZ_refl |].
    destruct (EditorWorld ed) as [World |]; [| eauto using MovedAlongZ_refl].
    unfold BeginTransaction. cbv iota beta.
    match goal with |- context [foldl (SnapOne ?w) (?h, ?n) Sel] =>
      pose proof (ReplacingLoop_frame MovedAlongZ (SnapOne w)
                    MovedAlongZ_refl MovedAlongZ_trans) as K;
      specialize (fun B => K B Sel h n id) end.
    cbn [Actors] in K. rewrite Ha in K.
    destruct K as (a' & E & R).
    { intros H0 n0 o. destruct (SnapOne_spec World H0 n0 o)
        as [E | (i & A & hit & Cast & _ & E)]; [left; exact E | right].
      apply CastActor_Some in Cast. destruct Cast as [_ Hi].
      do 3 eexists. split; [exact Hi |]. split; [| exact E]. repeat split. }
    destruct (foldl (SnapOne World) _ Sel) as [H2 m]. cbn [fst] in E.
    exists a'. split; [| exact R].
    destruct (Nat.ltb 0 m); exact E.
  - unfold SnapSelectedToGroundNoRotation.
    set (R2 := fun a a' : AActor =>
                 MovedAlongZ a a'
                 /\ (Rotation (ActorTransform a') = Rotation (ActorTransform a)
                     \/ Rotation (ActorTransform a') = Quaternion ZeroRotator)).
    assert (R2r : forall a, R2 a a) by (intros a; split; [apply MovedAlongZ_refl | auto]).
    assert (R2t : forall a b c, R2 a b -> R2 b c -> R2 a c).
    { intros a b c [M1 [r1 | r1]] [M2 [r2 | r2]];
        (split; [eapply MovedAlongZ_trans; eassumption |]); [left | right | right | right];
        congruence. }
    destruct (GEditor env) as [ed |]; [| exists actor; split; [exact Ha | apply R2r]].
    destruct (SelectedActors ed) as [Sel |]; [| exists actor; split; [exact Ha | apply R2r]].
    destruct (Nat.eqb (length Sel) 0); [exists actor; split; [exact Ha | apply R2r] |].
    destruct (EditorWorld ed) as [World |]; [| exists actor; split; [exact Ha | apply R2r]].
    unfold BeginTransaction. cbv iota beta.
    match goal with |- context [foldl (SnapOneNoRotation ?w) (?h, ?n) Sel] =>
      pose proof (ReplacingLoop_frame R2 (SnapOneNoRotation w) R2r R2t) as K;
      specialize (fun B => K B Sel h n id) end.
    cbn [Actors] in K. rewrite Ha in K.
    destruct K as (a' & E & R).
    { intros H0 n0 o. destruct (SnapOneNoRotation_spec World H0 n0 o)
        as [E | (i & A & hit & Cast & _ & E)]; [left; exact E | right].
      apply CastActor_Some in Cast. destruct Cast as [_ Hi].
      do 3 eexists. split; [exact Hi |]. split; [| exact E].
      split; [repeat split | right; reflexivity]. }
    destruct (foldl (SnapOneNoRotation World) _ Sel) as [H2 m]. cbn [fst] in E.
    exists a'. split; [| exact R].
    destruct (Nat.ltb 0 m); exact E.
Qed.

(** ** The cursor during a drag *)

Lemma EnsureDragTransaction_cursor (Description : string)
    (P : FLevelEditorShortcutsProcessor) (H : Host) :
  SameCursorState P (fst (EnsureDragTransaction Description P H))
    H (snd (EnsureDragTransaction Description P H)).
Proof.
  unfold EnsureDragTransaction. destruct (DragTransaction P); repeat split.
Qed.

Lemma SameCursorState_trans (P1 P2 P3 : FLevelEditorShortcutsProcessor) (H1 H2 H3 : Host) :
  SameCursorState P1 P2 H1 H2 -> SameCursorState P2 P3 H2 H3 -> SameCursorState P1 P3 H1 H3.
Proof.
  intros (a1 & a2 & a3 & a4 & a5 & a6) (b1 & b2 & b3 & b4 & b5 & b6).
  repeat split; try congruence; destruct a5 as (k1 & k2 & k3), b5 as (l1 & l2 & l3);
    congruence.
Qed.

Lemma InitializeDrag_cursor (Description : string)
    (P : FLevelEditorShortcutsProcessor) (H : Host) :
  SameCursorState P (fst (InitializeDrag Description P H))
    H (snd (InitializeDrag Description P H)).
Proof.
  unfold InitializeDrag. destruct (negb (bDragInitialized P)); [| repeat split].
  eapply SameCursorState_trans; [| apply EnsureDragTransaction_cursor]. repeat split.
Qed.

Lemma AccumulateAndMove_cursor (Delta : FVector) (Sel : USelection)
    (P : FLevelEditorShortcutsProcessor) (H : Host) :
  SameCursorState P (fst (AccumulateAndMove Delta Sel P H))
    H (snd (AccumulateAndMove Delta Sel P H)).
Proof.
  unfold AccumulateAndMove.
  destruct (SnapAccumulatedMovement _ _) as [R [D |]]; cbn [fst snd]; [| repeat split].
  destruct (MoveSelection_same D Sel H) as (_ & _ & _ & _ & _ & s6 & _).
  repeat split. simpl. exact s6.
Qed.

Lemma DispatchDrag_cursor (env : Env) (md : FVector2D)
    (P : FLevelEditorShortcutsProcessor) (H : Host) :
  SameCursorState P (fst (DispatchDrag env md P H)) H (snd (DispatchDrag env md P H)).
Proof.
  assert (Refl : SameCursorState P P H H) by repeat split.
  unfold DispatchDrag.
  destruct (bQKeyDown P); [| destruct (bEKeyDown P); [| destruct (bRKeyDown P)]].
  - change (MoveSelectedActorsHorizontal env md P H) with (RunDragFrame (QFrame env md) P H).
    rewrite RunDragFrame_unfold.
    destruct (MoveGuards _) as [[Sel vc] |]; [| exact Refl].
    pose proof (InitializeDrag_cursor (FrameDescription (QFrame env md)) P H) as I.
    destruct (InitializeDrag _ P H) as [P1 H1].
    eapply SameCursorState_trans; [exact I | apply AccumulateAndMove_cursor].
  - change (MoveSelectedActorsVertical env (Y2D md) P H)
      with (RunDragFrame (EFrame env (Y2D md)) P H).
    rewrite RunDragFrame_unfold.
    destruct (MoveGuards _) as [[Sel vc] |]; [| exact Refl].
    pose proof (InitializeDrag_cursor (FrameDescription (EFrame env (Y2D md))) P H) as I.
    destruct (InitializeDrag _ P H) as [P1 H1].
    eapply SameCursorState_trans; [exact I | apply AccumulateAndMove_cursor].
  - rewrite ScaleSelectedActorsUniform_unfold.
    destruct (ScaleGuards env) as [[ed Sel] |]; [| exact Refl].
    destruct (negb (bDragInitialized P)).
    + pose proof (EnsureDragTransaction_cursor "Scale Uniform" (set_bDragInitialized true P) H)
        as I.
      destruct (EnsureDragTransaction _ _ H) as [P1 H1]. cbn [fst snd] in *.
      destruct I as (i1 & i2 & i3 & i4 & i5 & i6).
      match goal with |- context [ScaleSnapshotActors ?m ?s H1] =>
        destruct (ScaleSnapshotActors_same m s H1) as (_ & _ & _ & _ & _ & s6 & _) end.
      repeat split; try assumption; try apply i5.
      unfold RedrawLevelEditingViewports. cbn [SlateCursorPos]. congruence.
    + cbn [fst snd].
      match goal with |- context [ScaleSnapshotActors ?m ?s H] =>
        destruct (ScaleSnapshotActors_same m s H) as (_ & _ & _ & _ & _ & s6 & _) end.
      repeat split. unfold RedrawLevelEditingViewports. cbn [SlateCursorPos]. exact s6.
  - exact Refl.
Qed.

Lemma IsNearlyZero2D_same (p : FVector2D) : IsNearlyZero2D (Vec2Sub p p) = true.
Proof.
  unfold IsNearlyZero2D, Vec2Sub. cbn [X2D Y2D].
  apply andb_true_iff. split; apply Qle_bool_iff.
  - assert (E : X2D p - X2D p == 0) by ring. rewrite E. discriminate.
  - assert (E : Y2D p - Y2D p == 0) by ring. rewrite E. discriminate.
Qed.

(** X22. While a drag key is held (outside a Play session) every tick samples
    the cursor again, whatever the drag function does. With the cursor
    hidden, the tick warps the cursor back to where the drag started and
    measures the next movement from there. With the cursor visible, the
    next movement is measured from the current cursor position, so a second
    tick at the same cursor position processes nothing and leaves the
    processor and the host as they are. *)
Theorem tick_measures_movement_from_last_sample (env : Env)
    (P : FLevelEditorShortcutsProcessor) (H : Host) :
  IsPlayInEditor env = false ->
  bQKeyDown P || bEKeyDown P || bRKeyDown P = true ->
  LastMousePosition (fst (Tick env P H))
  = (if bCursorHidden P then DragStartCursorPos P else CursorPos env)
  /\ (bCursorHidden P = true -> SlateCursorPos (snd (Tick env P H)) = DragStartCursorPos P)
  /\ (bCursorHidden P = false ->
      SlateCursorPos (snd (Tick env P H)) = SlateCursorPos H
      /\ TickProcesses env (fst (Tick env P H)) = false
      /\ forall H', Tick env (fst (Tick env P H)) H' = (fst (Tick env P H), H')).
Proof.
  intros Play Keys.
  assert (K : exists P1 H1,
             SameCursorState P1 (fst (Tick env P H)) H1 (snd (Tick env P H))
             /\ CachedCursor P1 = true
             /\ LastMousePosition P1
                = (if bCursorHidden P then DragStartCursorPos P else CursorPos env)
             /\ DragStartCursorPos P1 = DragStartCursorPos P
             /\ bCursorHidden P1 = bCursorHidden P
             /\ SameKeys P P1
             /\ SlateCursorPos H1
                = (if bCursorHidden P then DragStartCursorPos P else SlateCursorPos H)).
  { unfold Tick. rewrite Play.
    change (bQKeyDown (set_CachedCursor true P)) with (bQKeyDown P).
    change (bEKeyDown (set_CachedCursor true P)) with (bEKeyDown P).
    change (bRKeyDown (set_CachedCursor true P)) with (bRKeyDown P).
    rewrite Keys. unfold SampleCursor.
    change (bCursorHidden (set_CachedCursor true P)) with (bCursorHidden P).
    destruct (bCursorHidden P) eqn:Hid.
    - match goal with |- context [if ?c then (?p, ?h) else _] =>
        exists p, h; destruct c; [split; [repeat split |] | split; [apply DispatchDrag_cursor |]]
      end; repeat split; try exact Hid.
    - match goal with |- context [if ?c then (?p, ?h) else _] =>
        exists p, h; destruct c; [split; [repeat split |] | split; [apply DispatchDrag_cursor |]]
      end; repeat split; try exact Hid. }
  destruct K as (P1 & H1 & (c1 & c2 & c3 & c4 & c5 & c6) & k1 & k2 & k3 & k4 & k5 & k6).
  split; [congruence |]. split.
  - intros Hid. rewrite Hid in k6. congruence.
  - intros Hid. rewrite Hid in k2, k6.
    assert (L : LastMousePosition (fst (Tick env P H)) = CursorPos env) by congruence.
    assert (Z : IsNearlyZero2D (Vec2Sub (CursorPos env)
                  (LastMousePosition (fst (Tick env P H)))) = true).
    { rewrite L. apply IsNearlyZero2D_same. }
    split; [congruence |]. split.
    + unfold TickProcesses. rewrite Z. rewrite andb_false_r. reflexivity.
    + intros H'. unfold Tick at 1. rewrite Play.
      assert (Hid' : bCursorHidden (fst (Tick env P H)) = false) by congruence.
      assert (Cc : CachedCursor (fst (Tick env P H)) = true) by congruence.
      destruct (fst (Tick env P H)) as [q qs e0 r0 g gs lm td ch ds cc dw sp di am ts si dt].
      simpl in L, Hid', Cc, Z. subst lm ch cc.
      unfold SampleCursor. simpl. rewrite Z.
      destruct (q || e0 || r0); reflexivity.
Qed.

(** ** The widget mode keys *)

(** X23. The keys 1, 2 and 3 select the translate, rotate and scale gizmo.
    They never touch the processor state, an actor or the undo buffer. In
    the focused level viewport, without modifier and outside Landscape and
    Foliage mode, the key sets the widget mode of the level editor and is
    consumed. With a modifier held, or in Landscape or Foliage mode, nothing
    happens. In every case the key is consumed only if a widget mode was
    set: an unconsumed key leaves the host as it was. *)
Theorem widget_mode_keys_select_gizmo (env : Env) (e : FKeyEvent)
    (P : FLevelEditorShortcutsProcessor) (H : Host) (m : EWidgetMode) :
  WidgetModeOfKey (GetKey e) = Some m -> IsPlayInEditor env = false ->
  snd (fst (HandleKeyDownEvent env e P H)) = P
  /\ Actors (snd (HandleKeyDownEvent env e P H)) = Actors H
  /\ TransBegun (snd (HandleKeyDownEvent env e P H)) = TransBegun H
  /\ (NoModifiers e = true -> LandscapeModeActive env = false ->
      FoliageModeActive env = false -> IsLevelEditorViewportFocused env = true ->
      fst (fst (HandleKeyDownEvent env e P H)) = true
      /\ snd (HandleKeyDownEvent env e P H) = set_LevelEditorWidgetMode m H)
  /\ (NoModifiers e = false \/ LandscapeModeActive env = true
      \/ FoliageModeActive env = true ->
      HandleKeyDownEvent env e P H = (false, P, H))
  /\ (fst (fst (HandleKeyDownEvent env e P H)) = false ->
      snd (HandleKeyDownEvent env e P H) = H).
Proof.
  intros K Play. unfold HandleKeyDownEvent. rewrite Play.
  assert (W : forall m',
            snd (fst (WidgetModeKey env e m' P H)) = P
            /\ Actors (snd (WidgetModeKey env e m' P H)) = Actors H
            /\ TransBegun (snd (WidgetModeKey env e m' P H)) = TransBegun H
            /\ (NoModifiers e = true -> LandscapeModeActive env = false ->
                FoliageModeActive env = false -> IsLevelEditorViewportFocused env = true ->
                fst (fst (WidgetModeKey env e m' P H)) = true
                /\ snd (WidgetModeKey env e m' P H) = set_LevelEditorWidgetMode m' H)
            /\ (NoModifiers e = false \/ LandscapeModeActive env = true
                \/ FoliageModeActive env = true ->
                WidgetModeKey env e m' P H = (false, P, H))
            /\ (fst (fst (WidgetModeKey env e m' P H)) = false ->
                snd (WidgetModeKey env e m' P H) = H)).
  { intros m'. unfold WidgetModeKey, SetWidgetModeOnActiveViewport.
    destruct (NoModifiers e), (LandscapeModeActive env), (FoliageModeActive env);
      cbn [andb negb];
      try (repeat split; try discriminate; intros [C | [C | C]]; discriminate).
    destruct (IsLevelEditorViewportFocused env).
    - repeat split; try discriminate. intros [C | [C | C]]; discriminate.
    - destruct (GEditor env) as [ed |]; [destruct (ActiveViewportHasModeTools ed) |];
        repeat split; try discriminate; intros [C | [C | C]]; discriminate. }
  destruct (GetKey e); try discriminate K; injection K as <-; apply W.
Qed.

(** ** Module start and shutdown *)

Lemma StartupModule_idempotent (M : ModuleState) :
  StartupModule (StartupModule M) = StartupModule M.
Proof.
  unfold StartupModule, ShortcutsRegister, CopyPasteRegister.
  destruct M as [[init l] ci st si]. cbn [SlateApp IsInitialized CopyPasteInstance].
  destruct init; [| reflexivity].
  destruct ci, si; reflexivity.
Qed.

(** X24. Start and shutdown of the module. With Slate initialised,
    [StartupModule] on the unloaded module registers the copy/paste
    processor first and the shortcut processor second, each once, with a
    fresh shortcut processor and without a copied transform;
    [ShutdownModule] removes both again. Over any sequence of starts and
    shutdowns each processor is registered at most once: the state depends
    on the last call only. [StartupModule] is idempotent on every state, and
    without an initialised Slate application neither function does
    anything on the unloaded module. *)
Theorem module_registers_each_processor_once (Statics : FTransformCopyPasteProcessor) :
  StartupModule (UnloadedModule true Statics) = LoadedModule Statics
  /\ ShutdownModule (LoadedModule Statics)
     = UnloadedModule true (set_bHasCopiedTransform false Statics)
  /\ (forall calls c,
        exists Statics',
          RunModuleCalls (calls ++ [c]) (UnloadedModule true Statics)
          = match c with
            | CallStartupModule => LoadedModule Statics'
            | CallShutdownModule => UnloadedModule true Statics'
            end
          /\ CopiedTransform Statics' = CopiedTransform Statics)
  /\ (forall M, StartupModule (StartupModule M) = StartupModule M)
  /\ (forall calls,
        RunModuleCalls calls (UnloadedModule false Statics) = UnloadedModule false Statics).
Proof.
  assert (Up : forall S, StartupModule (UnloadedModule true S) = LoadedModule S)
    by reflexivity.
  assert (Down : forall S, ShutdownModule (LoadedModule S)
                           = UnloadedModule true (set_bHasCopiedTransform false S))
    by reflexivity.
  assert (Up' : forall S, StartupModule (LoadedModule S)
                          = LoadedModule (set_bHasCopiedTransform false S)) by reflexivity.
  assert (Down' : forall S, ShutdownModule (UnloadedModule true S) = UnloadedModule true S)
    by reflexivity.
  split; [apply Up |]. split; [apply Down |]. split; [| split].
  - assert (Inv : forall calls,
              exists S', CopiedTransform S' = CopiedTransform Statics
                         /\ (RunModuleCalls calls (UnloadedModule true Statics)
                             = LoadedModule S'
                             \/ RunModuleCalls calls (UnloadedModule true Statics)
                                = UnloadedModule true S')).
    { intros calls. induction calls as [| c calls IH] using rev_ind.
      - exists Statics. split; [reflexivity | right; reflexivity].
      - unfold RunModuleCalls in *. rewrite foldl_app. cbn [foldl].
        destruct IH as (S' & ES & [E | E]); rewrite E; destruct c; cbn [RunModuleCall].
        + exists (set_bHasCopiedTransform false S'). split; [exact ES | left; apply Up'].
        + exists (set_bHasCopiedTransform false S'). split; [exact ES | right; apply Down].
        + exists S'. split; [exact ES | left; apply Up].
        + exists S'. split; [exact ES | right; apply Down']. }
    intros calls c. unfold RunModuleCalls. rewrite foldl_app. cbn [foldl].
    destruct (Inv calls) as (S' & ES & [E | E]); unfold RunModuleCalls in E; rewrite E;
      destruct c; cbn [RunModuleCall].
    + exists (set_bHasCopiedTransform false S'). split; [apply Up' | exact ES].
    + exists (set_bHasCopiedTransform false S'). split; [apply Down | exact ES].
    + exists S'. split; [apply Up | exact ES].
    + exists S'. split; [apply Down' | exact ES].
  - apply StartupModule_idempotent.
  - intros calls. unfold RunModuleCalls.
    induction calls as [| c calls IH]; [reflexivity |].
    cbn [foldl]. destruct c; exact IH.
Qed.

(** ** Further properties of the grid size and of the ground snap *)

Lemma ValidIndexLookup_Some (l : list Q) (i : Z) (g : Q) :
  ValidIndexLookup l i = Some g
  <-> (0 <= i < Z.of_nat (length l))%Z /\ nth_error l (Z.to_nat i) = Some g.
Proof.
  unfold ValidIndexLookup.
  destruct (Z.leb_spec 0 i) as [Lo | Lo], (Z.ltb_spec i (Z.of_nat (length l))) as [Hi | Hi];
    cbn [andb]; split; intros K.
  - split; [split; assumption | exact K].
  - apply K.
  - discriminate K.
  - destruct K as [[_ K] _]. lia.
  - discriminate K.
  - destruct K as [[K _] _]. lia.
  - discriminate K.
  - destruct K as [[K _] _]. lia.
Qed.

(** X25. The grid snap size is never read outside the grid table: it is 0
    when snapping is disabled or the grid index is not a valid index of the
    active table (a negative index included), and the table entry at the
    index otherwise. After a [ChangeGridSize] from a valid index, with
    snapping enabled, it is the entry at the stepped index. *)
Theorem grid_snap_size_is_the_current_table_entry (H : Host)
    (vs : ULevelEditorViewportSettings) :
  ViewportSettings H = Some vs ->
  (GridEnabled vs = false -> GetGridSnapSize H = 0)
  /\ (~ (0 <= CurrentPosGridSize vs < Z.of_nat (length (ActiveGridSizes vs)))%Z ->
      GetGridSnapSize H = 0)
  /\ (GridEnabled vs = true ->
      (0 <= CurrentPosGridSize vs < Z.of_nat (length (ActiveGridSizes vs)))%Z ->
      nth_error (ActiveGridSizes vs) (Z.to_nat (CurrentPosGridSize vs))
      = Some (GetGridSnapSize H)
      /\ forall env ed b,
           GEditor env = Some ed ->
           nth_error (ActiveGridSizes vs)
             (Z.to_nat (SteppedIndex b (CurrentPosGridSize vs)
                          (Z.of_nat (length (ActiveGridSizes vs)))))
           = Some (GetGridSnapSize (ChangeGridSize env b H))).
Proof.
  intros VS.
  assert (G : forall H' vs', ViewportSettings H' = Some vs' -> GridEnabled vs' = true ->
              (0 <= CurrentPosGridSize vs' < Z.of_nat (length (ActiveGridSizes vs')))%Z ->
              nth_error (ActiveGridSizes vs') (Z.to_nat (CurrentPosGridSize vs'))
              = Some (GetGridSnapSize H')).
  { intros H' vs' VS' En R. unfold GetGridSnapSize. rewrite VS', En. cbn [negb].
    fold (ActiveGridSizes vs').
    destruct (ValidIndexLookup (ActiveGridSizes vs') (CurrentPosGridSize vs')) as [g |] eqn:L.
    - apply ValidIndexLookup_Some in L. destruct L as [_ L]. exact L.
    - exfalso. destruct (nth_error (ActiveGridSizes vs') (Z.to_nat (CurrentPosGridSize vs')))
        as [g |] eqn:N.
      + assert (C : ValidIndexLookup (ActiveGridSizes vs') (CurrentPosGridSize vs') = Some g)
          by (apply ValidIndexLookup_Some; split; [exact R | exact N]).
        congruence.
      + apply nth_error_None in N. lia. }
  split; [| split].
  - intros Dis. unfold GetGridSnapSize. rewrite VS, Dis. reflexivity.
  - intros Bad. unfold GetGridSnapSize. rewrite VS. fold (ActiveGridSizes vs).
    destruct (negb (GridEnabled vs)); [reflexivity |].
    destruct (ValidIndexLookup (ActiveGridSizes vs) (CurrentPosGridSize vs)) as [g |] eqn:L;
      [| reflexivity].
    apply ValidIndexLookup_Some in L. destruct L as [L _]. contradiction.
  - intros En R. split; [apply (G H vs VS En R) |].
    intros env ed b GE.
    destruct (ChangeGridSize_step env b H vs ed VS GE R) as (s1 & _).
    assert (RS : (0 <= SteppedIndex b (CurrentPosGridSize vs)
                        (Z.of_nat (length (ActiveGridSizes vs)))
                  < Z.of_nat (length (ActiveGridSizes vs)))%Z).
    { unfold SteppedIndex. destruct b.
      - destruct (Z.ltb_spec (CurrentPosGridSize vs + 1)
                    (Z.of_nat (length (ActiveGridSizes vs)))); lia.
      - destruct (Z.ltb_spec 0 (CurrentPosGridSize vs)); lia. }
    specialize (G _ _ s1 En RS). exact G.
Qed.

Lemma MeshBottomOffset_of_static_mesh (Actor : AActor) (c : UPrimitiveComponent) :
  find (IsClass SkeletalMeshComponent) (PrimitiveComponents Actor) = None ->
  find (IsClass StaticMeshComponent) (PrimitiveComponents Actor) = Some c ->
  MeshBottomOffset Actor = RoundToFloat (BottomOffsetOf Actor c).
Proof. intros E1 E2. unfold MeshBottomOffset. rewrite E1, E2. reflexivity. Qed.

(** X26. What the offset and the 5 units of the ground snap are for: when
    the mesh used for the offset (here a static mesh, the actor having no
    skeletal mesh) follows the actor by pure translation, a ground snap
    leaves the bottom of its local bounds 5 units above the impact point up
    to the narrowing of the offset to a [float], in both variants of the
    snap: the height of the bottom above the impact point is 5 plus the
    rounding error of the offset, which is at most [2^-24] of the offset
    ([2^-150] for a subnormal offset) and is zero when the offset is a
    single-precision number. *)
Theorem ground_snap_rests_mesh_bottom_above_hit (World : UWorld) (H : Host) (n : nat)
    (id : ActorId) (Actor : AActor) (hit : FHitResult) (c : UPrimitiveComponent) :
  Actors H !! id = Some Actor -> TraceGround World id Actor = Some hit ->
  find (IsClass SkeletalMeshComponent) (PrimitiveComponents Actor) = None ->
  find (IsClass StaticMeshComponent) (PrimitiveComponents Actor) = Some c ->
  (forall t v, TransformPosition c t v = VecAdd (Translation t) v) ->
  let Offset := BottomOffsetOf Actor c in
  forall Actor',
    Actors (fst (SnapOne World (H, n) (Some id))) !! id = Some Actor'
    \/ Actors (fst (SnapOneNoRotation World (H, n) (Some id))) !! id = Some Actor' ->
    HeightAboveHit c Actor' hit == 5 + (RoundToFloat Offset - Offset)
    /\ Qabs (HeightAboveHit c Actor' hit - 5)
       <= Qmax (Qabs Offset * (1 # 16777216)) (2 ^ (-150))
    /\ (IsFloat Offset -> HeightAboveHit c Actor' hit == 5).
Proof.
  intros Ha Tr E1 E2 TP Offset Actor' Snapped.
  assert (Height : HeightAboveHit c Actor' hit == 5 + (RoundToFloat Offset - Offset)).
  { revert Snapped. unfold SnapOne, SnapOneNoRotation. cbn [CastActor]. rewrite Ha, Tr.
    cbn [fst set_Actors Actors]. rewrite !lookup_insert_eq.
    intros [K | K]; injection K as <-;
      unfold HeightAboveHit, Offset; rewrite TP;
      unfold GroundLocation; rewrite (MeshBottomOffset_of_static_mesh Actor c E1 E2);
      unfold BottomOffsetOf; rewrite TP;
      unfold SetActorRotation, SetActorLocation, SetActorTransform, GetActorLocation;
      cbn [ActorTransform Translation VecAdd VecZ]; ring. }
  split; [exact Height |]. split.
  - assert (D : HeightAboveHit c Actor' hit - 5 == RoundToFloat Offset - Offset)
      by (rewrite Height; ring).
    rewrite D. apply RoundToFloat_error.
  - intros F. rewrite Height. unfold IsFloat in F. rewrite F. ring.
Qed.

(** X27. Ctrl+Shift+V outside a Play session is always consumed and always
    sends the four keystrokes of one synthetic Ctrl+V (Ctrl down, V down, V
    up, Ctrl up), whether or not the paste-to-folder step could be set up;
    it touches nothing else of the host. The deferred step is armed exactly
    when there is an editor with a world. Ctrl+V without Shift is left to
    the editor: not consumed, nothing changed. *)
Theorem ctrl_shift_v_sends_one_synthetic_paste (env : Env) (e : FKeyEvent)
    (C : FTransformCopyPasteProcessor) (H : Host) :
  GetKey e = Key_V -> IsControlDown e = true -> IsPlayInEditor env = false ->
  (IsShiftDown e = true ->
   fst (fst (CopyPasteHandleKeyDownEvent env e C H)) = true
   /\ snd (CopyPasteHandleKeyDownEvent env e C H) = SendInput SyntheticPaste H
   /\ snd (fst (CopyPasteHandleKeyDownEvent env e C H)) = snd (SetupPasteToFolder env C H)
   /\ (bPasteToFolderPending C = false ->
       bPasteToFolderPending (snd (fst (CopyPasteHandleKeyDownEvent env e C H)))
       = match GEditor env with
         | Some ed => match EditorWorld ed with Some _ => true | None => false end
         | None => false
         end))
  /\ (IsShiftDown e = false -> CopyPasteHandleKeyDownEvent env e C H = (false, C, H)).
Proof.
  intros K Ctrl Play. unfold CopyPasteHandleKeyDownEvent. rewrite Play, K, Ctrl.
  rewrite (bool_decide_eq_false_2 (Key_V = Key_B)) by discriminate.
  cbn [andb negb]. split.
  - intros Sh. rewrite Sh.
    destruct (SetupPasteToFolder env C H) as [b C1] eqn:E. cbn [fst snd].
    split; [reflexivity |]. split; [reflexivity |]. split; [reflexivity |].
    intros NP. unfold SetupPasteToFolder in E.
    destruct (GEditor env) as [ed |]; [| injection E as _ <-; exact NP].
    destruct (EditorWorld ed); injection E as _ <-; [reflexivity | exact NP].
  - intros Sh. rewrite Sh. reflexivity.
Qed.

(** ** The undo buffer and the copy/paste processor *)

Lemma CountingLoop_same {A : Type} (body : Host * nat -> A -> Host * nat) :
  (forall H n o, body (H, n) o = (H, n)
                 \/ exists f, body (H, n) o = (set_Actors f H, S n)) ->
  forall (l : list A) (H : Host) (n : nat), SameButActors H (fst (foldl body (H, n) l)).
Proof.
  intros B. induction l as [| o l IH]; intros H n; cbn [foldl].
  - apply SameButActors_refl.
  - destruct (B H n o) as [E | [f E]]; rewrite E; [apply IH |].
    eapply SameButActors_trans; [apply SameButActors_set_Actors | apply IH].
Qed.

Lemma AtMostOneTransaction_refl (H : Host) : AtMostOneTransaction H H.
Proof. split; [reflexivity | left; reflexivity]. Qed.

(** A loop on the actors between the begin and the end of a scoped
    transaction, with or without the redraw that follows it. *)
Lemma ScopedLoop_balanced (d : string) (H0 H H2 : Host) :
  ActiveCount H = ActiveCount H0 -> TransBegun H = TransBegun H0 ->
  SameButActors (snd (BeginTransaction d H)) H2 ->
  AtMostOneTransaction H0 (EndTransaction (RedrawLevelEditingViewports H2))
  /\ AtMostOneTransaction H0 (EndTransaction H2).
Proof.
  intros EA ET (s1 & s2 & _). simpl in s1, s2.
  unfold AtMostOneTransaction. simpl. rewrite s1, s2, EA, ET. simpl.
  split; (split; [reflexivity | right; exists d; reflexivity]).
Qed.

(** X28. The copy/paste processor never leaves a transaction open: whatever
    the key event, [HandleKeyDownEvent] ends every transaction it begins and
    begins at most one, and so does the deferred paste-to-folder step of
    [Tick]. *)
Theorem copy_paste_operations_close_their_transaction (env : Env) (e : FKeyEvent)
    (C : FTransformCopyPasteProcessor) (H : Host) :
  AtMostOneTransaction H (snd (CopyPasteHandleKeyDownEvent env e C H))
  /\ AtMostOneTransaction H (snd (CopyPasteTick env C H)).
Proof.
  assert (Paste : forall C0 H0, AtMostOneTransaction H0 (snd (PasteTransformToSelected env C0 H0))).
  { intros C0 H0. unfold PasteTransformToSelected.
    destruct (GEditor env) as [ed |]; [| apply AtMostOneTransaction_refl].
    destruct (negb (bHasCopiedTransform C0)); [apply AtMostOneTransaction_refl |].
    destruct (SelectedActors ed) as [Sel |]; [| apply AtMostOneTransaction_refl].
    destruct (Nat.eqb (length Sel) 0); [apply AtMostOneTransaction_refl |].
    pose proof (CountingLoop_same (PasteOne (CopiedTransform C0))
                  (PasteOne_counts (CopiedTransform C0)) Sel
                  (snd (BeginTransaction "Paste Transform" H0)) 0%nat) as Same.
    unfold BeginTransaction in *. cbv iota beta. cbn [snd] in Same.
    destruct (foldl (PasteOne (CopiedTransform C0)) _ Sel) as [H2 m]. cbn [fst] in Same.
    destruct (ScopedLoop_balanced "Paste Transform" H0 H0 H2 eq_refl eq_refl Same) as [B1 B2].
    destruct (Nat.ltb 0 m); assumption. }
  assert (Snap : forall H0, AtMostOneTransaction H0 (snd (SnapSelectedToGround env H0))).
  { intros H0. unfold SnapSelectedToGround.
    destruct (GEditor env) as [ed |]; [| apply AtMostOneTransaction_refl].
    destruct (SelectedActors ed) as [Sel |]; [| apply AtMostOneTransaction_refl].
    destruct (Nat.eqb (length Sel) 0); [apply AtMostOneTransaction_refl |].
    destruct (EditorWorld ed) as [World |]; [| apply AtMostOneTransaction_refl].
    pose proof (CountingLoop_same (SnapOne World) (SnapOne_counts World) Sel
                  (snd (BeginTransaction "Snap to Ground" H0)) 0%nat) as Same.
    unfold BeginTransaction in *. cbv iota beta. cbn [snd] in Same.
    destruct (foldl (SnapOne World) _ Sel) as [H2 m]. cbn [fst] in Same.
    destruct (ScopedLoop_balanced "Snap to Ground" H0 H0 H2 eq_refl eq_refl Same) as [B1 B2].
    destruct (Nat.ltb 0 m); assumption. }
  assert (SnapNR : forall H0,
            AtMostOneTransaction H0 (snd (SnapSelectedToGroundNoRotation env H0))).
  { intros H0. unfold SnapSelectedToGroundNoRotation.
    destruct (GEditor env) as [ed |]; [| apply AtMostOneTransaction_refl].
    destruct (SelectedActors ed) as [Sel |]; [| apply AtMostOneTransaction_refl].
    destruct (Nat.eqb (length Sel) 0); [apply AtMostOneTransaction_refl |].
    destruct (EditorWorld ed) as [World |]; [| apply AtMostOneTransaction_refl].
    pose proof (CountingLoop_same (SnapOneNoRotation World) (SnapOneNoRotation_counts World)
                  Sel (snd (BeginTransaction "Snap to Ground (No Rotation)" H0)) 0%nat)
      as Same.
    unfold BeginTransaction in *. cbv iota beta. cbn [snd] in Same.
    destruct (foldl (SnapOneNoRotation World) _ Sel) as [H2 m]. cbn [fst] in Same.
    destruct (ScopedLoop_balanced "Snap to Ground (No Rotation)" H0 H0 H2 eq_refl eq_refl Same)
      as [B1 B2].
    destruct (Nat.ltb 0 m); assumption. }
  assert (Dup : forall H0, AtMostOneTransaction H0 (snd (DuplicateInPlace env H0))).
  { intros H0. unfold DuplicateInPlace.
    destruct (GEditor env) as [ed |]; [| apply AtMostOneTransaction_refl].
    destruct (SelectedActors ed) as [Sel |]; [| apply AtMostOneTransaction_refl].
    destruct (Nat.eqb (length Sel) 0); [apply AtMostOneTransaction_refl |].
    destruct (Nat.eqb (length _) 0); [apply AtMostOneTransaction_refl |].
    destruct (ExecDuplicate ed (Actors H0)) as [NewActors [Sel' |]];
      [| split; [reflexivity | left; reflexivity]].
    destruct (Nat.eqb (length Sel') _); [| split; [reflexivity | left; reflexivity]].
    match goal with |- context [foldl RestoreOne _ ?l] =>
      pose proof (foldl_SameButActors RestoreOne l
                    (fun H1 p => ltac:(unfold RestoreOne;
                       destruct (CastActor H1 (fst p)) as [[? ?] |];
                       [apply SameButActors_set_Actors | apply SameButActors_refl]))
                    (snd (BeginTransaction "Duplicate In Place"
                            (set_Actors (fun _ => NewActors) H0)))) as Same
    end.
    unfold BeginTransaction in *. cbv iota beta. cbn [snd] in Same.
    exact (proj1 (ScopedLoop_balanced "Duplicate In Place" H0
                    (set_Actors (fun _ => NewActors) H0) _ eq_refl eq_refl Same)). }
  assert (Tk : forall C0, AtMostOneTransaction H (snd (CompletePasteToFolder env C0 H))).
  { intros C0. unfold CompletePasteToFolder.
    destruct (GEditor env) as [ed |]; [| apply AtMostOneTransaction_refl].
    destruct (EditorWorld ed); [| apply AtMostOneTransaction_refl].
    destruct (PendingPasteFolderPath C0) as [f |]; [| apply AtMostOneTransaction_refl].
    destruct (Nat.eqb (length _) 0); [apply AtMostOneTransaction_refl |].
    match goal with |- context [foldl (MoveToFolder ?F) _ ?l] =>
      pose proof (foldl_SameButActors (MoveToFolder F) l
                    (fun H1 x => ltac:(unfold MoveToFolder; destruct (Actors H1 !! x);
                       [apply SameButActors_set_Actors | apply SameButActors_refl]))
                    (snd (BeginTransaction "Paste to Folder" H))) as Same
    end.
    unfold BeginTransaction in *. cbv iota beta. cbn [snd] in Same.
    exact (proj1 (ScopedLoop_balanced "Paste to Folder" H H _ eq_refl eq_refl Same)). }
  split.
  - unfold CopyPasteHandleKeyDownEvent.
    destruct (IsPlayInEditor env); [apply AtMostOneTransaction_refl |].
    destruct (bool_decide (GetKey e = Key_B) && IsShiftDown e && negb (IsControlDown e))
      eqn:SB.
    + specialize (SnapNR H).
      destruct (SnapSelectedToGroundNoRotation env H) as [b H1]. cbn [snd] in SnapNR.
      destruct b; [exact SnapNR |].
      apply andb_true_iff in SB. destruct SB as [_ NC]. rewrite NC. exact SnapNR.
    + destruct (negb (IsControlDown e)); [apply AtMostOneTransaction_refl |].
      destruct (GetKey e); try apply AtMostOneTransaction_refl.
      * destruct (negb (IsShiftDown e)); [| apply AtMostOneTransaction_refl].
        specialize (Snap H). destruct (SnapSelectedToGround env H). exact Snap.
      * specialize (Paste C H). destruct (PasteTransformToSelected env C H). exact Paste.
      * specialize (Dup H). destruct (DuplicateInPlace env H). exact Dup.
      * destruct (IsShiftDown e); [| apply AtMostOneTransaction_refl].
        destruct (SetupPasteToFolder env C H). split; [reflexivity | left; reflexivity].
  - unfold CopyPasteTick. destruct (bPasteToFolderPending C); [apply Tk |].
    apply AtMostOneTransaction_refl.
Qed.

(** ** What the callbacks of the shortcut processor leave alone *)

Lemma SameEditorSettings_refl (H : Host) : SameEditorSettings H H.
Proof. repeat split. Qed.

Lemma SameEditorSettings_trans (H1 H2 H3 : Host) :
  SameEditorSettings H1 H2 -> SameEditorSettings H2 H3 -> SameEditorSettings H1 H3.
Proof.
  intros (a1 & a2 & a3 & a4 & a5) (b1 & b2 & b3 & b4 & b5). repeat split; congruence.
Qed.

Lemma SameButActors_settings (H H' : Host) : SameButActors H H' -> SameEditorSettings H H'.
Proof.
  intros (_ & _ & s3 & s4 & s5 & _ & s7 & s8 & _). repeat split; assumption.
Qed.

Lemma EnsureDragTransaction_settings (Description : string)
    (P : FLevelEditorShortcutsProcessor) (H : Host) :
  SameEditorSettings H (snd (EnsureDragTransaction Description P H)).
Proof. unfold EnsureDragTransaction. destruct (DragTransaction P); repeat split. Qed.

Lemma InitializeDrag_settings (Description : string)
    (P : FLevelEditorShortcutsProcessor) (H : Host) :
  SameEditorSettings H (snd (InitializeDrag Description P H)).
Proof.
  unfold InitializeDrag. destruct (negb (bDragInitialized P)); [| repeat split].
  apply EnsureDragTransaction_settings.
Qed.

Lemma AccumulateAndMove_settings (Delta : FVector) (Sel : USelection)
    (P : FLevelEditorShortcutsProcessor) (H : Host) :
  SameEditorSettings H (snd (AccumulateAndMove Delta Sel P H)).
Proof.
  unfold AccumulateAndMove.
  destruct (SnapAccumulatedMovement _ _) as [R [D |]]; cbn [snd]; [| repeat split].
  pose proof (SameButActors_settings _ _ (MoveSelection_same D Sel H)) as S.
  destruct S as (s1 & s2 & s3 & s4 & s5). repeat split; assumption.
Qed.

Lemma DispatchDrag_settings (env : Env) (md : FVector2D)
    (P : FLevelEditorShortcutsProcessor) (H : Host) :
  SameEditorSettings H (snd (DispatchDrag env md P H)).
Proof.
  unfold DispatchDrag.
  destruct (bQKeyDown P); [| destruct (bEKeyDown P); [| destruct (bRKeyDown P)]].
  - change (MoveSelectedActorsHorizontal env md P H) with (RunDragFrame (QFrame env md) P H).
    rewrite RunDragFrame_unfold.
    destruct (MoveGuards _) as [[Sel vc] |]; [| apply SameEditorSettings_refl].
    pose proof (InitializeDrag_settings (FrameDescription (QFrame env md)) P H) as I.
    destruct (InitializeDrag _ P H) as [P1 H1].
    eapply SameEditorSettings_trans; [exact I | apply AccumulateAndMove_settings].
  - change (MoveSelectedActorsVertical env (Y2D md) P H)
      with (RunDragFrame (EFrame env (Y2D md)) P H).
    rewrite RunDragFrame_unfold.
    destruct (MoveGuards _) as [[Sel vc] |]; [| apply SameEditorSettings_refl].
    pose proof (InitializeDrag_settings (FrameDescription (EFrame env (Y2D md))) P H) as I.
    destruct (InitializeDrag _ P H) as [P1 H1].
    eapply SameEditorSettings_trans; [exact I | apply AccumulateAndMove_settings].
  - rewrite ScaleSelectedActorsUniform_unfold.
    destruct (ScaleGuards env) as [[ed Sel] |]; [| apply SameEditorSettings_refl].
    destruct (negb (bDragInitialized P)).
    + pose proof (EnsureDragTransaction_settings "Scale Uniform"
                    (set_bDragInitialized true P) H) as I.
      destruct (EnsureDragTransaction _ _ H) as [P1 H1]. cbn [fst snd] in *.
      eapply SameEditorSettings_trans; [exact I |].
      match goal with |- context [ScaleSnapshotActors ?m ?s H1] =>
        pose proof (SameButActors_settings _ _ (ScaleSnapshotActors_same m s H1)) as S end.
      destruct S as (s1 & s2 & s3 & s4 & s5). repeat split; assumption.
    + cbn [fst snd].
      match goal with |- context [ScaleSnapshotActors ?m ?s H] =>
        pose proof (SameButActors_settings _ _ (ScaleSnapshotActors_same m s H)) as S end.
      destruct S as (s1 & s2 & s3 & s4 & s5). repeat split; assumption.
  - apply SameEditorSettings_refl.
Qed.

(** X29. Who may change what in the shortcut processor. Key events and mouse
    button events never modify an actor, and neither does a wheel event
    unless Q is held: actors are moved, scaled or rotated by the drags of
    [Tick] and by Q+Scroll only. Conversely [Tick] never changes the
    viewport settings (grid, rotation and scale snapping), the widget modes
    or the cursor visibility. *)
Theorem only_drags_and_q_scroll_modify_actors :
  (forall env e P H, Actors (snd (HandleKeyDownEvent env e P H)) = Actors H)
  /\ (forall env e P H, Actors (snd (HandleKeyUpEvent env e P H)) = Actors H)
  /\ (forall env e P H, Actors (snd (HandleMouseButtonDownEvent env e P H)) = Actors H)
  /\ (forall env e P H, Actors (snd (HandleMouseButtonUpEvent env e P H)) = Actors H)
  /\ (forall env e P H, snd (HandleMouseMoveEvent env e P H) = H)
  /\ (forall env e P H,
        bQKeyDown P = false ->
        Actors (snd (HandleMouseWheelOrGestureEvent env e P H)) = Actors H)
  /\ (forall env P H, SameEditorSettings H (snd (Tick env P H))).
Proof.
  split; [| split; [| split; [| split; [| split; [| split]]]]].
  - intros env e P H. unfold HandleKeyDownEvent.
    destruct (IsPlayInEditor env); [reflexivity |].
    assert (D : forall isDown setKeyDown,
              Actors (snd (DragKeyDown isDown setKeyDown env e P H)) = Actors H).
    { intros isDown setKeyDown. unfold DragKeyDown.
      destruct (LandscapeModeActive env || FoliageModeActive env); [reflexivity |].
      destruct (negb (IsLevelEditorViewportFocused env)); [reflexivity |].
      destruct (negb isDown); [| reflexivity].
      unfold FirstPress.
      match goal with |- context [SetCursorHidden true ?p H] =>
        pose proof (SetCursorHidden_spec true p H) as K;
        destruct (SetCursorHidden true p H) as [P1 H1] end.
      cbn [fst snd] in K |- *. apply K. }
    assert (W : forall m, Actors (snd (WidgetModeKey env e m P H)) = Actors H).
    { intros m. unfold WidgetModeKey.
      destruct (NoModifiers e && negb (LandscapeModeActive env)
                && negb (FoliageModeActive env)); [| reflexivity].
      pose proof (SetWidgetModeOnActiveViewport_count env m H) as K.
      destruct (SetWidgetModeOnActiveViewport env m H) as [ok H1]. cbn [snd] in K |- *.
      apply K. }
    destruct (GetKey e); try reflexivity; try apply D; apply W.
  - intros env e P H. unfold HandleKeyUpEvent.
    destruct (IsPlayInEditor env); [reflexivity |].
    assert (U : forall P0 H0, Actors (snd (DragKeyUp env P0 H0)) = Actors H0).
    { intros P0 H0.
      unfold DragKeyUp, EndDragTransaction, SetCursorHidden.
      destruct (DragTransaction P0), (GEditor env); simpl;
        destruct (bCursorHidden P0), (CachedCursor P0); reflexivity. }
    destruct (GetKey e); try reflexivity.
    + rewrite U. destruct (bQScrolledWhileDown P); reflexivity.
    + apply U.
    + apply U.
    + cbn [snd]. destruct (negb (bGScrolledWhileDown P)); [| reflexivity].
      apply ToggleGridSnap_count.
  - intros env e P H.
    destruct (HandleMouseButtonDownEvent_cases env e P H) as [E | (vs & _ & _ & E)];
      rewrite E; reflexivity.
  - intros env e P H. unfold HandleMouseButtonUpEvent.
    destruct (GetEffectingButton e); try reflexivity.
    destruct (bTemporarilyDisabledRotSnap P); [| reflexivity].
    destruct (ViewportSettings H); reflexivity.
  - reflexivity.
  - intros env e P H Q. unfold HandleMouseWheelOrGestureEvent.
    destruct (IsPlayInEditor env); [reflexivity |]. rewrite Q.
    destruct (bGKeyDown P); [| reflexivity].
    destruct (negb (LandscapeModeActive env) && negb (FoliageModeActive env));
      [| reflexivity].
    cbn [snd]. apply ChangeGridSize_count.
  - intros env P H. unfold Tick.
    destruct (IsPlayInEditor env); [apply SameEditorSettings_refl |].
    destruct (_ || _ || _); [| apply SameEditorSettings_refl].
    unfold SampleCursor.
    destruct (bCursorHidden (set_CachedCursor true P));
      (destruct (IsNearlyZero2D _);
       [repeat split
       | eapply SameEditorSettings_trans; [| apply DispatchDrag_settings]; repeat split]).
Qed.

Lemma ScaleSnapshotActors_other (m : Q) (Snapshot : list (ActorId * FVector)) (a : ActorId) :
  forall H, ~ In a (map fst Snapshot) ->
  Actors (ScaleSnapshotActors m Snapshot H) !! a = Actors H !! a.
Proof.
  unfold ScaleSnapshotActors.
  induction Snapshot as [| p l IH]; intros H N; [reflexivity |].
  cbn [foldl]. rewrite IH by (intros I; apply N; right; exact I).
  apply ScaleOne_other. intros E. apply N. left. exact E.
Qed.

Lemma ScaleSnapshotActors_keeps_place (m : Q) (Snapshot : list (ActorId * FVector))
    (a : ActorId) :
  forall H x, Actors H !! a = Some x ->
  exists x', Actors (ScaleSnapshotActors m Snapshot H) !! a = Some x'
             /\ GetActorLocation x' = GetActorLocation x
             /\ Rotation (ActorTransform x') = Rotation (ActorTransform x)
             /\ FolderPath x' = FolderPath x.
Proof.
  unfold ScaleSnapshotActors.
  induction Snapshot as [| p l IH]; intros H x Hx; cbn [foldl]; [eauto |].
  assert (K : exists y, Actors (ScaleOne m H p) !! a = Some y
                        /\ GetActorLocation y = GetActorLocation x
                        /\ Rotation (ActorTransform y) = Rotation (ActorTransform x)
                        /\ FolderPath y = FolderPath x).
  { unfold ScaleOne. destruct (Actors H !! fst p) as [z |] eqn:E; [| eauto].
    simpl. destruct (decide (fst p = a)) as [Ea | Ne].
    - rewrite Ea in *. rewrite lookup_insert_eq. rewrite Hx in E. injection E as <-.
      eexists. split; [reflexivity |]. repeat split.
    - rewrite lookup_insert_ne by exact Ne. eauto. }
  destruct K as (y & Ey & k1 & k2 & k3).
  destruct (IH _ y Ey) as (x' & E' & i1 & i2 & i3).
  exists x'. split; [exact E' |]. repeat split; congruence.
Qed.

(** X30. An R-drag frame changes scales only, and only those of the actors
    of its snapshot: an actor that is not recorded in
    [ScaleDragInitialScales] after the frame is left exactly as it was, and
    every actor keeps its location, rotation and folder. Once the drag is
    initialised the snapshot is not taken again, so an actor selected later
    during the drag is not scaled. *)
Theorem scale_drag_touches_only_snapshot_scales (env : Env) (md : FVector2D)
    (P : FLevelEditorShortcutsProcessor) (H : Host) :
  (forall a,
      ~ In a (map fst (ScaleDragInitialScales (fst (ScaleSelectedActorsUniform env md P H)))) ->
      Actors (snd (ScaleSelectedActorsUniform env md P H)) !! a = Actors H !! a)
  /\ (forall a x, Actors H !! a = Some x ->
        exists x', Actors (snd (ScaleSelectedActorsUniform env md P H)) !! a = Some x'
                   /\ GetActorLocation x' = GetActorLocation x
                   /\ Rotation (ActorTransform x') = Rotation (ActorTransform x)
                   /\ FolderPath x' = FolderPath x)
  /\ (bDragInitialized P = true ->
      ScaleDragInitialScales (fst (ScaleSelectedActorsUniform env md P H))
      = ScaleDragInitialScales P).
Proof.
  rewrite ScaleSelectedActorsUniform_unfold.
  destruct (ScaleGuards env) as [[ed Sel] |]; [| cbn [fst snd]; repeat split; eauto].
  destruct (bDragInitialized P) eqn:DI; cbn [negb].
  - cbn [fst snd]. split; [| split; [| reflexivity]].
    + intros a N. apply (ScaleSnapshotActors_other _ _ a H N).
    + intros a x Hx. apply (ScaleSnapshotActors_keeps_place _ _ a H x Hx).
  - pose proof (EnsureDragTransaction_spec "Scale Uniform" (set_bDragInitialized true P) H)
      as K.
    destruct (EnsureDragTransaction "Scale Uniform" (set_bDragInitialized true P) H)
      as [P1 H1]. cbn [fst snd] in K |- *. destruct K as (k1 & _).
    split; [| split; [| discriminate]].
    + intros a N. rewrite <- k1. apply (ScaleSnapshotActors_other _ _ a H1 N).
    + intros a x Hx. rewrite <- k1 in Hx.
      apply (ScaleSnapshotActors_keeps_place _ _ a H1 x Hx).
Qed.

End Plugin.


(** * The properties on the sample editor *)

Local Abbreviation sRunDragFrames :=
  (RunDragFrames Sample.Rotator Sample.Quaternion Sample.GetUpVector
     Sample.HorizontalWorldDelta Sample.VerticalDragScale).
Local Abbreviation sTotalInput :=
  (TotalInput Sample.Rotator Sample.Quaternion Sample.GetUpVector
     Sample.HorizontalWorldDelta Sample.VerticalDragScale).
Local Abbreviation sTick :=
  (Tick Sample.Rotator Sample.Quaternion Sample.GetUpVector
     Sample.HorizontalWorldDelta Sample.VerticalDragScale).
Local Abbreviation sRunShortcuts :=
  (RunShortcuts Sample.Rotator Sample.Quaternion Sample.GetUpVector
     Sample.HorizontalWorldDelta Sample.VerticalDragScale Sample.RotateAboutUp).
Local Abbreviation sFirstProcessedDrag :=
  (FirstProcessedDrag Sample.Rotator Sample.Quaternion Sample.GetUpVector
     Sample.HorizontalWorldDelta Sample.VerticalDragScale Sample.RotateAboutUp).
Local Abbreviation sMoveHorizontal :=
  (MoveSelectedActorsHorizontal Sample.Rotator Sample.Quaternion Sample.GetUpVector
     Sample.HorizontalWorldDelta).
Local Abbreviation sPaste :=
  (PasteTransformToSelected Sample.Rotator Sample.Quaternion).
Local Abbreviation sSnapToGround :=
  (SnapSelectedToGround Sample.Rotator Sample.Quaternion Sample.AlignToSurface).
Local Abbreviation sCopyPasteKeyDown :=
  (CopyPasteHandleKeyDownEvent Sample.Rotator Sample.Quaternion Sample.AlignToSurface).

(** C1, the failing input: grid snapping at 2^-14 (about 0.000061, within
    the tolerance 1.e-4f), and a Q-drag of 16384 frames, each moving the
    selection by one grid step along X. One unit of movement is accumulated;
    the actor stays where it is and nothing is left in the accumulator. Every
    number involved is a power of two or a small multiple of one, so
    single-precision narrowing changes none of them. *)
Lemma drag_snap_drops_steps_below_tolerance_witness :
  0 < GetGridSnapSize (Sample.GridHost (1 # 16384))
  /\ GetGridSnapSize (Sample.GridHost (1 # 16384)) <= KINDA_SMALL_NUMBER
  /\ Steps (128 * 128) (MkVector (1 # 16384) 0 0) ≡ MkVector 1 0 0
  /\ Actors
       (snd (sRunDragFrames
               (repeat (QFrame (Sample.Editing 0 0) (MkVector2D (1 # 16384) 0)) (128 * 128))
               NewShortcutsProcessor (Sample.GridHost (1 # 16384))))
     = Actors (Sample.GridHost (1 # 16384))
  /\ AccumulatedMovement
       (fst (sRunDragFrames
               (repeat (QFrame (Sample.Editing 0 0) (MkVector2D (1 # 16384) 0)) (128 * 128))
               NewShortcutsProcessor (Sample.GridHost (1 # 16384))))
     ≡ ZeroVector
  /\ sTotalInput
       (repeat (QFrame (Sample.Editing 0 0) (MkVector2D (1 # 16384) 0)) (128 * 128))
       NewShortcutsProcessor (Sample.GridHost (1 # 16384))
     ≡ Steps (128 * 128) (MkVector (1 # 16384) 0 0).
Proof.
  assert (Hpos : 0 < GetGridSnapSize (Sample.GridHost (1 # 16384))) by reflexivity.
  assert (Htol : GetGridSnapSize (Sample.GridHost (1 # 16384)) <= KINDA_SMALL_NUMBER)
    by (vm_compute; discriminate).
  split; [exact Hpos |]. split; [exact Htol |].
  split; [repeat split; vm_compute; reflexivity |].
  apply (drag_snap_drops_steps_below_tolerance Sample.Rotator Sample.Quaternion
           Sample.GetUpVector Sample.HorizontalWorldDelta Sample.VerticalDragScale
           (128 * 128) (QFrame (Sample.Editing 0 0) (MkVector2D (1 # 16384) 0))
           NewShortcutsProcessor (Sample.GridHost (1 # 16384)) Hpos Htol).
  - repeat split; reflexivity.
  - vm_compute. eauto.
  - intros H _. repeat split; reflexivity.
Defined.

(** C2: drag right by 25 pixels, then down by 25 pixels: [TotalScaleDelta]
    is back at zero and the scale (2, 1, 1/2) is back. *)
Lemma scale_drag_applies_to_snapshot_witness :
  TotalScaleDelta
    (fst (RunScaleFrames
            [(Sample.Editing 0 0, MkVector2D 25 0); (Sample.Editing 0 0, MkVector2D 0 25)]
            NewShortcutsProcessor (Sample.FreeHost (MkVector 2 1 (1 # 2))))) == 0
  /\ AtLeastMinimumScale (MkVector 2 1 (1 # 2))
  /\ exists s',
       ScaleOf
         (snd (RunScaleFrames
                 [(Sample.Editing 0 0, MkVector2D 25 0); (Sample.Editing 0 0, MkVector2D 0 25)]
                 NewShortcutsProcessor (Sample.FreeHost (MkVector 2 1 (1 # 2))))) 1%nat
       = Some s'
       /\ s' ≡ MkVector 2 1 (1 # 2).
Proof.
  assert (Zero : TotalScaleDelta
                   (fst (RunScaleFrames
                           [(Sample.Editing 0 0, MkVector2D 25 0);
                            (Sample.Editing 0 0, MkVector2D 0 25)]
                           NewShortcutsProcessor (Sample.FreeHost (MkVector 2 1 (1 # 2)))))
                 == 0) by (vm_compute; reflexivity).
  assert (Min : AtLeastMinimumScale (MkVector 2 1 (1 # 2)))
    by (repeat split; discriminate).
  split; [exact Zero |]. split; [exact Min |].
  refine (proj2 (proj2
    (scale_drag_applies_to_snapshot
       (Sample.Editing 0 0, MkVector2D 25 0) [(Sample.Editing 0 0, MkVector2D 0 25)]
       NewShortcutsProcessor (Sample.FreeHost (MkVector 2 1 (1 # 2))) 1%nat
       (MkVector 2 1 (1 # 2))
       (Sample.Editor false [Some 1%nat] Sample.EmptyWorld)
       (Sample.Editor false [Some 1%nat] Sample.EmptyWorld)
       [Some 1%nat] [Some 1%nat] _ _ _ _ _ _)) Zero _ Min).
  - reflexivity.
  - repeat constructor; simpl; eauto.
  - reflexivity.
  - left. reflexivity.
  - reflexivity.
  - reflexivity.
  - reflexivity.
Defined.

(** C2 as stated fails in three ways. (1) A mirrored actor: with pre-drag
    scale (-1, 1, 1), the drag right by 25 pixels then down by 25 pixels,
    whose accumulated (deltaX - deltaY) is zero, ends with the X scale
    clamped to [0.001f]. (2) Single precision: the mouse deltas 1, 250 and
    -251 along X sum to zero, but [TotalScaleDelta] ends at -2^-23 and the
    scale (2, 1, 1/2) is not back. (3) A key released inside the drag: R is
    held, one frame of 250 pixels doubles the scale (2, 1, 1/2), E is tapped,
    and the next frame of 250 pixels takes a new snapshot and doubles again:
    the scale is four times the pre-drag scale, where the snapshot of the
    first movement times the multiplier of 500 pixels would be three times. *)
Lemma scale_drag_does_not_always_restore_scale :
  (TotalRadialDelta
     [(Sample.Editing 0 0, MkVector2D 25 0); (Sample.Editing 0 0, MkVector2D 0 25)] == 0
   /\ ScaleSnapDisabled (Sample.FreeHost (MkVector (-1) 1 1))
   /\ ScaleOf (Sample.FreeHost (MkVector (-1) 1 1)) 1%nat = Some (MkVector (-1) 1 1)
   /\ exists s',
        ScaleOf
          (snd (RunScaleFrames
                  [(Sample.Editing 0 0, MkVector2D 25 0); (Sample.Editing 0 0, MkVector2D 0 25)]
                  NewShortcutsProcessor (Sample.FreeHost (MkVector (-1) 1 1)))) 1%nat
        = Some s'
        /\ VecX s' == Float_0_001
        /\ ~ s' ≡ MkVector (-1) 1 1)
  /\ (TotalRadialDelta
        [(Sample.Editing 0 0, MkVector2D 1 0); (Sample.Editing 0 0, MkVector2D 250 0);
         (Sample.Editing 0 0, MkVector2D (-251) 0)] == 0
      /\ ScaleSnapDisabled (Sample.FreeHost (MkVector 2 1 (1 # 2)))
      /\ AtLeastMinimumScale (MkVector 2 1 (1 # 2))
      /\ TotalScaleDelta
           (fst (RunScaleFrames
                   [(Sample.Editing 0 0, MkVector2D 1 0); (Sample.Editing 0 0, MkVector2D 250 0);
                    (Sample.Editing 0 0, MkVector2D (-251) 0)]
                   NewShortcutsProcessor (Sample.FreeHost (MkVector 2 1 (1 # 2)))))
         == - (1 # 8388608)
      /\ exists s',
           ScaleOf
             (snd (RunScaleFrames
                     [(Sample.Editing 0 0, MkVector2D 1 0);
                      (Sample.Editing 0 0, MkVector2D 250 0);
                      (Sample.Editing 0 0, MkVector2D (-251) 0)]
                     NewShortcutsProcessor (Sample.FreeHost (MkVector 2 1 (1 # 2))))) 1%nat
           = Some s'
           /\ VecX s' == 2 - (1 # 4194304)
           /\ ~ s' ≡ MkVector 2 1 (1 # 2))
  /\ (let evs :=
        [EvKeyDown (Sample.Editing 0 0) (Sample.KeyEvent Key_R);
         EvTick (Sample.Editing 250 0);
         EvKeyDown (Sample.Editing 0 0) (Sample.KeyEvent Key_E);
         EvKeyUp (Sample.Editing 0 0) (Sample.KeyEvent Key_E);
         EvTick (Sample.Editing 250 0)] in
      let r := sRunShortcuts evs NewShortcutsProcessor
                 (Sample.FreeHost (MkVector 2 1 (1 # 2))) in
      bRKeyDown (fst r) = true
      /\ TransBegun (snd r) = ["Scale Uniform"%string; "Scale Uniform"%string]
      /\ (exists snapshot,
            ScaleDragInitialScales (fst r) = [(1%nat, snapshot)]
            /\ snapshot ≡ MkVector 4 2 1)
      /\ exists s',
           ScaleOf (snd r) 1%nat = Some s'
           /\ s' ≡ MkVector 8 4 2
           /\ ~ s' ≡ ScaledFrom (MkVector 2 1 (1 # 2)) 3).
Proof.
  split; [| split].
  - split; [reflexivity |]. split; [reflexivity |]. split; [reflexivity |].
    eexists. split; [vm_compute; reflexivity |].
    split; [reflexivity |]. intros (Ex & _). discriminate Ex.
  - split; [reflexivity |]. split; [reflexivity |].
    split; [repeat split; discriminate |].
    split; [vm_compute; reflexivity |].
    eexists. split; [vm_compute; reflexivity |].
    split; [reflexivity |]. intros (Ex & _). discriminate Ex.
  - cbv zeta. split; [vm_compute; reflexivity |]. split; [vm_compute; reflexivity |].
    split; [eexists; split; [vm_compute; reflexivity | repeat split; reflexivity] |].
    eexists. split; [vm_compute; reflexivity |].
    split; [repeat split; reflexivity |]. intros (Ex & _). vm_compute in Ex. discriminate Ex.
Qed.

(** C3: Q is pressed; a frame moves the cursor by 10 pixels; the wheel is
    scrolled; a Q key-up arrives during a Play session and is ignored; E is
    pressed as well; another frame moves the cursor; Q is released. One drag
    transaction, "Move Horizontal", and the "Rotate Selected" of the scroll
    are begun, and none is left open. *)
Lemma one_transaction_per_drag_witness :
  let evs :=
    [EvTick (Sample.Editing 10 0);
     EvMouseWheel (Sample.Editing 0 0) Scene.ScrollUp;
     EvKeyUp (Sample.Playing 0 0) (Sample.KeyEvent Key_Q);
     EvKeyDown (Sample.Editing 0 0) (Sample.KeyEvent Key_E);
     EvTick (Sample.Editing 10 0)] in
  let r1 := HandleKeyDownEvent (Sample.Editing 0 0) (Sample.KeyEvent Key_Q)
              NewShortcutsProcessor (Sample.GridHost 1) in
  let r2 := sRunShortcuts evs (snd (fst r1)) (snd r1) in
  let r3 := HandleKeyUpEvent (Sample.Editing 10 0) (Sample.KeyEvent Key_Q)
              (fst r2) (snd r2) in
  Forall (fun ev => ReleasesDrag ev = false) evs
  /\ sFirstProcessedDrag evs (snd (fst r1)) (snd r1) = Some "Move Horizontal"%string
  /\ TransBegun (snd r3) = ["Move Horizontal"%string; "Rotate Selected"%string]
  /\ exists added,
       TransBegun (snd r3) = TransBegun (Sample.GridHost 1) ++ added
       /\ List.filter IsDragDescription added
          = match sFirstProcessedDrag evs (snd (fst r1)) (snd r1) with
            | Some d => [d]
            | None => []
            end
       /\ Forall (fun d => IsDragDescription d = true \/ d = "Rotate Selected"%string) added
       /\ DragTransaction (snd (fst r3)) = None
       /\ ActiveCount (snd r3) = ActiveCount (Sample.GridHost 1).
Proof.
  cbv zeta.
  assert (NR : Forall (fun ev => ReleasesDrag ev = false)
                 [EvTick (Sample.Editing 10 0);
                  EvMouseWheel (Sample.Editing 0 0) Scene.ScrollUp;
                  EvKeyUp (Sample.Playing 0 0) (Sample.KeyEvent Key_Q);
                  EvKeyDown (Sample.Editing 0 0) (Sample.KeyEvent Key_E);
                  EvTick (Sample.Editing 10 0)])
    by (repeat constructor).
  split; [exact NR |]. split; [vm_compute; reflexivity |].
  split; [vm_compute; reflexivity |].
  exact (proj2
    (one_transaction_per_drag Sample.Rotator Sample.Quaternion Sample.GetUpVector
       Sample.HorizontalWorldDelta Sample.VerticalDragScale Sample.RotateAboutUp)
    (Sample.Editing 0 0) (Sample.KeyEvent Key_Q) _
    (Sample.Editing 10 0) (Sample.KeyEvent Key_Q)
    NewShortcutsProcessor (Sample.GridHost 1) eq_refl eq_refl eq_refl eq_refl eq_refl NR).
Defined.

(** C3 as stated fails in three ways. (1) The key-up arrives during a Play
    session: Q is pressed, one frame moves the actor and opens the
    transaction, a Play session starts, Q is released. The key-up is ignored:
    the transaction is still open and Q still counts as held. (2) The wheel
    is scrolled inside a Q session: the session begins two undo transactions,
    "Move Horizontal" and "Rotate Selected". (3) Another drag key is released
    inside the session: Q is pressed, a frame moves the actor, E is tapped,
    another frame moves the actor, Q is released. The key-up of E ends the
    transaction of the Q-drag and the next frame begins a second
    "Move Horizontal". *)
Lemma drag_session_is_not_always_one_transaction :
  (let r1 := HandleKeyDownEvent (Sample.Editing 0 0) (Sample.KeyEvent Key_Q)
               NewShortcutsProcessor (Sample.GridHost 1) in
   let r2 := sTick (Sample.Editing 10 0) (snd (fst r1)) (snd r1) in
   let r3 := HandleKeyUpEvent (Sample.Playing 10 0) (Sample.KeyEvent Key_Q)
               (fst r2) (snd r2) in
   TransBegun (snd r2) = ["Move Horizontal"%string]
   /\ DragTransaction (snd (fst r3)) = Some (MkScopedTransaction 0)
   /\ ActiveCount (snd r3) = 1%nat
   /\ bQKeyDown (snd (fst r3)) = true)
  /\ (let r := sRunShortcuts
                 [EvKeyDown (Sample.Editing 0 0) (Sample.KeyEvent Key_Q);
                  EvTick (Sample.Editing 10 0);
                  EvMouseWheel (Sample.Editing 0 0) Scene.ScrollUp;
                  EvKeyUp (Sample.Editing 0 0) (Sample.KeyEvent Key_Q)]
                 NewShortcutsProcessor (Sample.GridHost 1) in
      TransBegun (snd r) = ["Move Horizontal"%string; "Rotate Selected"%string]
      /\ DragTransaction (fst r) = None)
  /\ (let r := sRunShortcuts
                 [EvKeyDown (Sample.Editing 0 0) (Sample.KeyEvent Key_Q);
                  EvTick (Sample.Editing 10 0);
                  EvKeyDown (Sample.Editing 0 0) (Sample.KeyEvent Key_E);
                  EvKeyUp (Sample.Editing 0 0) (Sample.KeyEvent Key_E);
                  EvTick (Sample.Editing 10 0);
                  EvKeyUp (Sample.Editing 0 0) (Sample.KeyEvent Key_Q)]
                 NewShortcutsProcessor (Sample.GridHost 1) in
      TransBegun (snd r) = ["Move Horizontal"%string; "Move Horizontal"%string]
      /\ DragTransaction (fst r) = None
      /\ LocationOf (snd r) 1%nat ≡ MkVector 20 0 0).
Proof. vm_compute. repeat split. Qed.

(** C4: a snapshot at (5, 6, 7) is pasted on an actor of scale (2, 3, 4). *)
Lemma paste_keeps_scale_witness :
  Actors (Sample.FreeHost (MkVector 2 3 4)) !! 1%nat
  = Some (Sample.Cube ZeroVector (MkVector 2 3 4))
  /\ exists actor',
       Actors
         (snd (sPaste (Sample.Editing 0 0)
                 (Sample.Snapshot
                    (MkTransform (MkQuat 0 0 0 1) (MkVector 5 6 7) (MkVector 9 9 9)))
                 (Sample.FreeHost (MkVector 2 3 4)))) !! 1%nat
       = Some actor'
       /\ GetActorScale3D actor' = MkVector 2 3 4
       /\ GetActorLocation actor' = MkVector 5 6 7.
Proof.
  assert (Hid : Actors (Sample.FreeHost (MkVector 2 3 4)) !! 1%nat
                = Some (Sample.Cube ZeroVector (MkVector 2 3 4))) by reflexivity.
  split; [exact Hid |].
  destruct (paste_keeps_scale Sample.Rotator Sample.Quaternion (Sample.Editing 0 0)
              (Sample.Snapshot
                 (MkTransform (MkQuat 0 0 0 1) (MkVector 5 6 7) (MkVector 9 9 9)))
              (Sample.FreeHost (MkVector 2 3 4)) 1%nat _ Hid)
    as (actor' & E & Sc & _ & Pasted).
  exists actor'. split; [exact E |]. split; [exact Sc |].
  rewrite (Pasted _ [Some 1%nat] eq_refl eq_refl eq_refl (or_introl eq_refl)).
  reflexivity.
Defined.

(** C5: under the actor a query-only trigger at height 50 and a floor with
    physics collision at height 0: the trigger is ignored, the floor is the
    accepted hit. *)
Lemma ground_snap_accepts_only_physics_hits_witness :
  GroundTraceLoop MaxTraceAttempts Sample.TriggerOverFloor
    (MkVector 0 0 500) (MkVector 0 0 (-199500)) (MkQueryParams [1%nat] [])
  = (Some (MkHit (Some (Sample.Blocker 8%nat QueryAndPhysics)) (MkVector 0 0 0) UpVector),
     MkQueryParams [1%nat] [7%nat])
  /\ exists c,
       HitComponent
         (MkHit (Some (Sample.Blocker 8%nat QueryAndPhysics)) (MkVector 0 0 0) UpVector)
       = Some c
       /\ IsPhysicsCollision (CollisionEnabled c) = true.
Proof.
  assert (E : GroundTraceLoop MaxTraceAttempts Sample.TriggerOverFloor
                (MkVector 0 0 500) (MkVector 0 0 (-199500)) (MkQueryParams [1%nat] [])
              = (Some (MkHit (Some (Sample.Blocker 8%nat QueryAndPhysics))
                         (MkVector 0 0 0) UpVector),
                 MkQueryParams [1%nat] [7%nat])) by reflexivity.
  split; [exact E |].
  exact (proj1 (ground_snap_accepts_only_physics_hits Sample.Rotator Sample.Quaternion
                  Sample.AlignToSurface Sample.TriggerOverFloor
                  (MkVector 0 0 500) (MkVector 0 0 (-199500))) _ _ _ _ E).
Defined.

(** C6: snap to ground in a world where the trace of actor 1 misses. *)
Lemma failing_operations_modify_nothing_witness :
  TraceGround Sample.EmptyWorld 1%nat (Sample.Cube ZeroVector (MkVector 1 1 1)) = None
  /\ Actors (snd (sSnapToGround (Sample.Editing 0 0) (Sample.GridHost 1))) !! 1%nat
     = Some (Sample.Cube ZeroVector (MkVector 1 1 1))
  /\ ActiveCount (snd (sSnapToGround (Sample.Editing 0 0) (Sample.GridHost 1)))
     = ActiveCount (Sample.GridHost 1).
Proof.
  assert (Miss : TraceGround Sample.EmptyWorld 1%nat
                   (Sample.Cube ZeroVector (MkVector 1 1 1)) = None) by reflexivity.
  split; [exact Miss |].
  destruct (proj2 (proj2 (proj2 (proj2 (proj2 (proj2
              (failing_operations_modify_nothing Sample.Rotator Sample.Quaternion
                 Sample.GetUpVector Sample.HorizontalWorldDelta Sample.VerticalDragScale
                 Sample.AlignToSurface Sample.RotateAboutUp))))))
              (Sample.Editing 0 0) (Sample.GridHost 1)
              (Sample.Editor false [Some 1%nat] Sample.EmptyWorld) [Some 1%nat]
              Sample.EmptyWorld 1%nat (Sample.Cube ZeroVector (MkVector 1 1 1))
              eq_refl eq_refl ltac:(discriminate) eq_refl eq_refl Miss)
    as [(A & _ & Cnt) _].
  split; [exact A | exact Cnt].
Defined.

(** C6 as stated fails at a failed raycast: the trace of actor 1 misses, the
    operation returns false and leaves the actor alone, but it has begun (and
    ended) the transaction "Snap to Ground". *)
Lemma snap_to_ground_opens_transaction_before_raycast :
  TraceGround Sample.EmptyWorld 1%nat (Sample.Cube ZeroVector (MkVector 1 1 1)) = None
  /\ fst (sSnapToGround (Sample.Editing 0 0) (Sample.GridHost 1)) = false
  /\ TransBegun (Sample.GridHost 1) = []
  /\ TransBegun (snd (sSnapToGround (Sample.Editing 0 0) (Sample.GridHost 1)))
     = ["Snap to Ground"].
Proof. repeat split. Qed.

(** C7: copy with actor 1, of scale (2, 3, 4), selected. *)
Lemma copy_records_first_actor_transform_witness :
  CastActor (Sample.FreeHost (MkVector 2 3 4)) (Some 1%nat)
  = Some (1%nat, Sample.Cube ZeroVector (MkVector 2 3 4))
  /\ Translation
       (CopiedTransform
          (CopySelectedTransform (Sample.Editing 0 0) Sample.NoSnapshot
             (Sample.FreeHost (MkVector 2 3 4)))) = ZeroVector
  /\ bHasCopiedTransform
       (CopySelectedTransform (Sample.Editing 0 0) Sample.NoSnapshot
          (Sample.FreeHost (MkVector 2 3 4))) = true.
Proof.
  assert (Cast : CastActor (Sample.FreeHost (MkVector 2 3 4)) (Some 1%nat)
                 = Some (1%nat, Sample.Cube ZeroVector (MkVector 2 3 4))) by reflexivity.
  split; [exact Cast |].
  destruct (proj1 (copy_records_first_actor_transform Sample.Rotator Sample.Quaternion)
              (Sample.Editing 0 0) Sample.NoSnapshot (Sample.FreeHost (MkVector 2 3 4))
              (Sample.Editor false [Some 1%nat] Sample.EmptyWorld) (Some 1%nat) []
              1%nat (Sample.Cube ZeroVector (MkVector 2 3 4)) eq_refl eq_refl Cast)
    as (_ & T & _ & _ & B).
  split; [exact T | exact B].
Defined.

(** C7 as stated fails: the snapshot holds the scale of the copied actor. Two
    actors at the same place with the same rotation, one of scale (2, 3, 4)
    and one of scale (5, 5, 5), leave different snapshots. *)
Lemma copied_snapshot_holds_scale :
  Scale3D
    (CopiedTransform
       (CopySelectedTransform (Sample.Editing 0 0) Sample.NoSnapshot
          (Sample.FreeHost (MkVector 2 3 4)))) = MkVector 2 3 4
  /\ Scale3D
       (CopiedTransform
          (CopySelectedTransform (Sample.Editing 0 0) Sample.NoSnapshot
             (Sample.FreeHost (MkVector 5 5 5)))) = MkVector 5 5 5
  /\ CopiedTransform
       (CopySelectedTransform (Sample.Editing 0 0) Sample.NoSnapshot
          (Sample.FreeHost (MkVector 2 3 4)))
     <> CopiedTransform
          (CopySelectedTransform (Sample.Editing 0 0) Sample.NoSnapshot
             (Sample.FreeHost (MkVector 5 5 5))).
Proof. repeat split. vm_compute. discriminate. Qed.

(** C8: Q, E and R are all held and the cursor has moved by 10 pixels: the
    tick is the horizontal move. *)
Lemma tick_applies_one_drag_by_priority_witness :
  IsPlayInEditor (Sample.Editing 10 0) = false
  /\ IsNearlyZero2D
       (Vec2Sub (CursorPos (Sample.Editing 10 0))
          (LastMousePosition
             (set_bRKeyDown true (set_bEKeyDown true (set_bQKeyDown true NewShortcutsProcessor)))))
     = false
  /\ sTick (Sample.Editing 10 0)
       (set_bRKeyDown true (set_bEKeyDown true (set_bQKeyDown true NewShortcutsProcessor)))
       (Sample.GridHost 1)
     = sMoveHorizontal (Sample.Editing 10 0)
         (fst (fst (SampleCursor (Sample.Editing 10 0)
                      (set_CachedCursor true
                         (set_bRKeyDown true
                            (set_bEKeyDown true (set_bQKeyDown true NewShortcutsProcessor))))
                      (Sample.GridHost 1))))
         (snd (fst (SampleCursor (Sample.Editing 10 0)
                      (set_CachedCursor true
                         (set_bRKeyDown true
                            (set_bEKeyDown true (set_bQKeyDown true NewShortcutsProcessor))))
                      (Sample.GridHost 1))))
         (snd (SampleCursor (Sample.Editing 10 0)
                 (set_CachedCursor true
                    (set_bRKeyDown true
                       (set_bEKeyDown true (set_bQKeyDown true NewShortcutsProcessor))))
                 (Sample.GridHost 1))).
Proof.
  split; [reflexivity |]. split; [reflexivity |].
  exact (proj1 (proj2 (proj2
    (tick_applies_one_drag_by_priority Sample.Rotator Sample.Quaternion Sample.GetUpVector
       Sample.HorizontalWorldDelta Sample.VerticalDragScale (Sample.Editing 10 0)
       (set_bRKeyDown true (set_bEKeyDown true (set_bQKeyDown true NewShortcutsProcessor)))
       (Sample.GridHost 1) eq_refl eq_refl))) eq_refl).
Defined.

(** C9, the failing inputs. (1) Ctrl+Shift+V is pressed with actor 1, of
    folder "Props", selected: a paste-to-folder is pending. The host pastes
    actor 2. The next tick of the copy/paste processor arrives while a Play
    session is in progress: it begins the transaction "Paste to Folder" and
    files actor 2 under "Props". (2) Rotation snapping has been switched off
    by a Shift+click in rotate mode; the left button is released while a
    Play session is in progress: rotation snapping is switched back on. *)
Lemma play_session_does_not_stop_unguarded_callbacks_witness :
  (let r1 := sCopyPasteKeyDown (Sample.Editing 0 0) (MkKeyEvent Key_V true false true)
               Sample.NoSnapshot Sample.FiledHost in
   let H2 := set_Actors (insert 2%nat (Sample.Cube ZeroVector (MkVector 1 1 1))) (snd r1) in
   let r3 := CopyPasteTick (Sample.Playing 0 0) (snd (fst r1)) H2 in
   IsPlayInEditor (Sample.Playing 0 0) = true
   /\ bPasteToFolderPending (snd (fst r1)) = true
   /\ TransBegun (snd r3) = TransBegun H2 ++ ["Paste to Folder"%string]
   /\ Actors (snd r3) !! 2%nat
      = Some (SetFolderPath (Some "Props"%string) (Sample.Cube ZeroVector (MkVector 1 1 1))))
  /\ (let r1 := HandleMouseButtonDownEvent (Sample.Editing 0 0) Scene.ShiftLeftClick
                  NewShortcutsProcessor Scene.RotateModeHost in
      let r2 := HandleMouseButtonUpEvent (Sample.Playing 0 0) Scene.LeftRelease
                  (snd (fst r1)) (snd r1) in
      IsPlayInEditor (Sample.Playing 0 0) = true
      /\ (RotGridEnabled <$> ViewportSettings (snd r1)) = Some false
      /\ ViewportSettings (snd r2) = Some Scene.RotateSettings).
Proof.
  pose proof (play_session_does_not_stop_unguarded_callbacks Sample.Rotator Sample.Quaternion
                Sample.GetUpVector Sample.HorizontalWorldDelta Sample.VerticalDragScale)
    as [Paste Release].
  split.
  - cbv zeta. split; [reflexivity |]. split; [vm_compute; reflexivity |].
    set (r1 := sCopyPasteKeyDown (Sample.Editing 0 0) (MkKeyEvent Key_V true false true)
                 Sample.NoSnapshot Sample.FiledHost).
    set (H2 := set_Actors (insert 2%nat (Sample.Cube ZeroVector (MkVector 1 1 1))) (snd r1)).
    destruct (Paste (Sample.Playing 0 0) (snd (fst r1)) H2
                (Sample.Editor true [Some 1%nat] Sample.EmptyWorld) Sample.EmptyWorld
                "Props"%string 2%nat (Sample.Cube ZeroVector (MkVector 1 1 1))
                NewShortcutsProcessor)
      as (T & A & _).
    + reflexivity.
    + reflexivity.
    + reflexivity.
    + vm_compute. reflexivity.
    + vm_compute. reflexivity.
    + vm_compute. reflexivity.
    + intros I. vm_compute in I. discriminate I.
    + split; [exact T | exact A].
  - cbv zeta. split; [reflexivity |]. split; [reflexivity |].
    destruct (Release (Sample.Playing 0 0) Scene.LeftRelease
                (snd (fst (HandleMouseButtonDownEvent (Sample.Editing 0 0) Scene.ShiftLeftClick
                             NewShortcutsProcessor Scene.RotateModeHost)))
                (snd (HandleMouseButtonDownEvent (Sample.Editing 0 0) Scene.ShiftLeftClick
                        NewShortcutsProcessor Scene.RotateModeHost))
                (set_RotGridEnabled false Scene.RotateSettings)
                eq_refl eq_refl eq_refl eq_refl) as (V & _).
    exact V.
Defined.

(** C10: Ctrl+C with actor 1 selected is not consumed. *)
Lemma ctrl_c_is_never_consumed_witness :
  GetKey (Sample.CtrlKeyEvent Key_C) = Key_C
  /\ fst (fst (sCopyPasteKeyDown (Sample.Editing 0 0) (Sample.CtrlKeyEvent Key_C)
                 Sample.NoSnapshot (Sample.GridHost 1))) = false
  /\ snd (sCopyPasteKeyDown (Sample.Editing 0 0) (Sample.CtrlKeyEvent Key_C)
            Sample.NoSnapshot (Sample.GridHost 1)) = Sample.GridHost 1.
Proof.
  split; [reflexivity |].
  exact (proj1 (ctrl_c_is_never_consumed Sample.Rotator Sample.Quaternion
                  Sample.AlignToSurface)
           (Sample.Editing 0 0) (Sample.CtrlKeyEvent Key_C) Sample.NoSnapshot
           (Sample.GridHost 1) eq_refl).
Defined.

(** * The further properties on the sample editor *)

Local Abbreviation sWheel :=
  (HandleMouseWheelOrGestureEvent Sample.Rotator Sample.Quaternion Sample.RotateAboutUp).
Local Abbreviation sRotate :=
  (RotateSelectedActors Sample.Rotator Sample.Quaternion Sample.RotateAboutUp).
Local Abbreviation sSnapToGroundNoRotation :=
  (SnapSelectedToGroundNoRotation Sample.Quaternion).
Local Abbreviation sSnapOne :=
  (SnapOne Sample.Rotator Sample.Quaternion Sample.AlignToSurface).


(** X2, without snapping: a Q-frame of 7 units moves actor 1 by 7 units. *)
Lemma drag_without_snapping_applies_whole_movement_witness :
  GetGridSnapSize (Sample.FreeHost (MkVector 1 1 1)) <= 0
  /\ LocationOf
       (snd (sRunDragFrames [QFrame (Sample.Editing 0 0) (MkVector2D 7 0)]
               NewShortcutsProcessor (Sample.FreeHost (MkVector 1 1 1)))) 1%nat
     ≡ MkVector 7 0 0.
Proof.
  assert (Hz : GetGridSnapSize (Sample.FreeHost (MkVector 1 1 1)) <= 0)
    by (vm_compute; discriminate).
  split; [exact Hz |].
  destruct (drag_without_snapping_applies_whole_movement Sample.Rotator Sample.Quaternion
              Sample.GetUpVector Sample.HorizontalWorldDelta Sample.VerticalDragScale
              (QFrame (Sample.Editing 0 0) (MkVector2D 7 0))
              NewShortcutsProcessor (Sample.FreeHost (MkVector 1 1 1)) 1%nat Hz)
    as [_ E].
  - vm_compute. eauto.
  - vm_compute. eauto.
  - reflexivity.
  - etransitivity; [exact E |]. repeat split; reflexivity.
Defined.

(** X3: an R-drag 1000 pixels to the left on the scale (2, 1, 1/2): the
    multiplier is [0.01f] and the Z scale is floored. *)
Lemma scale_drag_never_goes_below_floor_witness :
  exists s s',
    ScaleOf
      (snd (ScaleSelectedActorsUniform (Sample.Editing 0 0) (MkVector2D (- (1000)) 0)
              NewShortcutsProcessor (Sample.FreeHost (MkVector 2 1 (1 # 2))))) 1%nat
    = Some s'
    /\ s' = ScaledFrom s
              (ScaleMultiplierOf (Sample.Editor false [Some 1%nat] Sample.EmptyWorld)
                 (Sample.FreeHost (MkVector 2 1 (1 # 2)))
                 (TotalScaleDelta
                    (fst (ScaleSelectedActorsUniform (Sample.Editing 0 0)
                            (MkVector2D (- (1000)) 0) NewShortcutsProcessor
                            (Sample.FreeHost (MkVector 2 1 (1 # 2)))))))
    /\ AtLeastMinimumScale s'.
Proof.
  destruct (scale_drag_never_goes_below_floor (Sample.Editing 0 0)
              (MkVector2D (- (1000)) 0) NewShortcutsProcessor
              (Sample.FreeHost (MkVector 2 1 (1 # 2)))
              (Sample.Editor false [Some 1%nat] Sample.EmptyWorld) [Some 1%nat] 1%nat)
    as (s & s' & _ & E & F & M).
  - reflexivity.
  - vm_compute. left. reflexivity.
  - vm_compute. eauto.
  - exists s, s'. split; [exact E |]. split; [exact F | exact M].
Defined.

(** X5: a repeated key-down of Q while Q is held. *)
Lemma drag_key_down_repeat_or_blocked_changes_nothing_witness :
  snd (HandleKeyDownEvent (Sample.Editing 3 4) (Sample.KeyEvent Key_Q)
         (set_bQKeyDown true NewShortcutsProcessor) (Sample.GridHost 1))
  = Sample.GridHost 1.
Proof.
  exact (proj1 (proj2
    (drag_key_down_repeat_or_blocked_changes_nothing (Sample.Editing 3 4)
       (Sample.KeyEvent Key_Q) (set_bQKeyDown true NewShortcutsProcessor)
       (Sample.GridHost 1) eq_refl (or_introl eq_refl)))).
Defined.

(** X6: Ctrl+E with the cursor at (3, 4) starts the E-drag and is not consumed. *)
Lemma drag_key_first_press_starts_drag_witness :
  fst (fst (HandleKeyDownEvent (Sample.Editing 3 4) (Sample.CtrlKeyEvent Key_E)
              NewShortcutsProcessor (Sample.GridHost 1))) = false
  /\ bEKeyDown (snd (fst (HandleKeyDownEvent (Sample.Editing 3 4) (Sample.CtrlKeyEvent Key_E)
                            NewShortcutsProcessor (Sample.GridHost 1)))) = true
  /\ LastMousePosition
       (snd (fst (HandleKeyDownEvent (Sample.Editing 3 4) (Sample.CtrlKeyEvent Key_E)
                    NewShortcutsProcessor (Sample.GridHost 1)))) = MkVector2D 3 4.
Proof.
  destruct (drag_key_first_press_starts_drag (Sample.Editing 3 4) (Sample.CtrlKeyEvent Key_E)
              NewShortcutsProcessor (Sample.GridHost 1)
              eq_refl eq_refl eq_refl eq_refl eq_refl eq_refl)
    as (a & b & c & _).
  split; [exact a |]. split; [exact b | exact c].
Defined.

(** X7: releasing R. *)
Lemma drag_key_release_resets_drag_state_witness :
  bRKeyDown (snd (fst (HandleKeyUpEvent (Sample.Editing 0 0) (Sample.KeyEvent Key_R)
                         (set_bRKeyDown true NewShortcutsProcessor) (Sample.GridHost 1))))
  = false
  /\ AccumulatedMovement
       (snd (fst (HandleKeyUpEvent (Sample.Editing 0 0) (Sample.KeyEvent Key_R)
                    (set_bRKeyDown true NewShortcutsProcessor) (Sample.GridHost 1))))
     = ZeroVector.
Proof.
  destruct (drag_key_release_resets_drag_state (Sample.Editing 0 0) (Sample.KeyEvent Key_R)
              (set_bRKeyDown true NewShortcutsProcessor) (Sample.GridHost 1)
              eq_refl eq_refl)
    as (_ & a & _ & b & _).
  split; [exact a | exact b].
Defined.

(** X8: Shift + left click in rotate mode with rotation snapping at 10 degrees. *)
Lemma shift_click_disables_rotation_snap_until_release_witness :
  ViewportSettings
    (snd (HandleMouseButtonDownEvent (Sample.Editing 0 0) Scene.ShiftLeftClick
            NewShortcutsProcessor Scene.RotateModeHost))
  = Some (set_RotGridEnabled false Scene.RotateSettings)
  /\ snd (HandleMouseButtonUpEvent (Sample.Editing 0 0) Scene.LeftRelease
            (snd (fst (HandleMouseButtonDownEvent (Sample.Editing 0 0) Scene.ShiftLeftClick
                         NewShortcutsProcessor Scene.RotateModeHost)))
            (snd (HandleMouseButtonDownEvent (Sample.Editing 0 0) Scene.ShiftLeftClick
                    NewShortcutsProcessor Scene.RotateModeHost)))
     = Scene.RotateModeHost.
Proof.
  destruct (shift_click_disables_rotation_snap_until_release
              (Sample.Editing 0 0) (Sample.Editing 0 0) Scene.ShiftLeftClick Scene.LeftRelease
              NewShortcutsProcessor Scene.RotateModeHost eq_refl eq_refl)
    as (a & _ & _ & _ & b).
  split; [| exact a].
  exact (proj1 (b Scene.RotateSettings eq_refl eq_refl eq_refl eq_refl eq_refl
                 eq_refl eq_refl)).
Defined.

(** X9: a tap on G switches grid snapping off. *)
Lemma g_tap_toggles_grid_snapping_witness :
  GetGridSnapSize
    (snd (HandleKeyUpEvent (Sample.Editing 0 0) (Sample.KeyEvent Key_G)
            (snd (fst (HandleKeyDownEvent (Sample.Editing 0 0) (Sample.KeyEvent Key_G)
                         NewShortcutsProcessor (Sample.GridHost 1))))
            (snd (HandleKeyDownEvent (Sample.Editing 0 0) (Sample.KeyEvent Key_G)
                    NewShortcutsProcessor (Sample.GridHost 1)))))
  = 0.
Proof.
  destruct (g_tap_toggles_grid_snapping (Sample.Editing 0 0) (Sample.Editing 0 0)
              (Sample.KeyEvent Key_G) (Sample.KeyEvent Key_G)
              NewShortcutsProcessor (Sample.GridHost 1) (Sample.Settings 1)
              eq_refl eq_refl eq_refl eq_refl eq_refl)
    as (_ & _ & _ & a & _).
  exact (a eq_refl).
Defined.

(** X10: G down, scroll up on the grid table at index 1: the scroll is
    consumed; G up right after the scroll leaves the host as it is, and G up
    after an auto-repeat of the key-down toggles grid snapping. *)
Lemma g_scroll_changes_grid_size_without_toggling_witness :
  let r1 := HandleKeyDownEvent (Sample.Editing 0 0) (Sample.KeyEvent Key_G)
              NewShortcutsProcessor (Scene.TableHost 1) in
  let r2 := sWheel (Sample.Editing 0 0) Scene.ScrollUp (snd (fst r1)) (snd r1) in
  let r3 := HandleKeyUpEvent (Sample.Editing 0 0) (Sample.KeyEvent Key_G)
              (snd (fst r2)) (snd r2) in
  let repeated := HandleKeyDownEvent (Sample.Editing 0 0) (Sample.KeyEvent Key_G)
                    (snd (fst r2)) (snd r2) in
  let r3' := HandleKeyUpEvent (Sample.Editing 0 0) (Sample.KeyEvent Key_G)
               (snd (fst repeated)) (snd repeated) in
  fst (fst r2) = true
  /\ snd r3 = snd r2
  /\ snd r3' = ToggleGridSnap (Sample.Editing 0 0) (snd r2).
Proof.
  destruct (g_scroll_changes_grid_size_without_toggling Sample.Rotator Sample.Quaternion
              Sample.RotateAboutUp
              (Sample.Editing 0 0) (Sample.Editing 0 0) (Sample.Editing 0 0)
              (Sample.Editing 0 0)
              (Sample.KeyEvent Key_G) (Sample.KeyEvent Key_G) (Sample.KeyEvent Key_G)
              Scene.ScrollUp NewShortcutsProcessor (Scene.TableHost 1)
              eq_refl eq_refl eq_refl eq_refl eq_refl eq_refl eq_refl eq_refl)
    as (a & _ & _ & b & _ & _ & _ & _ & _ & c).
  cbv zeta. split; [exact a |]. split; [exact b | exact c].
Defined.

(** X11: one step up from index 1 of a table of four sizes; and from the last
    index, 3, a step up then a step down ends at index 2. *)
Lemma change_grid_size_steps_within_table_witness :
  ViewportSettings (ChangeGridSize (Sample.Editing 0 0) true (Scene.TableHost 1))
  = Some (Scene.TableSettings 2)
  /\ ViewportSettings
       (ChangeGridSize (Sample.Editing 0 0) false
          (ChangeGridSize (Sample.Editing 0 0) true (Scene.TableHost 3)))
     = Some (Scene.TableSettings 2).
Proof.
  split.
  - refine (proj1 (proj2
      (change_grid_size_steps_within_table (Sample.Editing 0 0) true (Scene.TableHost 1)
         (Scene.TableSettings 1) (Sample.Editor false [Some 1%nat] Sample.EmptyWorld)
         eq_refl eq_refl _))).
    simpl. lia.
  - refine (proj2 (proj2 (proj2 (proj2 (proj2 (proj2
      (change_grid_size_steps_within_table (Sample.Editing 0 0) true (Scene.TableHost 3)
         (Scene.TableSettings 3) (Sample.Editor false [Some 1%nat] Sample.EmptyWorld)
         eq_refl eq_refl _))))) eq_refl)).
    simpl. lia.
Defined.

(** X13: one scroll tick up on the single selected cube. *)
Lemma rotate_single_actor_turns_in_place_witness :
  LocationOf (sRotate (Sample.Editing 0 0) 1 false (Sample.GridHost 1)) 1%nat = ZeroVector.
Proof.
  exact (proj1 (proj2
    (rotate_single_actor_turns_in_place Sample.Rotator Sample.Quaternion Sample.RotateAboutUp
       (Sample.Editing 0 0) 1 false (Sample.GridHost 1)
       (Sample.Editor false [Some 1%nat] Sample.EmptyWorld) [Some 1%nat] 1%nat
       (Sample.Cube ZeroVector (MkVector 1 1 1)) eq_refl eq_refl eq_refl eq_refl))).
Defined.

(** X15: Q held, one scroll tick, Q released. *)
Lemma q_scroll_restores_translate_mode_on_release_witness :
  LevelEditorWidgetMode
    (snd (HandleKeyUpEvent (Sample.Editing 0 0) (Sample.KeyEvent Key_Q)
            (snd (fst (sWheel (Sample.Editing 0 0) Scene.ScrollUp
                         (set_bQKeyDown true NewShortcutsProcessor) Scene.RotateModeHost)))
            (snd (sWheel (Sample.Editing 0 0) Scene.ScrollUp
                    (set_bQKeyDown true NewShortcutsProcessor) Scene.RotateModeHost))))
  = WM_Translate.
Proof.
  destruct (q_scroll_restores_translate_mode_on_release Sample.Rotator Sample.Quaternion
              Sample.RotateAboutUp (Sample.Editing 0 0) (Sample.Editing 0 0)
              Scene.ScrollUp (Sample.KeyEvent Key_Q)
              (set_bQKeyDown true NewShortcutsProcessor) Scene.RotateModeHost
              eq_refl eq_refl eq_refl)
    as [a _].
  exact (proj1 (proj2 (proj2 (a eq_refl)))).
Defined.

(** X16: the pivot of the cubes at the origin and at (4, 2, 0) is (2, 1, 0). *)
Lemma selection_pivot_is_centroid_witness :
  VecScale (GetSelectionPivot Scene.MixedSelection Scene.TwoCubesHost) 2
  ≡ MkVector 4 2 0.
Proof.
  destruct (selection_pivot_is_centroid Scene.MixedSelection Scene.TwoCubesHost
              (Sample.Editor false [Some 1%nat; None; Some 2%nat] Sample.EmptyWorld)
              [Some 1%nat; None; Some 2%nat] eq_refl eq_refl)
    as (_ & a & _).
  etransitivity; [apply a; vm_compute; discriminate |].
  repeat split; reflexivity.
Defined.

(** X18: copy the cube at (4, 2, 0), paste on the cube at the origin. *)
Lemma copy_then_paste_moves_to_copied_location_witness :
  LocationOf
    (snd (sPaste (Sample.Editing 0 0)
            (CopySelectedTransform Scene.SecondSelected Sample.NoSnapshot Scene.TwoCubesHost)
            Scene.TwoCubesHost)) 1%nat
  = MkVector 4 2 0
  /\ ScaleOf
       (snd (sPaste (Sample.Editing 0 0)
               (CopySelectedTransform Scene.SecondSelected Sample.NoSnapshot
                  Scene.TwoCubesHost)
               Scene.TwoCubesHost)) 1%nat
     = Some (MkVector 1 1 1).
Proof.
  destruct (copy_then_paste_moves_to_copied_location Sample.Rotator Sample.Quaternion
              Scene.SecondSelected (Sample.Editing 0 0) Sample.NoSnapshot
              Scene.TwoCubesHost Scene.TwoCubesHost
              (Sample.Editor false [Some 2%nat] Sample.EmptyWorld)
              (Sample.Editor false [Some 1%nat] Sample.EmptyWorld)
              (Some 2%nat) [] [Some 1%nat] 2%nat 1%nat
              (Sample.Cube (MkVector 4 2 0) (MkVector 2 2 2))
              (Sample.Cube ZeroVector (MkVector 1 1 1))
              eq_refl eq_refl eq_refl eq_refl eq_refl (or_introl eq_refl) eq_refl)
    as (_ & _ & a & b & _).
  split; [exact a | exact b].
Defined.

(** X19: actor 1 is filed under "Props" and selected; the paste adds actor 2. *)
Lemma paste_to_folder_files_exactly_the_new_actors_witness :
  FolderPath
    <$> (Actors
           (snd (CopyPasteTick (Sample.Editing 0 0)
                   (snd (SetupPasteToFolder (Sample.Editing 0 0) Sample.NoSnapshot
                           Sample.FiledHost))
                   Scene.AfterPaste)) !! 2%nat)
  = Some (Some "Props"%string).
Proof.
  destruct (paste_to_folder_files_exactly_the_new_actors
              (Sample.Editing 0 0) (Sample.Editing 0 0) Sample.NoSnapshot
              Sample.FiledHost Scene.AfterPaste
              (Sample.Editor false [Some 1%nat] Sample.EmptyWorld)
              (Sample.Editor false [Some 1%nat] Sample.EmptyWorld)
              Sample.EmptyWorld Sample.EmptyWorld eq_refl eq_refl eq_refl eq_refl)
    as (_ & _ & a & _).
  exact (eq_trans
           (f_equal (fmap FolderPath)
              (a 2%nat (Sample.Cube (MkVector 4 2 0) (MkVector 1 1 1)) eq_refl))
           eq_refl).
Defined.

(** X20: Ctrl+D on the selected cube. *)
Lemma duplicate_in_place_restores_original_transforms_witness :
  fst (DuplicateInPlace (Sample.Editing 0 0) (Sample.GridHost 1)) = true.
Proof.
  refine (proj1
    (duplicate_in_place_restores_original_transforms (Sample.Editing 0 0) (Sample.GridHost 1)
       (Sample.Editor false [Some 1%nat] Sample.EmptyWorld) [Some 1%nat]
       eq_refl eq_refl _)).
  vm_compute. discriminate.
Defined.

(** X21: Ctrl+B over a trigger volume above the floor. *)
Lemma ground_snap_moves_actors_along_z_only_witness :
  exists a',
    Actors (snd (sSnapToGround
                   (Sample.EnvWith false [Some 1%nat] Sample.TriggerOverFloor ZeroVector2D)
                   (Sample.GridHost 1))) !! 1%nat = Some a'
    /\ MovedAlongZ (Sample.Cube ZeroVector (MkVector 1 1 1)) a'.
Proof.
  exact (proj1
    (ground_snap_moves_actors_along_z_only Sample.Rotator Sample.Quaternion
       Sample.AlignToSurface
       (Sample.EnvWith false [Some 1%nat] Sample.TriggerOverFloor ZeroVector2D)
       (Sample.GridHost 1) 1%nat (Sample.Cube ZeroVector (MkVector 1 1 1)) eq_refl)).
Defined.

(** X22: Q held, cursor visible, the cursor moved to (5, 0). *)
Lemma tick_measures_movement_from_last_sample_witness :
  LastMousePosition
    (fst (sTick (Sample.Editing 5 0) (set_bQKeyDown true NewShortcutsProcessor)
            (Sample.GridHost 1)))
  = MkVector2D 5 0.
Proof.
  exact (proj1
    (tick_measures_movement_from_last_sample Sample.Rotator Sample.Quaternion
       Sample.GetUpVector Sample.HorizontalWorldDelta Sample.VerticalDragScale
       (Sample.Editing 5 0) (set_bQKeyDown true NewShortcutsProcessor) (Sample.GridHost 1)
       eq_refl eq_refl)).
Defined.

(** X23: the key 2 selects the rotate gizmo. *)
Lemma widget_mode_keys_select_gizmo_witness :
  snd (HandleKeyDownEvent (Sample.Editing 0 0) (Sample.KeyEvent Key_Two)
         NewShortcutsProcessor (Sample.GridHost 1))
  = set_LevelEditorWidgetMode WM_Rotate (Sample.GridHost 1).
Proof.
  destruct (widget_mode_keys_select_gizmo (Sample.Editing 0 0) (Sample.KeyEvent Key_Two)
              NewShortcutsProcessor (Sample.GridHost 1) WM_Rotate eq_refl eq_refl)
    as (_ & _ & _ & a & _).
  exact (proj2 (a eq_refl eq_refl eq_refl eq_refl)).
Defined.

(** X25: the snap size at index 1 of the table 1, 5, 10, 50 is 5, and 10
    after a step up. *)
Lemma grid_snap_size_is_the_current_table_entry_witness :
  Some (GetGridSnapSize (Scene.TableHost 1)) = Some 5
  /\ Some (GetGridSnapSize (ChangeGridSize (Sample.Editing 0 0) true (Scene.TableHost 1)))
     = Some 10.
Proof.
  destruct (grid_snap_size_is_the_current_table_entry (Scene.TableHost 1)
              (Scene.TableSettings 1) eq_refl)
    as (_ & _ & a).
  assert (R : (0 <= CurrentPosGridSize (Scene.TableSettings 1)
               < Z.of_nat (length (ActiveGridSizes (Scene.TableSettings 1))))%Z)
    by (simpl; lia).
  destruct (a eq_refl R) as [b c].
  split.
  - rewrite <- b. reflexivity.
  - rewrite <- (c (Sample.Editing 0 0) (Sample.Editor false [Some 1%nat] Sample.EmptyWorld)
                  true eq_refl).
    reflexivity.
Defined.

(** X26: a barrel of half height 50.3 at height 300 over a floor at height 0:
    the offset 50.3 is stored as the [float] 50.29999923706, and the bottom of
    the mesh ends at 5 - 1/1310720 = 4.99999923706 above the floor. *)
Lemma ground_snap_rests_mesh_bottom_above_hit_witness :
  exists Actor',
    Actors (fst (sSnapOne Scene.Floor (Scene.BarrelHost, 0%nat) (Some 1%nat))) !! 1%nat
    = Some Actor'
    /\ HeightAboveHit Scene.TallMesh Actor' Scene.FloorHit
       == 5 + (RoundToFloat (BottomOffsetOf Scene.Barrel Scene.TallMesh)
               - BottomOffsetOf Scene.Barrel Scene.TallMesh)
    /\ 5 + (RoundToFloat (BottomOffsetOf Scene.Barrel Scene.TallMesh)
            - BottomOffsetOf Scene.Barrel Scene.TallMesh)
       == 5 - (1 # 1310720).
Proof.
  destruct (Actors (fst (sSnapOne Scene.Floor (Scene.BarrelHost, 0%nat) (Some 1%nat))) !! 1%nat)
    as [Actor' |] eqn:E; [| vm_compute in E; discriminate E].
  exists Actor'. split; [reflexivity |].
  split; [| vm_compute; reflexivity].
  refine (proj1
    (ground_snap_rests_mesh_bottom_above_hit Sample.Rotator Sample.Quaternion
       Sample.AlignToSurface Scene.Floor Scene.BarrelHost 0%nat 1%nat Scene.Barrel
       Scene.FloorHit Scene.TallMesh eq_refl eq_refl eq_refl eq_refl _ Actor' (or_introl E))).
  intros t v. reflexivity.
Defined.

(** X27: Ctrl+Shift+V. *)
Lemma ctrl_shift_v_sends_one_synthetic_paste_witness :
  fst (fst (sCopyPasteKeyDown (Sample.Editing 0 0) Scene.CtrlShiftV Sample.NoSnapshot
              Sample.FiledHost)) = true
  /\ SentInput (snd (sCopyPasteKeyDown (Sample.Editing 0 0) Scene.CtrlShiftV
                       Sample.NoSnapshot Sample.FiledHost))
     = SyntheticPaste.
Proof.
  destruct (ctrl_shift_v_sends_one_synthetic_paste Sample.Rotator Sample.Quaternion
              Sample.AlignToSurface (Sample.Editing 0 0) Scene.CtrlShiftV
              Sample.NoSnapshot Sample.FiledHost eq_refl eq_refl eq_refl)
    as [a _].
  destruct (a eq_refl) as (b & c & _).
  split; [exact b |]. rewrite c. reflexivity.
Defined.

(** X4: with a scale grid of 1/4, an accumulated delta of 0.3 gives at least
    one grid step, the product of an integer and the grid size. *)
Lemma scale_multiplier_is_positive_and_snapped_witness :
  1 # 4 <= ScaleMultiplierOf Scene.ScaleSnapEditor Scene.ScaleSnapHost (3 # 10)
  /\ (ScaleMultiplierOf Scene.ScaleSnapEditor Scene.ScaleSnapHost (3 # 10) = 1 # 4
      \/ exists k : Z,
           ScaleMultiplierOf Scene.ScaleSnapEditor Scene.ScaleSnapHost (3 # 10)
           = FloatMul (inject_Z k) (1 # 4)).
Proof.
  apply (proj1 (proj2
    (scale_multiplier_is_positive_and_snapped Scene.ScaleSnapEditor Scene.ScaleSnapHost
       (3 # 10)))).
  - reflexivity.
  - reflexivity.
Defined.

(** X14: with rotation snapping at 10 degrees a scroll up turns by 10 degrees
    and a scroll down by -10. *)
Lemma rotation_amount_depends_on_scroll_direction_only_witness :
  RotationAmountOf 3 false Scene.RotateModeHost = 10
  /\ RotationAmountOf (- (1)) false Scene.RotateModeHost
     == - RotationAmountOf 3 false Scene.RotateModeHost.
Proof.
  destruct (rotation_amount_depends_on_scroll_direction_only 3 (- (1)) false
              Scene.RotateModeHost)
    as (_ & _ & a & _ & _ & b).
  split.
  - exact (b eq_refl Scene.RotateSettings 10 eq_refl eq_refl eq_refl).
  - apply a; [reflexivity | vm_compute; discriminate].
Defined.

(** X17: Ctrl+B in a world where every trace misses. *)
Lemma unconsumed_paste_or_snap_modified_no_actor_witness :
  fst (sSnapToGround (Sample.Editing 0 0) (Sample.GridHost 1)) = false
  /\ Actors (snd (sSnapToGround (Sample.Editing 0 0) (Sample.GridHost 1)))
     = Actors (Sample.GridHost 1).
Proof.
  assert (F : fst (sSnapToGround (Sample.Editing 0 0) (Sample.GridHost 1)) = false)
    by reflexivity.
  split; [exact F |].
  exact (proj1 (proj1 (proj2
    (unconsumed_paste_or_snap_modified_no_actor Sample.Rotator Sample.Quaternion
       Sample.AlignToSurface (Sample.Editing 0 0) Sample.NoSnapshot (Sample.GridHost 1))) F)).
Defined.
